(** * Fragment metadata and tile arithmetic of the TileDB storage engine

    A shallow embedding of the parts of
    [tiledb/sm/fragment/fragment_metadata.cc] and
    [tiledb/sm/array_schema/dimension.h] that the specification talks
    about, followed by the properties checked against it.

    Conventions.
    - A [uint64_t] is a [Z] in [0, 2^64); every C++ operation on it is
      written with its wrap-around ([wrap64]).  Signed values are [Z]
      in the range of their type; conversions are two's complement.
    - A [std::vector<uint8_t>] is a [list byte]; a [uint64_t*] view of
      such a buffer reads and writes eight bytes, least significant
      first (the byte order of the hosts the library supports).
    - A [std::vector<T>] indexed by a field index is a [list], looked
      up with [!!]; an index outside the vector is undefined behaviour
      in C++ and is the outcome [Undefined] here.
    - [assert] is modelled as checked (a debug build): a failed
      assertion is the outcome [AssertFail].  A C++ exception is the
      outcome [Throw] with the message of the source. *)

From Stdlib Require Import ZArith Lia String Bool List.
From Stdlib Require Import PrimFloat.
From Stdlib Require SpecFloat FloatOps.
From stdpp Require Import base list gmap strings.
From coqutil Require Import Word.LittleEndianList.

Abbreviation byte := Init.Byte.byte.

Local Open Scope Z_scope.

(** ** Outcomes of a member function *)

Inductive outcome (A : Type) : Type :=
  | Ok (a : A)
  | Throw (msg : string)
  | AssertFail
  | Undefined.

Arguments Ok {A} a.
Arguments Throw {A} msg.
Arguments AssertFail {A}.
Arguments Undefined {A}.

Definition obind {A B : Type} (m : outcome A) (k : A -> outcome B) : outcome B :=
  match m with
  | Ok a => k a
  | Throw msg => Throw msg
  | AssertFail => AssertFail
  | Undefined => Undefined
  end.

Notation "'let!' x ':=' m 'in' k" := (obind m (fun x => k))
  (at level 10, x name, m at level 99, k at level 200).
Notation "'let!' ' p ':=' m 'in' k" := (obind m (fun x => match x with p => k end))
  (at level 10, p strict pattern, m at level 99, k at level 200).

(** [assert(c)] followed by the rest of the body. *)
Definition assert_then {A : Type} (c : bool) (k : outcome A) : outcome A :=
  if c then k else AssertFail.

(** [v[i]] on a [std::vector]. *)
Definition at_index {A : Type} (v : list A) (i : nat) : outcome A :=
  match v !! i with
  | Some a => Ok a
  | None => Undefined
  end.

Definition faults {A : Type} (o : outcome A) : bool :=
  match o with
  | Ok _ => false
  | _ => true
  end.

Definition throws {A : Type} (o : outcome A) : bool :=
  match o with
  | Throw _ => true
  | _ => false
  end.

(** ** Machine integers *)

Definition two64 : Z := 2 ^ 64.
Definition wrap64 (z : Z) : Z := z mod two64.
Definition is_u64 (z : Z) : Prop := 0 <= z < two64.

Definition u64_max : Z := two64 - 1.
Definition i64_max : Z := 2 ^ 63 - 1.
Definition i64_min : Z := - 2 ^ 63.
Definition is_i64 (z : Z) : Prop := i64_min <= z <= i64_max.

(** Conversion of a [uint64_t] bit pattern to [int64_t]. *)
Definition to_i64 (u : Z) : Z :=
  let m := wrap64 u in if m <? 2 ^ 63 then m else m - two64.

(** Conversion of an integer to [int] (32 bits, two's complement). *)
Definition to_i32 (z : Z) : Z :=
  let m := z mod 2 ^ 32 in if m <? 2 ^ 31 then m else m - 2 ^ 32.

Fixpoint sum_list_Z (l : list Z) : Z :=
  match l with
  | [] => 0
  | x :: r => x + sum_list_Z r
  end.

(** ** Byte buffers viewed as arrays of [uint64_t] *)

Definition u64_bytes (v : Z) : list byte := le_split 8 v.

(** Entry [i] of the buffer read through a [uint64_t] pointer. *)
Definition read_u64 (buf : list byte) (i : nat) : Z :=
  le_combine (take 8 (drop (8 * i) buf)).

(** Entry [i] of the buffer written through a [uint64_t] pointer. *)
Definition write_u64 (buf : list byte) (i : nat) (v : Z) : list byte :=
  take (8 * i) buf ++ u64_bytes v ++ drop (8 * i + 8) buf.

(** [buf.resize(n)] on a byte vector: new bytes are zero. *)
Definition resize_bytes (buf : list byte) (n : nat) : list byte :=
  take n buf ++ replicate (n - length buf) Byte.x00.

(** The buffer that holds the [uint64_t] values [l] one after another. *)
Definition u64_buffer (l : list Z) : list byte :=
  concat (map u64_bytes l).

(** The offsets at which values of the sizes [l] start when they are
    laid out one after another from [acc], in [uint64_t]. *)
Fixpoint running_offsets (acc : Z) (l : list Z) : list Z :=
  match l with
  | [] => []
  | x :: r => acc :: running_offsets (wrap64 (acc + x)) r
  end.

(** The exclusive prefix sums of [l]: entry [t] is
    [l_0 + ... + l_(t-1)], entry 0 is 0. *)
Definition exclusive_prefix_sums (l : list Z) : list Z :=
  map (fun t => sum_list_Z (take t l)) (seq 0 (length l)).

(** ** Dimension: tile arithmetic on integer coordinates *)

Module Dimension.

Inductive IntType : Type := I8 | U8 | I16 | U16 | I32 | U32 | I64 | U64.

Definition bits (T : IntType) : Z :=
  match T with
  | I8 | U8 => 8
  | I16 | U16 => 16
  | I32 | U32 => 32
  | I64 | U64 => 64
  end.

Definition is_signed (T : IntType) : bool :=
  match T with
  | I8 | I16 | I32 | I64 => true
  | U8 | U16 | U32 | U64 => false
  end.

(** [std::numeric_limits<T>::min()] and [max()]. *)
Definition T_min (T : IntType) : Z :=
  if is_signed T then - 2 ^ (bits T - 1) else 0.

Definition T_max (T : IntType) : Z :=
  if is_signed T then 2 ^ (bits T - 1) - 1 else 2 ^ bits T - 1.

Definition in_range (T : IntType) (v : Z) : Prop := T_min T <= v <= T_max T.

(** [std::numeric_limits<unsigned_t>::max()] *)
Definition unsigned_max (T : IntType) : Z := 2 ^ bits T - 1.

(** [(unsigned_t)v] *)
Definition to_unsigned (T : IntType) (v : Z) : Z := v mod 2 ^ bits T.

(** The [T] value with the bit pattern [u], [0 <= u < 2^bits]. *)
Definition reinterpret (T : IntType) (u : Z) : Z :=
  if is_signed T && (2 ^ (bits T - 1) <=? u) then u - 2 ^ bits T else u.

(** Conversion of a [uint64_t] to the return type [T]. *)
Definition convert (T : IntType) (x : Z) : Z :=
  reinterpret T (x mod 2 ^ bits T).

(** [Dimension::tile_coord_high<T>] for integral [T].  The arithmetic
    of the last line is done in [uint64_t], the type of [tile_num],
    and the result is converted to [T] on return. *)
Definition tile_coord_high (T : IntType) (tile_num domain_low tile_extent : Z) : Z :=
  if to_unsigned T tile_extent =? unsigned_max T then
    T_max T - (if domain_low =? T_min T then 1 else 0)
  else
    let tile_num' := wrap64 (tile_num + 1) in
    convert T
      (wrap64 (wrap64 (to_unsigned T domain_low
                       + wrap64 (tile_num' * to_unsigned T tile_extent)) - 1)).

(** [Dimension::tile_coord_low<T>] for integral [T]. *)
Definition tile_coord_low (T : IntType) (tile_num domain_low tile_extent : Z) : Z :=
  convert T
    (wrap64 (to_unsigned T domain_low + wrap64 (tile_num * to_unsigned T tile_extent))).

End Dimension.

(** ** Data model *)

(** The closed enumeration of cell types. *)
Inductive Datatype : Type :=
  | INT32 | INT64 | FLOAT32 | FLOAT64 | CHAR | INT8 | UINT8 | INT16 | UINT16
  | UINT32 | UINT64 | STRING_ASCII | STRING_UTF8 | STRING_UTF16 | STRING_UTF32
  | STRING_UCS2 | STRING_UCS4 | ANY
  | DATETIME_YEAR | DATETIME_MONTH | DATETIME_WEEK | DATETIME_DAY | DATETIME_HR
  | DATETIME_MIN | DATETIME_SEC | DATETIME_MS | DATETIME_US | DATETIME_NS
  | DATETIME_PS | DATETIME_FS | DATETIME_AS
  | TIME_HR | TIME_MIN | TIME_SEC | TIME_MS | TIME_US | TIME_NS | TIME_PS
  | TIME_FS | TIME_AS
  | BLOB | BOOL | GEOM_WKB | GEOM_WKT.

(** A [Range] is a contiguous byte buffer, an [NDRange] one range per
    dimension. *)
Definition Range : Type := list byte.
Definition NDRange : Type := list Range.

Record TileOverlap : Type := {
  tile_ranges_ : list (Z * Z);
  tiles_ : list (Z * float)
}.

(** What [FragmentMetadata] asks of a [Dimension] of the schema. *)
Record DimensionInfo : Type := {
  dim_var_size : bool;
  dim_coord_size : Z
}.

(** What [FragmentMetadata] asks of its [ArraySchema]: the queries by
    field name and the few array-wide values. *)
Record ArraySchema : Type := {
  schema_type : string -> Datatype;
  schema_var_size : string -> bool;
  schema_is_nullable : string -> bool;
  schema_is_dim : string -> bool;
  schema_cell_val_num : string -> Z;
  schema_cell_size : string -> Z;
  schema_dense : bool;
  schema_capacity : Z;
  schema_cell_num_per_tile : Z;
  schema_attribute_num : Z;
  schema_dimensions : list DimensionInfo;
  schema_write_version : Z
}.

Definition dim_num (s : ArraySchema) : Z := Z.of_nat (length (schema_dimensions s)).

(** [Domain::all_dims_fixed] *)
Definition all_dims_fixed (s : ArraySchema) : bool :=
  forallb (fun d => negb (dim_var_size d)) (schema_dimensions s).

Module MemoryTracker.

Inductive MemoryType : Type :=
  | RTREE | FOOTER | TILE_OFFSETS | MIN_MAX_SUM_NULL_COUNT | ENUMERATION.

Record t : Type := {
  memory_budget : Z;
  memory_available : Z;
  memory_usage : MemoryType -> Z
}.

Definition type_eqb (a b : MemoryType) : bool :=
  match a, b with
  | RTREE, RTREE | FOOTER, FOOTER | TILE_OFFSETS, TILE_OFFSETS
  | MIN_MAX_SUM_NULL_COUNT, MIN_MAX_SUM_NULL_COUNT
  | ENUMERATION, ENUMERATION => true
  | _, _ => false
  end.

(** Modelled from the spec: [MemoryTracker::take_memory] is missing
    from the sources at hand.  "A counter per MemoryType and a global
    budget.  [take_memory(n, type)] atomically decrements if
    [available >= n], else returns false." *)
Definition take_memory (n : Z) (ty : MemoryType) (m : t) : bool * t :=
  if n <=? memory_available m then
    (true,
     {| memory_budget := memory_budget m;
        memory_available := memory_available m - n;
        memory_usage := fun ty' =>
          if type_eqb ty ty' then memory_usage m ty' + n else memory_usage m ty' |})
  else (false, m).

(** Modelled from the spec: [MemoryTracker::release_memory] is missing
    from the sources at hand.  "[release_memory(n, type)] returns
    bytes." *)
Definition release_memory (n : Z) (ty : MemoryType) (m : t) : t :=
  {| memory_budget := memory_budget m;
     memory_available := memory_available m + n;
     memory_usage := fun ty' =>
       if type_eqb ty ty' then memory_usage m ty' - n else memory_usage m ty' |}.

End MemoryTracker.

(** Modelled from the spec: the [RTree] class is missing from the
    sources at hand.  "Leaves are MBRs (one per tile in fragment
    order); internal nodes are arrays of child MBRs"; level 0 is the
    root and the last level holds the leaves.  The tree also knows the
    bytes it accounts for, which [free_memory] "reports [as] bytes
    released to the MemoryTracker": for a tree that was deserialized
    they are the size of the serialized buffer, which is what
    [load_rtree] takes from the tracker for it ("use the serialized
    buffer size to approximate memory usage of the rtree"). *)
Record RTree : Type := {
  levels_ : list (list NDRange);
  deserialized_buffer_size_ : Z
}.

Module GenericTileOffsets.

Record t : Type := {
  rtree_ : Z;
  tile_offsets_ : list Z;
  tile_var_offsets_ : list Z;
  tile_var_sizes_ : list Z;
  tile_validity_offsets_ : list Z;
  tile_min_offsets_ : list Z;
  tile_max_offsets_ : list Z;
  tile_sum_offsets_ : list Z;
  tile_null_count_offsets_ : list Z;
  fragment_min_max_sum_null_count_offset_ : Z;
  processed_conditions_offsets_ : Z
}.

End GenericTileOffsets.

Module LoadedMetadata.

Record t : Type := {
  footer_ : bool;
  rtree_ : bool;
  tile_offsets_ : list bool;
  tile_var_offsets_ : list bool;
  tile_var_sizes_ : list bool;
  tile_validity_offsets_ : list bool;
  tile_min_ : list bool;
  tile_max_ : list bool;
  tile_sum_ : list bool;
  tile_null_count_ : list bool;
  fragment_min_max_sum_null_count_ : bool;
  processed_conditions_ : bool
}.

Definition set_rtree_ (v : bool) (l : t) : t :=
  {| footer_ := footer_ l; rtree_ := v; tile_offsets_ := tile_offsets_ l;
     tile_var_offsets_ := tile_var_offsets_ l;
     tile_var_sizes_ := tile_var_sizes_ l;
     tile_validity_offsets_ := tile_validity_offsets_ l;
     tile_min_ := tile_min_ l; tile_max_ := tile_max_ l;
     tile_sum_ := tile_sum_ l; tile_null_count_ := tile_null_count_ l;
     fragment_min_max_sum_null_count_ := fragment_min_max_sum_null_count_ l;
     processed_conditions_ := processed_conditions_ l |}.

Definition set_tile_offsets_ (v : list bool) (l : t) : t :=
  {| footer_ := footer_ l; rtree_ := rtree_ l; tile_offsets_ := v;
     tile_var_offsets_ := tile_var_offsets_ l;
     tile_var_sizes_ := tile_var_sizes_ l;
     tile_validity_offsets_ := tile_validity_offsets_ l;
     tile_min_ := tile_min_ l; tile_max_ := tile_max_ l;
     tile_sum_ := tile_sum_ l; tile_null_count_ := tile_null_count_ l;
     fragment_min_max_sum_null_count_ := fragment_min_max_sum_null_count_ l;
     processed_conditions_ := processed_conditions_ l |}.

Definition set_tile_var_offsets_ (v : list bool) (l : t) : t :=
  {| footer_ := footer_ l; rtree_ := rtree_ l;
     tile_offsets_ := tile_offsets_ l; tile_var_offsets_ := v;
     tile_var_sizes_ := tile_var_sizes_ l;
     tile_validity_offsets_ := tile_validity_offsets_ l;
     tile_min_ := tile_min_ l; tile_max_ := tile_max_ l;
     tile_sum_ := tile_sum_ l; tile_null_count_ := tile_null_count_ l;
     fragment_min_max_sum_null_count_ := fragment_min_max_sum_null_count_ l;
     processed_conditions_ := processed_conditions_ l |}.

Definition set_tile_var_sizes_ (v : list bool) (l : t) : t :=
  {| footer_ := footer_ l; rtree_ := rtree_ l;
     tile_offsets_ := tile_offsets_ l;
     tile_var_offsets_ := tile_var_offsets_ l; tile_var_sizes_ := v;
     tile_validity_offsets_ := tile_validity_offsets_ l;
     tile_min_ := tile_min_ l; tile_max_ := tile_max_ l;
     tile_sum_ := tile_sum_ l; tile_null_count_ := tile_null_count_ l;
     fragment_min_max_sum_null_count_ := fragment_min_max_sum_null_count_ l;
     processed_conditions_ := processed_conditions_ l |}.

Definition set_tile_validity_offsets_ (v : list bool) (l : t) : t :=
  {| footer_ := footer_ l; rtree_ := rtree_ l;
     tile_offsets_ := tile_offsets_ l;
     tile_var_offsets_ := tile_var_offsets_ l;
     tile_var_sizes_ := tile_var_sizes_ l; tile_validity_offsets_ := v;
     tile_min_ := tile_min_ l; tile_max_ := tile_max_ l;
     tile_sum_ := tile_sum_ l; tile_null_count_ := tile_null_count_ l;
     fragment_min_max_sum_null_count_ := fragment_min_max_sum_null_count_ l;
     processed_conditions_ := processed_conditions_ l |}.

End LoadedMetadata.
(** The per-fragment manifest.  [memory_tracker_] is a pointer in the
    source ([None] is [nullptr]); the state of the tracker it points
    to is kept here with the one fragment that is followed. *)
Record FragmentMetadata : Type := {
  array_schema_ : ArraySchema;
  dense_ : bool;
  domain_ : NDRange;
  non_empty_domain_ : NDRange;
  file_sizes_ : list Z;
  file_var_sizes_ : list Z;
  file_validity_sizes_ : list Z;
  footer_size_ : Z;
  footer_offset_ : Z;
  fragment_uri_ : string;
  fragment_mins_ : list (list byte);
  fragment_maxs_ : list (list byte);
  fragment_sums_ : list Z;
  fragment_null_counts_ : list Z;
  gt_offsets_ : GenericTileOffsets.t;
  has_timestamps_ : bool;
  has_delete_meta_ : bool;
  idx_map_ : gmap string nat;
  last_tile_cell_num_ : Z;
  loaded_metadata_ : LoadedMetadata.t;
  memory_tracker_ : option MemoryTracker.t;
  meta_file_size_ : Z;
  rtree_ : RTree;
  sparse_tile_num_ : Z;
  tile_index_base_ : Z;
  tile_min_buffer_ : list (list byte);
  tile_min_var_buffer_ : list (list byte);
  tile_max_buffer_ : list (list byte);
  tile_max_var_buffer_ : list (list byte);
  tile_null_counts_ : list (list Z);
  tile_offsets_ : list (list Z);
  tile_var_offsets_ : list (list Z);
  tile_var_sizes_ : list (list Z);
  tile_validity_offsets_ : list (list Z);
  tile_sums_ : list (list byte);
  version_ : Z
}.

Definition set_file_sizes_ (v : list Z) (f : FragmentMetadata) : FragmentMetadata :=
  {| array_schema_ := array_schema_ f; dense_ := dense_ f;
     domain_ := domain_ f; non_empty_domain_ := non_empty_domain_ f;
     file_sizes_ := v; file_var_sizes_ := file_var_sizes_ f;
     file_validity_sizes_ := file_validity_sizes_ f;
     footer_size_ := footer_size_ f; footer_offset_ := footer_offset_ f;
     fragment_uri_ := fragment_uri_ f;
     fragment_mins_ := fragment_mins_ f; fragment_maxs_ := fragment_maxs_ f;
     fragment_sums_ := fragment_sums_ f;
     fragment_null_counts_ := fragment_null_counts_ f;
     gt_offsets_ := gt_offsets_ f; has_timestamps_ := has_timestamps_ f;
     has_delete_meta_ := has_delete_meta_ f; idx_map_ := idx_map_ f;
     last_tile_cell_num_ := last_tile_cell_num_ f;
     loaded_metadata_ := loaded_metadata_ f;
     memory_tracker_ := memory_tracker_ f;
     meta_file_size_ := meta_file_size_ f; rtree_ := rtree_ f;
     sparse_tile_num_ := sparse_tile_num_ f;
     tile_index_base_ := tile_index_base_ f;
     tile_min_buffer_ := tile_min_buffer_ f;
     tile_min_var_buffer_ := tile_min_var_buffer_ f;
     tile_max_buffer_ := tile_max_buffer_ f;
     tile_max_var_buffer_ := tile_max_var_buffer_ f;
     tile_null_counts_ := tile_null_counts_ f;
     tile_offsets_ := tile_offsets_ f;
     tile_var_offsets_ := tile_var_offsets_ f;
     tile_var_sizes_ := tile_var_sizes_ f;
     tile_validity_offsets_ := tile_validity_offsets_ f;
     tile_sums_ := tile_sums_ f; version_ := version_ f |}.

Definition set_file_var_sizes_ (v : list Z) (f : FragmentMetadata) : FragmentMetadata :=
  {| array_schema_ := array_schema_ f; dense_ := dense_ f;
     domain_ := domain_ f; non_empty_domain_ := non_empty_domain_ f;
     file_sizes_ := file_sizes_ f; file_var_sizes_ := v;
     file_validity_sizes_ := file_validity_sizes_ f;
     footer_size_ := footer_size_ f; footer_offset_ := footer_offset_ f;
     fragment_uri_ := fragment_uri_ f;
     fragment_mins_ := fragment_mins_ f; fragment_maxs_ := fragment_maxs_ f;
     fragment_sums_ := fragment_sums_ f;
     fragment_null_counts_ := fragment_null_counts_ f;
     gt_offsets_ := gt_offsets_ f; has_timestamps_ := has_timestamps_ f;
     has_delete_meta_ := has_delete_meta_ f; idx_map_ := idx_map_ f;
     last_tile_cell_num_ := last_tile_cell_num_ f;
     loaded_metadata_ := loaded_metadata_ f;
     memory_tracker_ := memory_tracker_ f;
     meta_file_size_ := meta_file_size_ f; rtree_ := rtree_ f;
     sparse_tile_num_ := sparse_tile_num_ f;
     tile_index_base_ := tile_index_base_ f;
     tile_min_buffer_ := tile_min_buffer_ f;
     tile_min_var_buffer_ := tile_min_var_buffer_ f;
     tile_max_buffer_ := tile_max_buffer_ f;
     tile_max_var_buffer_ := tile_max_var_buffer_ f;
     tile_null_counts_ := tile_null_counts_ f;
     tile_offsets_ := tile_offsets_ f;
     tile_var_offsets_ := tile_var_offsets_ f;
     tile_var_sizes_ := tile_var_sizes_ f;
     tile_validity_offsets_ := tile_validity_offsets_ f;
     tile_sums_ := tile_sums_ f; version_ := version_ f |}.

Definition set_file_validity_sizes_ (v : list Z) (f : FragmentMetadata) : FragmentMetadata :=
  {| array_schema_ := array_schema_ f; dense_ := dense_ f;
     domain_ := domain_ f; non_empty_domain_ := non_empty_domain_ f;
     file_sizes_ := file_sizes_ f; file_var_sizes_ := file_var_sizes_ f;
     file_validity_sizes_ := v; footer_size_ := footer_size_ f;
     footer_offset_ := footer_offset_ f;
     fragment_uri_ := fragment_uri_ f; fragment_mins_ := fragment_mins_ f;
     fragment_maxs_ := fragment_maxs_ f; fragment_sums_ := fragment_sums_ f;
     fragment_null_counts_ := fragment_null_counts_ f;
     gt_offsets_ := gt_offsets_ f; has_timestamps_ := has_timestamps_ f;
     has_delete_meta_ := has_delete_meta_ f; idx_map_ := idx_map_ f;
     last_tile_cell_num_ := last_tile_cell_num_ f;
     loaded_metadata_ := loaded_metadata_ f;
     memory_tracker_ := memory_tracker_ f;
     meta_file_size_ := meta_file_size_ f; rtree_ := rtree_ f;
     sparse_tile_num_ := sparse_tile_num_ f;
     tile_index_base_ := tile_index_base_ f;
     tile_min_buffer_ := tile_min_buffer_ f;
     tile_min_var_buffer_ := tile_min_var_buffer_ f;
     tile_max_buffer_ := tile_max_buffer_ f;
     tile_max_var_buffer_ := tile_max_var_buffer_ f;
     tile_null_counts_ := tile_null_counts_ f;
     tile_offsets_ := tile_offsets_ f;
     tile_var_offsets_ := tile_var_offsets_ f;
     tile_var_sizes_ := tile_var_sizes_ f;
     tile_validity_offsets_ := tile_validity_offsets_ f;
     tile_sums_ := tile_sums_ f; version_ := version_ f |}.

Definition set_fragment_mins_ (v : list (list byte)) (f : FragmentMetadata) : FragmentMetadata :=
  {| array_schema_ := array_schema_ f; dense_ := dense_ f;
     domain_ := domain_ f; non_empty_domain_ := non_empty_domain_ f;
     file_sizes_ := file_sizes_ f; file_var_sizes_ := file_var_sizes_ f;
     file_validity_sizes_ := file_validity_sizes_ f;
     footer_size_ := footer_size_ f; footer_offset_ := footer_offset_ f;
     fragment_uri_ := fragment_uri_ f;
     fragment_mins_ := v; fragment_maxs_ := fragment_maxs_ f;
     fragment_sums_ := fragment_sums_ f;
     fragment_null_counts_ := fragment_null_counts_ f;
     gt_offsets_ := gt_offsets_ f; has_timestamps_ := has_timestamps_ f;
     has_delete_meta_ := has_delete_meta_ f; idx_map_ := idx_map_ f;
     last_tile_cell_num_ := last_tile_cell_num_ f;
     loaded_metadata_ := loaded_metadata_ f;
     memory_tracker_ := memory_tracker_ f;
     meta_file_size_ := meta_file_size_ f; rtree_ := rtree_ f;
     sparse_tile_num_ := sparse_tile_num_ f;
     tile_index_base_ := tile_index_base_ f;
     tile_min_buffer_ := tile_min_buffer_ f;
     tile_min_var_buffer_ := tile_min_var_buffer_ f;
     tile_max_buffer_ := tile_max_buffer_ f;
     tile_max_var_buffer_ := tile_max_var_buffer_ f;
     tile_null_counts_ := tile_null_counts_ f;
     tile_offsets_ := tile_offsets_ f;
     tile_var_offsets_ := tile_var_offsets_ f;
     tile_var_sizes_ := tile_var_sizes_ f;
     tile_validity_offsets_ := tile_validity_offsets_ f;
     tile_sums_ := tile_sums_ f; version_ := version_ f |}.

Definition set_fragment_maxs_ (v : list (list byte)) (f : FragmentMetadata) : FragmentMetadata :=
  {| array_schema_ := array_schema_ f; dense_ := dense_ f;
     domain_ := domain_ f; non_empty_domain_ := non_empty_domain_ f;
     file_sizes_ := file_sizes_ f; file_var_sizes_ := file_var_sizes_ f;
     file_validity_sizes_ := file_validity_sizes_ f;
     footer_size_ := footer_size_ f; footer_offset_ := footer_offset_ f;
     fragment_uri_ := fragment_uri_ f;
     fragment_mins_ := fragment_mins_ f; fragment_maxs_ := v;
     fragment_sums_ := fragment_sums_ f;
     fragment_null_counts_ := fragment_null_counts_ f;
     gt_offsets_ := gt_offsets_ f; has_timestamps_ := has_timestamps_ f;
     has_delete_meta_ := has_delete_meta_ f; idx_map_ := idx_map_ f;
     last_tile_cell_num_ := last_tile_cell_num_ f;
     loaded_metadata_ := loaded_metadata_ f;
     memory_tracker_ := memory_tracker_ f;
     meta_file_size_ := meta_file_size_ f; rtree_ := rtree_ f;
     sparse_tile_num_ := sparse_tile_num_ f;
     tile_index_base_ := tile_index_base_ f;
     tile_min_buffer_ := tile_min_buffer_ f;
     tile_min_var_buffer_ := tile_min_var_buffer_ f;
     tile_max_buffer_ := tile_max_buffer_ f;
     tile_max_var_buffer_ := tile_max_var_buffer_ f;
     tile_null_counts_ := tile_null_counts_ f;
     tile_offsets_ := tile_offsets_ f;
     tile_var_offsets_ := tile_var_offsets_ f;
     tile_var_sizes_ := tile_var_sizes_ f;
     tile_validity_offsets_ := tile_validity_offsets_ f;
     tile_sums_ := tile_sums_ f; version_ := version_ f |}.

Definition set_fragment_sums_ (v : list Z) (f : FragmentMetadata) : FragmentMetadata :=
  {| array_schema_ := array_schema_ f; dense_ := dense_ f;
     domain_ := domain_ f; non_empty_domain_ := non_empty_domain_ f;
     file_sizes_ := file_sizes_ f; file_var_sizes_ := file_var_sizes_ f;
     file_validity_sizes_ := file_validity_sizes_ f;
     footer_size_ := footer_size_ f; footer_offset_ := footer_offset_ f;
     fragment_uri_ := fragment_uri_ f;
     fragment_mins_ := fragment_mins_ f; fragment_maxs_ := fragment_maxs_ f;
     fragment_sums_ := v; fragment_null_counts_ := fragment_null_counts_ f;
     gt_offsets_ := gt_offsets_ f; has_timestamps_ := has_timestamps_ f;
     has_delete_meta_ := has_delete_meta_ f; idx_map_ := idx_map_ f;
     last_tile_cell_num_ := last_tile_cell_num_ f;
     loaded_metadata_ := loaded_metadata_ f;
     memory_tracker_ := memory_tracker_ f;
     meta_file_size_ := meta_file_size_ f; rtree_ := rtree_ f;
     sparse_tile_num_ := sparse_tile_num_ f;
     tile_index_base_ := tile_index_base_ f;
     tile_min_buffer_ := tile_min_buffer_ f;
     tile_min_var_buffer_ := tile_min_var_buffer_ f;
     tile_max_buffer_ := tile_max_buffer_ f;
     tile_max_var_buffer_ := tile_max_var_buffer_ f;
     tile_null_counts_ := tile_null_counts_ f;
     tile_offsets_ := tile_offsets_ f;
     tile_var_offsets_ := tile_var_offsets_ f;
     tile_var_sizes_ := tile_var_sizes_ f;
     tile_validity_offsets_ := tile_validity_offsets_ f;
     tile_sums_ := tile_sums_ f; version_ := version_ f |}.

Definition set_fragment_null_counts_ (v : list Z) (f : FragmentMetadata) : FragmentMetadata :=
  {| array_schema_ := array_schema_ f; dense_ := dense_ f;
     domain_ := domain_ f; non_empty_domain_ := non_empty_domain_ f;
     file_sizes_ := file_sizes_ f; file_var_sizes_ := file_var_sizes_ f;
     file_validity_sizes_ := file_validity_sizes_ f;
     footer_size_ := footer_size_ f; footer_offset_ := footer_offset_ f;
     fragment_uri_ := fragment_uri_ f;
     fragment_mins_ := fragment_mins_ f; fragment_maxs_ := fragment_maxs_ f;
     fragment_sums_ := fragment_sums_ f; fragment_null_counts_ := v;
     gt_offsets_ := gt_offsets_ f; has_timestamps_ := has_timestamps_ f;
     has_delete_meta_ := has_delete_meta_ f; idx_map_ := idx_map_ f;
     last_tile_cell_num_ := last_tile_cell_num_ f;
     loaded_metadata_ := loaded_metadata_ f;
     memory_tracker_ := memory_tracker_ f;
     meta_file_size_ := meta_file_size_ f; rtree_ := rtree_ f;
     sparse_tile_num_ := sparse_tile_num_ f;
     tile_index_base_ := tile_index_base_ f;
     tile_min_buffer_ := tile_min_buffer_ f;
     tile_min_var_buffer_ := tile_min_var_buffer_ f;
     tile_max_buffer_ := tile_max_buffer_ f;
     tile_max_var_buffer_ := tile_max_var_buffer_ f;
     tile_null_counts_ := tile_null_counts_ f;
     tile_offsets_ := tile_offsets_ f;
     tile_var_offsets_ := tile_var_offsets_ f;
     tile_var_sizes_ := tile_var_sizes_ f;
     tile_validity_offsets_ := tile_validity_offsets_ f;
     tile_sums_ := tile_sums_ f; version_ := version_ f |}.

Definition set_loaded_metadata_ (v : LoadedMetadata.t) (f : FragmentMetadata) : FragmentMetadata :=
  {| array_schema_ := array_schema_ f; dense_ := dense_ f;
     domain_ := domain_ f; non_empty_domain_ := non_empty_domain_ f;
     file_sizes_ := file_sizes_ f; file_var_sizes_ := file_var_sizes_ f;
     file_validity_sizes_ := file_validity_sizes_ f;
     footer_size_ := footer_size_ f; footer_offset_ := footer_offset_ f;
     fragment_uri_ := fragment_uri_ f;
     fragment_mins_ := fragment_mins_ f; fragment_maxs_ := fragment_maxs_ f;
     fragment_sums_ := fragment_sums_ f;
     fragment_null_counts_ := fragment_null_counts_ f;
     gt_offsets_ := gt_offsets_ f; has_timestamps_ := has_timestamps_ f;
     has_delete_meta_ := has_delete_meta_ f; idx_map_ := idx_map_ f;
     last_tile_cell_num_ := last_tile_cell_num_ f; loaded_metadata_ := v;
     memory_tracker_ := memory_tracker_ f;
     meta_file_size_ := meta_file_size_ f; rtree_ := rtree_ f;
     sparse_tile_num_ := sparse_tile_num_ f;
     tile_index_base_ := tile_index_base_ f;
     tile_min_buffer_ := tile_min_buffer_ f;
     tile_min_var_buffer_ := tile_min_var_buffer_ f;
     tile_max_buffer_ := tile_max_buffer_ f;
     tile_max_var_buffer_ := tile_max_var_buffer_ f;
     tile_null_counts_ := tile_null_counts_ f;
     tile_offsets_ := tile_offsets_ f;
     tile_var_offsets_ := tile_var_offsets_ f;
     tile_var_sizes_ := tile_var_sizes_ f;
     tile_validity_offsets_ := tile_validity_offsets_ f;
     tile_sums_ := tile_sums_ f; version_ := version_ f |}.

Definition set_memory_tracker_ (v : option MemoryTracker.t) (f : FragmentMetadata) : FragmentMetadata :=
  {| array_schema_ := array_schema_ f; dense_ := dense_ f;
     domain_ := domain_ f; non_empty_domain_ := non_empty_domain_ f;
     file_sizes_ := file_sizes_ f; file_var_sizes_ := file_var_sizes_ f;
     file_validity_sizes_ := file_validity_sizes_ f;
     footer_size_ := footer_size_ f; footer_offset_ := footer_offset_ f;
     fragment_uri_ := fragment_uri_ f;
     fragment_mins_ := fragment_mins_ f; fragment_maxs_ := fragment_maxs_ f;
     fragment_sums_ := fragment_sums_ f;
     fragment_null_counts_ := fragment_null_counts_ f;
     gt_offsets_ := gt_offsets_ f; has_timestamps_ := has_timestamps_ f;
     has_delete_meta_ := has_delete_meta_ f; idx_map_ := idx_map_ f;
     last_tile_cell_num_ := last_tile_cell_num_ f;
     loaded_metadata_ := loaded_metadata_ f; memory_tracker_ := v;
     meta_file_size_ := meta_file_size_ f; rtree_ := rtree_ f;
     sparse_tile_num_ := sparse_tile_num_ f;
     tile_index_base_ := tile_index_base_ f;
     tile_min_buffer_ := tile_min_buffer_ f;
     tile_min_var_buffer_ := tile_min_var_buffer_ f;
     tile_max_buffer_ := tile_max_buffer_ f;
     tile_max_var_buffer_ := tile_max_var_buffer_ f;
     tile_null_counts_ := tile_null_counts_ f;
     tile_offsets_ := tile_offsets_ f;
     tile_var_offsets_ := tile_var_offsets_ f;
     tile_var_sizes_ := tile_var_sizes_ f;
     tile_validity_offsets_ := tile_validity_offsets_ f;
     tile_sums_ := tile_sums_ f; version_ := version_ f |}.

Definition set_rtree_ (v : RTree) (f : FragmentMetadata) : FragmentMetadata :=
  {| array_schema_ := array_schema_ f; dense_ := dense_ f;
     domain_ := domain_ f; non_empty_domain_ := non_empty_domain_ f;
     file_sizes_ := file_sizes_ f; file_var_sizes_ := file_var_sizes_ f;
     file_validity_sizes_ := file_validity_sizes_ f;
     footer_size_ := footer_size_ f; footer_offset_ := footer_offset_ f;
     fragment_uri_ := fragment_uri_ f;
     fragment_mins_ := fragment_mins_ f; fragment_maxs_ := fragment_maxs_ f;
     fragment_sums_ := fragment_sums_ f;
     fragment_null_counts_ := fragment_null_counts_ f;
     gt_offsets_ := gt_offsets_ f; has_timestamps_ := has_timestamps_ f;
     has_delete_meta_ := has_delete_meta_ f; idx_map_ := idx_map_ f;
     last_tile_cell_num_ := last_tile_cell_num_ f;
     loaded_metadata_ := loaded_metadata_ f;
     memory_tracker_ := memory_tracker_ f;
     meta_file_size_ := meta_file_size_ f; rtree_ := v;
     sparse_tile_num_ := sparse_tile_num_ f;
     tile_index_base_ := tile_index_base_ f;
     tile_min_buffer_ := tile_min_buffer_ f;
     tile_min_var_buffer_ := tile_min_var_buffer_ f;
     tile_max_buffer_ := tile_max_buffer_ f;
     tile_max_var_buffer_ := tile_max_var_buffer_ f;
     tile_null_counts_ := tile_null_counts_ f;
     tile_offsets_ := tile_offsets_ f;
     tile_var_offsets_ := tile_var_offsets_ f;
     tile_var_sizes_ := tile_var_sizes_ f;
     tile_validity_offsets_ := tile_validity_offsets_ f;
     tile_sums_ := tile_sums_ f; version_ := version_ f |}.

Definition set_tile_min_buffer_ (v : list (list byte)) (f : FragmentMetadata) : FragmentMetadata :=
  {| array_schema_ := array_schema_ f; dense_ := dense_ f;
     domain_ := domain_ f; non_empty_domain_ := non_empty_domain_ f;
     file_sizes_ := file_sizes_ f; file_var_sizes_ := file_var_sizes_ f;
     file_validity_sizes_ := file_validity_sizes_ f;
     footer_size_ := footer_size_ f; footer_offset_ := footer_offset_ f;
     fragment_uri_ := fragment_uri_ f;
     fragment_mins_ := fragment_mins_ f; fragment_maxs_ := fragment_maxs_ f;
     fragment_sums_ := fragment_sums_ f;
     fragment_null_counts_ := fragment_null_counts_ f;
     gt_offsets_ := gt_offsets_ f; has_timestamps_ := has_timestamps_ f;
     has_delete_meta_ := has_delete_meta_ f; idx_map_ := idx_map_ f;
     last_tile_cell_num_ := last_tile_cell_num_ f;
     loaded_metadata_ := loaded_metadata_ f;
     memory_tracker_ := memory_tracker_ f;
     meta_file_size_ := meta_file_size_ f; rtree_ := rtree_ f;
     sparse_tile_num_ := sparse_tile_num_ f;
     tile_index_base_ := tile_index_base_ f; tile_min_buffer_ := v;
     tile_min_var_buffer_ := tile_min_var_buffer_ f;
     tile_max_buffer_ := tile_max_buffer_ f;
     tile_max_var_buffer_ := tile_max_var_buffer_ f;
     tile_null_counts_ := tile_null_counts_ f;
     tile_offsets_ := tile_offsets_ f;
     tile_var_offsets_ := tile_var_offsets_ f;
     tile_var_sizes_ := tile_var_sizes_ f;
     tile_validity_offsets_ := tile_validity_offsets_ f;
     tile_sums_ := tile_sums_ f; version_ := version_ f |}.

Definition set_tile_min_var_buffer_ (v : list (list byte)) (f : FragmentMetadata) : FragmentMetadata :=
  {| array_schema_ := array_schema_ f; dense_ := dense_ f;
     domain_ := domain_ f; non_empty_domain_ := non_empty_domain_ f;
     file_sizes_ := file_sizes_ f; file_var_sizes_ := file_var_sizes_ f;
     file_validity_sizes_ := file_validity_sizes_ f;
     footer_size_ := footer_size_ f; footer_offset_ := footer_offset_ f;
     fragment_uri_ := fragment_uri_ f;
     fragment_mins_ := fragment_mins_ f; fragment_maxs_ := fragment_maxs_ f;
     fragment_sums_ := fragment_sums_ f;
     fragment_null_counts_ := fragment_null_counts_ f;
     gt_offsets_ := gt_offsets_ f; has_timestamps_ := has_timestamps_ f;
     has_delete_meta_ := has_delete_meta_ f; idx_map_ := idx_map_ f;
     last_tile_cell_num_ := last_tile_cell_num_ f;
     loaded_metadata_ := loaded_metadata_ f;
     memory_tracker_ := memory_tracker_ f;
     meta_file_size_ := meta_file_size_ f; rtree_ := rtree_ f;
     sparse_tile_num_ := sparse_tile_num_ f;
     tile_index_base_ := tile_index_base_ f;
     tile_min_buffer_ := tile_min_buffer_ f; tile_min_var_buffer_ := v;
     tile_max_buffer_ := tile_max_buffer_ f;
     tile_max_var_buffer_ := tile_max_var_buffer_ f;
     tile_null_counts_ := tile_null_counts_ f;
     tile_offsets_ := tile_offsets_ f;
     tile_var_offsets_ := tile_var_offsets_ f;
     tile_var_sizes_ := tile_var_sizes_ f;
     tile_validity_offsets_ := tile_validity_offsets_ f;
     tile_sums_ := tile_sums_ f; version_ := version_ f |}.

Definition set_tile_max_buffer_ (v : list (list byte)) (f : FragmentMetadata) : FragmentMetadata :=
  {| array_schema_ := array_schema_ f; dense_ := dense_ f;
     domain_ := domain_ f; non_empty_domain_ := non_empty_domain_ f;
     file_sizes_ := file_sizes_ f; file_var_sizes_ := file_var_sizes_ f;
     file_validity_sizes_ := file_validity_sizes_ f;
     footer_size_ := footer_size_ f; footer_offset_ := footer_offset_ f;
     fragment_uri_ := fragment_uri_ f;
     fragment_mins_ := fragment_mins_ f; fragment_maxs_ := fragment_maxs_ f;
     fragment_sums_ := fragment_sums_ f;
     fragment_null_counts_ := fragment_null_counts_ f;
     gt_offsets_ := gt_offsets_ f; has_timestamps_ := has_timestamps_ f;
     has_delete_meta_ := has_delete_meta_ f; idx_map_ := idx_map_ f;
     last_tile_cell_num_ := last_tile_cell_num_ f;
     loaded_metadata_ := loaded_metadata_ f;
     memory_tracker_ := memory_tracker_ f;
     meta_file_size_ := meta_file_size_ f; rtree_ := rtree_ f;
     sparse_tile_num_ := sparse_tile_num_ f;
     tile_index_base_ := tile_index_base_ f;
     tile_min_buffer_ := tile_min_buffer_ f;
     tile_min_var_buffer_ := tile_min_var_buffer_ f; tile_max_buffer_ := v;
     tile_max_var_buffer_ := tile_max_var_buffer_ f;
     tile_null_counts_ := tile_null_counts_ f;
     tile_offsets_ := tile_offsets_ f;
     tile_var_offsets_ := tile_var_offsets_ f;
     tile_var_sizes_ := tile_var_sizes_ f;
     tile_validity_offsets_ := tile_validity_offsets_ f;
     tile_sums_ := tile_sums_ f; version_ := version_ f |}.

Definition set_tile_max_var_buffer_ (v : list (list byte)) (f : FragmentMetadata) : FragmentMetadata :=
  {| array_schema_ := array_schema_ f; dense_ := dense_ f;
     domain_ := domain_ f; non_empty_domain_ := non_empty_domain_ f;
     file_sizes_ := file_sizes_ f; file_var_sizes_ := file_var_sizes_ f;
     file_validity_sizes_ := file_validity_sizes_ f;
     footer_size_ := footer_size_ f; footer_offset_ := footer_offset_ f;
     fragment_uri_ := fragment_uri_ f;
     fragment_mins_ := fragment_mins_ f; fragment_maxs_ := fragment_maxs_ f;
     fragment_sums_ := fragment_sums_ f;
     fragment_null_counts_ := fragment_null_counts_ f;
     gt_offsets_ := gt_offsets_ f; has_timestamps_ := has_timestamps_ f;
     has_delete_meta_ := has_delete_meta_ f; idx_map_ := idx_map_ f;
     last_tile_cell_num_ := last_tile_cell_num_ f;
     loaded_metadata_ := loaded_metadata_ f;
     memory_tracker_ := memory_tracker_ f;
     meta_file_size_ := meta_file_size_ f; rtree_ := rtree_ f;
     sparse_tile_num_ := sparse_tile_num_ f;
     tile_index_base_ := tile_index_base_ f;
     tile_min_buffer_ := tile_min_buffer_ f;
     tile_min_var_buffer_ := tile_min_var_buffer_ f;
     tile_max_buffer_ := tile_max_buffer_ f; tile_max_var_buffer_ := v;
     tile_null_counts_ := tile_null_counts_ f;
     tile_offsets_ := tile_offsets_ f;
     tile_var_offsets_ := tile_var_offsets_ f;
     tile_var_sizes_ := tile_var_sizes_ f;
     tile_validity_offsets_ := tile_validity_offsets_ f;
     tile_sums_ := tile_sums_ f; version_ := version_ f |}.

Definition set_tile_offsets_ (v : list (list Z)) (f : FragmentMetadata) : FragmentMetadata :=
  {| array_schema_ := array_schema_ f; dense_ := dense_ f;
     domain_ := domain_ f; non_empty_domain_ := non_empty_domain_ f;
     file_sizes_ := file_sizes_ f; file_var_sizes_ := file_var_sizes_ f;
     file_validity_sizes_ := file_validity_sizes_ f;
     footer_size_ := footer_size_ f; footer_offset_ := footer_offset_ f;
     fragment_uri_ := fragment_uri_ f;
     fragment_mins_ := fragment_mins_ f; fragment_maxs_ := fragment_maxs_ f;
     fragment_sums_ := fragment_sums_ f;
     fragment_null_counts_ := fragment_null_counts_ f;
     gt_offsets_ := gt_offsets_ f; has_timestamps_ := has_timestamps_ f;
     has_delete_meta_ := has_delete_meta_ f; idx_map_ := idx_map_ f;
     last_tile_cell_num_ := last_tile_cell_num_ f;
     loaded_metadata_ := loaded_metadata_ f;
     memory_tracker_ := memory_tracker_ f;
     meta_file_size_ := meta_file_size_ f; rtree_ := rtree_ f;
     sparse_tile_num_ := sparse_tile_num_ f;
     tile_index_base_ := tile_index_base_ f;
     tile_min_buffer_ := tile_min_buffer_ f;
     tile_min_var_buffer_ := tile_min_var_buffer_ f;
     tile_max_buffer_ := tile_max_buffer_ f;
     tile_max_var_buffer_ := tile_max_var_buffer_ f;
     tile_null_counts_ := tile_null_counts_ f; tile_offsets_ := v;
     tile_var_offsets_ := tile_var_offsets_ f;
     tile_var_sizes_ := tile_var_sizes_ f;
     tile_validity_offsets_ := tile_validity_offsets_ f;
     tile_sums_ := tile_sums_ f; version_ := version_ f |}.

Definition set_tile_var_offsets_ (v : list (list Z)) (f : FragmentMetadata) : FragmentMetadata :=
  {| array_schema_ := array_schema_ f; dense_ := dense_ f;
     domain_ := domain_ f; non_empty_domain_ := non_empty_domain_ f;
     file_sizes_ := file_sizes_ f; file_var_sizes_ := file_var_sizes_ f;
     file_validity_sizes_ := file_validity_sizes_ f;
     footer_size_ := footer_size_ f; footer_offset_ := footer_offset_ f;
     fragment_uri_ := fragment_uri_ f;
     fragment_mins_ := fragment_mins_ f; fragment_maxs_ := fragment_maxs_ f;
     fragment_sums_ := fragment_sums_ f;
     fragment_null_counts_ := fragment_null_counts_ f;
     gt_offsets_ := gt_offsets_ f; has_timestamps_ := has_timestamps_ f;
     has_delete_meta_ := has_delete_meta_ f; idx_map_ := idx_map_ f;
     last_tile_cell_num_ := last_tile_cell_num_ f;
     loaded_metadata_ := loaded_metadata_ f;
     memory_tracker_ := memory_tracker_ f;
     meta_file_size_ := meta_file_size_ f; rtree_ := rtree_ f;
     sparse_tile_num_ := sparse_tile_num_ f;
     tile_index_base_ := tile_index_base_ f;
     tile_min_buffer_ := tile_min_buffer_ f;
     tile_min_var_buffer_ := tile_min_var_buffer_ f;
     tile_max_buffer_ := tile_max_buffer_ f;
     tile_max_var_buffer_ := tile_max_var_buffer_ f;
     tile_null_counts_ := tile_null_counts_ f;
     tile_offsets_ := tile_offsets_ f; tile_var_offsets_ := v;
     tile_var_sizes_ := tile_var_sizes_ f;
     tile_validity_offsets_ := tile_validity_offsets_ f;
     tile_sums_ := tile_sums_ f; version_ := version_ f |}.

Definition set_tile_var_sizes_ (v : list (list Z)) (f : FragmentMetadata) : FragmentMetadata :=
  {| array_schema_ := array_schema_ f; dense_ := dense_ f;
     domain_ := domain_ f; non_empty_domain_ := non_empty_domain_ f;
     file_sizes_ := file_sizes_ f; file_var_sizes_ := file_var_sizes_ f;
     file_validity_sizes_ := file_validity_sizes_ f;
     footer_size_ := footer_size_ f; footer_offset_ := footer_offset_ f;
     fragment_uri_ := fragment_uri_ f;
     fragment_mins_ := fragment_mins_ f; fragment_maxs_ := fragment_maxs_ f;
     fragment_sums_ := fragment_sums_ f;
     fragment_null_counts_ := fragment_null_counts_ f;
     gt_offsets_ := gt_offsets_ f; has_timestamps_ := has_timestamps_ f;
     has_delete_meta_ := has_delete_meta_ f; idx_map_ := idx_map_ f;
     last_tile_cell_num_ := last_tile_cell_num_ f;
     loaded_metadata_ := loaded_metadata_ f;
     memory_tracker_ := memory_tracker_ f;
     meta_file_size_ := meta_file_size_ f; rtree_ := rtree_ f;
     sparse_tile_num_ := sparse_tile_num_ f;
     tile_index_base_ := tile_index_base_ f;
     tile_min_buffer_ := tile_min_buffer_ f;
     tile_min_var_buffer_ := tile_min_var_buffer_ f;
     tile_max_buffer_ := tile_max_buffer_ f;
     tile_max_var_buffer_ := tile_max_var_buffer_ f;
     tile_null_counts_ := tile_null_counts_ f;
     tile_offsets_ := tile_offsets_ f;
     tile_var_offsets_ := tile_var_offsets_ f; tile_var_sizes_ := v;
     tile_validity_offsets_ := tile_validity_offsets_ f;
     tile_sums_ := tile_sums_ f; version_ := version_ f |}.

Definition set_tile_validity_offsets_ (v : list (list Z)) (f : FragmentMetadata) : FragmentMetadata :=
  {| array_schema_ := array_schema_ f; dense_ := dense_ f;
     domain_ := domain_ f; non_empty_domain_ := non_empty_domain_ f;
     file_sizes_ := file_sizes_ f; file_var_sizes_ := file_var_sizes_ f;
     file_validity_sizes_ := file_validity_sizes_ f;
     footer_size_ := footer_size_ f; footer_offset_ := footer_offset_ f;
     fragment_uri_ := fragment_uri_ f;
     fragment_mins_ := fragment_mins_ f; fragment_maxs_ := fragment_maxs_ f;
     fragment_sums_ := fragment_sums_ f;
     fragment_null_counts_ := fragment_null_counts_ f;
     gt_offsets_ := gt_offsets_ f; has_timestamps_ := has_timestamps_ f;
     has_delete_meta_ := has_delete_meta_ f; idx_map_ := idx_map_ f;
     last_tile_cell_num_ := last_tile_cell_num_ f;
     loaded_metadata_ := loaded_metadata_ f;
     memory_tracker_ := memory_tracker_ f;
     meta_file_size_ := meta_file_size_ f; rtree_ := rtree_ f;
     sparse_tile_num_ := sparse_tile_num_ f;
     tile_index_base_ := tile_index_base_ f;
     tile_min_buffer_ := tile_min_buffer_ f;
     tile_min_var_buffer_ := tile_min_var_buffer_ f;
     tile_max_buffer_ := tile_max_buffer_ f;
     tile_max_var_buffer_ := tile_max_var_buffer_ f;
     tile_null_counts_ := tile_null_counts_ f;
     tile_offsets_ := tile_offsets_ f;
     tile_var_offsets_ := tile_var_offsets_ f;
     tile_var_sizes_ := tile_var_sizes_ f; tile_validity_offsets_ := v;
     tile_sums_ := tile_sums_ f; version_ := version_ f |}.
Definition set_tile_sums_ (v : list (list byte)) (f : FragmentMetadata) : FragmentMetadata :=
  {| array_schema_ := array_schema_ f; dense_ := dense_ f;
     domain_ := domain_ f; non_empty_domain_ := non_empty_domain_ f;
     file_sizes_ := file_sizes_ f; file_var_sizes_ := file_var_sizes_ f;
     file_validity_sizes_ := file_validity_sizes_ f;
     footer_size_ := footer_size_ f; footer_offset_ := footer_offset_ f;
     fragment_uri_ := fragment_uri_ f; fragment_mins_ := fragment_mins_ f;
     fragment_maxs_ := fragment_maxs_ f; fragment_sums_ := fragment_sums_ f;
     fragment_null_counts_ := fragment_null_counts_ f;
     gt_offsets_ := gt_offsets_ f; has_timestamps_ := has_timestamps_ f;
     has_delete_meta_ := has_delete_meta_ f; idx_map_ := idx_map_ f;
     last_tile_cell_num_ := last_tile_cell_num_ f;
     loaded_metadata_ := loaded_metadata_ f;
     memory_tracker_ := memory_tracker_ f;
     meta_file_size_ := meta_file_size_ f; rtree_ := rtree_ f;
     sparse_tile_num_ := sparse_tile_num_ f;
     tile_index_base_ := tile_index_base_ f;
     tile_min_buffer_ := tile_min_buffer_ f;
     tile_min_var_buffer_ := tile_min_var_buffer_ f;
     tile_max_buffer_ := tile_max_buffer_ f;
     tile_max_var_buffer_ := tile_max_var_buffer_ f;
     tile_null_counts_ := tile_null_counts_ f;
     tile_offsets_ := tile_offsets_ f;
     tile_var_offsets_ := tile_var_offsets_ f;
     tile_var_sizes_ := tile_var_sizes_ f;
     tile_validity_offsets_ := tile_validity_offsets_ f; tile_sums_ := v;
     version_ := version_ f |}.

Definition set_tile_null_counts_ (v : list (list Z)) (f : FragmentMetadata) : FragmentMetadata :=
  {| array_schema_ := array_schema_ f; dense_ := dense_ f;
     domain_ := domain_ f; non_empty_domain_ := non_empty_domain_ f;
     file_sizes_ := file_sizes_ f; file_var_sizes_ := file_var_sizes_ f;
     file_validity_sizes_ := file_validity_sizes_ f;
     footer_size_ := footer_size_ f; footer_offset_ := footer_offset_ f;
     fragment_uri_ := fragment_uri_ f; fragment_mins_ := fragment_mins_ f;
     fragment_maxs_ := fragment_maxs_ f; fragment_sums_ := fragment_sums_ f;
     fragment_null_counts_ := fragment_null_counts_ f;
     gt_offsets_ := gt_offsets_ f; has_timestamps_ := has_timestamps_ f;
     has_delete_meta_ := has_delete_meta_ f; idx_map_ := idx_map_ f;
     last_tile_cell_num_ := last_tile_cell_num_ f;
     loaded_metadata_ := loaded_metadata_ f;
     memory_tracker_ := memory_tracker_ f;
     meta_file_size_ := meta_file_size_ f; rtree_ := rtree_ f;
     sparse_tile_num_ := sparse_tile_num_ f;
     tile_index_base_ := tile_index_base_ f;
     tile_min_buffer_ := tile_min_buffer_ f;
     tile_min_var_buffer_ := tile_min_var_buffer_ f;
     tile_max_buffer_ := tile_max_buffer_ f;
     tile_max_var_buffer_ := tile_max_var_buffer_ f; tile_null_counts_ := v;
     tile_offsets_ := tile_offsets_ f;
     tile_var_offsets_ := tile_var_offsets_ f;
     tile_var_sizes_ := tile_var_sizes_ f;
     tile_validity_offsets_ := tile_validity_offsets_ f;
     tile_sums_ := tile_sums_ f; version_ := version_ f |}.

Definition set_meta_file_size_ (v : Z) (f : FragmentMetadata) : FragmentMetadata :=
  {| array_schema_ := array_schema_ f; dense_ := dense_ f;
     domain_ := domain_ f; non_empty_domain_ := non_empty_domain_ f;
     file_sizes_ := file_sizes_ f; file_var_sizes_ := file_var_sizes_ f;
     file_validity_sizes_ := file_validity_sizes_ f;
     footer_size_ := footer_size_ f; footer_offset_ := footer_offset_ f;
     fragment_uri_ := fragment_uri_ f; fragment_mins_ := fragment_mins_ f;
     fragment_maxs_ := fragment_maxs_ f; fragment_sums_ := fragment_sums_ f;
     fragment_null_counts_ := fragment_null_counts_ f;
     gt_offsets_ := gt_offsets_ f; has_timestamps_ := has_timestamps_ f;
     has_delete_meta_ := has_delete_meta_ f; idx_map_ := idx_map_ f;
     last_tile_cell_num_ := last_tile_cell_num_ f;
     loaded_metadata_ := loaded_metadata_ f;
     memory_tracker_ := memory_tracker_ f; meta_file_size_ := v;
     rtree_ := rtree_ f; sparse_tile_num_ := sparse_tile_num_ f;
     tile_index_base_ := tile_index_base_ f;
     tile_min_buffer_ := tile_min_buffer_ f;
     tile_min_var_buffer_ := tile_min_var_buffer_ f;
     tile_max_buffer_ := tile_max_buffer_ f;
     tile_max_var_buffer_ := tile_max_var_buffer_ f;
     tile_null_counts_ := tile_null_counts_ f;
     tile_offsets_ := tile_offsets_ f;
     tile_var_offsets_ := tile_var_offsets_ f;
     tile_var_sizes_ := tile_var_sizes_ f;
     tile_validity_offsets_ := tile_validity_offsets_ f;
     tile_sums_ := tile_sums_ f; version_ := version_ f |}.

(** The template arguments [compute_fragment_min_max_sum<T>] is
    instantiated with ([char] has its own specialisation), and the
    three types [compute_fragment_sum<S>] is specialised for. *)
Inductive CType : Type :=
  | Int8 | Int16 | Int32 | Int64 | UInt8 | UInt16 | UInt32 | UInt64
  | Float32 | Float64 | StdByte.

Inductive SumType : Type := SumInt64 | SumUInt64 | SumDouble.

(** Classes of the repository that [FragmentMetadata] calls and whose
    code is not among the sources at hand, and what the sources leave
    to the platform.  They are taken as parameters; nothing is assumed
    about them unless a property says so. *)
Record Collaborators : Type := {
  (** [TileMetadataGenerator::has_min_max_metadata(type, is_dim, var_size, cell_val_num)] *)
  has_min_max_metadata : Datatype -> bool -> bool -> Z -> bool;
  (** [TileMetadataGenerator::has_sum_metadata(type, var_size, cell_val_num)] *)
  has_sum_metadata : Datatype -> bool -> Z -> bool;
  (** [metadata_generator_type_data<T>::min] and [::max], the values
      the fragment minimum and maximum start from, as the bytes of a
      [T]; and [::sum_type] *)
  type_data_min : CType -> list byte;
  type_data_max : CType -> list byte;
  type_data_sum_type : CType -> SumType;
  (** [utils::parse::get_fragment_version] on the fragment name *)
  get_fragment_version : string -> Z;
  (** [Domain::tile_num(domain_)] *)
  domain_tile_num : ArraySchema -> NDRange -> Z;
  (** [GenericTileIO::read_generic] on the fragment's metadata file:
      the payload of the generic tile stored at an offset. *)
  read_generic : Z -> outcome (list byte);
  (** The levels that [RTree::deserialize] builds from a serialized
      tree (the payload, the schema's domain and the version), and the
      two queries of [RTree]. *)
  rtree_read_levels : list byte -> ArraySchema -> Z -> outcome (list (list NDRange));
  rtree_get_tile_overlap : RTree -> NDRange -> list bool -> TileOverlap;
  rtree_compute_tile_bitmap : RTree -> Range -> Z -> list byte -> list byte;
  (** The bit pattern of the NaN that the addition of two [double]s
      with the given bit patterns yields, when it yields a NaN: its
      sign and its payload are the platform's. *)
  double_add_nan : Z -> Z -> Z
}.

(** Modelled from the spec: [RTree::deserialize] is missing from the
    sources at hand.  "Deserialization rebuilds internal levels from
    the persisted leaves": the tree it leaves is built from the
    serialized buffer alone (with the schema's domain and the
    version), whatever the tree was before, and accounts for the size
    of that buffer. *)
Definition rtree_deserialize (X : Collaborators) (tile : list byte)
    (schema : ArraySchema) (version : Z) : outcome RTree :=
  let! levels := rtree_read_levels X tile schema version in
  Ok {| levels_ := levels; deserialized_buffer_size_ := Z.of_nat (length tile) |}.


(** ** FragmentMetadata: sizes and tile counts *)

(** [FragmentMetadata::tile_num] *)
Definition tile_num (X : Collaborators) (f : FragmentMetadata) : Z :=
  if dense_ f then domain_tile_num X (array_schema_ f) (domain_ f)
  else sparse_tile_num_ f.

(** [FragmentMetadata::cell_num(tile_pos)] *)
Definition cell_num (X : Collaborators) (tile_pos : Z) (f : FragmentMetadata) : Z :=
  if dense_ f then schema_cell_num_per_tile (array_schema_ f)
  else if negb (tile_pos =? wrap64 (tile_num X f - 1))
       then schema_capacity (array_schema_ f)
       else last_tile_cell_num_ f.

(** Modelled from the spec: [num_dims_and_attrs] is declared in a
    header missing from the sources at hand.  "Attributes, the
    pseudo-field coords, dimensions, timestamps if has_timestamps,
    delete_ts and delete_idx if has_delete_meta". *)
Definition num_dims_and_attrs (f : FragmentMetadata) : Z :=
  schema_attribute_num (array_schema_ f) + 1 + dim_num (array_schema_ f)
  + (if has_timestamps_ f then 1 else 0)
  + (if has_delete_meta_ f then 2 else 0).

(** ** FragmentMetadata: the writer's streaming append *)

(** [FragmentMetadata::set_tile_offset] *)
Definition set_tile_offset (name : string) (tid step : Z) (f : FragmentMetadata)
  : outcome FragmentMetadata :=
  match idx_map_ f !! name with
  | None => AssertFail
  | Some idx =>
      let tid := wrap64 (tid + tile_index_base_ f) in
      let! row := at_index (tile_offsets_ f) idx in
      assert_then (tid <? Z.of_nat (length row))
        (let! size := at_index (file_sizes_ f) idx in
         Ok (set_file_sizes_ (<[idx := wrap64 (size + step)]> (file_sizes_ f))
               (set_tile_offsets_
                  (<[idx := <[Z.to_nat tid := size]> row]> (tile_offsets_ f)) f)))
  end.

(** [FragmentMetadata::set_tile_var_offset] *)
Definition set_tile_var_offset (name : string) (tid step : Z) (f : FragmentMetadata)
  : outcome FragmentMetadata :=
  match idx_map_ f !! name with
  | None => AssertFail
  | Some idx =>
      let tid := wrap64 (tid + tile_index_base_ f) in
      let! row := at_index (tile_var_offsets_ f) idx in
      assert_then (tid <? Z.of_nat (length row))
        (let! size := at_index (file_var_sizes_ f) idx in
         Ok (set_file_var_sizes_ (<[idx := wrap64 (size + step)]> (file_var_sizes_ f))
               (set_tile_var_offsets_
                  (<[idx := <[Z.to_nat tid := size]> row]> (tile_var_offsets_ f)) f)))
  end.

(** [FragmentMetadata::set_tile_var_size] *)
Definition set_tile_var_size (name : string) (tid size : Z) (f : FragmentMetadata)
  : outcome FragmentMetadata :=
  match idx_map_ f !! name with
  | None => AssertFail
  | Some idx =>
      let tid := wrap64 (tid + tile_index_base_ f) in
      let! row := at_index (tile_var_sizes_ f) idx in
      assert_then (tid <? Z.of_nat (length row))
        (Ok (set_tile_var_sizes_
               (<[idx := <[Z.to_nat tid := size]> row]> (tile_var_sizes_ f)) f))
  end.

(** [FragmentMetadata::set_tile_validity_offset] *)
Definition set_tile_validity_offset (name : string) (tid step : Z) (f : FragmentMetadata)
  : outcome FragmentMetadata :=
  match idx_map_ f !! name with
  | None => AssertFail
  | Some idx =>
      let tid := wrap64 (tid + tile_index_base_ f) in
      let! row := at_index (tile_validity_offsets_ f) idx in
      assert_then (tid <? Z.of_nat (length row))
        (let! size := at_index (file_validity_sizes_ f) idx in
         Ok (set_file_validity_sizes_
               (<[idx := wrap64 (size + step)]> (file_validity_sizes_ f))
               (set_tile_validity_offsets_
                  (<[idx := <[Z.to_nat tid := size]> row]> (tile_validity_offsets_ f)) f)))
  end.

(** [FragmentMetadata::set_tile_min_var_size] *)
Definition set_tile_min_var_size (name : string) (tid size : Z) (f : FragmentMetadata)
  : outcome FragmentMetadata :=
  match idx_map_ f !! name with
  | None => AssertFail
  | Some idx =>
      let tid := wrap64 (tid + tile_index_base_ f) in
      let! buf := at_index (tile_min_buffer_ f) idx in
      assert_then (tid <? Z.of_nat (length buf) / 8)
        (Ok (set_tile_min_buffer_
               (<[idx := write_u64 buf (Z.to_nat tid) size]> (tile_min_buffer_ f)) f))
  end.

(** [FragmentMetadata::set_tile_max_var_size] *)
Definition set_tile_max_var_size (name : string) (tid size : Z) (f : FragmentMetadata)
  : outcome FragmentMetadata :=
  match idx_map_ f !! name with
  | None => AssertFail
  | Some idx =>
      let tid := wrap64 (tid + tile_index_base_ f) in
      let! buf := at_index (tile_max_buffer_ f) idx in
      assert_then (tid <? Z.of_nat (length buf) / 8)
        (Ok (set_tile_max_buffer_
               (<[idx := write_u64 buf (Z.to_nat tid) size]> (tile_max_buffer_ f)) f))
  end.

(** One of the two loops of
    [convert_tile_min_max_var_sizes_to_offsets]: [n] iterations from
    entry [i], with the running [offset]. *)
Fixpoint sizes_to_offsets (n i : nat) (offset : Z) (buf : list byte) : Z * list byte :=
  match n with
  | O => (offset, buf)
  | S n' =>
      let size := read_u64 buf i in
      let buf' := write_u64 buf i offset in
      sizes_to_offsets n' (S i) (wrap64 (offset + size)) buf'
  end.

(** [FragmentMetadata::convert_tile_min_max_var_sizes_to_offsets] *)
Definition convert_tile_min_max_var_sizes_to_offsets (name : string) (f : FragmentMetadata)
  : outcome FragmentMetadata :=
  match idx_map_ f !! name with
  | None => AssertFail
  | Some idx =>
      let base := Z.to_nat (tile_index_base_ f) in
      (* Fix the min offsets. *)
      let! min_var := at_index (tile_min_var_buffer_ f) idx in
      let! min_buf := at_index (tile_min_buffer_ f) idx in
      let '(offset, min_buf') :=
        sizes_to_offsets (Nat.div (length min_buf) 8 - base) base
          (Z.of_nat (length min_var)) min_buf in
      (* Allocate min var data buffer. *)
      let min_var' := resize_bytes min_var (Z.to_nat offset) in
      (* Fix the max offsets. *)
      let! max_var := at_index (tile_max_var_buffer_ f) idx in
      let! max_buf := at_index (tile_max_buffer_ f) idx in
      let '(offset, max_buf') :=
        sizes_to_offsets (Nat.div (length max_buf) 8 - base) base
          (Z.of_nat (length max_var)) max_buf in
      let max_var' := resize_bytes max_var (Z.to_nat offset) in
      Ok (set_tile_max_var_buffer_ (<[idx := max_var']> (tile_max_var_buffer_ f))
            (set_tile_max_buffer_ (<[idx := max_buf']> (tile_max_buffer_ f))
               (set_tile_min_var_buffer_ (<[idx := min_var']> (tile_min_var_buffer_ f))
                  (set_tile_min_buffer_ (<[idx := min_buf']> (tile_min_buffer_ f)) f))))
  end.

(** The writer's loop over the tiles of one field: tile [tid], then
    [tid + 1], and so on, one step per tile. *)
Fixpoint append_tiles (name : string) (tid : Z) (steps : list Z) (f : FragmentMetadata)
  : outcome FragmentMetadata :=
  match steps with
  | [] => Ok f
  | s :: rest =>
      let! f' := set_tile_offset name tid s f in
      append_tiles name (tid + 1) rest f'
  end.

(** The writer's loop that records the sizes of the var-sized min and
    max of each tile of one field. *)
Fixpoint record_min_max_var_sizes (name : string) (tid : Z) (sizes : list (Z * Z))
    (f : FragmentMetadata) : outcome FragmentMetadata :=
  match sizes with
  | [] => Ok f
  | (smin, smax) :: rest =>
      let! f1 := set_tile_min_var_size name tid smin f in
      let! f2 := set_tile_max_var_size name tid smax f1 in
      record_min_max_var_sizes name (tid + 1) rest f2
  end.

(** ** FragmentMetadata: accessors of the tile offsets *)

(** [FragmentMetadata::file_offset] *)
Definition file_offset (name : string) (tile_idx : Z) (f : FragmentMetadata) : outcome Z :=
  match idx_map_ f !! name with
  | None => AssertFail
  | Some idx =>
      let! loaded := at_index (LoadedMetadata.tile_offsets_ (loaded_metadata_ f)) idx in
      if negb loaded then
        Throw "Trying to access tile offsets metadata that's not loaded"
      else
        let! row := at_index (tile_offsets_ f) idx in
        at_index row (Z.to_nat tile_idx)
  end.

(** [FragmentMetadata::file_var_offset] *)
Definition file_var_offset (name : string) (tile_idx : Z) (f : FragmentMetadata) : outcome Z :=
  match idx_map_ f !! name with
  | None => AssertFail
  | Some idx =>
      let! loaded := at_index (LoadedMetadata.tile_var_offsets_ (loaded_metadata_ f)) idx in
      if negb loaded then
        Throw "Trying to access tile var offsets metadata that's not loaded"
      else
        let! row := at_index (tile_var_offsets_ f) idx in
        at_index row (Z.to_nat tile_idx)
  end.

(** [FragmentMetadata::file_validity_offset] *)
Definition file_validity_offset (name : string) (tile_idx : Z) (f : FragmentMetadata)
  : outcome Z :=
  match idx_map_ f !! name with
  | None => AssertFail
  | Some idx =>
      let! loaded :=
        at_index (LoadedMetadata.tile_validity_offsets_ (loaded_metadata_ f)) idx in
      if negb loaded then
        Throw "Trying to access tile validity offsets metadata that's not loaded"
      else
        let! row := at_index (tile_validity_offsets_ f) idx in
        at_index row (Z.to_nat tile_idx)
  end.

(** The common last statement of the three [persisted_tile_*size]
    accessors, on the offsets [row] of the field and the vector of
    file sizes. *)
Definition persisted_size_of (tile_num tile_idx : Z) (row : list Z) (sizes : list Z)
    (idx : nat) : outcome Z :=
  if negb (tile_idx =? wrap64 (tile_num - 1)) then
    let! next := at_index row (Z.to_nat (wrap64 (tile_idx + 1))) in
    let! this := at_index row (Z.to_nat tile_idx) in
    Ok (wrap64 (next - this))
  else
    let! size := at_index sizes idx in
    let! this := at_index row (Z.to_nat tile_idx) in
    Ok (wrap64 (size - this)).

(** [FragmentMetadata::persisted_tile_size] *)
Definition persisted_tile_size (X : Collaborators) (name : string) (tile_idx : Z)
    (f : FragmentMetadata) : outcome Z :=
  match idx_map_ f !! name with
  | None => AssertFail
  | Some idx =>
      let! loaded := at_index (LoadedMetadata.tile_offsets_ (loaded_metadata_ f)) idx in
      if negb loaded then
        Throw "Trying to access persisted tile offsets metadata that's not present"
      else
        let! row := at_index (tile_offsets_ f) idx in
        persisted_size_of (tile_num X f) tile_idx row (file_sizes_ f) idx
  end.

(** [FragmentMetadata::persisted_tile_var_size] *)
Definition persisted_tile_var_size (X : Collaborators) (name : string) (tile_idx : Z)
    (f : FragmentMetadata) : outcome Z :=
  match idx_map_ f !! name with
  | None => AssertFail
  | Some idx =>
      let! loaded := at_index (LoadedMetadata.tile_var_offsets_ (loaded_metadata_ f)) idx in
      if negb loaded then
        Throw "Trying to access persisted tile var offsets metadata that's not present"
      else
        let! row := at_index (tile_var_offsets_ f) idx in
        persisted_size_of (tile_num X f) tile_idx row (file_var_sizes_ f) idx
  end.

(** [FragmentMetadata::persisted_tile_validity_size] *)
Definition persisted_tile_validity_size (X : Collaborators) (name : string) (tile_idx : Z)
    (f : FragmentMetadata) : outcome Z :=
  match idx_map_ f !! name with
  | None => AssertFail
  | Some idx =>
      let! loaded :=
        at_index (LoadedMetadata.tile_validity_offsets_ (loaded_metadata_ f)) idx in
      if negb loaded then
        Throw "Trying to access persisted tile validity offsets metadata that's not present"
      else
        let! row := at_index (tile_validity_offsets_ f) idx in
        persisted_size_of (tile_num X f) tile_idx row (file_validity_sizes_ f) idx
  end.

(** The sum, in [uint64_t], of [persisted_tile_size(name, k)] over the
    tiles [k = from, ..., from + n - 1]. *)
Fixpoint sum_persisted_tile_sizes (X : Collaborators) (name : string) (from : Z) (n : nat)
    (f : FragmentMetadata) : outcome Z :=
  match n with
  | O => Ok 0
  | S n' =>
      let! s := persisted_tile_size X name from f in
      let! rest := sum_persisted_tile_sizes X name (from + 1) n' f in
      Ok (wrap64 (s + rest))
  end.

(** ** Values stored in byte buffers *)

Definition byte_val (b : byte) : Z := Z.of_N (Byte.to_N b).

(** [n] bytes of [buf] from byte offset [off] on. *)
Definition slice (buf : list byte) (off n : nat) : list byte :=
  take n (drop off buf).

(** Entry [t] of [buf] read through a [uint64_t] pointer; reading
    past the end of the vector is undefined behaviour. *)
Definition read_u64_at (buf : list byte) (t : Z) : outcome Z :=
  if (8 * (t + 1) <=? Z.of_nat (length buf)) && (0 <=? t)
  then Ok (read_u64 buf (Z.to_nat t))
  else Undefined.

(** The IEEE 754 binary64 value with the bit pattern [u]. *)
Definition double_of_bits (u : Z) : float :=
  let sign := Z.testbit u 63 in
  let e := Z.land (Z.shiftr u 52) 2047 in
  let m := Z.land u (2 ^ 52 - 1) in
  FloatOps.SF2Prim
    (if e =? 2047 then
       if m =? 0 then SpecFloat.S754_infinity sign else SpecFloat.S754_nan
     else if e =? 0 then
       match m with
       | Zpos p => SpecFloat.S754_finite sign p (-1074)
       | _ => SpecFloat.S754_zero sign
       end
     else
       match m + 2 ^ 52 with
       | Zpos p => SpecFloat.S754_finite sign p (e - 1075)
       | _ => SpecFloat.S754_zero sign
       end).

(** Whether the bit pattern [u] is that of a binary64 NaN: the
    exponent bits are all set and the fraction is not zero. *)
Definition is_nan_bits (u : Z) : bool :=
  forallb (fun i => Z.testbit u (Z.of_nat i)) (seq 52 11)
  && existsb (fun i => Z.testbit u (Z.of_nat i)) (seq 0 52).

(** The IEEE 754 binary32 value with the bit pattern [u], as the
    binary64 value equal to it. *)
Definition float_of_bits (u : Z) : float :=
  let sign := Z.testbit u 31 in
  let e := Z.land (Z.shiftr u 23) 255 in
  let m := Z.land u (2 ^ 23 - 1) in
  FloatOps.SF2Prim
    (if e =? 255 then
       if m =? 0 then SpecFloat.S754_infinity sign else SpecFloat.S754_nan
     else if e =? 0 then
       match m with
       | Zpos p => SpecFloat.S754_finite sign p (-149)
       | _ => SpecFloat.S754_zero sign
       end
     else
       match m + 2 ^ 23 with
       | Zpos p => SpecFloat.S754_finite sign p (e - 150)
       | _ => SpecFloat.S754_zero sign
       end).

(** The bit pattern of a binary64 value that is not a NaN.  A NaN has
    many bit patterns, one for each sign and payload, which the value
    does not tell apart: there is no pattern to give for it here. *)
Definition bits_of_double (x : float) : option Z :=
  match FloatOps.Prim2SF x with
  | SpecFloat.S754_zero s => Some (if s then 2 ^ 63 else 0)
  | SpecFloat.S754_infinity s => Some ((if s then 2 ^ 63 else 0) + 2047 * 2 ^ 52)
  | SpecFloat.S754_nan => None
  | SpecFloat.S754_finite s m e =>
      Some ((if s then 2 ^ 63 else 0)
            + (if Zpos m <? 2 ^ 52 then Zpos m
               else (e + 1075) * 2 ^ 52 + (Zpos m - 2 ^ 52)))
  end.

(** [std::numeric_limits<double>::max()] and [lowest()], as bit
    patterns and as values. *)
Definition double_max_bits : Z := 2046 * 2 ^ 52 + (2 ^ 52 - 1).
Definition double_lowest_bits : Z := 2 ^ 63 + double_max_bits.
Definition double_max : float := Eval vm_compute in double_of_bits double_max_bits.
Definition double_lowest : float := Eval vm_compute in double_of_bits double_lowest_bits.

Definition sizeof (T : CType) : nat :=
  match T with
  | Int8 | UInt8 | StdByte => 1
  | Int16 | UInt16 => 2
  | Int32 | UInt32 | Float32 => 4
  | Int64 | UInt64 | Float64 => 8
  end.

(** The signed value of the little-endian bytes [bs]. *)
Definition signed_value (bs : list byte) : Z :=
  let u := le_combine bs in
  let w := 8 * Z.of_nat (length bs) in
  if 2 ^ (w - 1) <=? u then u - 2 ^ w else u.

(** [a < b] on two values of type [T] given by their bytes. *)
Definition ctype_lt (T : CType) (a b : list byte) : bool :=
  match T with
  | Int8 | Int16 | Int32 | Int64 => signed_value a <? signed_value b
  | UInt8 | UInt16 | UInt32 | UInt64 | StdByte => le_combine a <? le_combine b
  | Float32 => PrimFloat.ltb (float_of_bits (le_combine a)) (float_of_bits (le_combine b))
  | Float64 => PrimFloat.ltb (double_of_bits (le_combine a)) (double_of_bits (le_combine b))
  end.

(** [strncmp(a, b, n)] on the bytes that start at two places of a
    buffer: the characters are compared as [unsigned char], and the
    comparison stops after a NUL.  Bytes past the end of a buffer read
    as NUL here. *)
Fixpoint strncmp (a b : list byte) (n : nat) : Z :=
  match n with
  | O => 0
  | S n' =>
      let x := byte_val (hd Byte.x00 a) in
      let y := byte_val (hd Byte.x00 b) in
      if negb (x =? y) then x - y
      else if x =? 0 then 0
      else strncmp (tl a) (tl b) n'
  end.

(** ** FragmentMetadata: the fragment-level rollup *)

(** [nullable && null_count_values[t] == cell_num(t)] *)
Definition is_null_tile (X : Collaborators) (f : FragmentMetadata) (nullable : bool)
    (null_count_values : list Z) (t : Z) : outcome bool :=
  if nullable then
    let! nc := at_index null_count_values (Z.to_nat t) in
    Ok (nc =? cell_num X t f)
  else Ok false.

(** [!nullable || null_count_values[t] != cell_num(t)] *)
Definition tile_counts (X : Collaborators) (f : FragmentMetadata) (nullable : bool)
    (null_count_values : list Z) (t : Z) : outcome bool :=
  if negb nullable then Ok true
  else
    let! nc := at_index null_count_values (Z.to_nat t) in
    Ok (negb (nc =? cell_num X t f)).

(** [sum_data += values[t]] on [int64_t]: overflow is undefined. *)
Definition add_int64 (a b : Z) : outcome Z :=
  if (i64_min <=? a + b) && (a + b <=? i64_max) then Ok (a + b) else Undefined.

(** The loop of [compute_fragment_sum<int64_t>], [n] tiles from tile
    [t] on. *)
Fixpoint fragment_sum_int64_loop (X : Collaborators) (f : FragmentMetadata)
    (nullable : bool) (values : list byte) (null_count_values : list Z)
    (n : nat) (t : Z) (sum_data : Z) : outcome Z :=
  match n with
  | O => Ok sum_data
  | S n' =>
      let! counts := tile_counts X f nullable null_count_values t in
      if counts then
        let! bits := read_u64_at values t in
        let v := to_i64 bits in
        if (0 <? sum_data) && (0 <? v) && (i64_max - v <? sum_data) then
          Ok i64_max
        else if (sum_data <? 0) && (v <? 0) && (sum_data <? i64_min - v) then
          Ok i64_min
        else
          let! sum_data' := add_int64 sum_data v in
          fragment_sum_int64_loop X f nullable values null_count_values n' (t + 1) sum_data'
      else
        fragment_sum_int64_loop X f nullable values null_count_values n' (t + 1) sum_data
  end.

(** The loop of [compute_fragment_sum<uint64_t>]. *)
Fixpoint fragment_sum_uint64_loop (X : Collaborators) (f : FragmentMetadata)
    (nullable : bool) (values : list byte) (null_count_values : list Z)
    (n : nat) (t : Z) (sum_data : Z) : outcome Z :=
  match n with
  | O => Ok sum_data
  | S n' =>
      let! counts := tile_counts X f nullable null_count_values t in
      if counts then
        let! v := read_u64_at values t in
        if u64_max - v <? sum_data then Ok u64_max
        else
          fragment_sum_uint64_loop X f nullable values null_count_values n' (t + 1)
            (wrap64 (sum_data + v))
      else
        fragment_sum_uint64_loop X f nullable values null_count_values n' (t + 1) sum_data
  end.

(** [a + b] on two [double]s given by their bit patterns: the bit
    pattern of the IEEE 754 sum and, when the sum is a NaN, the one
    the platform gives it. *)
Definition double_add (X : Collaborators) (a b : Z) : Z :=
  match bits_of_double (double_of_bits a + double_of_bits b)%float with
  | Some bits => bits
  | None => double_add_nan X a b
  end.

(** The loop of [compute_fragment_sum<double>]; [sum_data] is the bit
    pattern of the running sum, which is what is copied at the end. *)
Fixpoint fragment_sum_double_loop (X : Collaborators) (f : FragmentMetadata)
    (nullable : bool) (values : list byte) (null_count_values : list Z)
    (n : nat) (t : Z) (sum_data : Z) : outcome Z :=
  match n with
  | O => Ok sum_data
  | S n' =>
      let! counts := tile_counts X f nullable null_count_values t in
      if counts then
        let! bits := read_u64_at values t in
        let s := double_of_bits sum_data in
        let v := double_of_bits bits in
        if Bool.eqb (s <? 0)%float (v <? 0)%float
           && (double_max - abs v <? abs s)%float then
          Ok (if (s <? 0)%float then double_lowest_bits else double_max_bits)
        else
          fragment_sum_double_loop X f nullable values null_count_values n' (t + 1)
            (double_add X sum_data bits)
      else
        fragment_sum_double_loop X f nullable values null_count_values n' (t + 1) sum_data
  end.

(** [FragmentMetadata::compute_fragment_sum<S>(idx, nullable)]; the
    result is copied into the eight bytes of [fragment_sums_[idx]]. *)
Definition compute_fragment_sum (X : Collaborators) (S : SumType) (idx : nat)
    (nullable : bool) (f : FragmentMetadata) : outcome FragmentMetadata :=
  let! values := at_index (tile_sums_ f) idx in
  let! null_count_values := at_index (tile_null_counts_ f) idx in
  let n := Z.to_nat (tile_num X f) in
  let! bits :=
    match S with
    | SumInt64 =>
        let! s := fragment_sum_int64_loop X f nullable values null_count_values n 0 0 in
        Ok (wrap64 s)
    | SumUInt64 =>
        fragment_sum_uint64_loop X f nullable values null_count_values n 0 0
    | SumDouble =>
        fragment_sum_double_loop X f nullable values null_count_values n 0 0
    end in
  let! _slot := at_index (fragment_sums_ f) idx in
  Ok (set_fragment_sums_ (<[idx := bits]> (fragment_sums_ f)) f).

(** The loop of the primary template
    [compute_fragment_min_max_sum<T>]: [min] and [max] are the bytes
    of the current minimum and maximum. *)
Fixpoint fragment_min_max_loop (X : Collaborators) (f : FragmentMetadata) (T : CType)
    (nullable : bool) (min_values max_values : list byte) (null_count_values : list Z)
    (n : nat) (t : Z) (min max : list byte) : outcome (list byte * list byte) :=
  match n with
  | O => Ok (min, max)
  | S n' =>
      let! is_null := is_null_tile X f nullable null_count_values t in
      if negb is_null then
        let at_t (buf : list byte) : outcome (list byte) :=
          if Z.of_nat (sizeof T) * (t + 1) <=? Z.of_nat (length buf)
          then Ok (slice buf (sizeof T * Z.to_nat t) (sizeof T))
          else Undefined in
        let! min_t := at_t min_values in
        let min' := if ctype_lt T min min_t then min else min_t in
        let! max_t := at_t max_values in
        let max' := if ctype_lt T max_t max then max else max_t in
        fragment_min_max_loop X f T nullable min_values max_values null_count_values
          n' (t + 1) min' max'
      else
        fragment_min_max_loop X f T nullable min_values max_values null_count_values
          n' (t + 1) min max
  end.

(** The key of [idx_map_[name]]: [operator[]] on a name that is not a
    key would insert it with index 0; the callers pass keys. *)
Definition idx_of (name : string) (f : FragmentMetadata) : nat :=
  default 0%nat (idx_map_ f !! name).

(** [FragmentMetadata::compute_fragment_min_max_sum<T>], the primary
    template. *)
Definition compute_fragment_min_max_sum (X : Collaborators) (T : CType) (name : string)
    (f : FragmentMetadata) : outcome FragmentMetadata :=
  let idx := idx_of name f in
  let s := array_schema_ f in
  let nullable := schema_is_nullable s name in
  let is_dim := schema_is_dim s name in
  let type := schema_type s name in
  let cell_val_num := schema_cell_val_num s name in
  (* No metadata for dense coords *)
  if negb (schema_dense s) || negb is_dim then
    let has_min_max := has_min_max_metadata X type is_dim false cell_val_num in
    let has_sum := has_sum_metadata X type false cell_val_num in
    let! f1 :=
      if has_min_max then
        let! min_values := at_index (tile_min_buffer_ f) idx in
        let! max_values := at_index (tile_max_buffer_ f) idx in
        let! null_count_values := at_index (tile_null_counts_ f) idx in
        let! '(min, max) :=
          fragment_min_max_loop X f T nullable min_values max_values null_count_values
            (Z.to_nat (tile_num X f)) 0 (type_data_min X T) (type_data_max X T) in
        let! _slot := at_index (fragment_mins_ f) idx in
        let! _slot := at_index (fragment_maxs_ f) idx in
        Ok (set_fragment_maxs_ (<[idx := max]> (fragment_maxs_ f))
              (set_fragment_mins_ (<[idx := min]> (fragment_mins_ f)) f))
      else Ok f in
    if has_sum then compute_fragment_sum X (type_data_sum_type X T) idx nullable f1
    else Ok f1
  else Ok f.

(** The loop of the specialisation
    [compute_fragment_min_max_sum<char>].  [min] and [max] are
    pointers into the tile min and max buffers, here byte offsets
    ([None] is [nullptr]); [min_values] and [max_values] are the two
    running pointers.  As in the source, the running pointers advance
    inside the test on the null count. *)
Fixpoint fragment_min_max_char_loop (X : Collaborators) (f : FragmentMetadata)
    (nullable : bool) (cell_val_num : nat) (min_buffer max_buffer : list byte)
    (null_count_values : list Z) (n : nat) (t : Z)
    (min max : option nat) (min_values max_values : nat)
  : outcome (option nat * option nat) :=
  match n with
  | O => Ok (min, max)
  | S n' =>
      let! counts := tile_counts X f nullable null_count_values t in
      if counts then
        let min' :=
          match min with
          | None => Some min_values
          | Some m =>
              if 0 <? strncmp (drop m min_buffer) (drop min_values min_buffer) cell_val_num
              then Some min_values else min
          end in
        let min_values' := (min_values + cell_val_num)%nat in
        let max' :=
          match max with
          | None => Some max_values
          | Some m =>
              if strncmp (drop m max_buffer) (drop max_values max_buffer) cell_val_num <? 0
              then Some max_values else max
          end in
        let max_values' := (max_values + cell_val_num)%nat in
        fragment_min_max_char_loop X f nullable cell_val_num min_buffer max_buffer
          null_count_values n' (t + 1) min' max' min_values' max_values'
      else
        fragment_min_max_char_loop X f nullable cell_val_num min_buffer max_buffer
          null_count_values n' (t + 1) min max min_values max_values
  end.

(** [FragmentMetadata::compute_fragment_min_max_sum<char>] *)
Definition compute_fragment_min_max_sum_char (X : Collaborators) (name : string)
    (f : FragmentMetadata) : outcome FragmentMetadata :=
  let idx := idx_of name f in
  let s := array_schema_ f in
  let nullable := schema_is_nullable s name in
  let is_dim := schema_is_dim s name in
  let type := schema_type s name in
  let cell_val_num := schema_cell_val_num s name in
  (* Return if there's no min/max. *)
  if negb (has_min_max_metadata X type is_dim false cell_val_num) then Ok f
  else
    let! min_buffer := at_index (tile_min_buffer_ f) idx in
    let! max_buffer := at_index (tile_max_buffer_ f) idx in
    let! null_count_values := at_index (tile_null_counts_ f) idx in
    let! '(min, max) :=
      fragment_min_max_char_loop X f nullable (Z.to_nat cell_val_num)
        min_buffer max_buffer null_count_values (Z.to_nat (tile_num X f)) 0
        None None 0%nat 0%nat in
    (* Copy values. *)
    let! f1 :=
      match min with
      | Some m =>
          let! _slot := at_index (fragment_mins_ f) idx in
          Ok (set_fragment_mins_
                (<[idx := slice min_buffer m (Z.to_nat cell_val_num)]> (fragment_mins_ f)) f)
      | None => Ok f
      end in
    match max with
    | Some m =>
        let! _slot := at_index (fragment_maxs_ f1) idx in
        Ok (set_fragment_maxs_
              (<[idx := slice max_buffer m (Z.to_nat cell_val_num)]> (fragment_maxs_ f1)) f1)
    | None => Ok f1
    end.

(** The size of the var-sized value of tile [t]: up to the next
    offset, or up to the end of the var buffer for the last tile. *)
Definition var_value_size (tile_num t : Z) (offsets var_buffer : list byte) : outcome Z :=
  let! this := read_u64_at offsets t in
  if t =? wrap64 (tile_num - 1) then
    Ok (wrap64 (Z.of_nat (length var_buffer) - this))
  else
    let! next := read_u64_at offsets (t + 1) in
    Ok (wrap64 (next - this)).

(** The loop of [FragmentMetadata::min_max_var].  [min] and [max] are
    a pointer into the var buffer, as a byte offset, with a size. *)
Fixpoint min_max_var_loop (X : Collaborators) (f : FragmentMetadata) (nullable : bool)
    (min_offsets max_offsets min_values max_values : list byte)
    (null_count_values : list Z) (n : nat) (t : Z)
    (min max : option (nat * Z)) : outcome (option (nat * Z) * option (nat * Z)) :=
  match n with
  | O => Ok (min, max)
  | S n' =>
      let! counts := tile_counts X f nullable null_count_values t in
      if counts then
        let! min_offset := read_u64_at min_offsets t in
        let min_value := Z.to_nat min_offset in
        let! min_value_size := var_value_size (tile_num X f) t min_offsets min_values in
        let! max_offset := read_u64_at max_offsets t in
        let max_value := Z.to_nat max_offset in
        let! max_value_size := var_value_size (tile_num X f) t max_offsets max_values in
        let '(min', max') :=
          match min, max with
          | Some (mn, min_size), Some (mx, max_size) =>
              (* Process min. *)
              let min_cmp_size := Z.min min_size min_value_size in
              let cmp := strncmp (drop mn min_values) (drop min_value min_values)
                           (Z.to_nat min_cmp_size) in
              let new_min :=
                if negb (cmp =? 0) then
                  if 0 <? cmp then Some (min_value, min_value_size) else min
                else
                  if min_value_size <? min_size then Some (min_value, min_value_size)
                  else min in
              (* Process max. *)
              let max_cmp_size := Z.min max_size max_value_size in
              let cmp := strncmp (drop mx max_values) (drop max_value max_values)
                           (Z.to_nat max_cmp_size) in
              let new_max :=
                if negb (cmp =? 0) then
                  if cmp <? 0 then Some (max_value, max_value_size) else max
                else
                  if max_size <? max_value_size then Some (max_value, max_value_size)
                  else max in
              (new_min, new_max)
          | _, _ =>
              (Some (min_value, min_value_size), Some (max_value, max_value_size))
          end in
        min_max_var_loop X f nullable min_offsets max_offsets min_values max_values
          null_count_values n' (t + 1) min' max'
      else
        min_max_var_loop X f nullable min_offsets max_offsets min_values max_values
          null_count_values n' (t + 1) min max
  end.

(** [FragmentMetadata::min_max_var] *)
Definition min_max_var (X : Collaborators) (name : string) (f : FragmentMetadata)
  : outcome FragmentMetadata :=
  let s := array_schema_ f in
  let nullable := schema_is_nullable s name in
  let is_dim := schema_is_dim s name in
  let type := schema_type s name in
  let cell_val_num := schema_cell_val_num s name in
  let idx := idx_of name f in
  (* Return if there's no min/max. *)
  if negb (has_min_max_metadata X type is_dim true cell_val_num) then Ok f
  else
    let! min_offsets := at_index (tile_min_buffer_ f) idx in
    let! max_offsets := at_index (tile_max_buffer_ f) idx in
    let! min_values := at_index (tile_min_var_buffer_ f) idx in
    let! max_values := at_index (tile_max_var_buffer_ f) idx in
    let! null_count_values := at_index (tile_null_counts_ f) idx in
    let! '(min, max) :=
      min_max_var_loop X f nullable min_offsets max_offsets min_values max_values
        null_count_values (Z.to_nat (tile_num X f)) 0 None None in
    (* Copy values. *)
    let! f1 :=
      match min with
      | Some (m, min_size) =>
          let! _slot := at_index (fragment_mins_ f) idx in
          Ok (set_fragment_mins_
                (<[idx := slice min_values m (Z.to_nat min_size)]> (fragment_mins_ f)) f)
      | None => Ok f
      end in
    match max with
    | Some (m, max_size) =>
        let! _slot := at_index (fragment_maxs_ f1) idx in
        Ok (set_fragment_maxs_
              (<[idx := slice max_values m (Z.to_nat max_size)]> (fragment_maxs_ f1)) f1)
    | None => Ok f1
    end.

(** [std::accumulate(first, last, 0)] over [uint64_t] values.  The
    initial value [0] is an [int], so the accumulator is an [int]:
    each step adds in [uint64_t] and converts the sum back to [int]. *)
Definition accumulate_int (values : list Z) : Z :=
  fold_left (fun acc v => to_i32 (wrap64 (wrap64 acc + v))) values 0.

(** The body of the [parallel_for] of
    [compute_fragment_min_max_sum_null_count] for one field name. *)
Definition compute_fragment_field (X : Collaborators) (name : string)
    (f : FragmentMetadata) : outcome FragmentMetadata :=
  let idx := idx_of name f in
  let var_size := schema_var_size (array_schema_ f) name in
  let type := schema_type (array_schema_ f) name in
  (* Compute null count. *)
  let! null_counts := at_index (tile_null_counts_ f) idx in
  let! _slot := at_index (fragment_null_counts_ f) idx in
  let f1 :=
    set_fragment_null_counts_
      (<[idx := wrap64 (accumulate_int null_counts)]> (fragment_null_counts_ f)) f in
  if var_size then min_max_var X name f1
  else
    (* Switch depending on datatype. *)
    match type with
    | INT8 => compute_fragment_min_max_sum X Int8 name f1
    | INT16 => compute_fragment_min_max_sum X Int16 name f1
    | INT32 => compute_fragment_min_max_sum X Int32 name f1
    | INT64 => compute_fragment_min_max_sum X Int64 name f1
    | BOOL | UINT8 => compute_fragment_min_max_sum X UInt8 name f1
    | UINT16 => compute_fragment_min_max_sum X UInt16 name f1
    | UINT32 => compute_fragment_min_max_sum X UInt32 name f1
    | UINT64 => compute_fragment_min_max_sum X UInt64 name f1
    | FLOAT32 => compute_fragment_min_max_sum X Float32 name f1
    | FLOAT64 => compute_fragment_min_max_sum X Float64 name f1
    | DATETIME_YEAR | DATETIME_MONTH | DATETIME_WEEK | DATETIME_DAY | DATETIME_HR
    | DATETIME_MIN | DATETIME_SEC | DATETIME_MS | DATETIME_US | DATETIME_NS
    | DATETIME_PS | DATETIME_FS | DATETIME_AS
    | TIME_HR | TIME_MIN | TIME_SEC | TIME_MS | TIME_US | TIME_NS | TIME_PS
    | TIME_FS | TIME_AS => compute_fragment_min_max_sum X Int64 name f1
    | STRING_ASCII | CHAR => compute_fragment_min_max_sum_char X name f1
    | BLOB | GEOM_WKB | GEOM_WKT => compute_fragment_min_max_sum X StdByte name f1
    | _ => Ok f1
    end.

(** [FragmentMetadata::compute_fragment_min_max_sum_null_count]: the
    fields are processed in parallel in the source; each iteration
    writes the slots of its own field only, and the model takes them
    one after another. *)
Fixpoint compute_fragment_fields (X : Collaborators) (names : list string)
    (f : FragmentMetadata) : outcome FragmentMetadata :=
  match names with
  | [] => Ok f
  | name :: rest =>
      let! f' := compute_fragment_field X name f in
      compute_fragment_fields X rest f'
  end.

Definition compute_fragment_min_max_sum_null_count (X : Collaborators)
    (f : FragmentMetadata) : outcome FragmentMetadata :=
  compute_fragment_fields X (map fst (map_to_list (idx_map_ f))) f.

(** ** FragmentMetadata: accessors of the tile metadata *)

(** [FragmentMetadata::tile_var_size] *)
Definition tile_var_size (name : string) (tile_idx : Z) (f : FragmentMetadata) : outcome Z :=
  match idx_map_ f !! name with
  | None => AssertFail
  | Some idx =>
      let! loaded := at_index (LoadedMetadata.tile_var_sizes_ (loaded_metadata_ f)) idx in
      if negb loaded then
        Throw "Trying to access tile var size metadata that's not loaded"
      else
        let! row := at_index (tile_var_sizes_ f) idx in
        at_index row (Z.to_nat tile_idx)
  end.

(** The template argument of [get_tile_min_as] and [get_tile_max_as]:
    a value type, or [const void*]. *)
Inductive TileValueType : Type :=
  | ValueOf (T : CType)
  | ConstVoidPtr.

(** What [get_tile_min_as<T>] and [get_tile_max_as<T>] return for the
    slot that starts at [offset] in the buffer, where a cell has
    [size] bytes.  For a value type it is
    [*static_cast<const T*>(&buffer[offset])], the [sizeof(T)] bytes
    from [offset] on, whatever [size] is; a read that goes past the
    end of the buffer is undefined.  For [const void*] it is the
    address of the slot, and nothing is read: the result is given by
    the bytes of the slot pointed to. *)
Definition read_as (T : TileValueType) (buffer : list byte) (offset size : Z)
  : outcome (list byte) :=
  match T with
  | ValueOf T =>
      if offset + Z.of_nat (sizeof T) <=? Z.of_nat (length buffer)
      then Ok (slice buffer (Z.to_nat offset) (sizeof T))
      else Undefined
  | ConstVoidPtr => Ok (slice buffer (Z.to_nat offset) (Z.to_nat size))
  end.

(** [FragmentMetadata::get_tile_min_as<T>], the primary template. *)
Definition get_tile_min_as (X : Collaborators) (T : TileValueType) (name : string)
    (tile_idx : Z) (f : FragmentMetadata) : outcome (list byte) :=
  let s := array_schema_ f in
  let var_size := schema_var_size s name in
  if var_size then Throw "Trying to access tile min metadata as wrong type"
  else
    match idx_map_ f !! name with
    | None => AssertFail
    | Some idx =>
        let! loaded := at_index (LoadedMetadata.tile_min_ (loaded_metadata_ f)) idx in
        if negb loaded then
          Throw "Trying to access tile min metadata that's not loaded"
        else if negb (has_min_max_metadata X (schema_type s name) (schema_is_dim s name)
                        var_size (schema_cell_val_num s name)) then
          Throw "Trying to access tile min metadata that's not present"
        else
          let size := schema_cell_size s name in
          let! buf := at_index (tile_min_buffer_ f) idx in
          read_as T buf (wrap64 (tile_idx * size)) size
    end.

(** [FragmentMetadata::get_tile_max_as<T>], the primary template. *)
Definition get_tile_max_as (X : Collaborators) (T : TileValueType) (name : string)
    (tile_idx : Z) (f : FragmentMetadata) : outcome (list byte) :=
  let s := array_schema_ f in
  let var_size := schema_var_size s name in
  if var_size then Throw "Trying to access tile max metadata as wrong type"
  else
    match idx_map_ f !! name with
    | None => AssertFail
    | Some idx =>
        let! loaded := at_index (LoadedMetadata.tile_max_ (loaded_metadata_ f)) idx in
        if negb loaded then
          Throw "Trying to access tile max metadata that's not loaded"
        else if negb (has_min_max_metadata X (schema_type s name) (schema_is_dim s name)
                        var_size (schema_cell_val_num s name)) then
          Throw "Trying to access tile max metadata that's not present"
        else
          let size := schema_cell_size s name in
          let! buf := at_index (tile_max_buffer_ f) idx in
          read_as T buf (wrap64 (tile_idx * size)) size
    end.

Definition is_string_type (t : Datatype) : bool :=
  match t with
  | STRING_ASCII | CHAR => true
  | _ => false
  end.

(** The common end of the two [std::string_view] specialisations, on
    the fixed and the var buffer of the field. *)
Definition tile_string_view (X : Collaborators) (name : string) (tile_idx : Z)
    (buffer var_buffer : list byte) (f : FragmentMetadata) : outcome (list byte) :=
  if schema_var_size (array_schema_ f) name then
    let! offset := read_u64_at buffer tile_idx in
    let! size := var_value_size (tile_num X f) tile_idx buffer var_buffer in
    if size =? 0 then Ok []
    else Ok (slice var_buffer (Z.to_nat offset) (Z.to_nat size))
  else
    let size := schema_cell_size (array_schema_ f) name in
    Ok (slice buffer (Z.to_nat (wrap64 (tile_idx * size))) (Z.to_nat size)).

(** [FragmentMetadata::get_tile_min_as<std::string_view>] *)
Definition get_tile_min_as_string_view (X : Collaborators) (name : string) (tile_idx : Z)
    (f : FragmentMetadata) : outcome (list byte) :=
  let s := array_schema_ f in
  let type := schema_type s name in
  let var_size := schema_var_size s name in
  if negb var_size && negb (is_string_type type) then
    Throw "Trying to access tile min metadata as wrong type"
  else
    match idx_map_ f !! name with
    | None => AssertFail
    | Some idx =>
        let! loaded := at_index (LoadedMetadata.tile_min_ (loaded_metadata_ f)) idx in
        if negb loaded then
          Throw "Trying to access tile min metadata that's not loaded"
        else if negb (has_min_max_metadata X type (schema_is_dim s name)
                        var_size (schema_cell_val_num s name)) then
          Throw "Trying to access tile min metadata that's not present"
        else
          let! buffer := at_index (tile_min_buffer_ f) idx in
          let! var_buffer := at_index (tile_min_var_buffer_ f) idx in
          tile_string_view X name tile_idx buffer var_buffer f
    end.

(** [FragmentMetadata::get_tile_max_as<std::string_view>] *)
Definition get_tile_max_as_string_view (X : Collaborators) (name : string) (tile_idx : Z)
    (f : FragmentMetadata) : outcome (list byte) :=
  let s := array_schema_ f in
  let type := schema_type s name in
  let var_size := schema_var_size s name in
  if negb var_size && negb (is_string_type type) then
    Throw "Trying to access tile max metadata as wrong type"
  else
    match idx_map_ f !! name with
    | None => AssertFail
    | Some idx =>
        let! loaded := at_index (LoadedMetadata.tile_max_ (loaded_metadata_ f)) idx in
        if negb loaded then
          Throw "Trying to access tile max metadata that's not loaded"
        else if negb (has_min_max_metadata X type (schema_is_dim s name)
                        var_size (schema_cell_val_num s name)) then
          Throw "Trying to access tile max metadata that's not present"
        else
          let! buffer := at_index (tile_max_buffer_ f) idx in
          let! var_buffer := at_index (tile_max_var_buffer_ f) idx in
          tile_string_view X name tile_idx buffer var_buffer f
    end.

(** [FragmentMetadata::get_tile_sum]: the eight bytes pointed to. *)
Definition get_tile_sum (X : Collaborators) (name : string) (tile_idx : Z)
    (f : FragmentMetadata) : outcome (list byte) :=
  match idx_map_ f !! name with
  | None => AssertFail
  | Some idx =>
      let! loaded := at_index (LoadedMetadata.tile_sum_ (loaded_metadata_ f)) idx in
      if negb loaded then
        Throw "Trying to access tile sum metadata that's not loaded"
      else
        let s := array_schema_ f in
        if negb (has_sum_metadata X (schema_type s name) (schema_var_size s name)
                   (schema_cell_val_num s name)) then
          Throw "Trying to access tile sum metadata that's not present"
        else
          let! buf := at_index (tile_sums_ f) idx in
          Ok (slice buf (Z.to_nat (wrap64 (tile_idx * 8))) 8)
  end.

(** [FragmentMetadata::get_tile_null_count] *)
Definition get_tile_null_count (name : string) (tile_idx : Z) (f : FragmentMetadata)
  : outcome Z :=
  match idx_map_ f !! name with
  | None => AssertFail
  | Some idx =>
      let! loaded := at_index (LoadedMetadata.tile_null_count_ (loaded_metadata_ f)) idx in
      if negb loaded then
        Throw "Trying to access tile null count metadata that's not loaded"
      else if negb (schema_is_nullable (array_schema_ f) name) then
        Throw "Trying to access tile null count metadata that's not present"
      else
        let! row := at_index (tile_null_counts_ f) idx in
        at_index row (Z.to_nat tile_idx)
  end.

(** [FragmentMetadata::get_min] *)
Definition get_min (X : Collaborators) (name : string) (f : FragmentMetadata)
  : outcome (list byte) :=
  match idx_map_ f !! name with
  | None => AssertFail
  | Some idx =>
      if negb (LoadedMetadata.fragment_min_max_sum_null_count_ (loaded_metadata_ f)) then
        Throw "Trying to access fragment min metadata that's not loaded"
      else
        let s := array_schema_ f in
        if negb (has_min_max_metadata X (schema_type s name) (schema_is_dim s name)
                   (schema_var_size s name) (schema_cell_val_num s name)) then
          Throw "Trying to access fragment min metadata that's not present"
        else at_index (fragment_mins_ f) idx
  end.

(** [FragmentMetadata::get_max] *)
Definition get_max (X : Collaborators) (name : string) (f : FragmentMetadata)
  : outcome (list byte) :=
  match idx_map_ f !! name with
  | None => AssertFail
  | Some idx =>
      if negb (LoadedMetadata.fragment_min_max_sum_null_count_ (loaded_metadata_ f)) then
        Throw "Trying to access fragment max metadata that's not loaded"
      else
        let s := array_schema_ f in
        if negb (has_min_max_metadata X (schema_type s name) (schema_is_dim s name)
                   (schema_var_size s name) (schema_cell_val_num s name)) then
          Throw "Trying to access fragment max metadata that's not present"
        else at_index (fragment_maxs_ f) idx
  end.

(** [FragmentMetadata::get_sum]: the [uint64_t] pointed to. *)
Definition get_sum (X : Collaborators) (name : string) (f : FragmentMetadata) : outcome Z :=
  match idx_map_ f !! name with
  | None => AssertFail
  | Some idx =>
      if negb (LoadedMetadata.fragment_min_max_sum_null_count_ (loaded_metadata_ f)) then
        Throw "Trying to access fragment sum metadata that's not loaded"
      else
        let s := array_schema_ f in
        if negb (has_sum_metadata X (schema_type s name) (schema_var_size s name)
                   (schema_cell_val_num s name)) then
          Throw "Trying to access fragment sum metadata that's not present"
        else at_index (fragment_sums_ f) idx
  end.

(** [FragmentMetadata::get_null_count] *)
Definition get_null_count (name : string) (f : FragmentMetadata) : outcome Z :=
  match idx_map_ f !! name with
  | None => AssertFail
  | Some idx =>
      if negb (LoadedMetadata.fragment_min_max_sum_null_count_ (loaded_metadata_ f)) then
        Throw "Trying to access fragment null count metadata that's not loaded"
      else if negb (schema_is_nullable (array_schema_ f) name) then
        Throw "Trying to access fragment null count metadata that's not present"
      else at_index (fragment_null_counts_ f) idx
  end.

(** [FragmentMetadata::get_tile_overlap] *)
Definition get_tile_overlap (X : Collaborators) (range : NDRange) (is_default : list bool)
    (f : FragmentMetadata) : outcome TileOverlap :=
  assert_then ((version_ f <=? 2) || LoadedMetadata.rtree_ (loaded_metadata_ f))
    (Ok (rtree_get_tile_overlap X (rtree_ f) range is_default)).

(** [FragmentMetadata::compute_tile_bitmap] *)
Definition compute_tile_bitmap (X : Collaborators) (range : Range) (d : Z)
    (tile_bitmap : list byte) (f : FragmentMetadata) : outcome (list byte) :=
  assert_then ((version_ f <=? 2) || LoadedMetadata.rtree_ (loaded_metadata_ f))
    (Ok (rtree_compute_tile_bitmap X (rtree_ f) range d tile_bitmap)).

(** ** FragmentMetadata: lazy sections *)

(** The [uint64_t] values a vector holds after [v.resize(num)] and a
    read of [size] bytes of [d] into it. *)
Definition resize_and_read (num size : Z) (d : list byte) : list Z :=
  map (fun t => if Z.of_nat t <? size / 8 then read_u64 d t else 0)
      (seq 0 (Z.to_nat num)).

(** [memory_tracker_ != nullptr && !memory_tracker_->take_memory(size, type)]
    and the tracker afterwards. *)
Definition take_or_refuse (size : Z) (ty : MemoryTracker.MemoryType)
    (mt : option MemoryTracker.t) : bool * option MemoryTracker.t :=
  match mt with
  | None => (false, None)
  | Some m =>
      let '(ok, m') := MemoryTracker.take_memory size ty m in
      (negb ok, Some m')
  end.

(** The body shared, word for word but for the messages, by
    [load_tile_offsets(idx, deserializer)],
    [load_tile_var_offsets(idx, deserializer)],
    [load_tile_var_sizes(idx, deserializer)] and
    [load_tile_validity_offsets(idx, buff)]: the number of values,
    then the values.  [None] is returned for the vector when the
    number is 0 and the vector is left as it is.

    Modelled from the spec: the [Deserializer] and [ConstBuffer]
    classes are missing from the sources at hand; a read past the end
    of the tile is an error ("any short read"). *)
Definition load_u64_section (msg_num msg_budget msg_data : string) (d : list byte)
    (mt : option MemoryTracker.t) : outcome (option (list Z) * option MemoryTracker.t) :=
  if Z.of_nat (length d) <? 8 then Throw msg_num
  else
    let num := le_combine (take 8 d) in
    let d' := drop 8 d in
    if negb (num =? 0) then
      let size := wrap64 (num * 8) in
      let '(refused, mt') := take_or_refuse size MemoryTracker.TILE_OFFSETS mt in
      if refused then Throw msg_budget
      else if Z.of_nat (length d') <? size then Throw msg_data
      else Ok (Some (resize_and_read num size d'), mt')
    else Ok (None, mt).

(** [FragmentMetadata::load_tile_offsets(encryption_key, idx)] with
    [load_tile_offsets(idx, deserializer)] *)
Definition load_tile_offsets (X : Collaborators) (idx : nat) (f : FragmentMetadata)
  : outcome FragmentMetadata :=
  if version_ f <=? 2 then Ok f
  else
    let! loaded := at_index (LoadedMetadata.tile_offsets_ (loaded_metadata_ f)) idx in
    if loaded then Ok f
    else
      let! offset := at_index (GenericTileOffsets.tile_offsets_ (gt_offsets_ f)) idx in
      let! tile := read_generic X offset in
      let! '(values, mt) :=
        load_u64_section "Reading data past end of serialized data size"
          "Cannot load tile offsets; Insufficient memory budget"
          "Reading data past end of serialized data size" tile (memory_tracker_ f) in
      let! rows :=
        match values with
        | Some row =>
            let! _slot := at_index (tile_offsets_ f) idx in
            Ok (<[idx := row]> (tile_offsets_ f))
        | None => Ok (tile_offsets_ f)
        end in
      Ok (set_loaded_metadata_
            (LoadedMetadata.set_tile_offsets_
               (<[idx := true]> (LoadedMetadata.tile_offsets_ (loaded_metadata_ f)))
               (loaded_metadata_ f))
            (set_memory_tracker_ mt (set_tile_offsets_ rows f))).

(** [FragmentMetadata::load_tile_var_offsets(encryption_key, idx)] with
    [load_tile_var_offsets(idx, deserializer)] *)
Definition load_tile_var_offsets (X : Collaborators) (idx : nat) (f : FragmentMetadata)
  : outcome FragmentMetadata :=
  if version_ f <=? 2 then Ok f
  else
    let! loaded := at_index (LoadedMetadata.tile_var_offsets_ (loaded_metadata_ f)) idx in
    if loaded then Ok f
    else
      let! offset := at_index (GenericTileOffsets.tile_var_offsets_ (gt_offsets_ f)) idx in
      let! tile := read_generic X offset in
      let! '(values, mt) :=
        load_u64_section "Reading data past end of serialized data size"
          "Cannot load tile var offsets; Insufficient memory budget"
          "Reading data past end of serialized data size" tile (memory_tracker_ f) in
      let! rows :=
        match values with
        | Some row =>
            let! _slot := at_index (tile_var_offsets_ f) idx in
            Ok (<[idx := row]> (tile_var_offsets_ f))
        | None => Ok (tile_var_offsets_ f)
        end in
      Ok (set_loaded_metadata_
            (LoadedMetadata.set_tile_var_offsets_
               (<[idx := true]> (LoadedMetadata.tile_var_offsets_ (loaded_metadata_ f)))
               (loaded_metadata_ f))
            (set_memory_tracker_ mt (set_tile_var_offsets_ rows f))).

(** [FragmentMetadata::load_tile_var_sizes(encryption_key, idx)] with
    [load_tile_var_sizes(idx, deserializer)] *)
Definition load_tile_var_sizes (X : Collaborators) (idx : nat) (f : FragmentMetadata)
  : outcome FragmentMetadata :=
  if version_ f <=? 2 then Ok f
  else
    let! loaded := at_index (LoadedMetadata.tile_var_sizes_ (loaded_metadata_ f)) idx in
    if loaded then Ok f
    else
      let! offset := at_index (GenericTileOffsets.tile_var_sizes_ (gt_offsets_ f)) idx in
      let! tile := read_generic X offset in
      let! '(values, mt) :=
        load_u64_section "Reading data past end of serialized data size"
          "Cannot load tile var sizes; Insufficient memory budget"
          "Reading data past end of serialized data size" tile (memory_tracker_ f) in
      let! rows :=
        match values with
        | Some row =>
            let! _slot := at_index (tile_var_sizes_ f) idx in
            Ok (<[idx := row]> (tile_var_sizes_ f))
        | None => Ok (tile_var_sizes_ f)
        end in
      Ok (set_loaded_metadata_
            (LoadedMetadata.set_tile_var_sizes_
               (<[idx := true]> (LoadedMetadata.tile_var_sizes_ (loaded_metadata_ f)))
               (loaded_metadata_ f))
            (set_memory_tracker_ mt (set_tile_var_sizes_ rows f))).

(** [FragmentMetadata::load_tile_validity_offsets(encryption_key, idx)]
    with [load_tile_validity_offsets(idx, buff)] *)
Definition load_tile_validity_offsets (X : Collaborators) (idx : nat) (f : FragmentMetadata)
  : outcome FragmentMetadata :=
  if version_ f <=? 6 then Ok f
  else
    let! loaded :=
      at_index (LoadedMetadata.tile_validity_offsets_ (loaded_metadata_ f)) idx in
    if loaded then Ok f
    else
      let! offset :=
        at_index (GenericTileOffsets.tile_validity_offsets_ (gt_offsets_ f)) idx in
      let! tile := read_generic X offset in
      let! '(values, mt) :=
        load_u64_section
          "Cannot load fragment metadata; Reading number of validity tile offsets failed"
          "Cannot load tile validity offsets; Insufficient memory budget"
          "Cannot load fragment metadata; Reading validity tile offsets failed"
          tile (memory_tracker_ f) in
      let! rows :=
        match values with
        | Some row =>
            let! _slot := at_index (tile_validity_offsets_ f) idx in
            Ok (<[idx := row]> (tile_validity_offsets_ f))
        | None => Ok (tile_validity_offsets_ f)
        end in
      Ok (set_loaded_metadata_
            (LoadedMetadata.set_tile_validity_offsets_
               (<[idx := true]>
                  (LoadedMetadata.tile_validity_offsets_ (loaded_metadata_ f)))
               (loaded_metadata_ f))
            (set_memory_tracker_ mt (set_tile_validity_offsets_ rows f))).

(** [FragmentMetadata::load_rtree] *)
Definition load_rtree (X : Collaborators) (f : FragmentMetadata) : outcome FragmentMetadata :=
  if version_ f <=? 2 then Ok f
  else if LoadedMetadata.rtree_ (loaded_metadata_ f) then Ok f
  else
    let! tile := read_generic X (GenericTileOffsets.rtree_ (gt_offsets_ f)) in
    (* Use the serialized buffer size to approximate memory usage of the rtree. *)
    let '(refused, mt) :=
      take_or_refuse (Z.of_nat (length tile)) MemoryTracker.RTREE (memory_tracker_ f) in
    if refused then Throw "Cannot load R-tree; Insufficient memory budget"
    else
      let! rtree := rtree_deserialize X tile (array_schema_ f) (version_ f) in
      Ok (set_loaded_metadata_
            (LoadedMetadata.set_rtree_ true (loaded_metadata_ f))
            (set_memory_tracker_ mt (set_rtree_ rtree f))).

(** [memory_tracker_->release_memory(n, type)] when there is a
    tracker. *)
Definition release (n : Z) (ty : MemoryTracker.MemoryType)
    (mt : option MemoryTracker.t) : option MemoryTracker.t :=
  match mt with
  | None => None
  | Some m => Some (MemoryTracker.release_memory n ty m)
  end.


(** One loop of [free_tile_offsets] over the vectors [rows] of a
    section, from field [i] on: the bytes of each vector are released,
    the vector is cleared and its loaded flag reset.  The cleared
    vectors are returned with the flags and the tracker. *)
Fixpoint free_section (rows : list (list Z)) (i : nat) (flags : list bool)
    (mt : option MemoryTracker.t)
  : outcome (list (list Z) * list bool * option MemoryTracker.t) :=
  match rows with
  | [] => Ok ([], flags, mt)
  | row :: rest =>
      let mt' :=
        release (wrap64 (Z.of_nat (length row) * 8)) MemoryTracker.TILE_OFFSETS mt in
      let! _flag := at_index flags i in
      let! '(rest', flags', mt'') := free_section rest (S i) (<[i := false]> flags) mt' in
      Ok ([] :: rest', flags', mt'')
  end.

(** [FragmentMetadata::free_tile_offsets]: five loops, the first and
    the third over the fixed tile offsets. *)
Definition free_tile_offsets (f : FragmentMetadata) : outcome FragmentMetadata :=
  let lm := loaded_metadata_ f in
  let! '(offsets1, flags_offsets1, mt1) :=
    free_section (tile_offsets_ f) 0 (LoadedMetadata.tile_offsets_ lm) (memory_tracker_ f) in
  let! '(var_offsets, flags_var_offsets, mt2) :=
    free_section (tile_var_offsets_ f) 0 (LoadedMetadata.tile_var_offsets_ lm) mt1 in
  let! '(offsets, flags_offsets, mt3) :=
    free_section offsets1 0 flags_offsets1 mt2 in
  let! '(validity_offsets, flags_validity_offsets, mt4) :=
    free_section (tile_validity_offsets_ f) 0
      (LoadedMetadata.tile_validity_offsets_ lm) mt3 in
  let! '(var_sizes, flags_var_sizes, mt5) :=
    free_section (tile_var_sizes_ f) 0 (LoadedMetadata.tile_var_sizes_ lm) mt4 in
  Ok (set_loaded_metadata_
        (LoadedMetadata.set_tile_var_sizes_ flags_var_sizes
           (LoadedMetadata.set_tile_validity_offsets_ flags_validity_offsets
              (LoadedMetadata.set_tile_var_offsets_ flags_var_offsets
                 (LoadedMetadata.set_tile_offsets_ flags_offsets lm))))
        (set_memory_tracker_ mt5
           (set_tile_var_sizes_ var_sizes
              (set_tile_validity_offsets_ validity_offsets
                 (set_tile_var_offsets_ var_offsets
                    (set_tile_offsets_ offsets f)))))).

(** ** FragmentMetadata: the footer and its trailer *)

(** The storage VFS, as the spec has it: an abstract blob store; a
    write appends to the file, a read returns the bytes asked for or
    fails. *)
Definition vfs_write (file data : list byte) : list byte := file ++ data.

Definition vfs_read (file : list byte) (offset nbytes : Z) : outcome (list byte) :=
  if (0 <=? offset) && (offset + nbytes <=? Z.of_nat (length file))
  then Ok (slice file (Z.to_nat offset) (Z.to_nat nbytes))
  else Throw "Cannot read from file; Read exceeds file size".

(** [FragmentMetadata::write_footer_to_file] on the metadata file *)
Definition write_footer_to_file (tile : list byte) (f : FragmentMetadata)
    (file : list byte) : list byte :=
  let size := Z.of_nat (length tile) in
  let file := vfs_write file tile in
  (* Write the size in the end if there is at least one var-sized dimension *)
  if negb (all_dims_fixed (array_schema_ f)) || (10 <=? version_ f)
  then vfs_write file (u64_bytes size)
  else file.

(** [FragmentMetadata::footer_size_v3_v4] *)
Definition footer_size_v3_v4 (f : FragmentMetadata) : outcome Z :=
  let s := array_schema_ f in
  let attribute_num := schema_attribute_num s in
  let! dim0 := at_index (schema_dimensions s) 0 in
  let domain_size := 2 * dim_num s * dim_coord_size dim0 in
  Ok (wrap64 (4 + 1 + 1 + domain_size + 8 + 8
              + (attribute_num + 1) * 8 + attribute_num * 8 + 8
              + (attribute_num + 1) * 8 + attribute_num * 8 + attribute_num * 8)).

(** The size of the non-empty domain in the footer, as
    [footer_size_v5_v6] and [footer_size_v7_v9] compute it. *)
Fixpoint domain_size_of (dims : list DimensionInfo) (ned : NDRange) : outcome Z :=
  match dims with
  | [] => Ok 0
  | d :: dims' =>
      let! r := at_index ned 0 in
      let! rest := domain_size_of dims' (tl ned) in
      Ok (Z.of_nat (length r) + (if dim_var_size d then 16 else 0) + rest)
  end.

Definition footer_domain_size (f : FragmentMetadata) : outcome Z :=
  let s := array_schema_ f in
  match non_empty_domain_ f with
  | [] =>
      assert_then (all_dims_fixed s)
        (Ok (sum_list_Z (map (fun d => 2 * dim_coord_size d) (schema_dimensions s))))
  | _ => domain_size_of (schema_dimensions s) (non_empty_domain_ f)
  end.

(** [FragmentMetadata::footer_size_v5_v6] *)
Definition footer_size_v5_v6 (f : FragmentMetadata) : outcome Z :=
  let num := num_dims_and_attrs f in
  let! domain_size := footer_domain_size f in
  Ok (wrap64 (4 + 1 + 1 + domain_size + 8 + 8 + num * 8 + num * 8 + 8
              + num * 8 + num * 8 + num * 8)).

(** [FragmentMetadata::footer_size_v7_v9] *)
Definition footer_size_v7_v9 (f : FragmentMetadata) : outcome Z :=
  let num := num_dims_and_attrs f in
  let! domain_size := footer_domain_size f in
  Ok (wrap64 (4 + 1 + 1 + domain_size + 8 + 8 + num * 8 + num * 8 + num * 8 + 8
              + num * 8 + num * 8 + num * 8 + num * 8)).

(** [FragmentMetadata::get_footer_offset_and_size] on the metadata
    file: the pair of [*offset] and [*size]. *)
Definition get_footer_offset_and_size (X : Collaborators) (f : FragmentMetadata)
    (file : list byte) : outcome (Z * Z) :=
  let fragment_format_version := get_fragment_version X (fragment_uri_ f) in
  let all_fixed := all_dims_fixed (array_schema_ f) in
  if all_fixed && (fragment_format_version <? 5) then
    let! size := footer_size_v3_v4 f in
    Ok (wrap64 (meta_file_size_ f - size), size)
  else if all_fixed && (fragment_format_version <? 7) then
    let! size := footer_size_v5_v6 f in
    Ok (wrap64 (meta_file_size_ f - size), size)
  else if all_fixed && (fragment_format_version <? 10) then
    let! size := footer_size_v7_v9 f in
    Ok (wrap64 (meta_file_size_ f - size), size)
  else
    let size_offset := wrap64 (meta_file_size_ f - 8) in
    let! bytes := vfs_read file size_offset 8 in
    let size := le_combine bytes in
    Ok (wrap64 (wrap64 (meta_file_size_ f - size) - 8), size).

(** The condition under which the metadata file ends with the size of
    its footer. *)
Definition has_footer_size_trailer (all_fixed : bool) (version : Z) : bool :=
  negb all_fixed || (10 <=? version).

(** ** Specification-side notions *)

(** The sum of [l] from [acc] on, in exact arithmetic, stopped at the
    first partial sum that leaves [lo, hi]: the result is then the
    limit that was crossed. *)
Fixpoint saturating_sum (lo hi acc : Z) (l : list Z) : Z :=
  match l with
  | [] => acc
  | v :: r =>
      if hi <? acc + v then hi
      else if acc + v <? lo then lo
      else saturating_sum lo hi (acc + v) r
  end.

(** Whether tile [t] of a field is entirely null: the field is
    nullable and the null count of the tile is its cell count. *)
Definition entirely_null (X : Collaborators) (f : FragmentMetadata) (nullable : bool)
    (null_counts : list Z) (t : nat) : bool :=
  nullable && (default 0 (null_counts !! t) =? cell_num X (Z.of_nat t) f).

(** The entries of [vals], one per tile from tile [t] on, of the tiles
    that are not entirely null. *)
Fixpoint not_null_from {A : Type} (X : Collaborators) (f : FragmentMetadata)
    (nullable : bool) (null_counts : list Z) (t : nat) (vals : list A) : list A :=
  match vals with
  | [] => []
  | v :: r =>
      let rest := not_null_from X f nullable null_counts (S t) r in
      if entirely_null X f nullable null_counts t then rest else v :: rest
  end.

(** The minimum and the maximum of a non-empty list of integers. *)
Definition list_min (x : Z) (l : list Z) : Z := fold_left Z.min l x.
Definition list_max (x : Z) (l : list Z) : Z := fold_left Z.max l x.

(** ** A small array used in examples

    A sparse array with a given capacity, one [INT32] dimension ["d"] and
    five attributes: ["a"] ([INT64], nullable), ["c"] ([CHAR], one
    character per cell, nullable), ["s"] ([STRING_ASCII], var-sized,
    nullable), ["u"] ([UINT64]) and ["x"] ([FLOAT64]). *)

Definition example_schema_with (capacity : Z) : ArraySchema := {|
  schema_type := fun name =>
    if String.eqb name "a" then INT64
    else if String.eqb name "c" then CHAR
    else if String.eqb name "s" then STRING_ASCII
    else if String.eqb name "u" then UINT64
    else if String.eqb name "x" then FLOAT64
    else INT32;
  schema_var_size := fun name => String.eqb name "s";
  schema_is_nullable := fun name =>
    String.eqb name "a" || String.eqb name "c" || String.eqb name "s";
  schema_is_dim := fun name => String.eqb name "d";
  schema_cell_val_num := fun name => if String.eqb name "s" then 2 ^ 32 - 1 else 1;
  schema_cell_size := fun name =>
    if String.eqb name "c" then 1
    else if String.eqb name "d" then 4
    else if String.eqb name "s" then u64_max
    else 8;
  schema_dense := false;
  schema_capacity := capacity;
  schema_cell_num_per_tile := 0;
  schema_attribute_num := 5;
  schema_dimensions := [ {| dim_var_size := false; dim_coord_size := 4 |} ];
  schema_write_version := 16
|}.

Definition example_idx_map : gmap string nat :=
  list_to_map [("a", 0%nat); ("c", 1%nat); ("s", 2%nat); ("u", 3%nat); ("x", 4%nat);
               ("__coords", 5%nat); ("d", 6%nat)].

Definition example_tracker : MemoryTracker.t := {|
  MemoryTracker.memory_budget := 1000;
  MemoryTracker.memory_available := 1000;
  MemoryTracker.memory_usage := fun _ => 0
|}.

Definition example_schema : ArraySchema := example_schema_with 100.

(** A fragment of the example array as it is after the footer has been
    loaded: format version [version], [tiles] full tiles, no section
    in memory. *)
Definition example_fragment_with (capacity version tiles : Z) : FragmentMetadata := {|
  array_schema_ := example_schema_with capacity;
  dense_ := false;
  domain_ := [];
  non_empty_domain_ := [];
  file_sizes_ := replicate 7 0;
  file_var_sizes_ := replicate 7 0;
  file_validity_sizes_ := replicate 7 0;
  footer_size_ := 0;
  footer_offset_ := 0;
  fragment_uri_ := "mem://array/__fragments/__1_1_0123456789abcdef_16";
  fragment_mins_ := replicate 7 [];
  fragment_maxs_ := replicate 7 [];
  fragment_sums_ := replicate 7 0;
  fragment_null_counts_ := replicate 7 0;
  gt_offsets_ := {|
    GenericTileOffsets.rtree_ := 0;
    GenericTileOffsets.tile_offsets_ := [100; 101; 102; 103; 104; 105; 106];
    GenericTileOffsets.tile_var_offsets_ := [200; 201; 202; 203; 204; 205; 206];
    GenericTileOffsets.tile_var_sizes_ := [300; 301; 302; 303; 304; 305; 306];
    GenericTileOffsets.tile_validity_offsets_ := [400; 401; 402; 403; 404; 405; 406];
    GenericTileOffsets.tile_min_offsets_ := replicate 7 0;
    GenericTileOffsets.tile_max_offsets_ := replicate 7 0;
    GenericTileOffsets.tile_sum_offsets_ := replicate 7 0;
    GenericTileOffsets.tile_null_count_offsets_ := replicate 7 0;
    GenericTileOffsets.fragment_min_max_sum_null_count_offset_ := 0;
    GenericTileOffsets.processed_conditions_offsets_ := 0
  |};
  has_timestamps_ := false;
  has_delete_meta_ := false;
  idx_map_ := example_idx_map;
  last_tile_cell_num_ := capacity;
  loaded_metadata_ := {|
    LoadedMetadata.footer_ := true;
    LoadedMetadata.rtree_ := false;
    LoadedMetadata.tile_offsets_ := replicate 7 false;
    LoadedMetadata.tile_var_offsets_ := replicate 7 false;
    LoadedMetadata.tile_var_sizes_ := replicate 7 false;
    LoadedMetadata.tile_validity_offsets_ := replicate 7 false;
    LoadedMetadata.tile_min_ := replicate 7 false;
    LoadedMetadata.tile_max_ := replicate 7 false;
    LoadedMetadata.tile_sum_ := replicate 7 false;
    LoadedMetadata.tile_null_count_ := replicate 7 false;
    LoadedMetadata.fragment_min_max_sum_null_count_ := false;
    LoadedMetadata.processed_conditions_ := false
  |};
  memory_tracker_ := Some example_tracker;
  meta_file_size_ := 0;
  rtree_ := {| levels_ := []; deserialized_buffer_size_ := 0 |};
  sparse_tile_num_ := tiles;
  tile_index_base_ := 0;
  tile_min_buffer_ := replicate 7 [];
  tile_min_var_buffer_ := replicate 7 [];
  tile_max_buffer_ := replicate 7 [];
  tile_max_var_buffer_ := replicate 7 [];
  tile_null_counts_ := replicate 7 [];
  tile_offsets_ := replicate 7 [];
  tile_var_offsets_ := replicate 7 [];
  tile_var_sizes_ := replicate 7 [];
  tile_validity_offsets_ := replicate 7 [];
  tile_sums_ := replicate 7 [];
  version_ := version
|}.

Definition example_fragment (version tiles : Z) : FragmentMetadata :=
  example_fragment_with 100 version tiles.

(** The loaded flags with every section of every field in memory. *)
Definition all_loaded : LoadedMetadata.t := {|
  LoadedMetadata.footer_ := true;
  LoadedMetadata.rtree_ := true;
  LoadedMetadata.tile_offsets_ := replicate 7 true;
  LoadedMetadata.tile_var_offsets_ := replicate 7 true;
  LoadedMetadata.tile_var_sizes_ := replicate 7 true;
  LoadedMetadata.tile_validity_offsets_ := replicate 7 true;
  LoadedMetadata.tile_min_ := replicate 7 true;
  LoadedMetadata.tile_max_ := replicate 7 true;
  LoadedMetadata.tile_sum_ := replicate 7 true;
  LoadedMetadata.tile_null_count_ := replicate 7 true;
  LoadedMetadata.fragment_min_max_sum_null_count_ := true;
  LoadedMetadata.processed_conditions_ := true
|}.

Definition is_signed_ctype (T : CType) : bool :=
  match T with
  | Int8 | Int16 | Int32 | Int64 => true
  | _ => false
  end.

(** Collaborators for the examples.  The policy bits follow the
    specification ("booleans, UTF-16/32, UCS-2/4, any, blob/geom: no
    min/max/sum"; the sum accumulates in [int64_t] for signed types,
    [uint64_t] for unsigned ones, [double] for floats); the minimum
    starts from the largest value of the type and the maximum from the
    lowest; the metadata file holds a tile of three offsets for the
    first attribute; a sum that is a NaN is the one an x86-64 gives
    (the first operand that is a NaN, made quiet, and the default NaN
    when neither is). *)
Definition example_collaborators : Collaborators := {|
  has_min_max_metadata := fun type is_dim var_size cell_val_num =>
    match type with
    | BOOL | BLOB | GEOM_WKB | GEOM_WKT | ANY
    | STRING_UTF16 | STRING_UTF32 | STRING_UCS2 | STRING_UCS4 => false
    | _ => true
    end;
  has_sum_metadata := fun type var_size cell_val_num =>
    negb var_size && (cell_val_num =? 1) &&
    match type with
    | BOOL | BLOB | GEOM_WKB | GEOM_WKT | ANY | CHAR | STRING_ASCII | STRING_UTF8
    | STRING_UTF16 | STRING_UTF32 | STRING_UCS2 | STRING_UCS4 => false
    | _ => true
    end;
  type_data_min := fun T =>
    match T with
    | Float32 => le_split 4 (254 * 2 ^ 23 + (2 ^ 23 - 1))
    | Float64 => le_split 8 (2046 * 2 ^ 52 + (2 ^ 52 - 1))
    | _ =>
        let w := 8 * Z.of_nat (sizeof T) in
        le_split (sizeof T) (if is_signed_ctype T then 2 ^ (w - 1) - 1 else 2 ^ w - 1)
    end;
  type_data_max := fun T =>
    match T with
    | Float32 => le_split 4 (2 ^ 31 + 254 * 2 ^ 23 + (2 ^ 23 - 1))
    | Float64 => le_split 8 (2 ^ 63 + 2046 * 2 ^ 52 + (2 ^ 52 - 1))
    | _ =>
        let w := 8 * Z.of_nat (sizeof T) in
        le_split (sizeof T) (if is_signed_ctype T then 2 ^ (w - 1) else 0)
    end;
  type_data_sum_type := fun T =>
    match T with
    | Int8 | Int16 | Int32 | Int64 => SumInt64
    | Float32 | Float64 => SumDouble
    | _ => SumUInt64
    end;
  get_fragment_version := fun _ => 16;
  domain_tile_num := fun _ _ => 1;
  read_generic := fun offset =>
    if offset =? 0 then Ok (u64_bytes 1 ++ u64_bytes 7)
    else if offset =? 100 then Ok (u64_buffer [3; 0; 10; 30])
    else Ok (u64_buffer [0]);
  rtree_read_levels := fun tile _ _ => Ok [[[tile]]];
  rtree_get_tile_overlap := fun _ _ _ => {| tile_ranges_ := []; tiles_ := [] |};
  rtree_compute_tile_bitmap := fun _ _ _ bitmap => bitmap;
  double_add_nan := fun a b =>
    if is_nan_bits a then Z.lor a (2 ^ 51)
    else if is_nan_bits b then Z.lor b (2 ^ 51)
    else 2 ^ 63 + 2047 * 2 ^ 52 + 2 ^ 51
|}.

(** The bytes of a string literal. *)
Definition bytes_of (s : string) : list byte := list_byte_of_string s.

(** A fragment of the example array [base] with its per-tile metadata
    in memory: every buffer is sized for the tiles of [base] and zero,
    as [set_num_tiles] leaves it, but for one field [idx], which has
    the given tile min and max buffers (fixed and var), tile sums and
    tile null counts.  Every section is marked loaded. *)
Definition example_tile_metadata_on (base : FragmentMetadata) (idx : nat)
    (mins maxs min_var max_var sums : list byte) (null_counts : list Z)
  : FragmentMetadata :=
  let n := Z.to_nat (sparse_tile_num_ base) in
  let zeros := map (fun size => replicate (n * size) Byte.x00)
                   [8; 1; 8; 8; 8; 4; 4]%nat in
  set_loaded_metadata_ all_loaded
    (set_tile_null_counts_ (<[idx := null_counts]> (replicate 7 (replicate n 0)))
       (set_tile_sums_ (<[idx := sums]> (replicate 7 (replicate (n * 8) Byte.x00)))
          (set_tile_max_var_buffer_ (<[idx := max_var]> (replicate 7 []))
             (set_tile_min_var_buffer_ (<[idx := min_var]> (replicate 7 []))
                (set_tile_max_buffer_ (<[idx := maxs]> zeros)
                   (set_tile_min_buffer_ (<[idx := mins]> zeros) base)))))).

Definition example_with_tile_metadata (capacity tiles : Z) (idx : nat)
    (mins maxs min_var max_var sums : list byte) (null_counts : list Z)
  : FragmentMetadata :=
  example_tile_metadata_on (example_fragment_with capacity 16 tiles) idx
    mins maxs min_var max_var sums null_counts.

(** The result of an accessor after a step that may fail. *)
Definition and_then {A B : Type} (o : outcome A) (k : A -> outcome B) : outcome B :=
  obind o k.

(** The bytes the tracker has left, when there is a tracker. *)
Definition available (mt : option MemoryTracker.t) : option Z :=
  MemoryTracker.memory_available <$> mt.

(** The bytes [free_tile_offsets] releases for the vectors of one
    section, and for the four sections it frees. *)
Definition section_bytes (rows : list (list Z)) : Z :=
  sum_list_Z (map (fun row => wrap64 (Z.of_nat (length row) * 8)) rows).

Definition offsets_bytes (f : FragmentMetadata) : Z :=
  section_bytes (tile_offsets_ f) + section_bytes (tile_var_offsets_ f)
  + section_bytes (tile_validity_offsets_ f) + section_bytes (tile_var_sizes_ f).



#[global] Instance byte_eq_dec : EqDecision byte := Byte.byte_eq_dec.
#[global] Instance RTree_eq_dec : EqDecision RTree.
Proof. solve_decision. Defined.



(** A fragment of the example array with two tiles and every section
    of every field in memory. *)
Definition example_loaded_fragment (version : Z) : FragmentMetadata :=
  set_tile_validity_offsets_ (replicate 7 [0; 13])
    (set_tile_var_sizes_ (replicate 7 [20; 22])
       (set_tile_var_offsets_ (replicate 7 [0; 21])
          (set_tile_offsets_ (replicate 7 [0; 40])
             (set_rtree_ {| levels_ := [[[bytes_of "01234567"]]];
                            deserialized_buffer_size_ := 8 |}
                (example_tile_metadata_on (example_fragment version 2) 0
                   (u64_buffer [1; 5]) (u64_buffer [3; 9]) [] []
                   (u64_buffer [4; 14]) [0; 0]))))).

(** Every vector of the four offset sections has its loaded flag, as
    it is once [load_footer] (or, for versions 1 and 2, the eager
    loaders) sized the vectors and the flags together. *)
Definition flags_cover_offsets (f : FragmentMetadata) : Prop :=
  let lm := loaded_metadata_ f in
  (length (tile_offsets_ f) <= length (LoadedMetadata.tile_offsets_ lm))%nat /\
  (length (tile_var_offsets_ f) <= length (LoadedMetadata.tile_var_offsets_ lm))%nat /\
  (length (tile_validity_offsets_ f)
     <= length (LoadedMetadata.tile_validity_offsets_ lm))%nat /\
  (length (tile_var_sizes_ f) <= length (LoadedMetadata.tile_var_sizes_ lm))%nat.

(** The flags [flags'] are the flags [flags] with the first [n]
    reset. *)
Definition first_reset (n : nat) (flags flags' : list bool) : Prop :=
  length flags' = length flags /\
  forall j, flags' !! j = if bool_decide (j < n)%nat then Some false else flags !! j.








(** The collaborators [X], with a metadata file whose generic tiles
    are the ones [read] gives. *)
Definition with_read_generic (read : Z -> outcome (list byte)) (X : Collaborators)
  : Collaborators :=
  {| has_min_max_metadata := has_min_max_metadata X;
     has_sum_metadata := has_sum_metadata X;
     type_data_min := type_data_min X;
     type_data_max := type_data_max X;
     type_data_sum_type := type_data_sum_type X;
     get_fragment_version := get_fragment_version X;
     domain_tile_num := domain_tile_num X;
     read_generic := read;
     rtree_read_levels := rtree_read_levels X;
     rtree_get_tile_overlap := rtree_get_tile_overlap X;
     rtree_compute_tile_bitmap := rtree_compute_tile_bitmap X;
     double_add_nan := double_add_nan X |}.


(** A fragment of the example array being written, after
    [set_num_tiles(3)]: the offsets of every field are sized for the
    three tiles and zero, and every section counts as loaded. *)
Definition example_written_fragment : FragmentMetadata :=
  set_loaded_metadata_ all_loaded
    (set_tile_offsets_ (replicate 7 [0; 0; 0]) (example_fragment 16 3)).

(** * Further parts of the code *)

(** ** Dimension: the other tile arithmetic of [dimension.h] *)

Module DimensionTiles.

Import Dimension.

(** The result of [Dimension::check_domain], a [Status]. *)
Inductive Status : Type :=
  | Status_Ok
  | Status_DimensionError (msg : string).

(** [a - b] on two values of type [T].  Operands narrower than [int]
    are promoted to [int], where the difference of two of them always
    fits; on [int32_t] and [int64_t] an overflow is undefined
    behaviour; on [uint32_t] and [uint64_t] the difference wraps. *)
Definition sub_T (T : IntType) (a b : Z) : outcome Z :=
  if bits T <? 32 then Ok (a - b)
  else if is_signed T then
    if (T_min T <=? a - b) && (a - b <=? T_max T) then Ok (a - b) else Undefined
  else Ok ((a - b) mod 2 ^ bits T).

(** [Dimension::tile_idx<T>] for integral [T]: the difference is
    computed in [T], both operands of the division are cast to
    [unsigned_t], and a division by zero is undefined behaviour. *)
Definition tile_idx (T : IntType) (v domain_low tile_extent : Z) : outcome Z :=
  let! d := sub_T T v domain_low in
  let e := to_unsigned T tile_extent in
  if e =? 0 then Undefined else Ok (to_unsigned T d / e).

(** [Dimension::round_to_tile<T>] for integral [T].  The three values
    are cast to [unsigned_t] first.  For the 8 and 16 bit types the
    operands are then promoted to [int]: the difference may be
    negative, the division truncates towards zero, and the [int] is
    converted to [T] on return.  For the 32 and 64 bit types every
    operation is done modulo [2^bits]. *)
Definition round_to_tile (T : IntType) (v domain_low tile_extent : Z) : outcome Z :=
  let uv := to_unsigned T v in
  let ul := to_unsigned T domain_low in
  let ue := to_unsigned T tile_extent in
  if ue =? 0 then Undefined
  else if bits T <? 32 then
    Ok (convert T (Z.quot (uv - ul) ue * ue + ul))
  else
    let m := 2 ^ bits T in
    Ok (reinterpret T ((((uv - ul) mod m / ue * ue) mod m + ul) mod m)).

(** [Dimension::check_domain<T>] for integral [T], on the two bounds
    [domain[0]] and [domain[1]] of a non-empty domain. *)
Definition check_domain (T : IntType) (domain0 domain1 : Z) : Status :=
  (* Upper bound should not be smaller than lower *)
  if domain1 <? domain0 then
    Status_DimensionError
      "Domain check failed; Upper domain bound should not be smaller than the lower one"
  (* Domain range must not exceed the maximum unsigned number *)
  else if (domain0 =? T_min T) && (domain1 =? T_max T) then
    Status_DimensionError
      "Domain check failed; Domain range (upper + lower + 1) is larger than the maximum unsigned number"
  else Status_Ok.


End DimensionTiles.

(** ** FragmentMetadata: further updates of one member *)

Definition set_last_tile_cell_num_ (v : Z) (f : FragmentMetadata) : FragmentMetadata :=
  {| array_schema_ := array_schema_ f; dense_ := dense_ f;
     domain_ := domain_ f; non_empty_domain_ := non_empty_domain_ f;
     file_sizes_ := file_sizes_ f; file_var_sizes_ := file_var_sizes_ f;
     file_validity_sizes_ := file_validity_sizes_ f;
     footer_size_ := footer_size_ f; footer_offset_ := footer_offset_ f;
     fragment_uri_ := fragment_uri_ f; fragment_mins_ := fragment_mins_ f;
     fragment_maxs_ := fragment_maxs_ f; fragment_sums_ := fragment_sums_ f;
     fragment_null_counts_ := fragment_null_counts_ f;
     gt_offsets_ := gt_offsets_ f; has_timestamps_ := has_timestamps_ f;
     has_delete_meta_ := has_delete_meta_ f; idx_map_ := idx_map_ f;
     last_tile_cell_num_ := v;
     loaded_metadata_ := loaded_metadata_ f;
     memory_tracker_ := memory_tracker_ f; meta_file_size_ := meta_file_size_ f;
     rtree_ := rtree_ f; sparse_tile_num_ := sparse_tile_num_ f;
     tile_index_base_ := tile_index_base_ f;
     tile_min_buffer_ := tile_min_buffer_ f;
     tile_min_var_buffer_ := tile_min_var_buffer_ f;
     tile_max_buffer_ := tile_max_buffer_ f;
     tile_max_var_buffer_ := tile_max_var_buffer_ f;
     tile_null_counts_ := tile_null_counts_ f;
     tile_offsets_ := tile_offsets_ f;
     tile_var_offsets_ := tile_var_offsets_ f;
     tile_var_sizes_ := tile_var_sizes_ f;
     tile_validity_offsets_ := tile_validity_offsets_ f;
     tile_sums_ := tile_sums_ f; version_ := version_ f |}.

Definition set_sparse_tile_num_ (v : Z) (f : FragmentMetadata) : FragmentMetadata :=
  {| array_schema_ := array_schema_ f; dense_ := dense_ f;
     domain_ := domain_ f; non_empty_domain_ := non_empty_domain_ f;
     file_sizes_ := file_sizes_ f; file_var_sizes_ := file_var_sizes_ f;
     file_validity_sizes_ := file_validity_sizes_ f;
     footer_size_ := footer_size_ f; footer_offset_ := footer_offset_ f;
     fragment_uri_ := fragment_uri_ f; fragment_mins_ := fragment_mins_ f;
     fragment_maxs_ := fragment_maxs_ f; fragment_sums_ := fragment_sums_ f;
     fragment_null_counts_ := fragment_null_counts_ f;
     gt_offsets_ := gt_offsets_ f; has_timestamps_ := has_timestamps_ f;
     has_delete_meta_ := has_delete_meta_ f; idx_map_ := idx_map_ f;
     last_tile_cell_num_ := last_tile_cell_num_ f;
     loaded_metadata_ := loaded_metadata_ f;
     memory_tracker_ := memory_tracker_ f; meta_file_size_ := meta_file_size_ f;
     rtree_ := rtree_ f; sparse_tile_num_ := v;
     tile_index_base_ := tile_index_base_ f;
     tile_min_buffer_ := tile_min_buffer_ f;
     tile_min_var_buffer_ := tile_min_var_buffer_ f;
     tile_max_buffer_ := tile_max_buffer_ f;
     tile_max_var_buffer_ := tile_max_var_buffer_ f;
     tile_null_counts_ := tile_null_counts_ f;
     tile_offsets_ := tile_offsets_ f;
     tile_var_offsets_ := tile_var_offsets_ f;
     tile_var_sizes_ := tile_var_sizes_ f;
     tile_validity_offsets_ := tile_validity_offsets_ f;
     tile_sums_ := tile_sums_ f; version_ := version_ f |}.

Definition set_fragment_uri_ (v : string) (f : FragmentMetadata) : FragmentMetadata :=
  {| array_schema_ := array_schema_ f; dense_ := dense_ f;
     domain_ := domain_ f; non_empty_domain_ := non_empty_domain_ f;
     file_sizes_ := file_sizes_ f; file_var_sizes_ := file_var_sizes_ f;
     file_validity_sizes_ := file_validity_sizes_ f;
     footer_size_ := footer_size_ f; footer_offset_ := footer_offset_ f;
     fragment_uri_ := v; fragment_mins_ := fragment_mins_ f;
     fragment_maxs_ := fragment_maxs_ f; fragment_sums_ := fragment_sums_ f;
     fragment_null_counts_ := fragment_null_counts_ f;
     gt_offsets_ := gt_offsets_ f; has_timestamps_ := has_timestamps_ f;
     has_delete_meta_ := has_delete_meta_ f; idx_map_ := idx_map_ f;
     last_tile_cell_num_ := last_tile_cell_num_ f;
     loaded_metadata_ := loaded_metadata_ f;
     memory_tracker_ := memory_tracker_ f; meta_file_size_ := meta_file_size_ f;
     rtree_ := rtree_ f; sparse_tile_num_ := sparse_tile_num_ f;
     tile_index_base_ := tile_index_base_ f;
     tile_min_buffer_ := tile_min_buffer_ f;
     tile_min_var_buffer_ := tile_min_var_buffer_ f;
     tile_max_buffer_ := tile_max_buffer_ f;
     tile_max_var_buffer_ := tile_max_var_buffer_ f;
     tile_null_counts_ := tile_null_counts_ f;
     tile_offsets_ := tile_offsets_ f;
     tile_var_offsets_ := tile_var_offsets_ f;
     tile_var_sizes_ := tile_var_sizes_ f;
     tile_validity_offsets_ := tile_validity_offsets_ f;
     tile_sums_ := tile_sums_ f; version_ := version_ f |}.

Definition set_non_empty_domain_ (v : NDRange) (f : FragmentMetadata) : FragmentMetadata :=
  {| array_schema_ := array_schema_ f; dense_ := dense_ f;
     domain_ := domain_ f; non_empty_domain_ := v;
     file_sizes_ := file_sizes_ f; file_var_sizes_ := file_var_sizes_ f;
     file_validity_sizes_ := file_validity_sizes_ f;
     footer_size_ := footer_size_ f; footer_offset_ := footer_offset_ f;
     fragment_uri_ := fragment_uri_ f; fragment_mins_ := fragment_mins_ f;
     fragment_maxs_ := fragment_maxs_ f; fragment_sums_ := fragment_sums_ f;
     fragment_null_counts_ := fragment_null_counts_ f;
     gt_offsets_ := gt_offsets_ f; has_timestamps_ := has_timestamps_ f;
     has_delete_meta_ := has_delete_meta_ f; idx_map_ := idx_map_ f;
     last_tile_cell_num_ := last_tile_cell_num_ f;
     loaded_metadata_ := loaded_metadata_ f;
     memory_tracker_ := memory_tracker_ f; meta_file_size_ := meta_file_size_ f;
     rtree_ := rtree_ f; sparse_tile_num_ := sparse_tile_num_ f;
     tile_index_base_ := tile_index_base_ f;
     tile_min_buffer_ := tile_min_buffer_ f;
     tile_min_var_buffer_ := tile_min_var_buffer_ f;
     tile_max_buffer_ := tile_max_buffer_ f;
     tile_max_var_buffer_ := tile_max_var_buffer_ f;
     tile_null_counts_ := tile_null_counts_ f;
     tile_offsets_ := tile_offsets_ f;
     tile_var_offsets_ := tile_var_offsets_ f;
     tile_var_sizes_ := tile_var_sizes_ f;
     tile_validity_offsets_ := tile_validity_offsets_ f;
     tile_sums_ := tile_sums_ f; version_ := version_ f |}.

Definition set_gt_offsets_ (v : GenericTileOffsets.t) (f : FragmentMetadata) : FragmentMetadata :=
  {| array_schema_ := array_schema_ f; dense_ := dense_ f;
     domain_ := domain_ f; non_empty_domain_ := non_empty_domain_ f;
     file_sizes_ := file_sizes_ f; file_var_sizes_ := file_var_sizes_ f;
     file_validity_sizes_ := file_validity_sizes_ f;
     footer_size_ := footer_size_ f; footer_offset_ := footer_offset_ f;
     fragment_uri_ := fragment_uri_ f; fragment_mins_ := fragment_mins_ f;
     fragment_maxs_ := fragment_maxs_ f; fragment_sums_ := fragment_sums_ f;
     fragment_null_counts_ := fragment_null_counts_ f;
     gt_offsets_ := v; has_timestamps_ := has_timestamps_ f;
     has_delete_meta_ := has_delete_meta_ f; idx_map_ := idx_map_ f;
     last_tile_cell_num_ := last_tile_cell_num_ f;
     loaded_metadata_ := loaded_metadata_ f;
     memory_tracker_ := memory_tracker_ f; meta_file_size_ := meta_file_size_ f;
     rtree_ := rtree_ f; sparse_tile_num_ := sparse_tile_num_ f;
     tile_index_base_ := tile_index_base_ f;
     tile_min_buffer_ := tile_min_buffer_ f;
     tile_min_var_buffer_ := tile_min_var_buffer_ f;
     tile_max_buffer_ := tile_max_buffer_ f;
     tile_max_var_buffer_ := tile_max_var_buffer_ f;
     tile_null_counts_ := tile_null_counts_ f;
     tile_offsets_ := tile_offsets_ f;
     tile_var_offsets_ := tile_var_offsets_ f;
     tile_var_sizes_ := tile_var_sizes_ f;
     tile_validity_offsets_ := tile_validity_offsets_ f;
     tile_sums_ := tile_sums_ f; version_ := version_ f |}.

(** ** FragmentMetadata: the writer's per-tile metadata *)

(** [memcpy(&buf[off], data, data.size())] on a byte vector.  Writing
    past the end of the vector is undefined behaviour. *)
Definition memcpy_at (buf : list byte) (off : Z) (data : list byte) : outcome (list byte) :=
  if (0 <=? off) && (off + Z.of_nat (length data) <=? Z.of_nat (length buf)) then
    Ok (take (Z.to_nat off) buf ++ data ++ drop (Z.to_nat off + length data) buf)
  else Undefined.

(** The common body of [FragmentMetadata::set_tile_min] and
    [set_tile_max] on the buffer [buf] of the field.  The size of the
    value divides in the assertion: a value of no bytes divides by
    zero. *)
Definition set_fixed_slot (tile_index_base tid : Z) (value buf : list byte)
  : outcome (list byte) :=
  let size := Z.of_nat (length value) in
  let tid := wrap64 (tid + tile_index_base) in
  let buff_offset := wrap64 (tid * size) in
  if size =? 0 then Undefined
  else
    assert_then (tid <? Z.of_nat (length buf) / size)
      (memcpy_at buf buff_offset value).

(** [FragmentMetadata::set_tile_min] *)
Definition set_tile_min (name : string) (tid : Z) (min : list byte) (f : FragmentMetadata)
  : outcome FragmentMetadata :=
  match idx_map_ f !! name with
  | None => AssertFail
  | Some idx =>
      let! buf := at_index (tile_min_buffer_ f) idx in
      let! buf' := set_fixed_slot (tile_index_base_ f) tid min buf in
      Ok (set_tile_min_buffer_ (<[idx := buf']> (tile_min_buffer_ f)) f)
  end.

(** [FragmentMetadata::set_tile_max] *)
Definition set_tile_max (name : string) (tid : Z) (max : list byte) (f : FragmentMetadata)
  : outcome FragmentMetadata :=
  match idx_map_ f !! name with
  | None => AssertFail
  | Some idx =>
      let! buf := at_index (tile_max_buffer_ f) idx in
      let! buf' := set_fixed_slot (tile_index_base_ f) tid max buf in
      Ok (set_tile_max_buffer_ (<[idx := buf']> (tile_max_buffer_ f)) f)
  end.

(** The common body of [FragmentMetadata::set_tile_min_var] and
    [set_tile_max_var] on the offsets buffer [buf] and the var buffer
    [var] of the field: the size of the value is the distance to the
    next offset, or to the end of the var buffer for the last slot,
    and that many bytes of [value] are copied. *)
Definition set_var_slot (tile_index_base tid : Z) (value buf var : list byte)
  : outcome (list byte) :=
  let tid := wrap64 (tid + tile_index_base) in
  let buff_offset := wrap64 (tid * 8) in
  assert_then (tid <? Z.of_nat (length buf) / 8)
    (let! offset0 := read_u64_at buf tid in
     let! size :=
       if negb (buff_offset =? wrap64 (Z.of_nat (length buf) - 8)) then
         let! offset1 := read_u64_at buf (tid + 1) in
         Ok (wrap64 (offset1 - offset0))
       else Ok (wrap64 (Z.of_nat (length var) - offset0)) in
     (* Copy var data *)
     if negb (size =? 0) then
       if size <=? Z.of_nat (length value)
       then memcpy_at var offset0 (take (Z.to_nat size) value)
       else Undefined
     else Ok var).

(** [FragmentMetadata::set_tile_min_var] *)
Definition set_tile_min_var (name : string) (tid : Z) (min : list byte)
    (f : FragmentMetadata) : outcome FragmentMetadata :=
  match idx_map_ f !! name with
  | None => AssertFail
  | Some idx =>
      let! buf := at_index (tile_min_buffer_ f) idx in
      let! var := at_index (tile_min_var_buffer_ f) idx in
      let! var' := set_var_slot (tile_index_base_ f) tid min buf var in
      Ok (set_tile_min_var_buffer_ (<[idx := var']> (tile_min_var_buffer_ f)) f)
  end.

(** [FragmentMetadata::set_tile_max_var] *)
Definition set_tile_max_var (name : string) (tid : Z) (max : list byte)
    (f : FragmentMetadata) : outcome FragmentMetadata :=
  match idx_map_ f !! name with
  | None => AssertFail
  | Some idx =>
      let! buf := at_index (tile_max_buffer_ f) idx in
      let! var := at_index (tile_max_var_buffer_ f) idx in
      let! var' := set_var_slot (tile_index_base_ f) tid max buf var in
      Ok (set_tile_max_var_buffer_ (<[idx := var']> (tile_max_var_buffer_ f)) f)
  end.

(** [FragmentMetadata::set_tile_sum]: eight bytes are copied from
    [sum], whatever its size. *)
Definition set_tile_sum (name : string) (tid : Z) (sum : list byte) (f : FragmentMetadata)
  : outcome FragmentMetadata :=
  match idx_map_ f !! name with
  | None => AssertFail
  | Some idx =>
      let tid := wrap64 (tid + tile_index_base_ f) in
      let! buf := at_index (tile_sums_ f) idx in
      assert_then (wrap64 (tid * 8) <? Z.of_nat (length buf))
        (if 8 <=? Z.of_nat (length sum) then
           let! buf' := memcpy_at buf (wrap64 (tid * 8)) (take 8 sum) in
           Ok (set_tile_sums_ (<[idx := buf']> (tile_sums_ f)) f)
         else Undefined)
  end.

(** [FragmentMetadata::set_tile_null_count] *)
Definition set_tile_null_count (name : string) (tid null_count : Z) (f : FragmentMetadata)
  : outcome FragmentMetadata :=
  match idx_map_ f !! name with
  | None => AssertFail
  | Some idx =>
      let tid := wrap64 (tid + tile_index_base_ f) in
      let! row := at_index (tile_null_counts_ f) idx in
      assert_then (tid <? Z.of_nat (length row))
        (Ok (set_tile_null_counts_
               (<[idx := <[Z.to_nat tid := null_count]> row]> (tile_null_counts_ f)) f))
  end.

(** [FragmentMetadata::cell_num()], the number of cells of the
    fragment. *)
Definition cell_num_total (X : Collaborators) (f : FragmentMetadata) : outcome Z :=
  let tile_num := tile_num X f in
  assert_then (negb (tile_num =? 0))
    (if dense_ f then Ok (wrap64 (tile_num * schema_cell_num_per_tile (array_schema_ f)))
     else Ok (wrap64 (wrap64 (wrap64 (tile_num - 1) * schema_capacity (array_schema_ f))
                      + last_tile_cell_num_ f))).

(** The writer's loop over the tiles of one var-sized field, and of
    one nullable field: tile [tid], then [tid + 1], and so on, one
    step per tile. *)
Fixpoint append_var_tiles (name : string) (tid : Z) (steps : list Z) (f : FragmentMetadata)
  : outcome FragmentMetadata :=
  match steps with
  | [] => Ok f
  | s :: rest =>
      let! f' := set_tile_var_offset name tid s f in
      append_var_tiles name (tid + 1) rest f'
  end.

Fixpoint append_validity_tiles (name : string) (tid : Z) (steps : list Z)
    (f : FragmentMetadata) : outcome FragmentMetadata :=
  match steps with
  | [] => Ok f
  | s :: rest =>
      let! f' := set_tile_validity_offset name tid s f in
      append_validity_tiles name (tid + 1) rest f'
  end.

(** A fragment of the example array being written, sized for three
    tiles: the var and validity offsets of every field are zero, and
    every section counts as loaded. *)
Definition example_written_var_fragment : FragmentMetadata :=
  set_loaded_metadata_ all_loaded
    (set_tile_validity_offsets_ (replicate 7 [0; 0; 0])
       (set_tile_var_offsets_ (replicate 7 [0; 0; 0]) (example_fragment 16 3))).

(** The writer's loops that store the var-sized minimum, and maximum,
    of each tile of one field, after the sizes were converted to
    offsets. *)
Fixpoint store_min_vars (name : string) (tid : Z) (values : list (list byte))
    (f : FragmentMetadata) : outcome FragmentMetadata :=
  match values with
  | [] => Ok f
  | v :: rest =>
      let! f' := set_tile_min_var name tid v f in
      store_min_vars name (tid + 1) rest f'
  end.

Fixpoint store_max_vars (name : string) (tid : Z) (values : list (list byte))
    (f : FragmentMetadata) : outcome FragmentMetadata :=
  match values with
  | [] => Ok f
  | v :: rest =>
      let! f' := set_tile_max_var name tid v f in
      store_max_vars name (tid + 1) rest f'
  end.

(** The sizes of a list of values, as the writer records them. *)
Definition value_sizes (values : list (list byte)) : list Z :=
  map (fun v => Z.of_nat (length v)) values.

(** ** FragmentMetadata: serialization of the sections

    Modelled from the spec: the [Serializer] and [Deserializer]
    classes are missing from the sources at hand ("size-computation,
    serialize, deserialize primitives (little-endian,
    length-prefixed)").  A function that writes to a serializer is
    given by the bytes it writes; a function that reads from a
    deserializer takes the bytes that are left and returns the rest; a
    read past the end is an error. *)

(** [serializer.write(&v[0], num * sizeof(uint64_t))] on a vector of
    [uint64_t]: the vector must have a first element and [num]
    elements to read. *)
Definition write_u64_vector (v : list Z) (num : Z) : outcome (list byte) :=
  if (0 <? Z.of_nat (length v)) && (0 <=? num) && (num <=? Z.of_nat (length v))
  then Ok (u64_buffer (take (Z.to_nat num) v))
  else Undefined.

(** The common body of [write_tile_offsets], [write_tile_var_offsets],
    [write_tile_var_sizes], [write_tile_validity_offsets] and
    [write_tile_null_counts]: the number of values, then the values if
    there are any. *)
Definition write_u64_section (row : list Z) : list byte :=
  let num := Z.of_nat (length row) in
  u64_bytes num ++ (if negb (num =? 0) then u64_buffer row else []).

(** [FragmentMetadata::write_tile_offsets] *)
Definition write_tile_offsets (idx : nat) (f : FragmentMetadata) : outcome (list byte) :=
  let! row := at_index (tile_offsets_ f) idx in Ok (write_u64_section row).

(** [FragmentMetadata::write_tile_var_offsets] *)
Definition write_tile_var_offsets (idx : nat) (f : FragmentMetadata) : outcome (list byte) :=
  let! row := at_index (tile_var_offsets_ f) idx in Ok (write_u64_section row).

(** [FragmentMetadata::write_tile_var_sizes] *)
Definition write_tile_var_sizes (idx : nat) (f : FragmentMetadata) : outcome (list byte) :=
  let! row := at_index (tile_var_sizes_ f) idx in Ok (write_u64_section row).

(** [FragmentMetadata::write_tile_validity_offsets] *)
Definition write_tile_validity_offsets (idx : nat) (f : FragmentMetadata)
  : outcome (list byte) :=
  let! row := at_index (tile_validity_offsets_ f) idx in Ok (write_u64_section row).

(** [FragmentMetadata::write_tile_null_counts] *)
Definition write_tile_null_counts (idx : nat) (f : FragmentMetadata) : outcome (list byte) :=
  let! row := at_index (tile_null_counts_ f) idx in Ok (write_u64_section row).

(** The common body of [write_tile_mins] and [write_tile_maxs]: the
    sizes of the two buffers, then each buffer that is not empty. *)
Definition write_min_max_section (buffer var_buffer : list byte) : list byte :=
  let buffer_size := Z.of_nat (length buffer) in
  let var_buffer_size := Z.of_nat (length var_buffer) in
  u64_bytes buffer_size ++ u64_bytes var_buffer_size
  ++ (if negb (buffer_size =? 0) then buffer else [])
  ++ (if negb (var_buffer_size =? 0) then var_buffer else []).

(** [FragmentMetadata::write_tile_mins] *)
Definition write_tile_mins (idx : nat) (f : FragmentMetadata) : outcome (list byte) :=
  let! buffer := at_index (tile_min_buffer_ f) idx in
  let! var_buffer := at_index (tile_min_var_buffer_ f) idx in
  Ok (write_min_max_section buffer var_buffer).

(** [FragmentMetadata::write_tile_maxs] *)
Definition write_tile_maxs (idx : nat) (f : FragmentMetadata) : outcome (list byte) :=
  let! buffer := at_index (tile_max_buffer_ f) idx in
  let! var_buffer := at_index (tile_max_var_buffer_ f) idx in
  Ok (write_min_max_section buffer var_buffer).

(** [FragmentMetadata::write_tile_sums] *)
Definition write_tile_sums (idx : nat) (f : FragmentMetadata) : outcome (list byte) :=
  let! buffer := at_index (tile_sums_ f) idx in
  let tile_sums_num := Z.of_nat (length buffer) / 8 in
  Ok (u64_bytes tile_sums_num
      ++ (if negb (tile_sums_num =? 0)
          then take (Z.to_nat (wrap64 (tile_sums_num * 8))) buffer else [])).

(** [deserializer.read<uint64_t>()] and [deserializer.read(ptr, n)]:
    the value read and the bytes left. *)
Definition de_read_u64 (msg : string) (d : list byte) : outcome (Z * list byte) :=
  if Z.of_nat (length d) <? 8 then Throw msg
  else Ok (le_combine (take 8 d), drop 8 d).

Definition de_read (msg : string) (n : Z) (d : list byte)
  : outcome (list byte * list byte) :=
  if Z.of_nat (length d) <? n then Throw msg
  else Ok (take (Z.to_nat n) d, drop (Z.to_nat n) d).

Definition past_end : string := "Reading data past end of serialized data size".

(** The common body of [load_tile_min_values(idx, deserializer)] and
    [load_tile_max_values(idx, deserializer)]: the new contents of the
    fixed buffer and of the var buffer of the field ([None] for a
    buffer that is left as it is), the tracker and the bytes left. *)
Definition load_min_max_section (msg_budget : string) (mt : option MemoryTracker.t)
    (d : list byte)
  : outcome (option (list byte * option (list byte)) * option MemoryTracker.t * list byte) :=
  (* Get buffer size *)
  let! '(buffer_size, d) := de_read_u64 past_end d in
  (* Get var buffer size *)
  let! '(var_buffer_size, d) := de_read_u64 past_end d in
  if negb (buffer_size =? 0) then
    let size := wrap64 (buffer_size + var_buffer_size) in
    let '(refused, mt') :=
      take_or_refuse size MemoryTracker.MIN_MAX_SUM_NULL_COUNT mt in
    if refused then Throw msg_budget
    else
      let! '(buffer, d) := de_read past_end buffer_size d in
      if negb (var_buffer_size =? 0) then
        let! '(var_buffer, d) := de_read past_end var_buffer_size d in
        Ok (Some (buffer, Some var_buffer), mt', d)
      else Ok (Some (buffer, None), mt', d)
  else Ok (None, mt, d).

(** The buffers of field [idx] after the section was read. *)
Definition store_loaded_buffers (idx : nat)
    (loaded : option (list byte * option (list byte)))
    (buffers var_buffers : list (list byte))
  : outcome (list (list byte) * list (list byte)) :=
  match loaded with
  | None => Ok (buffers, var_buffers)
  | Some (buffer, var) =>
      let! _slot := at_index buffers idx in
      let buffers' := <[idx := buffer]> buffers in
      match var with
      | None => Ok (buffers', var_buffers)
      | Some var_buffer =>
          let! _slot := at_index var_buffers idx in
          Ok (buffers', <[idx := var_buffer]> var_buffers)
      end
  end.

(** [FragmentMetadata::load_tile_min_values(idx, deserializer)] *)
Definition load_tile_min_values (idx : nat) (d : list byte) (f : FragmentMetadata)
  : outcome (FragmentMetadata * list byte) :=
  let! '(loaded, mt, d) :=
    load_min_max_section "Cannot load min values; Insufficient memory budget"
      (memory_tracker_ f) d in
  let! '(buffers, var_buffers) :=
    store_loaded_buffers idx loaded (tile_min_buffer_ f) (tile_min_var_buffer_ f) in
  Ok (set_memory_tracker_ mt
        (set_tile_min_var_buffer_ var_buffers (set_tile_min_buffer_ buffers f)), d).

(** [FragmentMetadata::load_tile_max_values(idx, deserializer)] *)
Definition load_tile_max_values (idx : nat) (d : list byte) (f : FragmentMetadata)
  : outcome (FragmentMetadata * list byte) :=
  let! '(loaded, mt, d) :=
    load_min_max_section "Cannot load max values; Insufficient memory budget"
      (memory_tracker_ f) d in
  let! '(buffers, var_buffers) :=
    store_loaded_buffers idx loaded (tile_max_buffer_ f) (tile_max_var_buffer_ f) in
  Ok (set_memory_tracker_ mt
        (set_tile_max_var_buffer_ var_buffers (set_tile_max_buffer_ buffers f)), d).

(** ** FragmentMetadata: the footer that is written *)

(** [FragmentMetadata::write_version]: a [uint32_t] *)
Definition write_version (f : FragmentMetadata) : list byte :=
  le_split 4 (version_ f).

(** [FragmentMetadata::write_dense], [write_has_timestamps] and
    [write_has_delete_meta]: a [char] *)
Definition write_bool (b : bool) : list byte :=
  [if b then Byte.x01 else Byte.x00].

Definition write_dense (f : FragmentMetadata) : list byte := write_bool (dense_ f).
Definition write_has_timestamps (f : FragmentMetadata) : list byte :=
  write_bool (has_timestamps_ f).
Definition write_has_delete_meta (f : FragmentMetadata) : list byte :=
  write_bool (has_delete_meta_ f).

(** [FragmentMetadata::write_sparse_tile_num] *)
Definition write_sparse_tile_num (f : FragmentMetadata) : list byte :=
  u64_bytes (sparse_tile_num_ f).

(** [FragmentMetadata::write_last_tile_cell_num] *)
Definition write_last_tile_cell_num (f : FragmentMetadata) : list byte :=
  let cell_num_per_tile :=
    if dense_ f then schema_cell_num_per_tile (array_schema_ f)
    else schema_capacity (array_schema_ f) in
  (* Handle the case of zero *)
  let last_tile_cell_num :=
    if last_tile_cell_num_ f =? 0 then cell_num_per_tile else last_tile_cell_num_ f in
  u64_bytes last_tile_cell_num.

(** The loop of [write_non_empty_domain] over the dimensions, when the
    non-empty domain is set.  [start_size] is [Range::start_size]. *)
Fixpoint write_ranges (start_size : Range -> Z) (dims : list DimensionInfo) (ned : NDRange)
  : outcome (list byte) :=
  match dims with
  | [] => Ok []
  | dim :: dims' =>
      let! r := at_index ned 0 in
      let! rest := write_ranges start_size dims' (tl ned) in
      if negb (dim_var_size dim) then Ok (r ++ rest)
      else
        Ok (u64_bytes (Z.of_nat (length r)) ++ u64_bytes (start_size r) ++ r ++ rest)
  end.

(** [FragmentMetadata::write_non_empty_domain].
    [all_dims_same_type] is [Domain::all_dims_same_type()]. *)
Definition write_non_empty_domain (all_dims_same_type : bool) (start_size : Range -> Z)
    (f : FragmentMetadata) : outcome (list byte) :=
  let s := array_schema_ f in
  (* Write null_non_empty_domain *)
  let null_non_empty_domain :=
    write_bool (match non_empty_domain_ f with [] => true | _ => false end) in
  match non_empty_domain_ f with
  | [] =>
      (* Applicable only to homogeneous domains with fixed-sized types *)
      assert_then (all_dims_fixed s)
        (assert_then all_dims_same_type
           (let! dim0 := at_index (schema_dimensions s) 0 in
            let domain_size := wrap64 (2 * dim_num s * dim_coord_size dim0) in
            (* Write domain (dummy values) *)
            if 0 <? domain_size
            then Ok (null_non_empty_domain ++ replicate (Z.to_nat domain_size) Byte.x00)
            else Undefined))
  | _ =>
      let! ranges := write_ranges start_size (schema_dimensions s) (non_empty_domain_ f) in
      Ok (null_non_empty_domain ++ ranges)
  end.

(** [FragmentMetadata::write_file_sizes], [write_file_var_sizes] and
    [write_file_validity_sizes] *)
Definition write_file_sizes (f : FragmentMetadata) : outcome (list byte) :=
  write_u64_vector (file_sizes_ f) (num_dims_and_attrs f).

Definition write_file_var_sizes (f : FragmentMetadata) : outcome (list byte) :=
  write_u64_vector (file_var_sizes_ f) (num_dims_and_attrs f).

Definition write_file_validity_sizes (f : FragmentMetadata) : outcome (list byte) :=
  if version_ f <=? 6 then Ok []
  else write_u64_vector (file_validity_sizes_ f) (num_dims_and_attrs f).

(** [FragmentMetadata::write_generic_tile_offsets] *)
Definition write_generic_tile_offsets (f : FragmentMetadata) : outcome (list byte) :=
  let num := num_dims_and_attrs f in
  let gt := gt_offsets_ f in
  let from v (section : list Z) := if v <=? version_ f then write_u64_vector section num
                                   else Ok [] in
  (* Write R-Tree offset *)
  let rtree := u64_bytes (GenericTileOffsets.rtree_ gt) in
  let! tile_offsets := write_u64_vector (GenericTileOffsets.tile_offsets_ gt) num in
  let! tile_var_offsets := write_u64_vector (GenericTileOffsets.tile_var_offsets_ gt) num in
  let! tile_var_sizes := write_u64_vector (GenericTileOffsets.tile_var_sizes_ gt) num in
  let! tile_validity_offsets := from 7 (GenericTileOffsets.tile_validity_offsets_ gt) in
  let! tile_min_offsets := from 11 (GenericTileOffsets.tile_min_offsets_ gt) in
  let! tile_max_offsets := from 11 (GenericTileOffsets.tile_max_offsets_ gt) in
  let! tile_sum_offsets := from 11 (GenericTileOffsets.tile_sum_offsets_ gt) in
  let! tile_null_count_offsets := from 11 (GenericTileOffsets.tile_null_count_offsets_ gt) in
  Ok (rtree ++ tile_offsets ++ tile_var_offsets ++ tile_var_sizes
      ++ tile_validity_offsets ++ tile_min_offsets ++ tile_max_offsets
      ++ tile_sum_offsets ++ tile_null_count_offsets
      ++ (if 11 <=? version_ f
          then u64_bytes (GenericTileOffsets.fragment_min_max_sum_null_count_offset_ gt)
          else [])
      ++ (if 16 <=? version_ f
          then u64_bytes (GenericTileOffsets.processed_conditions_offsets_ gt)
          else [])).

(** [FragmentMetadata::write_array_schema_name], on the member
    [array_schema_name_]. *)
Definition write_array_schema_name (array_schema_name : string) : outcome (list byte) :=
  let size := Z.of_nat (String.length array_schema_name) in
  if size =? 0 then Throw "Cannot write array schema name; Size of schema name is zero"
  else Ok (u64_bytes size ++ list_byte_of_string array_schema_name).

(** [FragmentMetadata::write_footer] *)
Definition write_footer (array_schema_name : string) (all_dims_same_type : bool)
    (start_size : Range -> Z) (f : FragmentMetadata) : outcome (list byte) :=
  let version := write_version f in
  let! schema_name :=
    if 10 <=? version_ f then write_array_schema_name array_schema_name else Ok [] in
  let dense := write_dense f in
  let! non_empty_domain := write_non_empty_domain all_dims_same_type start_size f in
  let sparse_tile_num := write_sparse_tile_num f in
  let last_tile_cell_num := write_last_tile_cell_num f in
  let has_timestamps := if 14 <=? version_ f then write_has_timestamps f else [] in
  let has_delete_meta := if 15 <=? version_ f then write_has_delete_meta f else [] in
  let! file_sizes := write_file_sizes f in
  let! file_var_sizes := write_file_var_sizes f in
  let! file_validity_sizes := write_file_validity_sizes f in
  let! generic_tile_offsets := write_generic_tile_offsets f in
  Ok (version ++ schema_name ++ dense ++ non_empty_domain ++ sparse_tile_num
      ++ last_tile_cell_num ++ has_timestamps ++ has_delete_meta
      ++ file_sizes ++ file_var_sizes ++ file_validity_sizes ++ generic_tile_offsets).

(** ** FragmentMetadata: the rollup of fixed-size minima and maxima *)

(** The types [<] is a total order on: all but the floating-point
    ones, where a NaN compares false with everything. *)
Definition is_float_ctype (T : CType) : bool :=
  match T with
  | Float32 | Float64 => true
  | _ => false
  end.

(** Value [t] of a buffer of values of type [T]. *)
Definition value_at (T : CType) (buf : list byte) (t : nat) : list byte :=
  slice buf (sizeof T * t) (sizeof T).

(** The integer the bytes of a value of an integer type stand for. *)
Definition ctype_value (T : CType) (bs : list byte) : Z :=
  match T with
  | Int8 | Int16 | Int32 | Int64 => signed_value bs
  | _ => le_combine bs
  end.

(** ** FragmentMetadata: loading the offsets of the generic tiles *)

(** [v.resize(num); deserializer.read(&v[0], num * sizeof(uint64_t))]
    on a vector of [uint64_t]: the values read and the bytes left.
    With [num] zero the vector has no first element to take the
    address of. *)
Definition de_read_u64_vector (num : Z) (d : list byte) : outcome (list Z * list byte) :=
  if num <=? 0 then Undefined
  else
    let! '(bytes, d) := de_read past_end (wrap64 (num * 8)) d in
    Ok (map (read_u64 bytes) (seq 0 (Z.to_nat num)), d).

(** [FragmentMetadata::load_generic_tile_offsets_v3_v4]: the new value
    of [gt_offsets_] and the bytes left. *)
Definition load_generic_tile_offsets_v3_v4 (f : FragmentMetadata) (d : list byte)
  : outcome (GenericTileOffsets.t * list byte) :=
  let gt := gt_offsets_ f in
  (* Load R-Tree offset *)
  let! '(rtree, d) := de_read_u64 past_end d in
  (* Load offsets for tile offsets *)
  let attribute_num := schema_attribute_num (array_schema_ f) mod 2 ^ 32 in
  let! '(tile_offsets, d) := de_read_u64_vector ((attribute_num + 1) mod 2 ^ 32) d in
  (* Load offsets for tile var offsets *)
  let! '(tile_var_offsets, d) := de_read_u64_vector attribute_num d in
  (* Load offsets for tile var sizes *)
  let! '(tile_var_sizes, d) := de_read_u64_vector attribute_num d in
  Ok ({| GenericTileOffsets.rtree_ := rtree;
         GenericTileOffsets.tile_offsets_ := tile_offsets;
         GenericTileOffsets.tile_var_offsets_ := tile_var_offsets;
         GenericTileOffsets.tile_var_sizes_ := tile_var_sizes;
         GenericTileOffsets.tile_validity_offsets_ :=
           GenericTileOffsets.tile_validity_offsets_ gt;
         GenericTileOffsets.tile_min_offsets_ := GenericTileOffsets.tile_min_offsets_ gt;
         GenericTileOffsets.tile_max_offsets_ := GenericTileOffsets.tile_max_offsets_ gt;
         GenericTileOffsets.tile_sum_offsets_ := GenericTileOffsets.tile_sum_offsets_ gt;
         GenericTileOffsets.tile_null_count_offsets_ :=
           GenericTileOffsets.tile_null_count_offsets_ gt;
         GenericTileOffsets.fragment_min_max_sum_null_count_offset_ :=
           GenericTileOffsets.fragment_min_max_sum_null_count_offset_ gt;
         GenericTileOffsets.processed_conditions_offsets_ :=
           GenericTileOffsets.processed_conditions_offsets_ gt |}, d).

(** [FragmentMetadata::load_generic_tile_offsets_v5_v6] *)
Definition load_generic_tile_offsets_v5_v6 (f : FragmentMetadata) (d : list byte)
  : outcome (GenericTileOffsets.t * list byte) :=
  let gt := gt_offsets_ f in
  let! '(rtree, d) := de_read_u64 past_end d in
  let num := num_dims_and_attrs f in
  let! '(tile_offsets, d) := de_read_u64_vector num d in
  let! '(tile_var_offsets, d) := de_read_u64_vector num d in
  let! '(tile_var_sizes, d) := de_read_u64_vector num d in
  Ok ({| GenericTileOffsets.rtree_ := rtree;
         GenericTileOffsets.tile_offsets_ := tile_offsets;
         GenericTileOffsets.tile_var_offsets_ := tile_var_offsets;
         GenericTileOffsets.tile_var_sizes_ := tile_var_sizes;
         GenericTileOffsets.tile_validity_offsets_ :=
           GenericTileOffsets.tile_validity_offsets_ gt;
         GenericTileOffsets.tile_min_offsets_ := GenericTileOffsets.tile_min_offsets_ gt;
         GenericTileOffsets.tile_max_offsets_ := GenericTileOffsets.tile_max_offsets_ gt;
         GenericTileOffsets.tile_sum_offsets_ := GenericTileOffsets.tile_sum_offsets_ gt;
         GenericTileOffsets.tile_null_count_offsets_ :=
           GenericTileOffsets.tile_null_count_offsets_ gt;
         GenericTileOffsets.fragment_min_max_sum_null_count_offset_ :=
           GenericTileOffsets.fragment_min_max_sum_null_count_offset_ gt;
         GenericTileOffsets.processed_conditions_offsets_ :=
           GenericTileOffsets.processed_conditions_offsets_ gt |}, d).

(** [FragmentMetadata::load_generic_tile_offsets_v7_v10] *)
Definition load_generic_tile_offsets_v7_v10 (f : FragmentMetadata) (d : list byte)
  : outcome (GenericTileOffsets.t * list byte) :=
  let gt := gt_offsets_ f in
  let! '(rtree, d) := de_read_u64 past_end d in
  let num := num_dims_and_attrs f in
  let! '(tile_offsets, d) := de_read_u64_vector num d in
  let! '(tile_var_offsets, d) := de_read_u64_vector num d in
  let! '(tile_var_sizes, d) := de_read_u64_vector num d in
  (* Load offsets for tile validity offsets *)
  let! '(tile_validity_offsets, d) := de_read_u64_vector num d in
  Ok ({| GenericTileOffsets.rtree_ := rtree;
         GenericTileOffsets.tile_offsets_ := tile_offsets;
         GenericTileOffsets.tile_var_offsets_ := tile_var_offsets;
         GenericTileOffsets.tile_var_sizes_ := tile_var_sizes;
         GenericTileOffsets.tile_validity_offsets_ := tile_validity_offsets;
         GenericTileOffsets.tile_min_offsets_ := GenericTileOffsets.tile_min_offsets_ gt;
         GenericTileOffsets.tile_max_offsets_ := GenericTileOffsets.tile_max_offsets_ gt;
         GenericTileOffsets.tile_sum_offsets_ := GenericTileOffsets.tile_sum_offsets_ gt;
         GenericTileOffsets.tile_null_count_offsets_ :=
           GenericTileOffsets.tile_null_count_offsets_ gt;
         GenericTileOffsets.fragment_min_max_sum_null_count_offset_ :=
           GenericTileOffsets.fragment_min_max_sum_null_count_offset_ gt;
         GenericTileOffsets.processed_conditions_offsets_ :=
           GenericTileOffsets.processed_conditions_offsets_ gt |}, d).

(** [FragmentMetadata::load_generic_tile_offsets_v11]: the offset of
    the fragment min, max, sum and null count is not read. *)
Definition load_generic_tile_offsets_v11 (f : FragmentMetadata) (d : list byte)
  : outcome (GenericTileOffsets.t * list byte) :=
  let gt := gt_offsets_ f in
  let! '(rtree, d) := de_read_u64 past_end d in
  let num := num_dims_and_attrs f in
  let! '(tile_offsets, d) := de_read_u64_vector num d in
  let! '(tile_var_offsets, d) := de_read_u64_vector num d in
  let! '(tile_var_sizes, d) := de_read_u64_vector num d in
  let! '(tile_validity_offsets, d) := de_read_u64_vector num d in
  (* Load offsets for tile min offsets *)
  let! '(tile_min_offsets, d) := de_read_u64_vector num d in
  (* Load offsets for tile max offsets *)
  let! '(tile_max_offsets, d) := de_read_u64_vector num d in
  (* Load offsets for tile sum offsets *)
  let! '(tile_sum_offsets, d) := de_read_u64_vector num d in
  (* Load offsets for tile null count offsets *)
  let! '(tile_null_count_offsets, d) := de_read_u64_vector num d in
  Ok ({| GenericTileOffsets.rtree_ := rtree;
         GenericTileOffsets.tile_offsets_ := tile_offsets;
         GenericTileOffsets.tile_var_offsets_ := tile_var_offsets;
         GenericTileOffsets.tile_var_sizes_ := tile_var_sizes;
         GenericTileOffsets.tile_validity_offsets_ := tile_validity_offsets;
         GenericTileOffsets.tile_min_offsets_ := tile_min_offsets;
         GenericTileOffsets.tile_max_offsets_ := tile_max_offsets;
         GenericTileOffsets.tile_sum_offsets_ := tile_sum_offsets;
         GenericTileOffsets.tile_null_count_offsets_ := tile_null_count_offsets;
         GenericTileOffsets.fragment_min_max_sum_null_count_offset_ :=
           GenericTileOffsets.fragment_min_max_sum_null_count_offset_ gt;
         GenericTileOffsets.processed_conditions_offsets_ :=
           GenericTileOffsets.processed_conditions_offsets_ gt |}, d).

(** [FragmentMetadata::load_generic_tile_offsets_v12_v15] *)
Definition load_generic_tile_offsets_v12_v15 (f : FragmentMetadata) (d : list byte)
  : outcome (GenericTileOffsets.t * list byte) :=
  let gt := gt_offsets_ f in
  let! '(rtree, d) := de_read_u64 past_end d in
  let num := num_dims_and_attrs f in
  let! '(tile_offsets, d) := de_read_u64_vector num d in
  let! '(tile_var_offsets, d) := de_read_u64_vector num d in
  let! '(tile_var_sizes, d) := de_read_u64_vector num d in
  let! '(tile_validity_offsets, d) := de_read_u64_vector num d in
  let! '(tile_min_offsets, d) := de_read_u64_vector num d in
  let! '(tile_max_offsets, d) := de_read_u64_vector num d in
  let! '(tile_sum_offsets, d) := de_read_u64_vector num d in
  let! '(tile_null_count_offsets, d) := de_read_u64_vector num d in
  let! '(fragment_offset, d) := de_read_u64 past_end d in
  Ok ({| GenericTileOffsets.rtree_ := rtree;
         GenericTileOffsets.tile_offsets_ := tile_offsets;
         GenericTileOffsets.tile_var_offsets_ := tile_var_offsets;
         GenericTileOffsets.tile_var_sizes_ := tile_var_sizes;
         GenericTileOffsets.tile_validity_offsets_ := tile_validity_offsets;
         GenericTileOffsets.tile_min_offsets_ := tile_min_offsets;
         GenericTileOffsets.tile_max_offsets_ := tile_max_offsets;
         GenericTileOffsets.tile_sum_offsets_ := tile_sum_offsets;
         GenericTileOffsets.tile_null_count_offsets_ := tile_null_count_offsets;
         GenericTileOffsets.fragment_min_max_sum_null_count_offset_ := fragment_offset;
         GenericTileOffsets.processed_conditions_offsets_ :=
           GenericTileOffsets.processed_conditions_offsets_ gt |}, d).

(** [FragmentMetadata::load_generic_tile_offsets_v16_or_higher] *)
Definition load_generic_tile_offsets_v16_or_higher (f : FragmentMetadata) (d : list byte)
  : outcome (GenericTileOffsets.t * list byte) :=
  let! '(rtree, d) := de_read_u64 past_end d in
  let num := num_dims_and_attrs f in
  let! '(tile_offsets, d) := de_read_u64_vector num d in
  let! '(tile_var_offsets, d) := de_read_u64_vector num d in
  let! '(tile_var_sizes, d) := de_read_u64_vector num d in
  let! '(tile_validity_offsets, d) := de_read_u64_vector num d in
  let! '(tile_min_offsets, d) := de_read_u64_vector num d in
  let! '(tile_max_offsets, d) := de_read_u64_vector num d in
  let! '(tile_sum_offsets, d) := de_read_u64_vector num d in
  let! '(tile_null_count_offsets, d) := de_read_u64_vector num d in
  let! '(fragment_offset, d) := de_read_u64 past_end d in
  let! '(processed_conditions_offsets, d) := de_read_u64 past_end d in
  Ok ({| GenericTileOffsets.rtree_ := rtree;
         GenericTileOffsets.tile_offsets_ := tile_offsets;
         GenericTileOffsets.tile_var_offsets_ := tile_var_offsets;
         GenericTileOffsets.tile_var_sizes_ := tile_var_sizes;
         GenericTileOffsets.tile_validity_offsets_ := tile_validity_offsets;
         GenericTileOffsets.tile_min_offsets_ := tile_min_offsets;
         GenericTileOffsets.tile_max_offsets_ := tile_max_offsets;
         GenericTileOffsets.tile_sum_offsets_ := tile_sum_offsets;
         GenericTileOffsets.tile_null_count_offsets_ := tile_null_count_offsets;
         GenericTileOffsets.fragment_min_max_sum_null_count_offset_ := fragment_offset;
         GenericTileOffsets.processed_conditions_offsets_ := processed_conditions_offsets |},
      d).

(** [FragmentMetadata::load_generic_tile_offsets] *)
Definition load_generic_tile_offsets (f : FragmentMetadata) (d : list byte)
  : outcome (GenericTileOffsets.t * list byte) :=
  let v := version_ f in
  if (v =? 3) || (v =? 4) then load_generic_tile_offsets_v3_v4 f d
  else if (5 <=? v) && (v <? 7) then load_generic_tile_offsets_v5_v6 f d
  else if (7 <=? v) && (v <? 11) then load_generic_tile_offsets_v7_v10 f d
  else if v =? 11 then load_generic_tile_offsets_v11 f d
  else if (12 <=? v) && (v <? 16) then load_generic_tile_offsets_v12_v15 f d
  else load_generic_tile_offsets_v16_or_higher f d.

(** The offsets record has vectors of [num] values of [uint64_t]. *)
Definition gt_offsets_sized (num : Z) (gt : GenericTileOffsets.t) : Prop :=
  let sized v := Z.of_nat (length v) = num /\ Forall is_u64 v in
  is_u64 (GenericTileOffsets.rtree_ gt) /\
  sized (GenericTileOffsets.tile_offsets_ gt) /\
  sized (GenericTileOffsets.tile_var_offsets_ gt) /\
  sized (GenericTileOffsets.tile_var_sizes_ gt) /\
  sized (GenericTileOffsets.tile_validity_offsets_ gt) /\
  sized (GenericTileOffsets.tile_min_offsets_ gt) /\
  sized (GenericTileOffsets.tile_max_offsets_ gt) /\
  sized (GenericTileOffsets.tile_sum_offsets_ gt) /\
  sized (GenericTileOffsets.tile_null_count_offsets_ gt) /\
  is_u64 (GenericTileOffsets.fragment_min_max_sum_null_count_offset_ gt) /\
  is_u64 (GenericTileOffsets.processed_conditions_offsets_ gt).

(** ** FragmentMetadata: sizing the per-tile vectors *)

(** [v.resize(n, 0)] on a vector of [uint64_t]. *)
Definition resize_u64 (v : list Z) (n : Z) : list Z :=
  take (Z.to_nat n) v ++ replicate (Z.to_nat n - length v) 0.

(** The body of the loop of [FragmentMetadata::set_num_tiles], for the
    entry [(name, i)] of [idx_map_].  [cell_var_offset_size] is
    [constants::cell_var_offset_size], of a header missing from the
    sources at hand. *)
Definition set_num_tiles_field (X : Collaborators) (cell_var_offset_size : Z)
    (num_tiles : Z) (name : string) (i : nat) (f : FragmentMetadata)
  : outcome FragmentMetadata :=
  let s := array_schema_ f in
  let! row := at_index (tile_offsets_ f) i in
  assert_then (Z.of_nat (length row) <=? num_tiles)
    ((* Get the fixed cell size *)
     let is_dim := schema_is_dim s name in
     let var_size := schema_var_size s name in
     let cell_size := if var_size then cell_var_offset_size else schema_cell_size s name in
     let f := set_tile_offsets_ (<[i := resize_u64 row num_tiles]> (tile_offsets_ f)) f in
     let! row := at_index (tile_var_offsets_ f) i in
     let f := set_tile_var_offsets_
                (<[i := resize_u64 row num_tiles]> (tile_var_offsets_ f)) f in
     let! row := at_index (tile_var_sizes_ f) i in
     let f := set_tile_var_sizes_ (<[i := resize_u64 row num_tiles]> (tile_var_sizes_ f)) f in
     let! row := at_index (tile_validity_offsets_ f) i in
     let f := set_tile_validity_offsets_
                (<[i := resize_u64 row num_tiles]> (tile_validity_offsets_ f)) f in
     (* No metadata for dense coords *)
     if negb (schema_dense s) || negb is_dim then
       let type := schema_type s name in
       let cell_val_num := schema_cell_val_num s name in
       let! f :=
         if has_min_max_metadata X type is_dim var_size cell_val_num then
           let size := Z.to_nat (wrap64 (num_tiles * cell_size)) in
           let! buf := at_index (tile_min_buffer_ f) i in
           let f := set_tile_min_buffer_
                      (<[i := resize_bytes buf size]> (tile_min_buffer_ f)) f in
           let! buf := at_index (tile_max_buffer_ f) i in
           Ok (set_tile_max_buffer_ (<[i := resize_bytes buf size]> (tile_max_buffer_ f)) f)
         else Ok f in
       let! f :=
         if has_sum_metadata X type var_size cell_val_num then
           if negb var_size then
             let! buf := at_index (tile_sums_ f) i in
             Ok (set_tile_sums_
                   (<[i := resize_bytes buf (Z.to_nat (wrap64 (num_tiles * 8)))]>
                      (tile_sums_ f)) f)
           else Ok f
         else Ok f in
       if schema_is_nullable s name then
         let! row := at_index (tile_null_counts_ f) i in
         Ok (set_tile_null_counts_
               (<[i := resize_u64 row num_tiles]> (tile_null_counts_ f)) f)
       else Ok f
     else Ok f).

(** The loop of [set_num_tiles] over the entries of [idx_map_], in
    the order the map hands them out. *)
Fixpoint set_num_tiles_fields (X : Collaborators) (cell_var_offset_size : Z)
    (num_tiles : Z) (entries : list (string * nat)) (f : FragmentMetadata)
  : outcome FragmentMetadata :=
  match entries with
  | [] => Ok f
  | (name, i) :: rest =>
      let! f := set_num_tiles_field X cell_var_offset_size num_tiles name i f in
      set_num_tiles_fields X cell_var_offset_size num_tiles rest f
  end.

(** [FragmentMetadata::set_num_tiles].  [idx_map_] is a
    [std::unordered_map], which fixes no order of iteration: the
    order is the argument [entries].  [rtree_set_leaf_num] is
    [RTree::set_leaf_num], whose status [throw_if_not_ok] turns into
    an exception. *)
Definition set_num_tiles (X : Collaborators) (cell_var_offset_size : Z)
    (rtree_set_leaf_num : RTree -> Z -> outcome RTree)
    (entries : list (string * nat)) (num_tiles : Z) (f : FragmentMetadata)
  : outcome FragmentMetadata :=
  let! f := set_num_tiles_fields X cell_var_offset_size num_tiles entries f in
  if negb (dense_ f) then
    let! rtree := rtree_set_leaf_num (rtree_ f) num_tiles in
    Ok (set_sparse_tile_num_ num_tiles (set_rtree_ rtree f))
  else Ok f.

(** [entries] lists the entries of [idx_map_], in some order. *)
Definition lists_idx_map (entries : list (string * nat)) (f : FragmentMetadata) : Prop :=
  forall name i, (name, i) ∈ entries <-> idx_map_ f !! name = Some i.

(** Every per-field vector that [set_num_tiles] touches has an entry
    [i]. *)
Definition has_field (i : nat) (f : FragmentMetadata) : Prop :=
  (i < length (tile_offsets_ f))%nat /\
  (i < length (tile_var_offsets_ f))%nat /\
  (i < length (tile_var_sizes_ f))%nat /\
  (i < length (tile_validity_offsets_ f))%nat /\
  (i < length (tile_min_buffer_ f))%nat /\
  (i < length (tile_max_buffer_ f))%nat /\
  (i < length (tile_sums_ f))%nat /\
  (i < length (tile_null_counts_ f))%nat.

(** ** FragmentMetadata: the fragment minimum, maximum, sum and null count, stored and loaded *)

(** The loop of the lambda [serialize_data] of
    [store_fragment_min_max_sum_null_count]: [n] fields from field
    [i] on.  The bytes are the contents of the generic tile that is
    written to the file. *)
Fixpoint serialize_fragment_fields (n i : nat) (f : FragmentMetadata)
  : outcome (list byte) :=
  match n with
  | O => Ok []
  | S n' =>
      (* Store min. *)
      let! min := at_index (fragment_mins_ f) i in
      let min_size := Z.of_nat (length min) in
      (* Store max. *)
      let! max := at_index (fragment_maxs_ f) i in
      let max_size := Z.of_nat (length max) in
      (* Store sum. *)
      let! sum := at_index (fragment_sums_ f) i in
      (* Store null count. *)
      let! null_count := at_index (fragment_null_counts_ f) i in
      let! rest := serialize_fragment_fields n' (S i) f in
      Ok (u64_bytes min_size ++ min ++ u64_bytes max_size ++ max
          ++ u64_bytes sum ++ u64_bytes null_count ++ rest)
  end.

(** [FragmentMetadata::store_fragment_min_max_sum_null_count]: the
    contents of the tile. *)
Definition store_fragment_min_max_sum_null_count (num : Z) (f : FragmentMetadata)
  : outcome (list byte) :=
  serialize_fragment_fields (Z.to_nat num) 0 f.

(** The loop of
    [load_fragment_min_max_sum_null_count(deserializer)]. *)
Fixpoint load_fragment_fields (n i : nat) (d : list byte) (f : FragmentMetadata)
  : outcome (FragmentMetadata * list byte) :=
  match n with
  | O => Ok (f, d)
  | S n' =>
      (* Get min. *)
      let! '(min_size, d) := de_read_u64 past_end d in
      let! _slot := at_index (fragment_mins_ f) i in
      let! '(min, d) := de_read past_end min_size d in
      let f := set_fragment_mins_ (<[i := min]> (fragment_mins_ f)) f in
      (* Get max. *)
      let! '(max_size, d) := de_read_u64 past_end d in
      let! _slot := at_index (fragment_maxs_ f) i in
      let! '(max, d) := de_read past_end max_size d in
      let f := set_fragment_maxs_ (<[i := max]> (fragment_maxs_ f)) f in
      (* Get sum. *)
      let! '(sum, d) := de_read_u64 past_end d in
      let! _slot := at_index (fragment_sums_ f) i in
      let f := set_fragment_sums_ (<[i := sum]> (fragment_sums_ f)) f in
      (* Get null count. *)
      let! '(null_count, d) := de_read_u64 past_end d in
      let! _slot := at_index (fragment_null_counts_ f) i in
      let f := set_fragment_null_counts_ (<[i := null_count]> (fragment_null_counts_ f)) f in
      load_fragment_fields n' (S i) d f
  end.

(** [FragmentMetadata::load_fragment_min_max_sum_null_count(deserializer)] *)
Definition load_fragment_min_max_sum_null_count_from (d : list byte) (f : FragmentMetadata)
  : outcome (FragmentMetadata * list byte) :=
  load_fragment_fields (Z.to_nat (num_dims_and_attrs f)) 0 d f.

(** [loaded_metadata_.fragment_min_max_sum_null_count_ = v] *)
Definition set_loaded_fragment_min_max_sum_null_count_ (v : bool) (l : LoadedMetadata.t)
  : LoadedMetadata.t :=
  {| LoadedMetadata.footer_ := LoadedMetadata.footer_ l;
     LoadedMetadata.rtree_ := LoadedMetadata.rtree_ l;
     LoadedMetadata.tile_offsets_ := LoadedMetadata.tile_offsets_ l;
     LoadedMetadata.tile_var_offsets_ := LoadedMetadata.tile_var_offsets_ l;
     LoadedMetadata.tile_var_sizes_ := LoadedMetadata.tile_var_sizes_ l;
     LoadedMetadata.tile_validity_offsets_ := LoadedMetadata.tile_validity_offsets_ l;
     LoadedMetadata.tile_min_ := LoadedMetadata.tile_min_ l;
     LoadedMetadata.tile_max_ := LoadedMetadata.tile_max_ l;
     LoadedMetadata.tile_sum_ := LoadedMetadata.tile_sum_ l;
     LoadedMetadata.tile_null_count_ := LoadedMetadata.tile_null_count_ l;
     LoadedMetadata.fragment_min_max_sum_null_count_ := v;
     LoadedMetadata.processed_conditions_ := LoadedMetadata.processed_conditions_ l |}.

(** [FragmentMetadata::load_fragment_min_max_sum_null_count(encryption_key)] *)
Definition load_fragment_min_max_sum_null_count (X : Collaborators) (f : FragmentMetadata)
  : outcome FragmentMetadata :=
  if LoadedMetadata.fragment_min_max_sum_null_count_ (loaded_metadata_ f) then Ok f
  else if version_ f <=? 11 then Ok f
  else
    let! tile :=
      read_generic X
        (GenericTileOffsets.fragment_min_max_sum_null_count_offset_ (gt_offsets_ f)) in
    let! '(f, _) := load_fragment_min_max_sum_null_count_from tile f in
    Ok (set_loaded_metadata_
          (set_loaded_fragment_min_max_sum_null_count_ true (loaded_metadata_ f)) f).

(** The four vectors of fragment metadata have [num] entries. *)
Definition fragment_fields_sized (num : Z) (f : FragmentMetadata) : Prop :=
  Z.of_nat (length (fragment_mins_ f)) = num /\
  Z.of_nat (length (fragment_maxs_ f)) = num /\
  Z.of_nat (length (fragment_sums_ f)) = num /\
  Z.of_nat (length (fragment_null_counts_ f)) = num.

(** The sums and null counts are [uint64_t] values and the sizes of
    the minima and maxima fit [uint64_t]. *)
Definition fragment_fields_in_range (f : FragmentMetadata) : Prop :=
  Forall (fun b => Z.of_nat (length b) < two64) (fragment_mins_ f) /\
  Forall (fun b => Z.of_nat (length b) < two64) (fragment_maxs_ f) /\
  Forall is_u64 (fragment_sums_ f) /\
  Forall is_u64 (fragment_null_counts_ f).

(** The bytes [get_tile_min_as<T>] and [get_tile_max_as<T>] give for
    a slot of [size] bytes. *)
Definition bytes_as (T : TileValueType) (size : nat) : nat :=
  match T with
  | ValueOf T => sizeof T
  | ConstVoidPtr => size
  end.

(** The collaborators [X], with the format versions [versions] gives
    for the names of fragments. *)
Definition with_fragment_versions (versions : string -> Z) (X : Collaborators)
  : Collaborators :=
  {| has_min_max_metadata := has_min_max_metadata X;
     has_sum_metadata := has_sum_metadata X;
     type_data_min := type_data_min X;
     type_data_max := type_data_max X;
     type_data_sum_type := type_data_sum_type X;
     get_fragment_version := versions;
     domain_tile_num := domain_tile_num X;
     read_generic := read_generic X;
     rtree_read_levels := rtree_read_levels X;
     rtree_get_tile_overlap := rtree_get_tile_overlap X;
     rtree_compute_tile_bitmap := rtree_compute_tile_bitmap X;
     double_add_nan := double_add_nan X |}.

(** A version 7 fragment of the example array: its name, the
    collaborators that know it, the fragment being written with the
    non-empty domain [[1, 9]] of its [int32_t] dimension, and a reader
    of its metadata file of 433 bytes before the footer is read. *)
Definition example_v7_uri : string := "mem://array/__fragments/__1_1_0123456789abcdef_7".

Definition example_v7_collaborators : Collaborators :=
  with_fragment_versions
    (fun uri => if String.eqb uri example_v7_uri then 7 else 16) example_collaborators.

Definition example_v7_writer : FragmentMetadata :=
  set_non_empty_domain_ [le_split 4 1 ++ le_split 4 9]
    (set_fragment_uri_ example_v7_uri (example_fragment 7 2)).

Definition example_v7_reader : FragmentMetadata :=
  set_meta_file_size_ 433 (set_fragment_uri_ example_v7_uri (example_fragment 7 2)).

(** A fragment of the example array, of the latest version, with
    fragment metadata for its seven fields. *)
Definition example_fragment_with_rollup : FragmentMetadata :=
  set_fragment_null_counts_ [2; 0; 1; 0; 0; 0; 0]
    (set_fragment_sums_ [40; 0; 0; 7; 0; 0; 0]
       (set_fragment_maxs_
          [u64_bytes 30; bytes_of "z"; bytes_of "pear"; u64_bytes 5; u64_bytes 0; [];
           le_split 4 9]
          (set_fragment_mins_
             [u64_bytes 1; bytes_of "a"; bytes_of "fig"; u64_bytes 2; u64_bytes 0; [];
              le_split 4 3]
             (example_fragment 16 2)))).

(** ** FragmentMetadata: the processed conditions, stored and loaded *)

(** The loop of the lambda [serialize_processed_conditions] of
    [store_processed_conditions]. *)
Fixpoint serialize_conditions (conditions : list string) : list byte :=
  match conditions with
  | [] => []
  | processed_condition :: rest =>
      let data := list_byte_of_string processed_condition in
      u64_bytes (Z.of_nat (length data)) ++ data ++ serialize_conditions rest
  end.

(** [FragmentMetadata::store_processed_conditions], on the member
    [processed_conditions_]: the contents of the tile. *)
Definition store_processed_conditions (processed_conditions_ : list string) : list byte :=
  (* Store num conditions. *)
  u64_bytes (Z.of_nat (length processed_conditions_))
  ++ serialize_conditions processed_conditions_.

(** The loop of [load_processed_conditions(deserializer)]: each
    condition read is put at the back of [processed_conditions_]. *)
Fixpoint load_conditions (n : nat) (d : list byte) (processed_conditions_ : list string)
  : outcome (list string * list byte) :=
  match n with
  | O => Ok (processed_conditions_, d)
  | S n' =>
      let! '(size, d) := de_read_u64 past_end d in
      let! '(condition, d) := de_read past_end size d in
      load_conditions n' d (processed_conditions_ ++ [string_of_list_byte condition])
  end.

(** [FragmentMetadata::load_processed_conditions(deserializer)], on
    the members [processed_conditions_] and
    [processed_conditions_set_]: their new values and the bytes
    left. *)
Definition load_processed_conditions (d : list byte) (processed_conditions_ : list string)
  : outcome (list string * gset string * list byte) :=
  (* Get num conditions. *)
  let! '(num, d) := de_read_u64 past_end d in
  let! '(conditions, d) := load_conditions (Z.to_nat num) d processed_conditions_ in
  Ok (conditions, list_to_set conditions, d).

(** ** FragmentMetadata: loading the tile sums and the tile null counts *)

(** [FragmentMetadata::load_tile_sum_values(idx, deserializer)] *)
Definition load_tile_sum_values (idx : nat) (d : list byte) (f : FragmentMetadata)
  : outcome (FragmentMetadata * list byte) :=
  (* Get number of tile sums *)
  let! '(tile_sum_num, d) := de_read_u64 past_end d in
  (* Get tile sums *)
  if negb (tile_sum_num =? 0) then
    let size := wrap64 (tile_sum_num * 8) in
    let '(refused, mt) :=
      take_or_refuse size MemoryTracker.MIN_MAX_SUM_NULL_COUNT (memory_tracker_ f) in
    if refused then Throw "Cannot load sum values; Insufficient memory budget"
    else
      let! _slot := at_index (tile_sums_ f) idx in
      let! '(buffer, d) := de_read past_end size d in
      Ok (set_memory_tracker_ mt (set_tile_sums_ (<[idx := buffer]> (tile_sums_ f)) f), d)
  else Ok (f, d).

(** [FragmentMetadata::load_tile_null_count_values(idx, deserializer)] *)
Definition load_tile_null_count_values (idx : nat) (d : list byte) (f : FragmentMetadata)
  : outcome (FragmentMetadata * list byte) :=
  (* Get number of tile null counts *)
  let! '(tile_null_count_num, d) := de_read_u64 past_end d in
  (* Get tile null count *)
  if negb (tile_null_count_num =? 0) then
    let size := wrap64 (tile_null_count_num * 8) in
    let '(refused, mt) :=
      take_or_refuse size MemoryTracker.MIN_MAX_SUM_NULL_COUNT (memory_tracker_ f) in
    if refused then Throw "Cannot load null count values; Insufficient memory budget"
    else
      let! _slot := at_index (tile_null_counts_ f) idx in
      let! '(values, d) := de_read past_end size d in
      Ok (set_memory_tracker_ mt
            (set_tile_null_counts_
               (<[idx := map (read_u64 values) (seq 0 (Z.to_nat tile_null_count_num))]>
                  (tile_null_counts_ f)) f), d)
  else Ok (f, d).

(** ** FragmentMetadata: file names of version 8 *)

Module FileNames.

Import Stdlib.Strings.Ascii.
Local Open Scope char_scope.

(** The table [percent_encoding] of [encode_name]. *)
Definition percent_encoding : list (ascii * string) :=
  [ (* RFC 3986 *)
    ("!", "%21"%string); ("#", "%23"%string); ("$", "%24"%string); ("%", "%25"%string);
    ("&", "%26"%string); ("'", "%27"%string); ("(", "%28"%string); (")", "%29"%string);
    ("*", "%2A"%string); ("+", "%2B"%string); (",", "%2C"%string); ("/", "%2F"%string);
    (":", "%3A"%string); (";", "%3B"%string); ("=", "%3D"%string); ("?", "%3F"%string);
    ("@", "%40"%string); ("[", "%5B"%string); ("]", "%5D"%string);
    (* Extra encodings to cover illegal characters on Windows *)
    ("034", "%22"%string); ("<", "%20"%string); (">", "%2D"%string);
    ("\", "%30"%string); ("|", "%3C"%string) ].

Local Close Scope char_scope.

(** [percent_encoding.count(c) == 0] and [percent_encoding.at(c)] *)
Fixpoint percent_encoding_at (table : list (ascii * string)) (c : ascii) : option string :=
  match table with
  | [] => None
  | (k, v) :: rest => if Ascii.eqb k c then Some v else percent_encoding_at rest c
  end.

(** The branch of [FragmentMetadata::encode_name] for format version
    8: the characters of the name that are keys of the table are
    replaced by their encodings. *)
Fixpoint encode_name_v8 (name : string) : string :=
  match name with
  | EmptyString => EmptyString
  | String c rest =>
      match percent_encoding_at percent_encoding c with
      | None => String c (encode_name_v8 rest)
      | Some encoded => (encoded ++ encode_name_v8 rest)%string
      end
  end.

(** The name an encoded name stands for: a ['%'] starts an encoding
    of the table. *)
Fixpoint decode_name_v8 (encoded : string) : string :=
  match encoded with
  | EmptyString => EmptyString
  | String c rest =>
      if Ascii.eqb c "%" then
        match rest with
        | String a (String b rest') =>
            let code := String c (String a (String b EmptyString)) in
            match filter (fun kv => String.eqb (snd kv) code) percent_encoding with
            | (k, _) :: _ => String k (decode_name_v8 rest')
            | [] => String c (decode_name_v8 rest)
            end
        | _ => String c (decode_name_v8 rest)
        end
      else String c (decode_name_v8 rest)
  end.

End FileNames.

(** * Properties *)

(** Projections of states built with the setters. *)
Ltac fm_simpl :=
  cbn [array_schema_ dense_ domain_ non_empty_domain_ file_sizes_
       file_var_sizes_ file_validity_sizes_ footer_size_ footer_offset_
       fragment_uri_ fragment_mins_ fragment_maxs_ fragment_sums_
       fragment_null_counts_ gt_offsets_ has_timestamps_ has_delete_meta_
       idx_map_ last_tile_cell_num_ loaded_metadata_ memory_tracker_
       meta_file_size_ rtree_ sparse_tile_num_ tile_index_base_
       tile_min_buffer_ tile_min_var_buffer_ tile_max_buffer_
       tile_max_var_buffer_ tile_null_counts_ tile_offsets_ tile_var_offsets_
       tile_var_sizes_ tile_validity_offsets_ tile_sums_ version_
       set_file_sizes_ set_file_var_sizes_ set_file_validity_sizes_
       set_fragment_mins_ set_fragment_maxs_ set_fragment_sums_
       set_fragment_null_counts_ set_loaded_metadata_ set_memory_tracker_
       set_rtree_ set_tile_min_buffer_ set_tile_min_var_buffer_
       set_tile_max_buffer_ set_tile_max_var_buffer_ set_tile_offsets_
       set_tile_var_offsets_ set_tile_var_sizes_ set_tile_validity_offsets_
       set_tile_sums_ set_tile_null_counts_ set_meta_file_size_
       LoadedMetadata.footer_ LoadedMetadata.rtree_
       LoadedMetadata.tile_offsets_ LoadedMetadata.tile_var_offsets_
       LoadedMetadata.tile_var_sizes_ LoadedMetadata.tile_validity_offsets_
       LoadedMetadata.tile_min_ LoadedMetadata.tile_max_
       LoadedMetadata.tile_sum_ LoadedMetadata.tile_null_count_
       LoadedMetadata.fragment_min_max_sum_null_count_
       LoadedMetadata.processed_conditions_ LoadedMetadata.set_rtree_
       LoadedMetadata.set_tile_offsets_ LoadedMetadata.set_tile_var_offsets_
       LoadedMetadata.set_tile_var_sizes_
       LoadedMetadata.set_tile_validity_offsets_].
Tactic Notation "fm_simpl" "in" hyp(H) :=
  cbn [array_schema_ dense_ domain_ non_empty_domain_ file_sizes_
       file_var_sizes_ file_validity_sizes_ footer_size_ footer_offset_
       fragment_uri_ fragment_mins_ fragment_maxs_ fragment_sums_
       fragment_null_counts_ gt_offsets_ has_timestamps_ has_delete_meta_
       idx_map_ last_tile_cell_num_ loaded_metadata_ memory_tracker_
       meta_file_size_ rtree_ sparse_tile_num_ tile_index_base_
       tile_min_buffer_ tile_min_var_buffer_ tile_max_buffer_
       tile_max_var_buffer_ tile_null_counts_ tile_offsets_ tile_var_offsets_
       tile_var_sizes_ tile_validity_offsets_ tile_sums_ version_
       set_file_sizes_ set_file_var_sizes_ set_file_validity_sizes_
       set_fragment_mins_ set_fragment_maxs_ set_fragment_sums_
       set_fragment_null_counts_ set_loaded_metadata_ set_memory_tracker_
       set_rtree_ set_tile_min_buffer_ set_tile_min_var_buffer_
       set_tile_max_buffer_ set_tile_max_var_buffer_ set_tile_offsets_
       set_tile_var_offsets_ set_tile_var_sizes_ set_tile_validity_offsets_
       set_tile_sums_ set_tile_null_counts_ set_meta_file_size_
       LoadedMetadata.footer_ LoadedMetadata.rtree_
       LoadedMetadata.tile_offsets_ LoadedMetadata.tile_var_offsets_
       LoadedMetadata.tile_var_sizes_ LoadedMetadata.tile_validity_offsets_
       LoadedMetadata.tile_min_ LoadedMetadata.tile_max_
       LoadedMetadata.tile_sum_ LoadedMetadata.tile_null_count_
       LoadedMetadata.fragment_min_max_sum_null_count_
       LoadedMetadata.processed_conditions_ LoadedMetadata.set_rtree_
       LoadedMetadata.set_tile_offsets_ LoadedMetadata.set_tile_var_offsets_
       LoadedMetadata.set_tile_var_sizes_
       LoadedMetadata.set_tile_validity_offsets_] in H.

(** ** Machine integers *)

Lemma two64_pos : 0 < two64.
Proof. reflexivity. Qed.

Lemma wrap64_range (z : Z) : is_u64 (wrap64 z).
Proof. unfold is_u64, wrap64. apply Z.mod_pos_bound, two64_pos. Qed.

Lemma wrap64_small (z : Z) : is_u64 z -> wrap64 z = z.
Proof. unfold is_u64, wrap64. intros H. apply Z.mod_small, H. Qed.

Lemma wrap64_idem (z : Z) : wrap64 (wrap64 z) = wrap64 z.
Proof. apply wrap64_small, wrap64_range. Qed.

Lemma wrap64_add_l (a b : Z) : wrap64 (wrap64 a + b) = wrap64 (a + b).
Proof. unfold wrap64. apply Zplus_mod_idemp_l. Qed.

Lemma wrap64_add_r (a b : Z) : wrap64 (a + wrap64 b) = wrap64 (a + b).
Proof. unfold wrap64. apply Zplus_mod_idemp_r. Qed.

Lemma wrap64_sub_l (a b : Z) : wrap64 (wrap64 a - b) = wrap64 (a - b).
Proof. unfold wrap64. apply Zminus_mod_idemp_l. Qed.

Lemma wrap64_sub_r (a b : Z) : wrap64 (a - wrap64 b) = wrap64 (a - b).
Proof. unfold wrap64. apply Zminus_mod_idemp_r. Qed.

Lemma sum_list_Z_app (l1 l2 : list Z) :
  sum_list_Z (l1 ++ l2) = sum_list_Z l1 + sum_list_Z l2.
Proof. induction l1 as [|x l1 IH]; simpl; lia. Qed.

Lemma sum_list_Z_nonneg (l : list Z) : Forall is_u64 l -> 0 <= sum_list_Z l.
Proof.
  induction 1 as [|x l Hx _ IH]; simpl; [lia|]. unfold is_u64 in Hx. lia.
Qed.

Lemma sum_list_Z_take_le (l : list Z) (k : nat) :
  Forall is_u64 l -> 0 <= sum_list_Z (take k l) <= sum_list_Z l.
Proof.
  intros Hl. rewrite <- (take_drop k l) at 3. rewrite sum_list_Z_app.
  pose proof (sum_list_Z_nonneg (take k l) (Forall_take _ k l Hl)).
  pose proof (sum_list_Z_nonneg (drop k l) (Forall_drop _ k l Hl)). lia.
Qed.

(** ** Dimension *)

Module DimensionFacts.
Import Dimension.

Lemma bits_bounds (T : IntType) : 0 < bits T <= 64.
Proof. destruct T; simpl; lia. Qed.

Lemma wrap64_mod_bits (T : IntType) (x : Z) :
  wrap64 x mod 2 ^ bits T = x mod 2 ^ bits T.
Proof.
  unfold wrap64, two64. apply Z.mod_mod_divide.
  exists (2 ^ (64 - bits T)). rewrite <- Z.pow_add_r.
  - f_equal. lia.
  - pose proof (bits_bounds T). lia.
  - pose proof (bits_bounds T). lia.
Qed.

(** The last line of [tile_coord_high], done in 64 bits and cut to
    [T] on return, is the same as doing it in the unsigned type of the
    width of [T]. *)
Lemma tile_coord_high_width (T : IntType) (k low ext : Z) :
  wrap64 (wrap64 (to_unsigned T low + wrap64 (wrap64 (k + 1) * to_unsigned T ext)) - 1)
    mod 2 ^ bits T
  = (to_unsigned T low + (k + 1) * to_unsigned T ext - 1) mod 2 ^ bits T.
Proof.
  rewrite wrap64_mod_bits.
  rewrite <- Zminus_mod_idemp_l, wrap64_mod_bits.
  rewrite <- Zplus_mod_idemp_r, wrap64_mod_bits.
  rewrite <- Zmult_mod_idemp_l, wrap64_mod_bits.
  rewrite Zmult_mod_idemp_l, Zplus_mod_idemp_r, Zminus_mod_idemp_l.
  reflexivity.
Qed.

(** C8, as the code has it.  [tile_coord_high] returns
    [domain_low + (k+1) * tile_extent - 1] computed in the unsigned
    type of the width of [T] and read back as a [T], except when the
    extent, as an unsigned value, is the largest value of that
    unsigned type: then it returns [T::MAX], or [T::MAX - 1] if
    [domain_low] is [T::MIN]. *)
Theorem tile_coord_high_spec (T : IntType) (k low ext : Z) :
  tile_coord_high T k low ext =
    if to_unsigned T ext =? unsigned_max T then
      if low =? T_min T then T_max T - 1 else T_max T
    else
      reinterpret T
        ((to_unsigned T low + (k + 1) * to_unsigned T ext - 1) mod 2 ^ bits T).
Proof.
  unfold tile_coord_high.
  destruct (to_unsigned T ext =? unsigned_max T).
  - destruct (low =? T_min T); lia.
  - unfold convert. rewrite tile_coord_high_width. reflexivity.
Qed.

(** Away from the wrap-around the value is the mathematical one. *)
Lemma tile_coord_high_exact (T : IntType) (k low ext : Z) :
  in_range T low -> in_range T ext ->
  to_unsigned T ext <> unsigned_max T ->
  0 < ext -> 0 <= k ->
  in_range T (low + (k + 1) * ext - 1) ->
  tile_coord_high T k low ext = low + (k + 1) * ext - 1.
Proof.
  intros Hl He Hne Hpos Hk Hr.
  unfold tile_coord_high.
  apply Z.eqb_neq in Hne. rewrite Hne.
  unfold convert. rewrite tile_coord_high_width.
  assert (Hext : to_unsigned T ext = ext).
  { unfold to_unsigned. apply Z.mod_small.
    unfold in_range, T_min, T_max in He. destruct T; simpl in *; lia. }
  rewrite Hext.
  replace ((to_unsigned T low + (k + 1) * ext - 1) mod 2 ^ bits T)
    with ((low + (k + 1) * ext - 1) mod 2 ^ bits T).
  2:{ unfold to_unsigned. symmetry.
      replace (low mod 2 ^ bits T + (k + 1) * ext - 1)
        with (low mod 2 ^ bits T + ((k + 1) * ext - 1)) by lia.
      rewrite Zplus_mod_idemp_l. f_equal. lia. }
  set (v := low + (k + 1) * ext - 1) in *.
  unfold in_range, T_min, T_max, reinterpret in *.
  destruct T; simpl in *;
    try (rewrite Z.mod_small by lia; reflexivity);
    (destruct (Z.leb_spec 0 v);
     [ rewrite Z.mod_small by lia;
       match goal with |- context [?a <=? ?b] => destruct (Z.leb_spec a b) end; lia
     | match goal with |- context [v mod ?m] =>
         replace (v mod m) with (v + m)
           by (apply (Z.mod_unique v m (-1) (v + m)); lia) end;
       match goal with |- context [?a <=? ?b] => destruct (Z.leb_spec a b) end; lia ]).
Qed.

(** C8, as the specification words it, fails: with [T = U8],
    [domain_low = 0] and the extent [T::MAX - domain_low = 255] the
    result for tile 0 is 254, not [T::MAX]. *)
Lemma tile_coord_high_not_T_max :
  let T := U8 in
  let low := 0 in
  let ext := T_max T - low in
  in_range T low /\ in_range T ext /\
  tile_coord_high T 0 low ext = 254 /\
  tile_coord_high T 0 low ext <> T_max T.
Proof. vm_compute. repeat split; congruence. Qed.

(** An extent [T::MAX - domain_low] that is not the unsigned maximum
    takes the ordinary formula. *)
Example tile_coord_high_u8_low5 :
  Dimension.tile_coord_high U8 0 5 250 = 254 /\
  Dimension.tile_coord_high U8 1 5 250 = 248.
Proof. vm_compute. split; reflexivity. Qed.

End DimensionFacts.

(** ** Byte buffers viewed as arrays of [uint64_t] *)

Lemma length_u64_bytes (v : Z) : length (u64_bytes v) = 8%nat.
Proof. apply length_le_split. Qed.

Lemma le_combine_u64_bytes (v : Z) : le_combine (u64_bytes v) = wrap64 v.
Proof. unfold u64_bytes. rewrite le_combine_split. reflexivity. Qed.

Lemma u64_buffer_app (l1 l2 : list Z) :
  u64_buffer (l1 ++ l2) = u64_buffer l1 ++ u64_buffer l2.
Proof. unfold u64_buffer. rewrite map_app, concat_app. reflexivity. Qed.

Lemma u64_buffer_cons (x : Z) (l : list Z) :
  u64_buffer (x :: l) = u64_bytes x ++ u64_buffer l.
Proof. reflexivity. Qed.

Lemma length_u64_buffer (l : list Z) : length (u64_buffer l) = (8 * length l)%nat.
Proof.
  induction l as [|x l IH]; [reflexivity|].
  rewrite u64_buffer_cons, length_app, length_u64_bytes, IH. simpl. lia.
Qed.

(** Reading the entry that follows the entries [done]. *)
Lemma read_u64_after (done : list Z) (v : Z) (rest : list byte) :
  read_u64 (u64_buffer done ++ u64_bytes v ++ rest) (length done) = wrap64 v.
Proof.
  unfold read_u64.
  rewrite drop_app_length' by (rewrite length_u64_buffer; reflexivity).
  rewrite (take_app_length' (u64_bytes v) rest 8 (length_u64_bytes v)).
  apply le_combine_u64_bytes.
Qed.

(** Writing the entry that follows the entries [done], over any eight
    bytes. *)
Lemma write_u64_after (done : list Z) (old : list byte) (v : Z) (rest : list byte) :
  length old = 8%nat ->
  write_u64 (u64_buffer done ++ old ++ rest) (length done) v
  = u64_buffer (done ++ [v]) ++ rest.
Proof.
  intros Hold. unfold write_u64.
  rewrite take_app_length' by (rewrite length_u64_buffer; reflexivity).
  replace (8 * length done + 8)%nat with (length (u64_buffer done ++ old))
    by (rewrite length_app, length_u64_buffer, Hold; reflexivity).
  rewrite (app_assoc (u64_buffer done) old rest).
  rewrite drop_app_length.
  rewrite u64_buffer_app, u64_buffer_cons.
  change (u64_buffer []) with (@nil byte).
  rewrite app_nil_r, <- app_assoc. reflexivity.
Qed.

(** Eight bytes can be split off a buffer that is long enough. *)
Lemma split_8 (buf : list byte) :
  (8 <= length buf)%nat ->
  exists old rest, buf = old ++ rest /\ length old = 8%nat.
Proof.
  intros H. exists (take 8 buf), (drop 8 buf). split.
  - symmetry. apply take_drop.
  - rewrite length_take. lia.
Qed.

Lemma read_u64_buffer (l : list Z) (t : nat) (v : Z) :
  l !! t = Some v -> read_u64 (u64_buffer l) t = wrap64 v.
Proof.
  intros H. apply list_elem_of_split_length in H as (l1 & l2 & -> & ->).
  rewrite u64_buffer_app, u64_buffer_cons. apply read_u64_after.
Qed.

(** The loop of the size-to-offset conversion on a buffer of entries. *)
Lemma sizes_to_offsets_buffer (sizes done : list Z) (offset : Z) :
  Forall is_u64 sizes -> is_u64 offset ->
  sizes_to_offsets (length sizes) (length done) offset (u64_buffer (done ++ sizes))
  = (wrap64 (offset + sum_list_Z sizes),
     u64_buffer (done ++ running_offsets offset sizes)).
Proof.
  intros Hs. revert done offset.
  induction Hs as [|s sizes Hx Hs IH]; intros done offset Ho.
  - simpl. rewrite Z.add_0_r, wrap64_small by done. reflexivity.
  - cbn [length sizes_to_offsets running_offsets sum_list_Z].
    rewrite u64_buffer_app, u64_buffer_cons.
    rewrite read_u64_after, (wrap64_small s) by done.
    rewrite write_u64_after by apply length_u64_bytes.
    rewrite <- u64_buffer_app.
    replace (S (length done)) with (length (done ++ [offset]))
      by (rewrite length_app; simpl; lia).
    rewrite IH by apply wrap64_range.
    rewrite wrap64_add_l, <- app_assoc. simpl.
    f_equal. f_equal. lia.
Qed.

Lemma running_offsets_length (acc : Z) (l : list Z) :
  length (running_offsets acc l) = length l.
Proof. revert acc. induction l as [|x l IH]; intros acc; simpl; [done|]. by rewrite IH. Qed.

Lemma running_offsets_lookup (l : list Z) (acc : Z) (k : nat) :
  is_u64 acc -> (k < length l)%nat ->
  running_offsets acc l !! k = Some (wrap64 (acc + sum_list_Z (take k l))).
Proof.
  revert acc k. induction l as [|x l IH]; intros acc k Hacc Hk; simpl in *; [lia|].
  destruct k as [|k]; simpl.
  - rewrite Z.add_0_r, wrap64_small by done. reflexivity.
  - rewrite IH by (try apply wrap64_range; lia).
    rewrite wrap64_add_l. do 2 f_equal. lia.
Qed.

(** Without wrap-around the running offsets from 0 are the exclusive
    prefix sums. *)
Lemma running_offsets_exact (l : list Z) :
  Forall is_u64 l -> sum_list_Z l < two64 ->
  running_offsets 0 l = exclusive_prefix_sums l.
Proof.
  intros Hl Hsum. apply list_eq. intros k.
  unfold exclusive_prefix_sums.
  destruct (decide (k < length l)%nat) as [Hk|Hk].
  - rewrite running_offsets_lookup by (done || (unfold is_u64, two64; lia)).
    rewrite list_lookup_fmap, lookup_seq_lt by done. simpl.
    rewrite wrap64_small; [done|].
    pose proof (sum_list_Z_take_le l k Hl). unfold is_u64. lia.
  - rewrite !lookup_ge_None_2; [done| |].
    + rewrite length_map, length_seq. lia.
    + rewrite running_offsets_length. lia.
Qed.

(** ** C1: tile offsets are the prefix sums of the steps *)

Lemma at_index_Some {A : Type} (v : list A) (i : nat) (a : A) :
  v !! i = Some a -> at_index v i = Ok a.
Proof. unfold at_index. by intros ->. Qed.

(** The writer's loop from tile [length done] on: the entries written
    are the running file sizes, the file size grows by the steps. *)
Lemma append_tiles_run (name : string) (idx : nat) (steps : list Z) :
  forall (done rest : list Z) (size : Z) (f : FragmentMetadata),
  idx_map_ f !! name = Some idx ->
  tile_index_base_ f = 0 ->
  tile_offsets_ f !! idx = Some (done ++ rest) ->
  file_sizes_ f !! idx = Some size ->
  is_u64 size ->
  (length steps <= length rest)%nat ->
  Z.of_nat (length (done ++ rest)) < two64 ->
  append_tiles name (Z.of_nat (length done)) steps f
  = Ok (set_file_sizes_
          (<[idx := wrap64 (size + sum_list_Z steps)]> (file_sizes_ f))
          (set_tile_offsets_
             (<[idx := done ++ running_offsets size steps ++ drop (length steps) rest]>
                (tile_offsets_ f)) f)).
Proof.
  induction steps as [|s steps IH]; intros done rest size f Hidx Hbase Hrow Hsize Hu Hlen Hbig.
  - simpl. rewrite Z.add_0_r, wrap64_small by done.
    rewrite !list_insert_id by done. by destruct f.
  - destruct rest as [|r0 rest]; [simpl in Hlen; lia|].
    cbn [append_tiles]. unfold set_tile_offset. rewrite Hidx, Hbase, Z.add_0_r.
    rewrite length_app in Hbig. cbn [length] in Hbig, Hlen.
    rewrite wrap64_small. 2:{ clear IH. unfold is_u64, two64 in *. lia. }
    rewrite (at_index_Some _ _ _ Hrow). cbn [obind].
    unfold assert_then.
    replace (Z.of_nat (length done) <? Z.of_nat (length (done ++ r0 :: rest))) with true
      by (clear IH; symmetry; apply Z.ltb_lt; rewrite length_app; simpl; lia).
    rewrite (at_index_Some _ _ _ Hsize). cbn [obind].
    rewrite Nat2Z.id.
    rewrite insert_app_r_alt by lia. rewrite Nat.sub_diag. cbn [insert list_insert].
    replace (Z.of_nat (length done) + 1) with (Z.of_nat (length (done ++ [size])))
      by (clear IH; rewrite length_app; simpl; lia).
    pose proof (lookup_lt_Some _ _ _ Hrow) as Hi1.
    pose proof (lookup_lt_Some _ _ _ Hsize) as Hi2.
    erewrite (IH (done ++ [size]) rest (wrap64 (size + s))).
    + cbn [sum_list_Z running_offsets length drop].
      unfold set_file_sizes_, set_tile_offsets_. cbn.
      rewrite !list_insert_insert_eq. rewrite wrap64_add_l, <- app_assoc.
      cbn [app]. rewrite (Z.add_assoc size s). reflexivity.
    + done.
    + done.
    + cbn. rewrite list_lookup_insert_eq by done. by rewrite <- app_assoc.
    + cbn. by rewrite list_lookup_insert_eq.
    + apply wrap64_range.
    + clear IH. lia.
    + clear IH. rewrite !length_app in *. simpl in *. lia.
Qed.

(** [persisted_size_of] on the offsets the writer's loop leaves: the
    size of tile [k] is the step of tile [k], with or without
    wrap-around of the running file size. *)
Lemma persisted_size_of_running (steps sizes : list Z) (idx k : nat) (s : Z) :
  Forall is_u64 steps ->
  Z.of_nat (length steps) < two64 ->
  sizes !! idx = Some (wrap64 (sum_list_Z steps)) ->
  steps !! k = Some s ->
  persisted_size_of (Z.of_nat (length steps)) (Z.of_nat k)
    (running_offsets 0 steps) sizes idx = Ok s.
Proof.
  intros Hu Hn Hsz Hk.
  pose proof (lookup_lt_Some _ _ _ Hk) as Hlt.
  assert (Hs : is_u64 s) by (eapply Forall_lookup_1; eauto).
  assert (H0 : is_u64 0) by (unfold is_u64, two64; lia).
  unfold persisted_size_of.
  rewrite (wrap64_small (Z.of_nat (length steps) - 1)) by (unfold is_u64, two64 in *; lia).
  rewrite Nat2Z.id.
  rewrite (at_index_Some _ _ _ (running_offsets_lookup steps 0 k H0 Hlt)).
  destruct (Z.eqb_spec (Z.of_nat k) (Z.of_nat (length steps) - 1)) as [Hlast|Hnot]; cbn [negb].
  - rewrite (at_index_Some _ _ _ Hsz). cbn [obind]. f_equal.
    rewrite wrap64_sub_l, wrap64_sub_r. rewrite Z.add_0_l.
    rewrite <- (take_drop (S k) steps) at 1.
    rewrite drop_ge, app_nil_r by lia.
    rewrite (take_S_r _ _ _ Hk), sum_list_Z_app. simpl.
    rewrite <- (wrap64_small s) at 2 by done. f_equal. lia.
  - rewrite wrap64_small by (unfold is_u64, two64 in *; lia).
    replace (Z.to_nat (Z.of_nat k + 1)) with (S k) by lia.
    assert (Hlt' : (S k < length steps)%nat) by lia.
    rewrite (at_index_Some _ _ _ (running_offsets_lookup steps 0 (S k) H0 Hlt')).
    cbn [obind]. f_equal.
    rewrite wrap64_sub_l, wrap64_sub_r. rewrite !Z.add_0_l.
    rewrite (take_S_r _ _ _ Hk), sum_list_Z_app. simpl.
    rewrite <- (wrap64_small s) at 2 by done. f_equal. lia.
Qed.

(** C1.  A fragment whose tiles 0..n-1 of a field were appended in
    order with steps [s_0, ..., s_(n-1)], from file size 0 and with
    [tile_index_base_ = 0]: the offsets recorded are the prefix sums
    of the steps, [persisted_tile_size] of tile [k] is [s_k], and the
    file size is the sum of the persisted tile sizes. *)
Theorem tile_offsets_prefix_sums (X : Collaborators) (name : string) (idx : nat)
    (steps row : list Z) (f : FragmentMetadata) :
  idx_map_ f !! name = Some idx ->
  tile_index_base_ f = 0 ->
  tile_num X f = Z.of_nat (length steps) ->
  tile_offsets_ f !! idx = Some row ->
  length row = length steps ->
  file_sizes_ f !! idx = Some 0 ->
  LoadedMetadata.tile_offsets_ (loaded_metadata_ f) !! idx = Some true ->
  Forall is_u64 steps ->
  Z.of_nat (length steps) < two64 ->
  sum_list_Z steps < two64 ->
  exists f',
    append_tiles name 0 steps f = Ok f' /\
    tile_offsets_ f' !! idx = Some (exclusive_prefix_sums steps) /\
    (forall k s, steps !! k = Some s ->
       persisted_tile_size X name (Z.of_nat k) f' = Ok s) /\
    file_sizes_ f' !! idx = Some (sum_list_Z steps) /\
    sum_persisted_tile_sizes X name 0 (length steps) f' = Ok (sum_list_Z steps).
Proof.
  intros Hidx Hbase Hnum Hrow Hlen Hsize Hloaded Hu Hn Hsum.
  assert (H0 : is_u64 0) by (unfold is_u64, two64; lia).
  assert (Htot : is_u64 (sum_list_Z steps)).
  { pose proof (sum_list_Z_nonneg steps Hu). unfold is_u64. lia. }
  pose proof (lookup_lt_Some _ _ _ Hrow) as Hi1.
  pose proof (lookup_lt_Some _ _ _ Hsize) as Hi2.
  assert (H1 : (length steps <= length row)%nat) by lia.
  assert (H2 : Z.of_nat (length ([] ++ row)) < two64) by (simpl; lia).
  pose proof (append_tiles_run name idx steps [] row 0 f
                Hidx Hbase Hrow Hsize H0 H1 H2) as Hrun.
  rewrite <- Hlen, drop_all, app_nil_r in Hrun.
  cbn [app length Z.of_nat] in Hrun. rewrite Z.add_0_l in Hrun.
  rewrite (wrap64_small _ Htot) in Hrun.
  eexists. split; [exact Hrun|].
  assert (Hoffs : forall k s, steps !! k = Some s ->
            persisted_tile_size X name (Z.of_nat k)
              (set_file_sizes_ (<[idx:=sum_list_Z steps]> (file_sizes_ f))
                 (set_tile_offsets_ (<[idx:=running_offsets 0 steps]> (tile_offsets_ f)) f))
            = Ok s).
  { intros k s Hk. unfold persisted_tile_size. cbn.
    rewrite Hidx, (at_index_Some _ _ _ Hloaded). cbn.
    rewrite (at_index_Some _ _ (running_offsets 0 steps))
      by (by rewrite list_lookup_insert_eq).
    cbn. unfold tile_num in *. cbn. rewrite Hnum.
    apply persisted_size_of_running; try done.
    rewrite list_lookup_insert_eq by done. by rewrite wrap64_small. }
  split; [|split; [|split]].
  - cbn. rewrite list_lookup_insert_eq by done.
    by rewrite running_offsets_exact.
  - exact Hoffs.
  - cbn. by rewrite list_lookup_insert_eq.
  - assert (Hgen : forall m j, (j + m = length steps)%nat ->
              sum_persisted_tile_sizes X name (Z.of_nat j) m
                (set_file_sizes_ (<[idx:=sum_list_Z steps]> (file_sizes_ f))
                   (set_tile_offsets_ (<[idx:=running_offsets 0 steps]> (tile_offsets_ f)) f))
              = Ok (wrap64 (sum_list_Z (drop j steps)))).
    { induction m as [|m IHm]; intros j Hj.
      - simpl. rewrite drop_ge by lia. reflexivity.
      - destruct (lookup_lt_is_Some_2 steps j ltac:(lia)) as [s Hs].
        cbn [sum_persisted_tile_sizes]. rewrite (Hoffs j s Hs). cbn [obind].
        replace (Z.of_nat j + 1) with (Z.of_nat (S j)) by lia.
        rewrite IHm by lia. cbn [obind].
        rewrite wrap64_add_r. rewrite (drop_S _ _ _ Hs). reflexivity. }
    pose proof (Hgen (length steps) 0%nat ltac:(lia)) as Hg.
    rewrite drop_0, wrap64_small in Hg by done. exact Hg.
Qed.

(** ** C9: the size-to-offset conversion of the var-sized min and max *)

(** Recording the sizes of tiles [length dmin] on, over buffers whose
    first entries are [dmin] and [dmax]. *)
Lemma record_min_max_var_sizes_run (name : string) (idx : nat) (sizes : list (Z * Z)) :
  forall (dmin dmax : list Z) (rmin rmax : list byte) (f : FragmentMetadata),
  idx_map_ f !! name = Some idx ->
  tile_index_base_ f = 0 ->
  tile_min_buffer_ f !! idx = Some (u64_buffer dmin ++ rmin) ->
  tile_max_buffer_ f !! idx = Some (u64_buffer dmax ++ rmax) ->
  length dmin = length dmax ->
  (8 * length sizes <= length rmin)%nat ->
  (8 * length sizes <= length rmax)%nat ->
  Z.of_nat (length dmin + length sizes) < two64 ->
  record_min_max_var_sizes name (Z.of_nat (length dmin)) sizes f
  = Ok (set_tile_max_buffer_
          (<[idx := u64_buffer (dmax ++ sizes.*2) ++ drop (8 * length sizes) rmax]>
             (tile_max_buffer_ f))
          (set_tile_min_buffer_
             (<[idx := u64_buffer (dmin ++ sizes.*1) ++ drop (8 * length sizes) rmin]>
                (tile_min_buffer_ f)) f)).
Proof.
  induction sizes as [|[smin smax] sizes IH];
    intros dmin dmax rmin rmax f Hidx Hbase Hmin Hmax Hd Hrmin Hrmax Hbig.
  - cbn. rewrite !app_nil_r, !drop_0. rewrite !list_insert_id by done. by destruct f.
  - cbn [length] in Hrmin, Hrmax, Hbig.
    destruct (split_8 rmin) as (omin & rmin' & -> & Homin); [clear IH; lia|].
    destruct (split_8 rmax) as (omax & rmax' & -> & Homax); [clear IH; lia|].
    pose proof (lookup_lt_Some _ _ _ Hmin) as Hi1.
    pose proof (lookup_lt_Some _ _ _ Hmax) as Hi2.
    assert (Htid : wrap64 (Z.of_nat (length dmin) + 0) = Z.of_nat (length dmin)).
    { clear IH. rewrite Z.add_0_r. apply wrap64_small. unfold is_u64, two64 in *. lia. }
    assert (Hdiv : forall (d : list Z) (o r : list byte), length o = 8%nat ->
              (Z.of_nat (length d) <? Z.of_nat (length (u64_buffer d ++ o ++ r)) / 8) = true).
    { clear. intros d o r Ho. apply Z.ltb_lt.
      rewrite !length_app, length_u64_buffer, Ho.
      apply Z.lt_le_trans with (Z.of_nat (length d) + 1); [lia|].
      apply Z.div_le_lower_bound; lia. }
    cbn [record_min_max_var_sizes].
    unfold set_tile_min_var_size at 1. rewrite Hidx, Hbase, Htid.
    rewrite (at_index_Some _ _ _ Hmin). cbn [obind]. unfold assert_then.
    rewrite Hdiv by done. rewrite Nat2Z.id. rewrite (write_u64_after dmin omin smin rmin' Homin).
    cbn [obind]. unfold set_tile_max_var_size at 1.
    cbn [idx_map_ tile_index_base_ tile_max_buffer_ set_tile_min_buffer_].
    rewrite Hidx, Hbase, Htid.
    rewrite (at_index_Some _ _ _ Hmax). cbn [obind]. unfold assert_then.
    rewrite Hd, Hdiv by done. rewrite Nat2Z.id, write_u64_after by done.
    cbn [obind].
    replace (Z.of_nat (length dmax) + 1) with (Z.of_nat (length (dmin ++ [smin])))
      by (clear IH; rewrite length_app; simpl; lia).
    erewrite (IH (dmin ++ [smin]) (dmax ++ [smax]) rmin' rmax').
    + unfold set_tile_max_buffer_, set_tile_min_buffer_. cbn -[Nat.mul u64_buffer drop].
      rewrite !list_insert_insert_eq, <- !app_assoc.
      replace (8 * S (length sizes))%nat with (8 + 8 * length sizes)%nat by (clear; lia).
      rewrite <- !drop_drop.
      rewrite (drop_app_length' omin rmin' 8 (eq_sym Homin)),
        (drop_app_length' omax rmax' 8 (eq_sym Homax)).
      reflexivity.
    + done.
    + done.
    + cbn. by rewrite list_lookup_insert_eq.
    + cbn. by rewrite list_lookup_insert_eq.
    + rewrite !length_app. simpl. clear IH. lia.
    + clear IH. rewrite !length_app, Homin in Hrmin. lia.
    + clear IH. rewrite !length_app, Homax in Hrmax. lia.
    + clear IH. rewrite !length_app. simpl. lia.
Qed.

Lemma length_resize_bytes (buf : list byte) (n : nat) : length (resize_bytes buf n) = n.
Proof.
  unfold resize_bytes. rewrite length_app, length_take, length_replicate. lia.
Qed.

(** C9.  For a var-sized field whose per-tile min and max sizes were
    recorded for tiles 0..n-1, with [tile_index_base_ = 0] and empty
    var buffers, one call of the conversion turns the [n] entries of
    the min (resp. max) buffer into the exclusive prefix sums of the
    recorded sizes and resizes the min (resp. max) var buffer to the
    total of the sizes. *)
Theorem convert_sizes_to_offsets_prefix_sums (name : string) (idx : nat)
    (sizes : list (Z * Z)) (bmin bmax : list byte) (f : FragmentMetadata) :
  idx_map_ f !! name = Some idx ->
  tile_index_base_ f = 0 ->
  tile_min_buffer_ f !! idx = Some bmin ->
  length bmin = (8 * length sizes)%nat ->
  tile_max_buffer_ f !! idx = Some bmax ->
  length bmax = (8 * length sizes)%nat ->
  tile_min_var_buffer_ f !! idx = Some [] ->
  tile_max_var_buffer_ f !! idx = Some [] ->
  Forall is_u64 (sizes.*1) ->
  Forall is_u64 (sizes.*2) ->
  Z.of_nat (length sizes) < two64 ->
  sum_list_Z (sizes.*1) < two64 ->
  sum_list_Z (sizes.*2) < two64 ->
  exists f1 f2,
    record_min_max_var_sizes name 0 sizes f = Ok f1 /\
    convert_tile_min_max_var_sizes_to_offsets name f1 = Ok f2 /\
    tile_min_buffer_ f2 !! idx = Some (u64_buffer (exclusive_prefix_sums (sizes.*1))) /\
    tile_max_buffer_ f2 !! idx = Some (u64_buffer (exclusive_prefix_sums (sizes.*2))) /\
    (exists v, tile_min_var_buffer_ f2 !! idx = Some v /\
               Z.of_nat (length v) = sum_list_Z (sizes.*1)) /\
    (exists v, tile_max_var_buffer_ f2 !! idx = Some v /\
               Z.of_nat (length v) = sum_list_Z (sizes.*2)).
Proof.
  intros Hidx Hbase Hmin Hlmin Hmax Hlmax Hvmin Hvmax Hu1 Hu2 Hn Hs1 Hs2.
  assert (H0 : is_u64 0) by (unfold is_u64, two64; lia).
  pose proof (lookup_lt_Some _ _ _ Hmin) as Hi1.
  pose proof (lookup_lt_Some _ _ _ Hmax) as Hi2.
  pose proof (lookup_lt_Some _ _ _ Hvmin) as Hi3.
  pose proof (lookup_lt_Some _ _ _ Hvmax) as Hi4.
  pose proof (record_min_max_var_sizes_run name idx sizes [] [] bmin bmax f
                Hidx Hbase Hmin Hmax eq_refl ltac:(lia) ltac:(lia) ltac:(simpl; lia)) as Hrun.
  cbn [app length Z.of_nat] in Hrun.
  rewrite !drop_ge, !app_nil_r in Hrun by lia.
  eexists. eexists. split; [exact Hrun|].
  unfold convert_tile_min_max_var_sizes_to_offsets.
  cbn [idx_map_ tile_index_base_ tile_min_var_buffer_ tile_min_buffer_
       tile_max_var_buffer_ tile_max_buffer_ set_tile_max_buffer_ set_tile_min_buffer_].
  rewrite Hidx, Hbase.
  rewrite (at_index_Some _ _ _ Hvmin), (at_index_Some _ _ _ Hvmax). cbn [obind].
  rewrite (at_index_Some _ _ (u64_buffer (sizes.*1))) by (by rewrite list_lookup_insert_eq).
  rewrite (at_index_Some _ _ (u64_buffer (sizes.*2))) by (by rewrite list_lookup_insert_eq).
  cbn [obind].
  rewrite !length_u64_buffer, !length_fmap.
  replace (Nat.div (8 * length sizes) 8 - Z.to_nat 0)%nat with (length sizes)
    by (rewrite Nat.mul_comm, Nat.div_mul by lia; simpl; lia).
  change (Z.to_nat 0) with (@length Z []).
  change (Z.of_nat (@length byte [])) with 0.
  pose proof (sizes_to_offsets_buffer (sizes.*1) [] 0 Hu1 H0) as Lmin.
  pose proof (sizes_to_offsets_buffer (sizes.*2) [] 0 Hu2 H0) as Lmax.
  rewrite length_fmap in Lmin, Lmax. cbn [app] in Lmin, Lmax.
  rewrite Lmin, Lmax. rewrite !Z.add_0_l.
  assert (Ht1 : is_u64 (sum_list_Z (sizes.*1))).
  { pose proof (sum_list_Z_nonneg _ Hu1). unfold is_u64. lia. }
  assert (Ht2 : is_u64 (sum_list_Z (sizes.*2))).
  { pose proof (sum_list_Z_nonneg _ Hu2). unfold is_u64. lia. }
  rewrite !wrap64_small by done.
  rewrite !running_offsets_exact by done.
  split; [reflexivity|].
  cbn [tile_min_buffer_ tile_max_buffer_ tile_min_var_buffer_ tile_max_var_buffer_
       set_tile_max_var_buffer_ set_tile_max_buffer_ set_tile_min_var_buffer_
       set_tile_min_buffer_].
  rewrite !list_lookup_insert_eq by (rewrite ?length_insert; done).
  split; [reflexivity|]. split; [reflexivity|].
  unfold is_u64 in Ht1, Ht2.
  split; eexists; (split; [reflexivity|]); rewrite length_resize_bytes; lia.
Qed.

(** ** C5: the fragment sums saturate *)

Lemma to_i64_wrap64 (v : Z) : is_i64 v -> to_i64 (wrap64 v) = v.
Proof.
  unfold is_i64, i64_min, i64_max, to_i64. intros Hv. rewrite wrap64_idem.
  unfold wrap64, two64.
  destruct (Z.leb_spec 0 v).
  - rewrite Z.mod_small by lia. destruct (Z.ltb_spec v (2 ^ 63)); lia.
  - replace (v mod 2 ^ 64) with (v + 2 ^ 64)
      by (apply (Z.mod_unique v (2 ^ 64) (-1) (v + 2 ^ 64)); lia).
    destruct (Z.ltb_spec (v + 2 ^ 64) (2 ^ 63)); lia.
Qed.

Lemma read_u64_at_buffer (l : list Z) (t : nat) (v : Z) :
  l !! t = Some v -> read_u64_at (u64_buffer l) (Z.of_nat t) = Ok (wrap64 v).
Proof.
  intros H. pose proof (lookup_lt_Some _ _ _ H) as Hlt.
  unfold read_u64_at. rewrite length_u64_buffer.
  replace (8 * (Z.of_nat t + 1) <=? Z.of_nat (8 * length l)) with true
    by (symmetry; apply Z.leb_le; lia).
  replace (0 <=? Z.of_nat t) with true by (symmetry; apply Z.leb_le; lia).
  cbn [andb]. rewrite Nat2Z.id. f_equal. by apply read_u64_buffer.
Qed.

(** Whether a tile counts, as the loops test it, is the negation of
    [entirely_null]. *)
Lemma tile_counts_spec (X : Collaborators) (f : FragmentMetadata) (nullable : bool)
    (ncs : list Z) (t : nat) :
  (nullable = true -> (t < length ncs)%nat) ->
  tile_counts X f nullable ncs (Z.of_nat t)
  = Ok (negb (entirely_null X f nullable ncs t)).
Proof.
  intros Hlen. unfold tile_counts, entirely_null. destruct nullable; [|done].
  cbn [negb andb]. rewrite Nat2Z.id.
  destruct (lookup_lt_is_Some_2 ncs t (Hlen eq_refl)) as [nc Hnc].
  by rewrite (at_index_Some _ _ _ Hnc), Hnc.
Qed.

Lemma is_null_tile_spec (X : Collaborators) (f : FragmentMetadata) (nullable : bool)
    (ncs : list Z) (t : nat) :
  (nullable = true -> (t < length ncs)%nat) ->
  is_null_tile X f nullable ncs (Z.of_nat t) = Ok (entirely_null X f nullable ncs t).
Proof.
  intros Hlen. unfold is_null_tile, entirely_null. destruct nullable; [|done].
  cbn [andb]. rewrite Nat2Z.id.
  destruct (lookup_lt_is_Some_2 ncs t (Hlen eq_refl)) as [nc Hnc].
  by rewrite (at_index_Some _ _ _ Hnc), Hnc.
Qed.

(** The loop of [compute_fragment_sum<int64_t>] computes the
    saturating sum of the tiles that are not entirely null. *)
Lemma fragment_sum_int64_loop_spec (X : Collaborators) (f : FragmentMetadata)
    (nullable : bool) (ncs : list Z) (all : list Z) :
  forall (vals : list Z) (t : nat) (sum_data : Z),
  Forall is_i64 all ->
  is_i64 sum_data ->
  drop t all = vals ->
  (nullable = true -> (length all <= length ncs)%nat) ->
  fragment_sum_int64_loop X f nullable (u64_buffer all) ncs
    (length vals) (Z.of_nat t) sum_data
  = Ok (saturating_sum i64_min i64_max sum_data (not_null_from X f nullable ncs t vals)).
Proof.
  induction vals as [|v vals IH]; intros t sum_data Hall Hsum Hdrop Hlen; [done|].
  assert (Ht : all !! t = Some v).
  { rewrite <- (Nat.add_0_r t), <- lookup_drop, Hdrop. done. }
  pose proof (lookup_lt_Some _ _ _ Ht) as Hlt.
  assert (Hv : is_i64 v) by (eapply Forall_lookup_1; eauto).
  cbn [length fragment_sum_int64_loop not_null_from].
  rewrite tile_counts_spec by (intros Hn; specialize (Hlen Hn); lia).
  cbn [obind].
  replace (Z.of_nat t + 1) with (Z.of_nat (S t)) by lia.
  assert (Hdrop' : drop (S t) all = vals).
  { rewrite (drop_S _ _ _ Ht) in Hdrop. by injection Hdrop. }
  destruct (entirely_null X f nullable ncs t); cbn [negb].
  - by apply IH.
  - rewrite (read_u64_at_buffer _ _ _ Ht). cbn [obind].
    rewrite to_i64_wrap64 by done. cbn [saturating_sum].
    unfold is_i64, i64_min, i64_max in *.
    destruct (Z.ltb_spec (2 ^ 63 - 1) (sum_data + v)) as [Hhi|Hhi].
    + replace ((0 <? sum_data) && (0 <? v) && (2 ^ 63 - 1 - v <? sum_data)) with true; [done|].
      symmetry. rewrite !andb_true_iff, !Z.ltb_lt. clear IH. lia.
    + replace ((0 <? sum_data) && (0 <? v) && (2 ^ 63 - 1 - v <? sum_data)) with false.
      2:{ symmetry. apply not_true_iff_false. rewrite !andb_true_iff, !Z.ltb_lt.
          clear IH. lia. }
      destruct (Z.ltb_spec (sum_data + v) (- 2 ^ 63)) as [Hlo|Hlo].
      * replace ((sum_data <? 0) && (v <? 0) && (sum_data <? - 2 ^ 63 - v)) with true; [done|].
        symmetry. rewrite !andb_true_iff, !Z.ltb_lt. clear IH. lia.
      * replace ((sum_data <? 0) && (v <? 0) && (sum_data <? - 2 ^ 63 - v)) with false.
        2:{ symmetry. apply not_true_iff_false. rewrite !andb_true_iff, !Z.ltb_lt.
            clear IH. lia. }
        unfold add_int64, i64_min, i64_max.
        replace ((- 2 ^ 63 <=? sum_data + v) && (sum_data + v <=? 2 ^ 63 - 1)) with true
          by (symmetry; rewrite andb_true_iff, !Z.leb_le; clear IH; lia).
        cbn [obind]. apply IH; try done; clear IH; lia.
Qed.

(** The loop of [compute_fragment_sum<uint64_t>] likewise. *)
Lemma fragment_sum_uint64_loop_spec (X : Collaborators) (f : FragmentMetadata)
    (nullable : bool) (ncs : list Z) (all : list Z) :
  forall (vals : list Z) (t : nat) (sum_data : Z),
  Forall is_u64 all ->
  is_u64 sum_data ->
  drop t all = vals ->
  (nullable = true -> (length all <= length ncs)%nat) ->
  fragment_sum_uint64_loop X f nullable (u64_buffer all) ncs
    (length vals) (Z.of_nat t) sum_data
  = Ok (saturating_sum 0 u64_max sum_data (not_null_from X f nullable ncs t vals)).
Proof.
  induction vals as [|v vals IH]; intros t sum_data Hall Hsum Hdrop Hlen; [done|].
  assert (Ht : all !! t = Some v).
  { rewrite <- (Nat.add_0_r t), <- lookup_drop, Hdrop. done. }
  pose proof (lookup_lt_Some _ _ _ Ht) as Hlt.
  assert (Hv : is_u64 v) by (eapply Forall_lookup_1; eauto).
  cbn [length fragment_sum_uint64_loop not_null_from].
  rewrite tile_counts_spec by (intros Hn; specialize (Hlen Hn); lia).
  cbn [obind].
  replace (Z.of_nat t + 1) with (Z.of_nat (S t)) by lia.
  assert (Hdrop' : drop (S t) all = vals).
  { rewrite (drop_S _ _ _ Ht) in Hdrop. by injection Hdrop. }
  destruct (entirely_null X f nullable ncs t); cbn [negb].
  - by apply IH.
  - rewrite (read_u64_at_buffer _ _ _ Ht). cbn [obind].
    rewrite (wrap64_small v) by done. cbn [saturating_sum].
    unfold is_u64, u64_max, two64 in *.
    destruct (Z.ltb_spec (2 ^ 64 - 1) (sum_data + v)) as [Hhi|Hhi].
    + replace (2 ^ 64 - 1 - v <? sum_data) with true; [done|].
      symmetry. rewrite Z.ltb_lt. clear IH. lia.
    + replace (2 ^ 64 - 1 - v <? sum_data) with false
        by (symmetry; rewrite Z.ltb_ge; clear IH; lia).
      replace (sum_data + v <? 0) with false
        by (symmetry; rewrite Z.ltb_ge; clear IH; lia).
      rewrite wrap64_small by (unfold is_u64, two64; clear IH; lia).
      apply IH; try done; unfold is_u64, two64; clear IH; lia.
Qed.

(** The signed and the unsigned 64-bit fragment sum: the sum of the
    per-tile sums of the tiles that are not entirely null, saturated
    at the limit of the type at the first overflow of the exact
    sum. *)
Lemma compute_fragment_sum_integer (X : Collaborators) (f : FragmentMetadata) (idx : nat)
    (nullable : bool) (null_counts vals : list Z) (old : Z) :
  tile_null_counts_ f !! idx = Some null_counts ->
  (nullable = true -> (length vals <= length null_counts)%nat) ->
  tile_num X f = Z.of_nat (length vals) ->
  tile_sums_ f !! idx = Some (u64_buffer vals) ->
  fragment_sums_ f !! idx = Some old ->
  (Forall is_i64 vals ->
   compute_fragment_sum X SumInt64 idx nullable f
   = Ok (set_fragment_sums_
           (<[idx := wrap64 (saturating_sum i64_min i64_max 0
                               (not_null_from X f nullable null_counts 0 vals))]>
              (fragment_sums_ f)) f)) /\
  (Forall is_u64 vals ->
   compute_fragment_sum X SumUInt64 idx nullable f
   = Ok (set_fragment_sums_
           (<[idx := saturating_sum 0 u64_max 0
                       (not_null_from X f nullable null_counts 0 vals)]>
              (fragment_sums_ f)) f)).
Proof.
  intros Hncs Hlen Hnum Hsums Hold.
  split.
  - intros Hv. unfold compute_fragment_sum.
    rewrite (at_index_Some _ _ _ Hsums), (at_index_Some _ _ _ Hncs). cbn [obind].
    rewrite Hnum, Nat2Z.id.
    pose proof (fragment_sum_int64_loop_spec X f nullable null_counts vals vals 0%nat 0
                  Hv ltac:(unfold is_i64, i64_min, i64_max; lia) eq_refl Hlen) as Hloop.
    change (Z.of_nat 0) with 0 in Hloop. rewrite Hloop.
    cbn [obind]. by rewrite (at_index_Some _ _ _ Hold).
  - intros Hv. unfold compute_fragment_sum.
    rewrite (at_index_Some _ _ _ Hsums), (at_index_Some _ _ _ Hncs). cbn [obind].
    rewrite Hnum, Nat2Z.id.
    pose proof (fragment_sum_uint64_loop_spec X f nullable null_counts vals vals 0%nat 0
                  Hv ltac:(unfold is_u64, two64; lia) eq_refl Hlen) as Hloop.
    change (Z.of_nat 0) with 0 in Hloop. rewrite Hloop.
    cbn [obind]. by rewrite (at_index_Some _ _ _ Hold).
Qed.

(** C5.  The fragment sum of a [double] field can leave the range of
    the type without saturating.  The FLOAT64 attribute [x] of a
    fragment of the example array has two tiles with the sums
    [0x7feffffffffffffe] (the largest double but one) and
    [0x7ca8000000000000] (1.5 * 2^971), both finite.  Their exact sum
    is above the largest double, but the test of
    [compute_fragment_sum<double>] computes [max - abs(values[t])] in
    [double], where it rounds up to the running sum itself, so that
    [abs(sum_data) > max - abs(values[t])] is false; the addition then
    rounds to infinity.  After the rollup [get_sum] gives the bit
    pattern of +infinity and not that of the largest double.  On the
    signed and the unsigned 64-bit paths the rollup saturates: per-tile
    sums [i64::MAX, 1] give [i64::MAX], and [u64::MAX, 1] give
    [u64::MAX]. *)
Theorem fragment_sum_double_overflows :
  let X := example_collaborators in
  let rollup_sum name idx sums :=
    and_then
      (compute_fragment_min_max_sum_null_count X
         (example_with_tile_metadata 100 2 idx (u64_buffer [0; 0]) (u64_buffer [0; 0])
            [] [] (u64_buffer sums) [0; 0]))
      (get_sum X name) in
  let s0 := double_max_bits - 1 in
  let s1 := 1994 * 2 ^ 52 + 2 ^ 51 in
  rollup_sum "x" 4%nat [s0; s1] = Ok (2047 * 2 ^ 52) /\
  double_of_bits (2047 * 2 ^ 52) = infinity /\
  2047 * 2 ^ 52 <> double_max_bits /\
  (0 <? double_of_bits s0)%float = true /\
  (double_of_bits s0 <? double_max)%float = true /\
  (0 <? double_of_bits s1)%float = true /\
  (double_of_bits s1 <? double_max)%float = true /\
  (double_max - abs (double_of_bits s1))%float = double_of_bits s0 /\
  rollup_sum "a" 0%nat [i64_max; 1] = Ok i64_max /\
  rollup_sum "u" 3%nat [u64_max; 1] = Ok u64_max.
Proof. vm_compute. repeat split; congruence. Qed.

(** ** C6: the fragment null count *)

Lemma to_i32_wrap64 (z : Z) : to_i32 (wrap64 z) = to_i32 z.
Proof.
  unfold to_i32, wrap64, two64.
  replace (z mod 2 ^ 64 mod 2 ^ 32) with (z mod 2 ^ 32); [done|].
  symmetry. apply Z.mod_mod_divide. exists (2 ^ 32). reflexivity.
Qed.

Lemma to_i32_add_l (a b : Z) : to_i32 (to_i32 a + b) = to_i32 (a + b).
Proof.
  unfold to_i32.
  assert (H : (to_i32 a + b) mod 2 ^ 32 = (a + b) mod 2 ^ 32).
  { unfold to_i32. destruct (a mod 2 ^ 32 <? 2 ^ 31).
    - apply Zplus_mod_idemp_l.
    - replace (a mod 2 ^ 32 - 2 ^ 32 + b) with (a mod 2 ^ 32 + b + (-1) * 2 ^ 32) by lia.
      rewrite Z.mod_add by lia. apply Zplus_mod_idemp_l. }
  unfold to_i32 in H. rewrite H. reflexivity.
Qed.

(** [std::accumulate] with the [int] initial value keeps the low 32
    bits of the sum, read as a signed number. *)
Lemma accumulate_int_spec (values : list Z) :
  accumulate_int values = to_i32 (sum_list_Z values).
Proof.
  unfold accumulate_int.
  assert (H : forall acc, fold_left (fun acc v => to_i32 (wrap64 (wrap64 acc + v))) values
                            (to_i32 acc)
                          = to_i32 (acc + sum_list_Z values)).
  { induction values as [|v values IH]; intros acc; simpl.
    - by rewrite Z.add_0_r.
    - rewrite wrap64_add_l, to_i32_wrap64, to_i32_add_l, IH. f_equal. lia. }
  apply (H 0).
Qed.

(** The null count is exact as long as the sum stays below [2^31]. *)
Lemma accumulate_int_small (values : list Z) :
  0 <= sum_list_Z values < 2 ^ 31 ->
  wrap64 (accumulate_int values) = sum_list_Z values.
Proof.
  intros H. rewrite accumulate_int_spec. unfold to_i32.
  rewrite Z.mod_small by lia.
  destruct (Z.ltb_spec (sum_list_Z values) (2 ^ 31)); [|lia].
  apply wrap64_small. unfold is_u64, two64. lia.
Qed.

(** C6 fails on the code.  A nullable attribute with two tiles of
    [2^31] cells, each with [2^30] null cells: the fragment null count
    that [get_null_count] returns after the rollup is
    [2^64 - 2^31], not the sum [2^31] of the per-tile null counts. *)
Theorem fragment_null_count_truncated :
  let null_counts := [2 ^ 30; 2 ^ 30] in
  let f := example_with_tile_metadata (2 ^ 31) 2 0
             (u64_buffer [5; 7]) (u64_buffer [9; 11]) [] []
             (u64_buffer [14; 18]) null_counts in
  and_then (compute_fragment_min_max_sum_null_count example_collaborators f)
    (get_null_count "a") = Ok (2 ^ 64 - 2 ^ 31) /\
  sum_list_Z null_counts = 2 ^ 31.
Proof. vm_compute. split; reflexivity. Qed.

(** ** C2: the fragment minimum and maximum *)

(** C2 fails on the code for [char] fields.  Two tiles of 100 cells of
    the nullable attribute ["c"]: tile 0 is entirely null (its slots
    of the tile min and max buffers are zero), tile 1 has no null
    cell, minimum ["b"] and maximum ["y"].  The rollup takes the
    fragment minimum and maximum from the slots of tile 0: the running
    pointers of the [char] specialisation do not advance over the null
    tile. *)
Theorem fragment_min_max_char_reads_null_tile :
  let f := example_with_tile_metadata 100 2 1
             [Byte.x00; Byte.x62] [Byte.x00; Byte.x79] [] [] [] [100; 0] in
  let after := compute_fragment_min_max_sum_null_count example_collaborators f in
  entirely_null example_collaborators f true [100; 0] 0 = true /\
  entirely_null example_collaborators f true [100; 0] 1 = false /\
  and_then after (get_min example_collaborators "c") = Ok [Byte.x00] /\
  and_then after (get_max example_collaborators "c") = Ok [Byte.x00] /\
  and_then after (get_min example_collaborators "c") <> Ok (bytes_of "b") /\
  and_then after (get_max example_collaborators "c") <> Ok (bytes_of "y").
Proof. vm_compute. repeat split; congruence. Qed.

(** With a null tile between two others the minimum of the third tile
    is compared at the slot of the null one: minima ["m"], -, ["a"]
    and maxima ["n"], -, ["z"] give the fragment minimum NUL and the
    fragment maximum ["n"]. *)
Example fragment_min_max_char_lags_behind :
  let f := example_with_tile_metadata 100 3 1
             [Byte.x6d; Byte.x00; Byte.x61] [Byte.x6e; Byte.x00; Byte.x7a]
             [] [] [] [0; 100; 0] in
  let after := compute_fragment_min_max_sum_null_count example_collaborators f in
  and_then after (get_min example_collaborators "c") = Ok [Byte.x00] /\
  and_then after (get_max example_collaborators "c") = Ok (bytes_of "n").
Proof. vm_compute. split; reflexivity. Qed.

(** The primary template and [min_max_var] index the buffers by the
    tile, and skip the null tile as the claim says: the same two tiles
    for the [INT64] attribute ["a"] (minimum 5, maximum 9, sum 14 in
    tile 1) and for the var-sized string attribute ["s"] (minimum
    ["b"], maximum ["y"] in tile 1). *)
Example fragment_min_max_other_paths_skip_null_tile :
  let fa := example_with_tile_metadata 100 2 0
              (u64_buffer [0; 5]) (u64_buffer [0; 9]) [] []
              (u64_buffer [0; 14]) [100; 0] in
  let after_a := compute_fragment_min_max_sum_null_count example_collaborators fa in
  let fs := example_with_tile_metadata 100 2 2
              (u64_buffer [0; 0]) (u64_buffer [0; 0]) (bytes_of "b") (bytes_of "y")
              [] [100; 0] in
  let after_s := compute_fragment_min_max_sum_null_count example_collaborators fs in
  and_then after_a (get_min example_collaborators "a") = Ok (u64_bytes 5) /\
  and_then after_a (get_max example_collaborators "a") = Ok (u64_bytes 9) /\
  and_then after_a (get_sum example_collaborators "a") = Ok 14 /\
  and_then after_a (get_null_count "a") = Ok 100 /\
  and_then after_s (get_min example_collaborators "s") = Ok (bytes_of "b") /\
  and_then after_s (get_max example_collaborators "s") = Ok (bytes_of "y").
Proof. vm_compute. repeat split; reflexivity. Qed.

(** ** C4: accessors of a section that is not loaded *)

(** C4, as the code has it.  For a field of the fragment: every
    accessor of a per-field section throws when the flag of the
    section is false, and every accessor of the fragment-level rollup
    throws when its flag is false.  The two R-tree queries do not
    throw: they assert [version_ <= 2 || loaded_metadata_.rtree_], so
    with the flag false they answer from the tree for format versions
    1 and 2, and fail the assertion for later versions. *)
Theorem unloaded_section_accessors (X : Collaborators) (f : FragmentMetadata)
    (name : string) (idx : nat) (tile_idx : Z) (T : TileValueType) :
  idx_map_ f !! name = Some idx ->
  let lm := loaded_metadata_ f in
  (LoadedMetadata.tile_offsets_ lm !! idx = Some false ->
     throws (file_offset name tile_idx f) = true /\
     throws (persisted_tile_size X name tile_idx f) = true) /\
  (LoadedMetadata.tile_var_offsets_ lm !! idx = Some false ->
     throws (file_var_offset name tile_idx f) = true /\
     throws (persisted_tile_var_size X name tile_idx f) = true) /\
  (LoadedMetadata.tile_validity_offsets_ lm !! idx = Some false ->
     throws (file_validity_offset name tile_idx f) = true /\
     throws (persisted_tile_validity_size X name tile_idx f) = true) /\
  (LoadedMetadata.tile_var_sizes_ lm !! idx = Some false ->
     throws (tile_var_size name tile_idx f) = true) /\
  (LoadedMetadata.tile_min_ lm !! idx = Some false ->
     throws (get_tile_min_as X T name tile_idx f) = true /\
     throws (get_tile_min_as_string_view X name tile_idx f) = true) /\
  (LoadedMetadata.tile_max_ lm !! idx = Some false ->
     throws (get_tile_max_as X T name tile_idx f) = true /\
     throws (get_tile_max_as_string_view X name tile_idx f) = true) /\
  (LoadedMetadata.tile_sum_ lm !! idx = Some false ->
     throws (get_tile_sum X name tile_idx f) = true) /\
  (LoadedMetadata.tile_null_count_ lm !! idx = Some false ->
     throws (get_tile_null_count name tile_idx f) = true) /\
  (LoadedMetadata.fragment_min_max_sum_null_count_ lm = false ->
     throws (get_min X name f) = true /\
     throws (get_max X name f) = true /\
     throws (get_sum X name f) = true /\
     throws (get_null_count name f) = true) /\
  (LoadedMetadata.rtree_ lm = false ->
     forall (range : NDRange) (is_default : list bool) (r : Range) (d : Z)
            (bitmap : list byte),
     if version_ f <=? 2 then
       get_tile_overlap X range is_default f
         = Ok (rtree_get_tile_overlap X (rtree_ f) range is_default) /\
       compute_tile_bitmap X r d bitmap f
         = Ok (rtree_compute_tile_bitmap X (rtree_ f) r d bitmap)
     else
       get_tile_overlap X range is_default f = AssertFail /\
       compute_tile_bitmap X r d bitmap f = AssertFail).
Proof.
  intros Hidx lm. subst lm.
  repeat match goal with |- _ /\ _ => split end.
  - intros H. unfold file_offset, persisted_tile_size.
    by rewrite Hidx, (at_index_Some _ _ _ H).
  - intros H. unfold file_var_offset, persisted_tile_var_size.
    by rewrite Hidx, (at_index_Some _ _ _ H).
  - intros H. unfold file_validity_offset, persisted_tile_validity_size.
    by rewrite Hidx, (at_index_Some _ _ _ H).
  - intros H. unfold tile_var_size. by rewrite Hidx, (at_index_Some _ _ _ H).
  - intros H. unfold get_tile_min_as, get_tile_min_as_string_view.
    rewrite Hidx, (at_index_Some _ _ _ H). cbn.
    split.
    + by destruct (schema_var_size _ _).
    + by destruct (negb _ && negb _).
  - intros H. unfold get_tile_max_as, get_tile_max_as_string_view.
    rewrite Hidx, (at_index_Some _ _ _ H). cbn.
    split.
    + by destruct (schema_var_size _ _).
    + by destruct (negb _ && negb _).
  - intros H. unfold get_tile_sum. by rewrite Hidx, (at_index_Some _ _ _ H).
  - intros H. unfold get_tile_null_count. by rewrite Hidx, (at_index_Some _ _ _ H).
  - intros H. unfold get_min, get_max, get_sum, get_null_count. by rewrite Hidx, H.
  - intros H range is_default r d bitmap.
    unfold get_tile_overlap, compute_tile_bitmap, assert_then. rewrite H, orb_false_r.
    by destruct (version_ f <=? 2).
Qed.

(** C4, as the specification words it, fails: on a fragment of format
    version 2 whose R-tree flag is false, [get_tile_overlap] and
    [compute_tile_bitmap] return data. *)
Lemma rtree_queries_answer_unloaded :
  let f := example_fragment 2 2 in
  LoadedMetadata.rtree_ (loaded_metadata_ f) = false /\
  faults (get_tile_overlap example_collaborators [] [] f) = false /\
  faults (compute_tile_bitmap example_collaborators [] 0 [] f) = false.
Proof. vm_compute. repeat split; reflexivity. Qed.

(** ** C10: what [free_tile_offsets] frees *)

Lemma available_release (n : Z) (ty : MemoryTracker.MemoryType)
    (mt : option MemoryTracker.t) :
  available (release n ty mt) = (fun a => a + n) <$> available mt.
Proof. by destruct mt. Qed.

(** One loop of [free_tile_offsets]: the vectors are emptied, the
    flags of the fields [i, i + length rows) are reset and no other,
    and the bytes of the vectors go back to the tracker. *)
Lemma free_section_spec (rows : list (list Z)) :
  forall (i : nat) (flags : list bool) (mt : option MemoryTracker.t),
  (i + length rows <= length flags)%nat ->
  exists flags' mt',
    free_section rows i flags mt = Ok (replicate (length rows) [], flags', mt') /\
    length flags' = length flags /\
    (forall j, flags' !! j =
       if bool_decide (i <= j < i + length rows)%nat then Some false else flags !! j) /\
    available mt' = (fun a => a + section_bytes rows) <$> available mt.
Proof.
  induction rows as [|row rows IH]; intros i flags mt Hlen.
  - exists flags, mt. cbn. repeat split.
    + intros j. rewrite bool_decide_eq_false_2; [done|lia].
    + destruct mt; cbn; [|done]. f_equal. unfold section_bytes. simpl. lia.
  - cbn [length] in Hlen. cbn [free_section].
    destruct (lookup_lt_is_Some_2 flags i ltac:(clear IH; lia)) as [b Hb].
    rewrite (at_index_Some _ _ _ Hb). cbn [obind].
    destruct (IH (S i) (<[i:=false]> flags)
                (release (wrap64 (Z.of_nat (length row) * 8))
                   MemoryTracker.TILE_OFFSETS mt))
      as (flags' & mt' & Hrun & Hl & Hflags & Hav).
    { rewrite length_insert. clear IH. lia. }
    exists flags', mt'. rewrite Hrun. cbn. repeat split.
    + by rewrite Hl, length_insert.
    + intros j. rewrite Hflags.
      destruct (decide (j = i)) as [->|Hne].
      * rewrite bool_decide_eq_false_2 by (clear; lia).
        rewrite bool_decide_eq_true_2 by (clear; lia).
        apply list_lookup_insert_eq. clear IH. lia.
      * rewrite list_lookup_insert_ne by done.
        destruct (decide (S i <= j < S i + length rows)%nat).
        -- rewrite !bool_decide_eq_true_2; [done| |done]. clear IH. lia.
        -- rewrite !bool_decide_eq_false_2; [done| |done]. clear IH. lia.
    + rewrite Hav, available_release. destruct mt; cbn; [|done].
      f_equal. unfold section_bytes. cbn. clear. lia.
Qed.

Lemma section_bytes_empty (n : nat) : section_bytes (replicate n []) = 0.
Proof. induction n as [|n IH]; [done|]. unfold section_bytes in *. cbn. by rewrite IH. Qed.

(** [free_tile_offsets], in full: the state it returns. *)
Lemma free_tile_offsets_spec (f : FragmentMetadata) :
  flags_cover_offsets f ->
  exists fo fvo fvl fvs mt',
    free_tile_offsets f
    = Ok (set_loaded_metadata_
            (LoadedMetadata.set_tile_var_sizes_ fvs
               (LoadedMetadata.set_tile_validity_offsets_ fvl
                  (LoadedMetadata.set_tile_var_offsets_ fvo
                     (LoadedMetadata.set_tile_offsets_ fo (loaded_metadata_ f)))))
            (set_memory_tracker_ mt'
               (set_tile_var_sizes_ (replicate (length (tile_var_sizes_ f)) [])
                  (set_tile_validity_offsets_
                     (replicate (length (tile_validity_offsets_ f)) [])
                     (set_tile_var_offsets_
                        (replicate (length (tile_var_offsets_ f)) [])
                        (set_tile_offsets_
                           (replicate (length (tile_offsets_ f)) []) f)))))) /\
    first_reset (length (tile_offsets_ f))
      (LoadedMetadata.tile_offsets_ (loaded_metadata_ f)) fo /\
    first_reset (length (tile_var_offsets_ f))
      (LoadedMetadata.tile_var_offsets_ (loaded_metadata_ f)) fvo /\
    first_reset (length (tile_validity_offsets_ f))
      (LoadedMetadata.tile_validity_offsets_ (loaded_metadata_ f)) fvl /\
    first_reset (length (tile_var_sizes_ f))
      (LoadedMetadata.tile_var_sizes_ (loaded_metadata_ f)) fvs /\
    available mt' = (fun a => a + offsets_bytes f) <$> available (memory_tracker_ f).
Proof.
  intros (H1 & H2 & H3 & H4). unfold free_tile_offsets.
  destruct (free_section_spec (tile_offsets_ f) 0 _ (memory_tracker_ f) H1)
    as (fo1 & mt1 & E1 & L1 & F1 & A1).
  rewrite E1. cbn [obind].
  destruct (free_section_spec (tile_var_offsets_ f) 0 _ mt1 H2)
    as (fvo & mt2 & E2 & L2 & F2 & A2).
  rewrite E2. cbn [obind].
  destruct (free_section_spec (replicate (length (tile_offsets_ f)) []) 0 fo1 mt2)
    as (fo & mt3 & E3 & L3 & F3 & A3).
  { rewrite length_replicate, L1. exact H1. }
  rewrite E3. cbn [obind]. rewrite length_replicate in *.
  destruct (free_section_spec (tile_validity_offsets_ f) 0 _ mt3 H3)
    as (fvl & mt4 & E4 & L4 & F4 & A4).
  rewrite E4. cbn [obind].
  destruct (free_section_spec (tile_var_sizes_ f) 0 _ mt4 H4)
    as (fvs & mt5 & E5 & L5 & F5 & A5).
  rewrite E5. cbn [obind].
  exists fo, fvo, fvl, fvs, mt5.
  assert (Hd : forall n j : nat, bool_decide (0 <= j < 0 + n)%nat = bool_decide (j < n)%nat).
  { intros n j. apply bool_decide_ext. lia. }
  split; [reflexivity|].
  repeat split.
  - congruence.
  - intros j. rewrite F3, F1, !Hd. by destruct (bool_decide _).
  - done.
  - intros j. by rewrite F2, Hd.
  - done.
  - intros j. by rewrite F4, Hd.
  - done.
  - intros j. by rewrite F5, Hd.
  - rewrite A5, A4, A3, A2, A1, section_bytes_empty.
    unfold offsets_bytes. destruct (available (memory_tracker_ f)); cbn; [|done].
    f_equal. lia.
Qed.



(** ** C3: load, free, load *)




















(** ** The footer size trailer *)

Lemma has_footer_size_trailer_spec (s : ArraySchema) (version : Z) :
  has_footer_size_trailer (all_dims_fixed s) version = true
  <-> Exists (fun d => dim_var_size d = true) (schema_dimensions s) \/ 10 <= version.
Proof.
  unfold has_footer_size_trailer, all_dims_fixed.
  rewrite orb_true_iff, negb_true_iff, Z.leb_le.
  apply or_iff_compat_r.
  induction (schema_dimensions s) as [|d dims IH]; cbn [forallb].
  - split; [done|]. intros H. inversion H.
  - rewrite andb_false_iff, negb_false_iff, IH, Exists_cons. reflexivity.
Qed.

(** The last eight bytes of a file, read as [vfs_->read] does. *)
Lemma vfs_read_last_u64 (g : list byte) :
  (8 <= length g)%nat ->
  is_u64 (Z.of_nat (length g)) ->
  vfs_read g (wrap64 (Z.of_nat (length g) - 8)) 8 = Ok (drop (length g - 8) g).
Proof.
  intros H8 Hu. unfold is_u64, two64 in Hu.
  rewrite wrap64_small by (unfold is_u64, two64; lia).
  unfold vfs_read.
  replace (0 <=? Z.of_nat (length g) - 8) with true by (symmetry; apply Z.leb_le; lia).
  replace (Z.of_nat (length g) - 8 + 8 <=? Z.of_nat (length g)) with true
    by (symmetry; apply Z.leb_le; lia).
  cbn [andb]. unfold slice.
  replace (Z.to_nat (Z.of_nat (length g) - 8)) with (length g - 8)%nat by lia.
  rewrite take_ge; [done|]. rewrite length_drop. lia.
Qed.

(** C7: [write_footer_to_file] appends the footer tile and then, if and
    only if a dimension is var-sized or the format version is at least
    10, the eight little-endian bytes of the size of the tile.  Under
    the same condition on the format version of the fragment name,
    [get_footer_offset_and_size] reads the size from the last eight
    bytes of the metadata file and places the footer just before
    them; otherwise it does not read the file and takes the fixed
    footer size of the version.  On the file that was written the
    footer is found where it was put. *)
Theorem footer_size_trailer_condition (X : Collaborators) (f : FragmentMetadata)
    (tile file : list byte) :
  let all_fixed := all_dims_fixed (array_schema_ f) in
  let name_version := get_fragment_version X (fragment_uri_ f) in
  let written := write_footer_to_file tile f file in
  (has_footer_size_trailer all_fixed (version_ f) = true
   <-> Exists (fun d => dim_var_size d = true) (schema_dimensions (array_schema_ f))
       \/ 10 <= version_ f) /\
  written
  = (if has_footer_size_trailer all_fixed (version_ f)
     then file ++ tile ++ u64_bytes (Z.of_nat (length tile))
     else file ++ tile) /\
  (has_footer_size_trailer all_fixed name_version = true ->
   forall g,
     meta_file_size_ f = Z.of_nat (length g) ->
     (8 <= length g)%nat ->
     is_u64 (Z.of_nat (length g)) ->
     get_footer_offset_and_size X f g
     = let size := le_combine (drop (length g - 8) g) in
       Ok (wrap64 (wrap64 (meta_file_size_ f - size) - 8), size)) /\
  (has_footer_size_trailer all_fixed name_version = false ->
   forall g,
     get_footer_offset_and_size X f g
     = let! size :=
         if name_version <? 5 then footer_size_v3_v4 f
         else if name_version <? 7 then footer_size_v5_v6 f
         else footer_size_v7_v9 f in
       Ok (wrap64 (meta_file_size_ f - size), size)) /\
  (has_footer_size_trailer all_fixed (version_ f) = true ->
   name_version = version_ f ->
   is_u64 (Z.of_nat (length written)) ->
   get_footer_offset_and_size X
     (set_meta_file_size_ (Z.of_nat (length written)) f) written
   = Ok (Z.of_nat (length file), Z.of_nat (length tile))).
Proof.
  intros all_fixed name_version written.
  assert (Hwritten : written
            = if has_footer_size_trailer all_fixed (version_ f)
              then file ++ tile ++ u64_bytes (Z.of_nat (length tile))
              else file ++ tile).
  { subst written all_fixed. unfold write_footer_to_file, has_footer_size_trailer, vfs_write.
    destruct (negb _ || _); [by rewrite <- app_assoc|done]. }
  assert (Hread : has_footer_size_trailer all_fixed name_version = true ->
            forall g, get_footer_offset_and_size X f g
              = let size_offset := wrap64 (meta_file_size_ f - 8) in
                let! bytes := vfs_read g size_offset 8 in
                let size := le_combine bytes in
                Ok (wrap64 (wrap64 (meta_file_size_ f - size) - 8), size)).
  { intros Hc g. unfold get_footer_offset_and_size.
    fold all_fixed name_version. unfold has_footer_size_trailer in Hc.
    apply orb_true_iff in Hc as [Hc|Hc].
    - apply negb_true_iff in Hc. by rewrite Hc.
    - apply Z.leb_le in Hc.
      replace (name_version <? 5) with false by (symmetry; apply Z.ltb_ge; lia).
      replace (name_version <? 7) with false by (symmetry; apply Z.ltb_ge; lia).
      replace (name_version <? 10) with false by (symmetry; apply Z.ltb_ge; lia).
      by rewrite !andb_false_r. }
  split; [apply has_footer_size_trailer_spec|].
  split; [exact Hwritten|].
  split; [|split].
  - intros Hc g Hsize H8 Hu. rewrite (Hread Hc g), Hsize. cbv zeta.
    by rewrite (vfs_read_last_u64 g H8 Hu).
  - intros Hc g. unfold get_footer_offset_and_size.
    fold all_fixed name_version. unfold has_footer_size_trailer in Hc.
    apply orb_false_iff in Hc as [Hfixed Hv].
    apply negb_false_iff in Hfixed. apply Z.leb_gt in Hv.
    rewrite Hfixed. cbn [andb].
    replace (name_version <? 10) with true by (symmetry; apply Z.ltb_lt; lia).
    destruct (name_version <? 5); [done|]. by destruct (name_version <? 7).
  - intros Hc Hname Hu.
    rewrite Hwritten, Hc in *. clear Hwritten.
    rewrite !length_app, length_u64_bytes in Hu.
    unfold is_u64, two64 in Hu.
    set (f' := set_meta_file_size_ _ f).
    assert (Hc' : has_footer_size_trailer (all_dims_fixed (array_schema_ f'))
                    (get_fragment_version X (fragment_uri_ f')) = true).
    { subst f'. fm_simpl. fold name_version. by rewrite Hname. }
    unfold get_footer_offset_and_size.
    unfold has_footer_size_trailer in Hc'.
    replace (all_dims_fixed (array_schema_ f') &&
             (get_fragment_version X (fragment_uri_ f') <? 5)) with false.
    2:{ symmetry. apply orb_true_iff in Hc' as [Hc'|Hc'].
        - apply negb_true_iff in Hc'. by rewrite Hc'.
        - apply Z.leb_le in Hc'. rewrite andb_false_iff. right. apply Z.ltb_ge. lia. }
    replace (all_dims_fixed (array_schema_ f') &&
             (get_fragment_version X (fragment_uri_ f') <? 7)) with false.
    2:{ symmetry. apply orb_true_iff in Hc' as [Hc'|Hc'].
        - apply negb_true_iff in Hc'. by rewrite Hc'.
        - apply Z.leb_le in Hc'. rewrite andb_false_iff. right. apply Z.ltb_ge. lia. }
    replace (all_dims_fixed (array_schema_ f') &&
             (get_fragment_version X (fragment_uri_ f') <? 10)) with false.
    2:{ symmetry. apply orb_true_iff in Hc' as [Hc'|Hc'].
        - apply negb_true_iff in Hc'. by rewrite Hc'.
        - apply Z.leb_le in Hc'. rewrite andb_false_iff. right. apply Z.ltb_ge. lia. }
    subst f'. fm_simpl. cbv zeta.
    set (g := file ++ tile ++ u64_bytes (Z.of_nat (length tile))).
    assert (Hlen : length g = (length file + (length tile + 8))%nat).
    { subst g. by rewrite !length_app, length_u64_bytes. }
    rewrite vfs_read_last_u64 by (unfold is_u64, two64; lia).
    cbn [obind].
    assert (Hlast : drop (length g - 8) g = u64_bytes (Z.of_nat (length tile))).
    { subst g. rewrite app_assoc. apply drop_app_length'.
      rewrite !length_app, length_u64_bytes. lia. }
    rewrite Hlast, le_combine_u64_bytes, Hlen.
    rewrite (wrap64_small (Z.of_nat (length tile))) by (unfold is_u64, two64; lia).
    rewrite (wrap64_small (Z.of_nat _ - _)) by (unfold is_u64, two64; lia).
    rewrite wrap64_small by (unfold is_u64, two64; lia).
    do 2 f_equal. lia.
Qed.

(** ** The statements on the example array *)

(** Three tiles of 10, 20 and 30 bytes appended to the first
    attribute. *)
Lemma tile_offsets_prefix_sums_witness :
  exists f',
    append_tiles "a" 0 [10; 20; 30] example_written_fragment = Ok f' /\
    tile_offsets_ f' !! 0%nat = Some [0; 10; 30] /\
    persisted_tile_size example_collaborators "a" 2 f' = Ok 30 /\
    file_sizes_ f' !! 0%nat = Some 60.
Proof.
  destruct (tile_offsets_prefix_sums example_collaborators "a" 0 [10; 20; 30] [0; 0; 0]
              example_written_fragment)
    as (f' & Happ & Hrow & Hsize & Hfile & _);
    [ vm_compute; reflexivity ..
    | repeat constructor; unfold is_u64; vm_compute; done
    | vm_compute; reflexivity
    | vm_compute; reflexivity
    | ].
  exists f'. split; [exact Happ|]. split; [exact Hrow|].
  split; [exact (Hsize 2%nat 30 eq_refl)|exact Hfile].
Defined.

(** The min sizes 3, 4 and the max sizes 5, 6 of the two tiles of the
    var-sized attribute. *)
Lemma convert_sizes_to_offsets_prefix_sums_witness :
  exists f1 f2,
    record_min_max_var_sizes "s" 0 [(3, 5); (4, 6)]
      (example_tile_metadata_on (example_fragment 16 2) 2
         (replicate 16 Byte.x00) (replicate 16 Byte.x00) [] []
         (replicate 16 Byte.x00) [0; 0]) = Ok f1 /\
    convert_tile_min_max_var_sizes_to_offsets "s" f1 = Ok f2 /\
    tile_min_buffer_ f2 !! 2%nat = Some (u64_buffer [0; 3]) /\
    tile_max_buffer_ f2 !! 2%nat = Some (u64_buffer [0; 5]).
Proof.
  destruct (convert_sizes_to_offsets_prefix_sums "s" 2 [(3, 5); (4, 6)]
              (replicate 16 Byte.x00) (replicate 16 Byte.x00)
              (example_tile_metadata_on (example_fragment 16 2) 2
                 (replicate 16 Byte.x00) (replicate 16 Byte.x00) [] []
                 (replicate 16 Byte.x00) [0; 0]))
    as (f1 & f2 & Hrec & Hconv & Hmin & Hmax & _);
    [ vm_compute; reflexivity ..
    | repeat constructor; unfold is_u64; vm_compute; done
    | repeat constructor; unfold is_u64; vm_compute; done
    | vm_compute; reflexivity
    | vm_compute; reflexivity
    | vm_compute; reflexivity
    | ].
  exists f1, f2. split; [exact Hrec|]. split; [exact Hconv|].
  split; [exact Hmin|exact Hmax].
Defined.

(** No section of the example fragment is in memory: the accessors of
    the first attribute throw. *)
Lemma unloaded_section_accessors_witness :
  let f := example_fragment 16 2 in
  throws (file_offset "a" 0 f) = true /\
  throws (persisted_tile_size example_collaborators "a" 0 f) = true /\
  throws (get_tile_sum example_collaborators "a" 0 f) = true /\
  throws (get_null_count "a" f) = true.
Proof.
  intros f.
  destruct (unloaded_section_accessors example_collaborators f "a" 0 0 (ValueOf Int64))
    as (Hoff & _ & _ & _ & _ & _ & Hsum & _ & Hroll & _);
    [vm_compute; reflexivity|].
  destruct (Hoff eq_refl) as [H1 H2].
  destruct (Hroll eq_refl) as (_ & _ & _ & H4).
  split; [exact H1|]. split; [exact H2|]. split; [exact (Hsum eq_refl)|exact H4].
Defined.


(** A footer of six bytes written after four bytes of data, at format
    version 16: the file ends with the size of the footer, and the
    footer is found at offset 4. *)
Lemma footer_size_trailer_condition_witness :
  let f := example_fragment 16 2 in
  let written := write_footer_to_file (bytes_of "footer") f (bytes_of "data") in
  written = bytes_of "data" ++ bytes_of "footer" ++ u64_bytes 6 /\
  get_footer_offset_and_size example_collaborators (set_meta_file_size_ 18 f) written
  = Ok (4, 6).
Proof.
  intros f written.
  destruct (footer_size_trailer_condition example_collaborators f
              (bytes_of "footer") (bytes_of "data"))
    as (_ & Hwritten & _ & _ & Hfound).
  split; [exact Hwritten|].
  apply Hfound; [reflexivity|reflexivity|].
  unfold is_u64. vm_compute. done.
Defined.

(** * Further properties of the code *)

(** ** Dimension: tiles of an integer dimension *)

Module DimensionTilesFacts.
Import Dimension DimensionTiles.

Lemma pow_bits (T : IntType) : 2 ^ bits T = T_max T - T_min T + 1.
Proof. destruct T; reflexivity. Qed.

Lemma pow_bits_pos (T : IntType) : 0 < 2 ^ bits T.
Proof. destruct T; reflexivity. Qed.

Lemma T_min_nonpos (T : IntType) : T_min T <= 0 < T_max T.
Proof. destruct T; cbv; split; congruence. Qed.

Lemma T_max_lt_pow (T : IntType) : T_max T < 2 ^ bits T.
Proof. destruct T; reflexivity. Qed.

Lemma to_unsigned_small (T : IntType) (x : Z) :
  0 <= x < 2 ^ bits T -> to_unsigned T x = x.
Proof. intros H. unfold to_unsigned. by apply Z.mod_small. Qed.

Lemma to_unsigned_nonneg (T : IntType) (x : Z) :
  in_range T x -> 0 <= x -> to_unsigned T x = x.
Proof.
  intros [_ H] H0. apply to_unsigned_small. pose proof (T_max_lt_pow T). lia.
Qed.

Lemma to_unsigned_neg (T : IntType) (x : Z) :
  in_range T x -> x < 0 -> to_unsigned T x = x + 2 ^ bits T.
Proof.
  intros [H _] H0. unfold to_unsigned.
  pose proof (pow_bits T). pose proof (T_min_nonpos T).
  symmetry. apply (Z.mod_unique x (2 ^ bits T) (-1)); lia.
Qed.

Lemma to_unsigned_range (T : IntType) (x : Z) : 0 <= to_unsigned T x < 2 ^ bits T.
Proof. unfold to_unsigned. apply Z.mod_pos_bound, pow_bits_pos. Qed.

(** A value of [T] survives the trip through its bit pattern. *)
Lemma reinterpret_mod (T : IntType) (x : Z) :
  in_range T x -> reinterpret T (x mod 2 ^ bits T) = x.
Proof.
  intros Hx. fold (to_unsigned T x). unfold reinterpret.
  destruct (Z.lt_ge_cases x 0) as [Hneg|Hpos].
  - rewrite (to_unsigned_neg T x Hx Hneg).
    destruct Hx as [Hlo Hhi]. unfold T_min in Hlo.
    destruct (is_signed T) eqn:Hs; [|lia]. cbn [andb].
    assert (2 ^ bits T = 2 * 2 ^ (bits T - 1)) as Hp.
    { rewrite <- Z.pow_succ_r by (destruct T; cbv; congruence). f_equal. lia. }
    replace (2 ^ (bits T - 1) <=? x + 2 ^ bits T) with true
      by (symmetry; apply Z.leb_le; lia).
    lia.
  - rewrite (to_unsigned_nonneg T x Hx Hpos).
    destruct Hx as [Hlo Hhi]. unfold T_max in Hhi.
    destruct (is_signed T); [|done]. cbn [andb].
    replace (2 ^ (bits T - 1) <=? x) with false; [done|].
    symmetry. apply Z.leb_gt. lia.
Qed.

Lemma convert_in_range (T : IntType) (x : Z) : in_range T x -> convert T x = x.
Proof. apply reinterpret_mod. Qed.

(** The bit pattern of a sum or a product only depends on the bit
    patterns of the operands. *)
Lemma to_unsigned_affine (T : IntType) (a k b c : Z) :
  (to_unsigned T a + k * to_unsigned T b + c) mod 2 ^ bits T
  = (a + k * b + c) mod 2 ^ bits T.
Proof.
  unfold to_unsigned. set (m := 2 ^ bits T).
  rewrite <- (Zplus_mod_idemp_l (a mod m + k * (b mod m))).
  rewrite <- (Zplus_mod_idemp_l (a + k * b)). f_equal. f_equal.
  rewrite Zplus_mod_idemp_l. rewrite <- (Zplus_mod_idemp_r (k * (b mod m))).
  rewrite Zmult_mod_idemp_r, Zplus_mod_idemp_r. reflexivity.
Qed.

(** [tile_coord_low] is the mathematical value whenever that value is
    a [T]. *)
Lemma tile_coord_low_exact (T : IntType) (k low ext : Z) :
  in_range T (low + k * ext) ->
  tile_coord_low T k low ext = low + k * ext.
Proof.
  intros Hr. unfold tile_coord_low, convert.
  rewrite DimensionFacts.wrap64_mod_bits.
  rewrite <- Zplus_mod_idemp_r, DimensionFacts.wrap64_mod_bits, Zplus_mod_idemp_r.
  pose proof (to_unsigned_affine T low k ext 0) as H. rewrite !Z.add_0_r in H.
  rewrite H. by apply reinterpret_mod.
Qed.


(** The difference of two values of [T], lower first, is below
    [2^bits]. *)
Lemma span_bound (T : IntType) (v low : Z) :
  in_range T v -> in_range T low -> low <= v -> 0 <= v - low < 2 ^ bits T.
Proof. intros [? ?] [? ?] ?. rewrite pow_bits. lia. Qed.

(** X1.  [tile_idx] returns the number of whole tiles between the start of
    the domain and the value.  For [int32_t] and [int64_t] the
    difference must not overflow. *)
Theorem tile_idx_exact (T : IntType) (v low ext : Z) :
  in_range T v -> in_range T low -> in_range T ext ->
  low <= v -> 0 < ext ->
  (is_signed T = true -> 32 <= bits T -> v - low <= T_max T) ->
  tile_idx T v low ext = Ok ((v - low) / ext).
Proof.
  intros Hv Hl He Hle Hpos Hov.
  pose proof (span_bound T v low Hv Hl Hle) as Hspan.
  pose proof (T_min_nonpos T) as Hmin.
  unfold tile_idx.
  assert (Hsub : exists d, sub_T T v low = Ok d /\ to_unsigned T d = v - low).
  { unfold sub_T. destruct (Z.ltb_spec (bits T) 32).
    - eexists. split; [done|]. by apply to_unsigned_small.
    - destruct (is_signed T) eqn:Hs.
      + replace ((T_min T <=? v - low) && (v - low <=? T_max T)) with true.
        * eexists. split; [done|]. by apply to_unsigned_small.
        * symmetry. apply andb_true_iff. split; apply Z.leb_le; [lia|].
          apply Hov; [done|lia].
      + eexists. split; [done|]. unfold to_unsigned.
        rewrite Z.mod_mod by (pose proof (pow_bits_pos T); lia).
        by apply Z.mod_small. }
  destruct Hsub as (d & -> & Hd). cbn [obind].
  rewrite (to_unsigned_nonneg T ext He) by lia.
  replace (ext =? 0) with false by (symmetry; apply Z.eqb_neq; lia).
  by rewrite Hd.
Qed.

Lemma tile_idx_exact_witness : tile_idx I16 7 (-3) 4 = Ok 2.
Proof.
  apply (tile_idx_exact I16 7 (-3) 4); try (vm_compute; intuition congruence); lia.
Defined.

(** X3.  Tile [k] of a dimension starts at [low + k * ext] and ends at
    [low + (k+1) * ext - 1], one below the start of tile [k+1],
    whenever these values are values of [T]. *)
Theorem tiles_are_contiguous (T : IntType) (k low ext : Z) :
  in_range T low -> in_range T ext -> 0 < ext -> 0 <= k ->
  to_unsigned T ext <> unsigned_max T ->
  in_range T (low + (k + 1) * ext) ->
  tile_coord_low T k low ext = low + k * ext /\
  tile_coord_high T k low ext = low + (k + 1) * ext - 1 /\
  tile_coord_high T k low ext + 1 = tile_coord_low T (k + 1) low ext.
Proof.
  intros Hl He Hpos Hk Hne Hnext.
  assert (Hthis : in_range T (low + k * ext)).
  { destruct Hl, Hnext. split; nia. }
  assert (Hend : in_range T (low + (k + 1) * ext - 1)).
  { destruct Hl, Hnext. split; nia. }
  rewrite (tile_coord_low_exact T k low ext Hthis).
  rewrite (tile_coord_low_exact T (k + 1) low ext Hnext).
  rewrite (DimensionFacts.tile_coord_high_exact T k low ext Hl He Hne Hpos Hk Hend).
  repeat split; lia.
Qed.

Lemma tiles_are_contiguous_witness :
  tile_coord_low I8 3 (-100) 50 = 50 /\
  tile_coord_high I8 3 (-100) 50 = 99 /\
  tile_coord_high I8 3 (-100) 50 + 1 = tile_coord_low I8 4 (-100) 50.
Proof.
  apply (tiles_are_contiguous I8 3 (-100) 50);
    try (vm_compute; intuition congruence); lia.
Defined.


(** X4.  A value lies in the tile [tile_idx] gives it: between
    [tile_coord_low] and [tile_coord_high] of that tile, as long as
    the end of the tile is a value of [T]. *)
Theorem value_in_its_tile (T : IntType) (v low ext k : Z) :
  in_range T v -> in_range T low -> in_range T ext ->
  low <= v -> 0 < ext ->
  to_unsigned T ext <> unsigned_max T ->
  tile_idx T v low ext = Ok k ->
  low + (k + 1) * ext - 1 <= T_max T ->
  tile_coord_low T k low ext <= v <= tile_coord_high T k low ext.
Proof.
  intros Hv Hl He Hle Hpos Hne Hidx Hend.
  pose proof (span_bound T v low Hv Hl Hle) as Hspan.
  assert (Hk : k = (v - low) / ext).
  { revert Hidx. unfold tile_idx, sub_T.
    rewrite (to_unsigned_nonneg T ext He) by lia.
    replace (ext =? 0) with false by (symmetry; apply Z.eqb_neq; lia).
    destruct (bits T <? 32).
    - cbn [obind]. rewrite to_unsigned_small by done. by intros [= <-].
    - destruct (is_signed T).
      + destruct (_ && _); [|done]. cbn [obind].
        rewrite to_unsigned_small by done. by intros [= <-].
      + cbn [obind]. unfold to_unsigned.
        rewrite Z.mod_mod by (pose proof (pow_bits_pos T); lia).
        rewrite Z.mod_small by done. by intros [= <-]. }
  assert (Hk0 : 0 <= k) by (subst k; apply Z.div_pos; lia).
  pose proof (Z.mul_div_le (v - low) ext Hpos) as Hlo.
  pose proof (Z.mul_succ_div_gt (v - low) ext Hpos) as Hhi.
  rewrite <- Hk in Hlo, Hhi.
  assert (Hthis : in_range T (low + k * ext)).
  { destruct Hl, Hv. split; nia. }
  assert (Htop : in_range T (low + (k + 1) * ext - 1)).
  { destruct Hl. split; nia. }
  rewrite (tile_coord_low_exact T k low ext Hthis).
  rewrite (DimensionFacts.tile_coord_high_exact T k low ext Hl He Hne Hpos Hk0 Htop).
  nia.
Qed.

Lemma value_in_its_tile_witness :
  tile_coord_low U8 2 10 50 <= 137 <= tile_coord_high U8 2 10 50.
Proof.
  apply (value_in_its_tile U8 137 10 50 2);
    try (vm_compute; intuition congruence); lia.
Defined.

(** X5.  The tile that starts at [tile_coord_low] of tile [k] is tile
    [k]. *)
Theorem tile_idx_of_tile_coord_low (T : IntType) (k low ext : Z) :
  in_range T low -> in_range T ext -> 0 < ext -> 0 <= k ->
  in_range T (low + k * ext) ->
  (is_signed T = true -> 32 <= bits T -> k * ext <= T_max T) ->
  tile_idx T (tile_coord_low T k low ext) low ext = Ok k.
Proof.
  intros Hl He Hpos Hk Hthis Hov.
  rewrite (tile_coord_low_exact T k low ext Hthis).
  assert (Hle : low <= low + k * ext) by nia.
  pose proof (span_bound T _ low Hthis Hl Hle) as Hspan.
  unfold tile_idx, sub_T.
  rewrite (to_unsigned_nonneg T ext He) by lia.
  replace (ext =? 0) with false by (symmetry; apply Z.eqb_neq; lia).
  replace (low + k * ext - low) with (k * ext) in * by lia.
  assert (Hq : k * ext / ext = k) by (apply Z.div_mul; lia).
  destruct (Z.ltb_spec (bits T) 32).
  - cbn [obind]. rewrite to_unsigned_small by done. by rewrite Hq.
  - destruct (is_signed T) eqn:Hs.
    + replace ((T_min T <=? k * ext) && (k * ext <=? T_max T)) with true.
      * cbn [obind]. rewrite to_unsigned_small by done. by rewrite Hq.
      * symmetry. apply andb_true_iff. pose proof (T_min_nonpos T).
        split; apply Z.leb_le; [nia|]. apply Hov; [done|lia].
    + cbn [obind]. unfold to_unsigned.
      rewrite Z.mod_mod by (pose proof (pow_bits_pos T); lia).
      rewrite Z.mod_small by done. by rewrite Hq.
Qed.

Lemma tile_idx_of_tile_coord_low_witness :
  tile_idx I64 (tile_coord_low I64 5 (-20) 8) (-20) 8 = Ok 5.
Proof.
  apply (tile_idx_of_tile_coord_low I64 5 (-20) 8);
    try (vm_compute; intuition congruence); lia.
Defined.


(** X6.  [round_to_tile] returns the start of the tile of the value,
    [low + ((v - low) / ext) * ext].  For [int8_t] and [int16_t] this
    needs the value and the start of the domain on the same side of
    zero. *)
Theorem round_to_tile_exact (T : IntType) (v low ext : Z) :
  in_range T v -> in_range T low -> in_range T ext ->
  low <= v -> 0 < ext ->
  (is_signed T = true -> bits T < 32 -> 0 <= low \/ v < 0) ->
  round_to_tile T v low ext = Ok (low + (v - low) / ext * ext) /\
  round_to_tile T v low ext = Ok (tile_coord_low T ((v - low) / ext) low ext).
Proof.
  intros Hv Hl He Hle Hpos Hside.
  pose proof (span_bound T v low Hv Hl Hle) as Hspan.
  pose proof (Z.mul_div_le (v - low) ext Hpos) as Hq.
  assert (Hq0 : 0 <= (v - low) / ext) by (apply Z.div_pos; lia).
  assert (Hres : in_range T (low + (v - low) / ext * ext)).
  { destruct Hl, Hv. split; nia. }
  rewrite (tile_coord_low_exact T _ low ext Hres).
  enough (round_to_tile T v low ext = Ok (low + (v - low) / ext * ext)) by done.
  unfold round_to_tile.
  rewrite (to_unsigned_nonneg T ext He) by lia.
  replace (ext =? 0) with false by (symmetry; apply Z.eqb_neq; lia).
  pose proof (pow_bits_pos T) as Hm.
  destruct (Z.ltb_spec (bits T) 32) as [Hb|Hb].
  - (* [int] arithmetic *)
    assert (Hd : to_unsigned T v - to_unsigned T low = v - low).
    { destruct (Z.lt_ge_cases low 0) as [Hln|Hlp].
      - destruct (Z.lt_ge_cases v 0) as [Hvn|Hvp].
        + rewrite !to_unsigned_neg by done. lia.
        + assert (is_signed T = true) as Hs.
          { destruct Hl as [Hl _]. unfold T_min in Hl.
            destruct (is_signed T); [done|lia]. }
          destruct (Hside Hs Hb); lia.
      - rewrite !to_unsigned_nonneg by (done || lia). lia. }
    rewrite Hd, Z.quot_div_nonneg by lia.
    f_equal. unfold convert, to_unsigned.
    rewrite Zplus_mod_idemp_r.
    replace ((v - low) / ext * ext + low) with (low + (v - low) / ext * ext) by lia.
    by apply reinterpret_mod.
  - (* arithmetic modulo [2^bits] *)
    f_equal.
    assert (Hd : (to_unsigned T v - to_unsigned T low) mod 2 ^ bits T = v - low).
    { unfold to_unsigned. rewrite <- Zminus_mod. by apply Z.mod_small. }
    rewrite Hd. rewrite (Z.mod_small ((v - low) / ext * ext)) by lia.
    unfold to_unsigned. rewrite Zplus_mod_idemp_r.
    replace ((v - low) / ext * ext + low) with (low + (v - low) / ext * ext) by lia.
    by apply reinterpret_mod.
Qed.

Lemma round_to_tile_exact_witness :
  round_to_tile I64 (2 ^ 63 - 1) (- 2 ^ 63) 10 = Ok (2 ^ 63 - 6) /\
  round_to_tile I64 (2 ^ 63 - 1) (- 2 ^ 63) 10
  = Ok (tile_coord_low I64 ((2 ^ 63 - 1 - - 2 ^ 63) / 10) (- 2 ^ 63) 10).
Proof.
  apply (round_to_tile_exact I64 (2 ^ 63 - 1) (- 2 ^ 63) 10);
    try (vm_compute; intuition congruence).
Defined.

(** X7.  For [int8_t] and [int16_t], a domain that starts below zero and a
    value at or above zero, [round_to_tile] does not round down: the
    difference of the two bit patterns is negative in [int], and the
    result is the value plus the remainder of
    [2^bits - (v - low)] by the extent, converted to [T]. *)
Theorem round_to_tile_small_signed (T : IntType) (v low ext : Z) :
  is_signed T = true -> bits T < 32 ->
  in_range T v -> in_range T low -> in_range T ext ->
  low < 0 <= v -> 0 < ext ->
  let r := v + (2 ^ bits T - (v - low)) mod ext in
  round_to_tile T v low ext = Ok (convert T r) /\
  (r <= T_max T -> round_to_tile T v low ext = Ok r /\ v <= r < v + ext).
Proof.
  intros Hs Hb Hv Hl He [Hln Hvp] Hpos r.
  pose proof (pow_bits_pos T) as Hm. pose proof (pow_bits T) as Hpb.
  assert (HP : 0 < 2 ^ bits T - (v - low)) by (destruct Hv, Hl; lia).
  pose proof (Z.mod_pos_bound (2 ^ bits T - (v - low)) ext Hpos) as Hrem.
  assert (Hcode : round_to_tile T v low ext = Ok (convert T r)).
  { unfold round_to_tile.
    rewrite (to_unsigned_nonneg T ext He) by lia.
    replace (ext =? 0) with false by (symmetry; apply Z.eqb_neq; lia).
    replace (bits T <? 32) with true by (symmetry; apply Z.ltb_lt; lia).
    rewrite (to_unsigned_nonneg T v Hv Hvp), (to_unsigned_neg T low Hl Hln).
    do 2 f_equal. subst r.
    replace (v - (low + 2 ^ bits T)) with (- (2 ^ bits T - (v - low))) by lia.
    rewrite Z.quot_opp_l by lia. rewrite Z.quot_div_nonneg by lia.
    pose proof (Z.div_mod (2 ^ bits T - (v - low)) ext ltac:(lia)). lia. }
  split; [exact Hcode|]. intros Htop. split; [|lia].
  rewrite Hcode. f_equal. apply convert_in_range.
  destruct Hv. split; lia.
Qed.

Lemma round_to_tile_small_signed_witness :
  round_to_tile I8 0 (-128) 10 = Ok 8 /\ 0 <= 8 < 0 + 10.
Proof.
  apply (round_to_tile_small_signed I8 0 (-128) 10);
    try (vm_compute; intuition congruence); reflexivity.
Defined.


(** X9.  [check_domain] accepts exactly the domains whose number of values,
    [domain[1] - domain[0] + 1], is at least one and at most the
    largest value of the unsigned type of the width of [T]. *)
Theorem check_domain_accepts (T : IntType) (domain0 domain1 : Z) :
  in_range T domain0 -> in_range T domain1 ->
  check_domain T domain0 domain1 = Status_Ok
  <-> 1 <= domain1 - domain0 + 1 <= unsigned_max T.
Proof.
  intros [H0 H0'] [H1 H1']. unfold check_domain, unsigned_max.
  pose proof (pow_bits T) as Hp.
  destruct (Z.ltb_spec domain1 domain0) as [Hlt|Hge]; [split; [done|lia]|].
  destruct (Z.eqb_spec domain0 (T_min T)) as [E0|N0];
    destruct (Z.eqb_spec domain1 (T_max T)) as [E1|N1]; cbn [andb];
    split; (done || lia).
Qed.

Lemma check_domain_accepts_witness :
  check_domain I8 (-128) 126 = Status_Ok <-> 1 <= 126 - -128 + 1 <= unsigned_max I8.
Proof.
  apply (check_domain_accepts I8 (-128) 126); vm_compute; intuition congruence.
Defined.

(** X10.  On a domain [check_domain] accepts, the single tile whose extent
    (as an unsigned value) is the number of values of the domain ends
    at the upper bound of the domain, also when that extent is the
    largest unsigned value and [tile_coord_high] takes its special
    case. *)
Theorem whole_domain_tile_high (T : IntType) (domain0 domain1 ext : Z) :
  in_range T domain0 -> in_range T domain1 ->
  check_domain T domain0 domain1 = Status_Ok ->
  to_unsigned T ext = domain1 - domain0 + 1 ->
  tile_coord_high T 0 domain0 ext = domain1.
Proof.
  intros Hd0 Hd1 Hok Hext.
  assert (Hnum : 1 <= domain1 - domain0 + 1 <= unsigned_max T).
  { destruct Hd0 as [H0 H0'], Hd1 as [H1 H1']. revert Hok.
    unfold check_domain, unsigned_max. pose proof (pow_bits T) as Hp.
    destruct (Z.ltb_spec domain1 domain0) as [Hlt|Hge]; [done|].
    destruct (Z.eqb_spec domain0 (T_min T)) as [E0|N0];
      destruct (Z.eqb_spec domain1 (T_max T)) as [E1|N1]; cbn [andb];
      (done || lia). }
  unfold tile_coord_high.
  pose proof (pow_bits T) as Hp. unfold unsigned_max in *.
  destruct (Z.eqb_spec (to_unsigned T ext) (2 ^ bits T - 1)) as [Hfull|Hpart].
  - destruct Hd0 as [H0 H0'], Hd1 as [H1 H1'].
    destruct (Z.eqb_spec domain0 (T_min T)); lia.
  - unfold convert. rewrite DimensionFacts.tile_coord_high_width, Hext.
    unfold to_unsigned.
    replace (domain0 mod 2 ^ bits T + (0 + 1) * (domain1 - domain0 + 1) - 1)
      with (domain0 mod 2 ^ bits T + (domain1 - domain0)) by lia.
    rewrite Zplus_mod_idemp_l.
    replace (domain0 + (domain1 - domain0)) with domain1 by lia.
    by apply reinterpret_mod.
Qed.

Lemma whole_domain_tile_high_witness :
  tile_coord_high U8 0 1 255 = 255 /\ tile_coord_high I8 0 (-128) (-1) = 126.
Proof.
  split.
  - apply (whole_domain_tile_high U8 1 255 255); vm_compute; intuition congruence.
  - apply (whole_domain_tile_high I8 (-128) 126 (-1)); vm_compute; intuition congruence.
Defined.

End DimensionTilesFacts.

(** ** FragmentMetadata: what the writer sets, the reader gets *)

(** The bytes of a vector after a [memcpy] into it. *)
Lemma memcpy_at_spec (buf : list byte) (off : nat) (data : list byte) :
  (off + length data <= length buf)%nat ->
  exists buf',
    memcpy_at buf (Z.of_nat off) data = Ok buf' /\
    length buf' = length buf /\
    slice buf' off (length data) = data /\
    (forall o n, (o + n <= off)%nat \/ (off + length data <= o)%nat ->
       slice buf' o n = slice buf o n).
Proof.
  intros Hfit. unfold memcpy_at.
  replace (0 <=? Z.of_nat off) with true by (symmetry; apply Z.leb_le; lia).
  replace (Z.of_nat off + Z.of_nat (length data) <=? Z.of_nat (length buf)) with true
    by (symmetry; apply Z.leb_le; lia).
  cbn [andb]. rewrite Nat2Z.id. eexists. split; [reflexivity|].
  set (pre := take off buf). set (post := drop (off + length data) buf).
  assert (Hpre : length pre = off) by (subst pre; rewrite length_take; lia).
  assert (Hbuf : buf = pre ++ take (length data) (drop off buf) ++ post).
  { subst pre post. rewrite <- drop_drop, take_drop, take_drop. reflexivity. }
  assert (Hpost : length post = (length buf - (off + length data))%nat).
  { subst post. by rewrite length_drop. }
  set (mid := take (length data) (drop off buf)) in *.
  assert (Hmid : length mid = length data).
  { subst mid. rewrite length_take, length_drop. lia. }
  clearbody pre post mid.
  split; [|split].
  - rewrite !length_app, Hpre, Hpost. lia.
  - unfold slice. rewrite drop_app_length' by done.
    by rewrite take_app_length.
  - intros o n Hon. unfold slice. rewrite Hbuf.
    destruct Hon as [Hbefore|Hafter].
    + rewrite !(drop_app_le _ _ o) by lia.
      rewrite !take_app_le; [done| |]; rewrite length_drop; lia.
    + rewrite !(app_assoc pre). 
      rewrite !(drop_app_ge _ _ o) by (rewrite length_app; lia).
      rewrite !length_app, Hpre, Hmid. reflexivity.
Qed.

(** One slot of a buffer of fixed-size values after it is set, and
    the other slots. *)
Lemma set_fixed_slot_spec (base tid : Z) (value buf : list byte) (t : nat) :
  Z.of_nat t = tid + base ->
  (0 < length value)%nat ->
  ((t + 1) * length value <= length buf)%nat ->
  Z.of_nat (length buf) < two64 ->
  exists buf',
    set_fixed_slot base tid value buf = Ok buf' /\
    length buf' = length buf /\
    slice buf' (t * length value) (length value) = value /\
    (forall t', t' <> t ->
       slice buf' (t' * length value) (length value)
       = slice buf (t' * length value) (length value)).
Proof.
  intros Ht Hpos Hfit Hlen.
  destruct (memcpy_at_spec buf (t * length value) value) as (buf' & E & L & S & F); [lia|].
  exists buf'. unfold set_fixed_slot. rewrite <- Ht.
  assert (Htl : Z.of_nat t < two64) by nia.
  rewrite (wrap64_small (Z.of_nat t)) by (unfold is_u64; lia).
  replace (Z.of_nat (length value) =? 0) with false by (symmetry; apply Z.eqb_neq; lia).
  replace (Z.of_nat t <? Z.of_nat (length buf) / Z.of_nat (length value)) with true.
  2:{ symmetry. apply Z.ltb_lt.
      enough (Z.of_nat t + 1 <= Z.of_nat (length buf) / Z.of_nat (length value)) by lia.
      apply Z.div_le_lower_bound; [lia|nia]. }
  cbn [assert_then].
  rewrite wrap64_small by (unfold is_u64; nia).
  rewrite <- Nat2Z.inj_mul. split; [exact E|]. split; [exact L|]. split; [exact S|].
  intros t' Hne. apply F. nia.
Qed.

(** A read of [k] bytes inside a slot of [n] bytes. *)
Lemma slice_take (buf : list byte) (off k n : nat) :
  (k <= n)%nat -> slice buf off k = take k (slice buf off n).
Proof. intros H. unfold slice. rewrite take_take. f_equal. lia. Qed.

(** [get_tile_min_as<T>] and [get_tile_max_as<T>] on a tile of a
    fixed-size field whose section is loaded, when the bytes asked for
    from the slot of the tile on are inside the buffer. *)
Lemma get_tile_min_as_slot (X : Collaborators) (T : TileValueType) (name : string)
    (idx t : nat) (buf : list byte) (f : FragmentMetadata) :
  let s := array_schema_ f in
  let size := Z.to_nat (schema_cell_size s name) in
  idx_map_ f !! name = Some idx ->
  tile_min_buffer_ f !! idx = Some buf ->
  LoadedMetadata.tile_min_ (loaded_metadata_ f) !! idx = Some true ->
  schema_var_size s name = false ->
  has_min_max_metadata X (schema_type s name) (schema_is_dim s name) false
    (schema_cell_val_num s name) = true ->
  0 <= schema_cell_size s name ->
  Z.of_nat t * schema_cell_size s name < two64 ->
  (t * size + bytes_as T size <= length buf)%nat ->
  get_tile_min_as X T name (Z.of_nat t) f = Ok (slice buf (t * size) (bytes_as T size)).
Proof.
  intros s size Hidx Hbuf Hflag Hvar Hhas Hsize Hfit Hin. unfold get_tile_min_as.
  fold s. rewrite Hvar, Hidx, (at_index_Some _ _ _ Hflag).
  cbn [obind negb]. rewrite Hhas. cbn [negb].
  rewrite (at_index_Some _ _ _ Hbuf). cbn [obind].
  rewrite wrap64_small by (unfold is_u64; lia).
  assert (Hoff : Z.to_nat (Z.of_nat t * schema_cell_size s name) = (t * size)%nat)
    by (subst size; rewrite Z2Nat.inj_mul, Nat2Z.id by lia; reflexivity).
  destruct T as [T|]; cbn [read_as bytes_as] in *; rewrite Hoff; [|reflexivity].
  replace (_ <=? _) with true; [reflexivity|].
  symmetry. apply Z.leb_le. subst size. nia.
Qed.

Lemma get_tile_max_as_slot (X : Collaborators) (T : TileValueType) (name : string)
    (idx t : nat) (buf : list byte) (f : FragmentMetadata) :
  let s := array_schema_ f in
  let size := Z.to_nat (schema_cell_size s name) in
  idx_map_ f !! name = Some idx ->
  tile_max_buffer_ f !! idx = Some buf ->
  LoadedMetadata.tile_max_ (loaded_metadata_ f) !! idx = Some true ->
  schema_var_size s name = false ->
  has_min_max_metadata X (schema_type s name) (schema_is_dim s name) false
    (schema_cell_val_num s name) = true ->
  0 <= schema_cell_size s name ->
  Z.of_nat t * schema_cell_size s name < two64 ->
  (t * size + bytes_as T size <= length buf)%nat ->
  get_tile_max_as X T name (Z.of_nat t) f = Ok (slice buf (t * size) (bytes_as T size)).
Proof.
  intros s size Hidx Hbuf Hflag Hvar Hhas Hsize Hfit Hin. unfold get_tile_max_as.
  fold s. rewrite Hvar, Hidx, (at_index_Some _ _ _ Hflag).
  cbn [obind negb]. rewrite Hhas. cbn [negb].
  rewrite (at_index_Some _ _ _ Hbuf). cbn [obind].
  rewrite wrap64_small by (unfold is_u64; lia).
  assert (Hoff : Z.to_nat (Z.of_nat t * schema_cell_size s name) = (t * size)%nat)
    by (subst size; rewrite Z2Nat.inj_mul, Nat2Z.id by lia; reflexivity).
  destruct T as [T|]; cbn [read_as bytes_as] in *; rewrite Hoff; [|reflexivity].
  replace (_ <=? _) with true; [reflexivity|].
  symmetry. apply Z.leb_le. subst size. nia.
Qed.

(** X11.  The fixed-size minimum and maximum of a tile.  [set_tile_min]
    and [set_tile_max] store a value of the size of a cell for writer
    tile [tid]; [get_tile_min_as<T>] and [get_tile_max_as<T>] read at
    the slot of tile [tid + tile_index_base_].  With [const void*]
    they point to the value.  With a value type [T] that is not larger
    than a cell they return the first [sizeof(T)] bytes of the value,
    which is the value itself when [T] has the size of the cell.  What
    they return for the other tiles is as before. *)
Theorem set_get_tile_min_max (X : Collaborators) (T : TileValueType) (name : string)
    (idx t : nat) (tid : Z) (value bmin bmax : list byte) (f : FragmentMetadata) :
  let s := array_schema_ f in
  let got := take (bytes_as T (length value)) value in
  idx_map_ f !! name = Some idx ->
  tile_min_buffer_ f !! idx = Some bmin ->
  tile_max_buffer_ f !! idx = Some bmax ->
  LoadedMetadata.tile_min_ (loaded_metadata_ f) !! idx = Some true ->
  LoadedMetadata.tile_max_ (loaded_metadata_ f) !! idx = Some true ->
  schema_var_size s name = false ->
  has_min_max_metadata X (schema_type s name) (schema_is_dim s name) false
    (schema_cell_val_num s name) = true ->
  Z.of_nat (length value) = schema_cell_size s name ->
  (0 < length value)%nat ->
  (bytes_as T (length value) <= length value)%nat ->
  Z.of_nat t = tid + tile_index_base_ f ->
  ((t + 1) * length value <= length bmin)%nat -> Z.of_nat (length bmin) < two64 ->
  ((t + 1) * length value <= length bmax)%nat -> Z.of_nat (length bmax) < two64 ->
  (bytes_as T (length value) = length value -> got = value) /\
  (exists f',
     set_tile_min name tid value f = Ok f' /\
     get_tile_min_as X T name (Z.of_nat t) f' = Ok got /\
     (forall t', t' <> t -> ((t' + 1) * length value <= length bmin)%nat ->
        get_tile_min_as X T name (Z.of_nat t') f'
        = get_tile_min_as X T name (Z.of_nat t') f)) /\
  (exists f',
     set_tile_max name tid value f = Ok f' /\
     get_tile_max_as X T name (Z.of_nat t) f' = Ok got /\
     (forall t', t' <> t -> ((t' + 1) * length value <= length bmax)%nat ->
        get_tile_max_as X T name (Z.of_nat t') f'
        = get_tile_max_as X T name (Z.of_nat t') f)).
Proof.
  intros s got Hidx Hbmin Hbmax Hfmin Hfmax Hvar Hhas Hsize Hpos HT Ht
    Hfit1 Hlen1 Hfit2 Hlen2.
  assert (Hcs : Z.to_nat (schema_cell_size s name) = length value) by lia.
  split; [intros HTe; subst got; by rewrite HTe, firstn_all|].
  split.
  - destruct (set_fixed_slot_spec _ tid value bmin t Ht Hpos Hfit1 Hlen1)
      as (buf' & E & L & S & F).
    unfold set_tile_min. rewrite Hidx, (at_index_Some _ _ _ Hbmin). cbn [obind].
    rewrite E. cbn [obind]. eexists. split; [reflexivity|].
    assert (Hb' : <[idx := buf']> (tile_min_buffer_ f) !! idx = Some buf').
    { apply list_lookup_insert_eq. by apply lookup_lt_Some in Hbmin. }
    assert (Hget : forall t', ((t' + 1) * length value <= length bmin)%nat ->
              get_tile_min_as X T name (Z.of_nat t')
                (set_tile_min_buffer_ (<[idx := buf']> (tile_min_buffer_ f)) f)
              = Ok (take (bytes_as T (length value))
                      (slice buf' (t' * length value) (length value)))).
    { intros t' Hfit'.
      rewrite (get_tile_min_as_slot X T name idx t' buf'); try done; fm_simpl; fold s;
        rewrite ?Hcs; try lia; try nia.
      f_equal. by apply slice_take. }
    split; [by rewrite Hget, S|].
    intros t' Hne Hfit'. rewrite Hget, F by done.
    rewrite (get_tile_min_as_slot X T name idx t' bmin); try done; fold s;
      rewrite ?Hcs; try lia; try nia.
    f_equal. symmetry. by apply slice_take.
  - destruct (set_fixed_slot_spec _ tid value bmax t Ht Hpos Hfit2 Hlen2)
      as (buf' & E & L & S & F).
    unfold set_tile_max. rewrite Hidx, (at_index_Some _ _ _ Hbmax). cbn [obind].
    rewrite E. cbn [obind]. eexists. split; [reflexivity|].
    assert (Hb' : <[idx := buf']> (tile_max_buffer_ f) !! idx = Some buf').
    { apply list_lookup_insert_eq. by apply lookup_lt_Some in Hbmax. }
    assert (Hget : forall t', ((t' + 1) * length value <= length bmax)%nat ->
              get_tile_max_as X T name (Z.of_nat t')
                (set_tile_max_buffer_ (<[idx := buf']> (tile_max_buffer_ f)) f)
              = Ok (take (bytes_as T (length value))
                      (slice buf' (t' * length value) (length value)))).
    { intros t' Hfit'.
      rewrite (get_tile_max_as_slot X T name idx t' buf'); try done; fm_simpl; fold s;
        rewrite ?Hcs; try lia; try nia.
      f_equal. by apply slice_take. }
    split; [by rewrite Hget, S|].
    intros t' Hne Hfit'. rewrite Hget, F by done.
    rewrite (get_tile_max_as_slot X T name idx t' bmax); try done; fold s;
      rewrite ?Hcs; try lia; try nia.
    f_equal. symmetry. by apply slice_take.
Qed.

(** A value stored for tile 1 of the [int64_t] attribute, read as an
    [int64_t] and as an [int32_t]. *)
Lemma set_get_tile_min_max_witness :
  let f := example_tile_metadata_on (example_fragment 16 2) 0
             (u64_buffer [0; 0]) (u64_buffer [0; 0]) [] [] (u64_buffer [0; 0]) [0; 0] in
  (exists f', set_tile_min "a" 1 (u64_bytes 42) f = Ok f' /\
              get_tile_min_as example_collaborators (ValueOf Int64) "a" 1 f'
              = Ok (u64_bytes 42)) /\
  (exists f', set_tile_max "a" 1 (u64_bytes (2 ^ 32 + 42)) f = Ok f' /\
              get_tile_max_as example_collaborators (ValueOf Int32) "a" 1 f'
              = Ok (le_split 4 42)).
Proof.
  intros f.
  destruct (set_get_tile_min_max example_collaborators (ValueOf Int64) "a" 0 1 1
              (u64_bytes 42) (u64_buffer [0; 0]) (u64_buffer [0; 0]) f)
    as (_ & (f1 & E1 & G1 & _) & _);
    [first [vm_compute; reflexivity | vm_compute; lia] .. |].
  destruct (set_get_tile_min_max example_collaborators (ValueOf Int32) "a" 0 1 1
              (u64_bytes (2 ^ 32 + 42)) (u64_buffer [0; 0]) (u64_buffer [0; 0]) f)
    as (_ & _ & (f2 & E2 & G2 & _));
    [first [vm_compute; reflexivity | vm_compute; lia] .. |].
  split; [exists f1|exists f2]; split; assumption.
Defined.

(** X12.  The sum of a tile: the first eight bytes [set_tile_sum] is given
    for writer tile [tid] are what [get_tile_sum] points to for tile
    [tid + tile_index_base_]; the sums of the other tiles are as
    before. *)
Theorem set_get_tile_sum (X : Collaborators) (name : string) (idx t : nat) (tid : Z)
    (sum buf : list byte) (f : FragmentMetadata) :
  let s := array_schema_ f in
  idx_map_ f !! name = Some idx ->
  tile_sums_ f !! idx = Some buf ->
  LoadedMetadata.tile_sum_ (loaded_metadata_ f) !! idx = Some true ->
  has_sum_metadata X (schema_type s name) (schema_var_size s name)
    (schema_cell_val_num s name) = true ->
  Z.of_nat t = tid + tile_index_base_ f ->
  (8 <= length sum)%nat ->
  ((t + 1) * 8 <= length buf)%nat -> Z.of_nat (length buf) < two64 ->
  exists f',
    set_tile_sum name tid sum f = Ok f' /\
    get_tile_sum X name (Z.of_nat t) f' = Ok (take 8 sum) /\
    (forall t', t' <> t -> ((t' + 1) * 8 <= length buf)%nat ->
       get_tile_sum X name (Z.of_nat t') f' = get_tile_sum X name (Z.of_nat t') f).
Proof.
  intros s Hidx Hbuf Hflag Hhas Ht Hsum Hfit Hlen.
  assert (Hl8 : length (take 8 sum) = 8%nat) by (rewrite length_take; lia).
  destruct (memcpy_at_spec buf (t * 8) (take 8 sum)) as (buf' & E & L & S & F); [lia|].
  rewrite Hl8 in S, F.
  unfold set_tile_sum. rewrite Hidx, <- Ht, (at_index_Some _ _ _ Hbuf). cbn [obind].
  rewrite (wrap64_small (Z.of_nat t)) by (unfold is_u64; lia).
  rewrite wrap64_small by (unfold is_u64; lia).
  replace (Z.of_nat t * 8 <? Z.of_nat (length buf)) with true
    by (symmetry; apply Z.ltb_lt; lia).
  replace (8 <=? Z.of_nat (length sum)) with true by (symmetry; apply Z.leb_le; lia).
  cbn [assert_then].
  replace (Z.of_nat t * 8) with (Z.of_nat (t * 8)) by lia.
  rewrite E. cbn [obind]. eexists. split; [reflexivity|].
  assert (Hget : forall t' g b,
            array_schema_ g = array_schema_ f -> idx_map_ g = idx_map_ f ->
            loaded_metadata_ g = loaded_metadata_ f ->
            tile_sums_ g !! idx = Some b ->
            ((t' + 1) * 8 <= length buf)%nat ->
            get_tile_sum X name (Z.of_nat t') g = Ok (slice b (t' * 8) 8)).
  { intros t' g b Hs Hm Hl Hb Hfit'. unfold get_tile_sum.
    rewrite Hs, Hm, Hl, Hidx, (at_index_Some _ _ _ Hflag). cbn [obind negb].
    fold s. rewrite Hhas. cbn [negb]. rewrite (at_index_Some _ _ _ Hb). cbn [obind].
    rewrite wrap64_small by (unfold is_u64; lia).
    do 2 f_equal. lia. }
  assert (Hb' : <[idx := buf']> (tile_sums_ f) !! idx = Some buf').
  { apply list_lookup_insert_eq. by apply lookup_lt_Some in Hbuf. }
  split.
  - by rewrite (Hget t _ buf'), S.
  - intros t' Hne Hfit'.
    rewrite (Hget t' _ buf'), (Hget t' f buf) by done. f_equal. apply F. lia.
Qed.

Lemma set_get_tile_sum_witness :
  let f := example_tile_metadata_on (example_fragment 16 2) 0
             (u64_buffer [0; 0]) (u64_buffer [0; 0]) [] [] (u64_buffer [0; 0]) [0; 0] in
  exists f', set_tile_sum "a" 1 (u64_bytes 77) f = Ok f' /\
             get_tile_sum example_collaborators "a" 1 f' = Ok (u64_bytes 77).
Proof.
  intros f.
  destruct (set_get_tile_sum example_collaborators "a" 0 1 1 (u64_bytes 77)
              (u64_buffer [0; 0]) f)
    as (f1 & E1 & G1 & _);
    [first [vm_compute; reflexivity | vm_compute; lia] .. |].
  exists f1. split; assumption.
Defined.

(** X13.  The null count and the var size of a tile: what
    [set_tile_null_count] and [set_tile_var_size] store for writer
    tile [tid], [get_tile_null_count] and [tile_var_size] return for
    tile [tid + tile_index_base_]; the other tiles are as before. *)
Theorem set_get_tile_null_count_var_size (name : string) (idx t : nat) (tid v : Z)
    (f : FragmentMetadata) :
  idx_map_ f !! name = Some idx ->
  Z.of_nat t = tid + tile_index_base_ f ->
  Z.of_nat t < two64 ->
  (forall row,
     tile_null_counts_ f !! idx = Some row -> (t < length row)%nat ->
     LoadedMetadata.tile_null_count_ (loaded_metadata_ f) !! idx = Some true ->
     schema_is_nullable (array_schema_ f) name = true ->
     exists f',
       set_tile_null_count name tid v f = Ok f' /\
       get_tile_null_count name (Z.of_nat t) f' = Ok v /\
       (forall t', t' <> t ->
          get_tile_null_count name (Z.of_nat t') f'
          = get_tile_null_count name (Z.of_nat t') f)) /\
  (forall row,
     tile_var_sizes_ f !! idx = Some row -> (t < length row)%nat ->
     LoadedMetadata.tile_var_sizes_ (loaded_metadata_ f) !! idx = Some true ->
     exists f',
       set_tile_var_size name tid v f = Ok f' /\
       tile_var_size name (Z.of_nat t) f' = Ok v /\
       (forall t', t' <> t ->
          tile_var_size name (Z.of_nat t') f' = tile_var_size name (Z.of_nat t') f)).
Proof.
  intros Hidx Ht Htl. split.
  - intros row Hrow Hin Hflag Hnull.
    unfold set_tile_null_count. rewrite Hidx, <- Ht, (at_index_Some _ _ _ Hrow).
    cbn [obind]. rewrite wrap64_small by (unfold is_u64; lia).
    replace (Z.of_nat t <? Z.of_nat (length row)) with true
      by (symmetry; apply Z.ltb_lt; lia).
    cbn [assert_then]. eexists. split; [reflexivity|].
    assert (Hb' : <[idx := <[t := v]> row]> (tile_null_counts_ f) !! idx
                  = Some (<[t := v]> row)).
    { apply list_lookup_insert_eq. by apply lookup_lt_Some in Hrow. }
    unfold get_tile_null_count. fm_simpl.
    rewrite Hidx, (at_index_Some _ _ _ Hflag). cbn [obind negb]. rewrite Hnull.
    cbn [negb]. rewrite !Nat2Z.id, (at_index_Some _ _ _ Hb'), (at_index_Some _ _ _ Hrow). cbn [obind].
    split.
    + apply at_index_Some. by apply list_lookup_insert_eq.
    + intros t' Hne. rewrite Nat2Z.id. unfold at_index.
      by rewrite list_lookup_insert_ne.
  - intros row Hrow Hin Hflag.
    unfold set_tile_var_size. rewrite Hidx, <- Ht, (at_index_Some _ _ _ Hrow).
    cbn [obind]. rewrite wrap64_small by (unfold is_u64; lia).
    replace (Z.of_nat t <? Z.of_nat (length row)) with true
      by (symmetry; apply Z.ltb_lt; lia).
    cbn [assert_then]. eexists. split; [reflexivity|].
    assert (Hb' : <[idx := <[t := v]> row]> (tile_var_sizes_ f) !! idx
                  = Some (<[t := v]> row)).
    { apply list_lookup_insert_eq. by apply lookup_lt_Some in Hrow. }
    unfold tile_var_size. fm_simpl.
    rewrite Hidx, (at_index_Some _ _ _ Hflag). cbn [obind negb].
    rewrite !Nat2Z.id, (at_index_Some _ _ _ Hb'), (at_index_Some _ _ _ Hrow). cbn [obind].
    split.
    + apply at_index_Some. by apply list_lookup_insert_eq.
    + intros t' Hne. rewrite Nat2Z.id. unfold at_index.
      by rewrite list_lookup_insert_ne.
Qed.

Lemma set_get_tile_null_count_var_size_witness :
  let f := example_loaded_fragment 16 in
  (exists f', set_tile_null_count "a" 1 9 f = Ok f' /\
              get_tile_null_count "a" 1 f' = Ok 9) /\
  (exists f', set_tile_var_size "s" 0 33 f = Ok f' /\
              tile_var_size "s" 0 f' = Ok 33).
Proof.
  intros f. split.
  - destruct (set_get_tile_null_count_var_size "a" 0 1 1 9 f) as [Hnc _];
      [first [vm_compute; reflexivity | vm_compute; lia] .. |].
    destruct (Hnc [0; 0]) as (f' & E & G & _);
      [first [vm_compute; reflexivity | vm_compute; lia] .. |].
    exists f'. split; assumption.
  - destruct (set_get_tile_null_count_var_size "s" 2 0 0 33 f) as [_ Hvs];
      [first [vm_compute; reflexivity | vm_compute; lia] .. |].
    destruct (Hvs [20; 22]) as (f' & E & G & _);
      [first [vm_compute; reflexivity | vm_compute; lia] .. |].
    exists f'. split; assumption.
Defined.

(** ** FragmentMetadata: the var and validity offsets of the writer *)

(** The same loop on the var offsets. *)
Lemma append_var_tiles_run (name : string) (idx : nat) (steps : list Z) :
  forall (done rest : list Z) (size : Z) (f : FragmentMetadata),
  idx_map_ f !! name = Some idx ->
  tile_index_base_ f = 0 ->
  tile_var_offsets_ f !! idx = Some (done ++ rest) ->
  file_var_sizes_ f !! idx = Some size ->
  is_u64 size ->
  (length steps <= length rest)%nat ->
  Z.of_nat (length (done ++ rest)) < two64 ->
  append_var_tiles name (Z.of_nat (length done)) steps f
  = Ok (set_file_var_sizes_
          (<[idx := wrap64 (size + sum_list_Z steps)]> (file_var_sizes_ f))
          (set_tile_var_offsets_
             (<[idx := done ++ running_offsets size steps ++ drop (length steps) rest]>
                (tile_var_offsets_ f)) f)).
Proof.
  induction steps as [|s steps IH]; intros done rest size f Hidx Hbase Hrow Hsize Hu Hlen Hbig.
  - simpl. rewrite Z.add_0_r, wrap64_small by done.
    rewrite !list_insert_id by done. by destruct f.
  - destruct rest as [|r0 rest]; [simpl in Hlen; lia|].
    cbn [append_var_tiles]. unfold set_tile_var_offset. rewrite Hidx, Hbase, Z.add_0_r.
    rewrite length_app in Hbig. cbn [length] in Hbig, Hlen.
    rewrite wrap64_small. 2:{ clear IH. unfold is_u64, two64 in *. lia. }
    rewrite (at_index_Some _ _ _ Hrow). cbn [obind].
    unfold assert_then.
    replace (Z.of_nat (length done) <? Z.of_nat (length (done ++ r0 :: rest))) with true
      by (clear IH; symmetry; apply Z.ltb_lt; rewrite length_app; simpl; lia).
    rewrite (at_index_Some _ _ _ Hsize). cbn [obind].
    rewrite Nat2Z.id.
    rewrite insert_app_r_alt by lia. rewrite Nat.sub_diag. cbn [insert list_insert].
    replace (Z.of_nat (length done) + 1) with (Z.of_nat (length (done ++ [size])))
      by (clear IH; rewrite length_app; simpl; lia).
    pose proof (lookup_lt_Some _ _ _ Hrow) as Hi1.
    pose proof (lookup_lt_Some _ _ _ Hsize) as Hi2.
    erewrite (IH (done ++ [size]) rest (wrap64 (size + s))).
    + cbn [sum_list_Z running_offsets length drop].
      unfold set_file_var_sizes_, set_tile_var_offsets_. cbn.
      rewrite !list_insert_insert_eq. rewrite wrap64_add_l, <- app_assoc.
      cbn [app]. rewrite (Z.add_assoc size s). reflexivity.
    + done.
    + done.
    + cbn. rewrite list_lookup_insert_eq by done. by rewrite <- app_assoc.
    + cbn. by rewrite list_lookup_insert_eq.
    + apply wrap64_range.
    + clear IH. lia.
    + clear IH. rewrite !length_app in *. simpl in *. lia.
Qed.

(** The same loop on the validity offsets. *)
Lemma append_validity_tiles_run (name : string) (idx : nat) (steps : list Z) :
  forall (done rest : list Z) (size : Z) (f : FragmentMetadata),
  idx_map_ f !! name = Some idx ->
  tile_index_base_ f = 0 ->
  tile_validity_offsets_ f !! idx = Some (done ++ rest) ->
  file_validity_sizes_ f !! idx = Some size ->
  is_u64 size ->
  (length steps <= length rest)%nat ->
  Z.of_nat (length (done ++ rest)) < two64 ->
  append_validity_tiles name (Z.of_nat (length done)) steps f
  = Ok (set_file_validity_sizes_
          (<[idx := wrap64 (size + sum_list_Z steps)]> (file_validity_sizes_ f))
          (set_tile_validity_offsets_
             (<[idx := done ++ running_offsets size steps ++ drop (length steps) rest]>
                (tile_validity_offsets_ f)) f)).
Proof.
  induction steps as [|s steps IH]; intros done rest size f Hidx Hbase Hrow Hsize Hu Hlen Hbig.
  - simpl. rewrite Z.add_0_r, wrap64_small by done.
    rewrite !list_insert_id by done. by destruct f.
  - destruct rest as [|r0 rest]; [simpl in Hlen; lia|].
    cbn [append_validity_tiles]. unfold set_tile_validity_offset. rewrite Hidx, Hbase, Z.add_0_r.
    rewrite length_app in Hbig. cbn [length] in Hbig, Hlen.
    rewrite wrap64_small. 2:{ clear IH. unfold is_u64, two64 in *. lia. }
    rewrite (at_index_Some _ _ _ Hrow). cbn [obind].
    unfold assert_then.
    replace (Z.of_nat (length done) <? Z.of_nat (length (done ++ r0 :: rest))) with true
      by (clear IH; symmetry; apply Z.ltb_lt; rewrite length_app; simpl; lia).
    rewrite (at_index_Some _ _ _ Hsize). cbn [obind].
    rewrite Nat2Z.id.
    rewrite insert_app_r_alt by lia. rewrite Nat.sub_diag. cbn [insert list_insert].
    replace (Z.of_nat (length done) + 1) with (Z.of_nat (length (done ++ [size])))
      by (clear IH; rewrite length_app; simpl; lia).
    pose proof (lookup_lt_Some _ _ _ Hrow) as Hi1.
    pose proof (lookup_lt_Some _ _ _ Hsize) as Hi2.
    erewrite (IH (done ++ [size]) rest (wrap64 (size + s))).
    + cbn [sum_list_Z running_offsets length drop].
      unfold set_file_validity_sizes_, set_tile_validity_offsets_. cbn.
      rewrite !list_insert_insert_eq. rewrite wrap64_add_l, <- app_assoc.
      cbn [app]. rewrite (Z.add_assoc size s). reflexivity.
    + done.
    + done.
    + cbn. rewrite list_lookup_insert_eq by done. by rewrite <- app_assoc.
    + cbn. by rewrite list_lookup_insert_eq.
    + apply wrap64_range.
    + clear IH. lia.
    + clear IH. rewrite !length_app in *. simpl in *. lia.
Qed.

(** X14.  The var offsets and the validity offsets are streamed like the
    fixed offsets: after the tiles 0..n-1 of a field were appended in
    order with [set_tile_var_offset] (resp.
    [set_tile_validity_offset]), from file size 0 and with
    [tile_index_base_ = 0], the offsets recorded are the prefix sums of
    the steps, [persisted_tile_var_size] (resp.
    [persisted_tile_validity_size]) of tile [k] is step [k], and the
    var (resp. validity) file size is the sum of the steps. *)
Theorem var_validity_offsets_prefix_sums (X : Collaborators) (name : string) (idx : nat)
    (steps : list Z) (f : FragmentMetadata) :
  idx_map_ f !! name = Some idx ->
  tile_index_base_ f = 0 ->
  tile_num X f = Z.of_nat (length steps) ->
  Forall is_u64 steps ->
  Z.of_nat (length steps) < two64 ->
  sum_list_Z steps < two64 ->
  (forall row,
     tile_var_offsets_ f !! idx = Some row -> length row = length steps ->
     file_var_sizes_ f !! idx = Some 0 ->
     LoadedMetadata.tile_var_offsets_ (loaded_metadata_ f) !! idx = Some true ->
     exists f',
       append_var_tiles name 0 steps f = Ok f' /\
       tile_var_offsets_ f' !! idx = Some (exclusive_prefix_sums steps) /\
       (forall k s, steps !! k = Some s ->
          persisted_tile_var_size X name (Z.of_nat k) f' = Ok s) /\
       file_var_sizes_ f' !! idx = Some (sum_list_Z steps)) /\
  (forall row,
     tile_validity_offsets_ f !! idx = Some row -> length row = length steps ->
     file_validity_sizes_ f !! idx = Some 0 ->
     LoadedMetadata.tile_validity_offsets_ (loaded_metadata_ f) !! idx = Some true ->
     exists f',
       append_validity_tiles name 0 steps f = Ok f' /\
       tile_validity_offsets_ f' !! idx = Some (exclusive_prefix_sums steps) /\
       (forall k s, steps !! k = Some s ->
          persisted_tile_validity_size X name (Z.of_nat k) f' = Ok s) /\
       file_validity_sizes_ f' !! idx = Some (sum_list_Z steps)).
Proof.
  intros Hidx Hbase Hnum Hu Hn Hsum.
  assert (H0 : is_u64 0) by (unfold is_u64, two64; lia).
  assert (Htot : is_u64 (sum_list_Z steps)).
  { pose proof (sum_list_Z_nonneg steps Hu). unfold is_u64. lia. }
  split.
  - intros row Hrow Hlen Hsize Hloaded.
    pose proof (lookup_lt_Some _ _ _ Hrow) as Hi1.
    pose proof (lookup_lt_Some _ _ _ Hsize) as Hi2.
    assert (H1 : (length steps <= length row)%nat) by lia.
    assert (H2 : Z.of_nat (length ([] ++ row)) < two64) by (simpl; lia).
    pose proof (append_var_tiles_run name idx steps [] row 0 f
                  Hidx Hbase Hrow Hsize H0 H1 H2) as Hrun.
    rewrite <- Hlen, drop_all, app_nil_r in Hrun.
    cbn [app length Z.of_nat] in Hrun. rewrite Z.add_0_l in Hrun.
    rewrite (wrap64_small _ Htot) in Hrun.
    eexists. split; [exact Hrun|]. fm_simpl.
    rewrite !list_lookup_insert_eq by done.
    split; [by rewrite running_offsets_exact|]. split; [|done].
    intros k s Hk. unfold persisted_tile_var_size. fm_simpl.
    rewrite Hidx, (at_index_Some _ _ _ Hloaded). cbn [obind negb].
    rewrite (at_index_Some _ _ (running_offsets 0 steps))
      by (by rewrite list_lookup_insert_eq).
    cbn [obind]. unfold tile_num in *. fm_simpl. rewrite Hnum.
    apply persisted_size_of_running; try done.
    rewrite list_lookup_insert_eq by done. by rewrite wrap64_small.
  - intros row Hrow Hlen Hsize Hloaded.
    pose proof (lookup_lt_Some _ _ _ Hrow) as Hi1.
    pose proof (lookup_lt_Some _ _ _ Hsize) as Hi2.
    assert (H1 : (length steps <= length row)%nat) by lia.
    assert (H2 : Z.of_nat (length ([] ++ row)) < two64) by (simpl; lia).
    pose proof (append_validity_tiles_run name idx steps [] row 0 f
                  Hidx Hbase Hrow Hsize H0 H1 H2) as Hrun.
    rewrite <- Hlen, drop_all, app_nil_r in Hrun.
    cbn [app length Z.of_nat] in Hrun. rewrite Z.add_0_l in Hrun.
    rewrite (wrap64_small _ Htot) in Hrun.
    eexists. split; [exact Hrun|]. fm_simpl.
    rewrite !list_lookup_insert_eq by done.
    split; [by rewrite running_offsets_exact|]. split; [|done].
    intros k s Hk. unfold persisted_tile_validity_size. fm_simpl.
    rewrite Hidx, (at_index_Some _ _ _ Hloaded). cbn [obind negb].
    rewrite (at_index_Some _ _ (running_offsets 0 steps))
      by (by rewrite list_lookup_insert_eq).
    cbn [obind]. unfold tile_num in *. fm_simpl. rewrite Hnum.
    apply persisted_size_of_running; try done.
    rewrite list_lookup_insert_eq by done. by rewrite wrap64_small.
Qed.

Lemma var_validity_offsets_prefix_sums_witness :
  let f := example_written_var_fragment in
  (exists f', append_var_tiles "s" 0 [5; 0; 7] f = Ok f' /\
              tile_var_offsets_ f' !! 2%nat = Some [0; 5; 5] /\
              persisted_tile_var_size example_collaborators "s" 2 f' = Ok 7) /\
  (exists f', append_validity_tiles "s" 0 [5; 0; 7] f = Ok f' /\
              persisted_tile_validity_size example_collaborators "s" 1 f' = Ok 0).
Proof.
  intros f.
  destruct (var_validity_offsets_prefix_sums example_collaborators "s" 2 [5; 0; 7] f)
    as [Hvar Hval];
    [ vm_compute; reflexivity ..
    | repeat constructor; unfold is_u64; vm_compute; done
    | vm_compute; reflexivity
    | vm_compute; reflexivity
    | ].
  split.
  - destruct (Hvar [0; 0; 0]) as (f' & E & Hrow & Hsize & _);
      [vm_compute; reflexivity .. |].
    exists f'. split; [exact E|]. split; [exact Hrow|]. exact (Hsize 2%nat 7 eq_refl).
  - destruct (Hval [0; 0; 0]) as (f' & E & _ & Hsize & _);
      [vm_compute; reflexivity .. |].
    exists f'. split; [exact E|]. exact (Hsize 1%nat 0 eq_refl).
Defined.

(** ** FragmentMetadata: var-sized minima and maxima *)

Lemma exclusive_prefix_sums_lookup (l : list Z) (k : nat) :
  (k < length l)%nat -> exclusive_prefix_sums l !! k = Some (sum_list_Z (take k l)).
Proof.
  intros Hk. unfold exclusive_prefix_sums.
  by rewrite list_lookup_fmap, lookup_seq_lt.
Qed.

Lemma length_exclusive_prefix_sums (l : list Z) :
  length (exclusive_prefix_sums l) = length l.
Proof. unfold exclusive_prefix_sums. by rewrite length_map, length_seq. Qed.

Lemma value_sizes_u64 (values : list (list byte)) : Forall (fun z => 0 <= z) (value_sizes values).
Proof. unfold value_sizes. apply Forall_map, Forall_true. intros v. simpl. lia. Qed.

Lemma sum_value_sizes (values : list (list byte)) :
  sum_list_Z (value_sizes values) = Z.of_nat (length (concat values)).
Proof.
  induction values as [|v values IH]; [done|].
  cbn [value_sizes map sum_list_Z concat]. rewrite length_app.
  fold (value_sizes values). lia.
Qed.

Lemma value_sizes_take (values : list (list byte)) (k : nat) :
  take k (value_sizes values) = value_sizes (take k values).
Proof. unfold value_sizes. symmetry. apply (fmap_take (fun v : list byte => Z.of_nat (length v))). Qed.

(** The value of slot [k] in the concatenation of the values. *)
Lemma slice_concat (values : list (list byte)) (k : nat) (v : list byte) :
  values !! k = Some v ->
  slice (concat values) (length (concat (take k values))) (length v) = v.
Proof.
  intros H. apply list_elem_of_split_length in H as (l1 & l2 & -> & ->).
  rewrite take_app_length. unfold slice.
  rewrite concat_app, drop_app_length. cbn [concat]. by rewrite take_app_length.
Qed.

(** The offsets buffer the conversion leaves: entry [j] is the size
    of the values before slot [j]. *)
Lemma read_value_offset (values : list (list byte)) (j : nat) :
  (j < length values)%nat ->
  Z.of_nat (length (concat values)) < two64 ->
  read_u64_at (u64_buffer (exclusive_prefix_sums (value_sizes values))) (Z.of_nat j)
  = Ok (Z.of_nat (length (concat (take j values)))).
Proof.
  intros Hj Htot.
  assert (Hsz : length (value_sizes values) = length values)
    by (unfold value_sizes; by rewrite length_map).
  rewrite (read_u64_at_buffer _ j (sum_list_Z (take j (value_sizes values)))).
  - rewrite value_sizes_take, sum_value_sizes. f_equal. apply wrap64_small.
    unfold is_u64. split; [lia|].
    assert (length (concat (take j values)) <= length (concat values))%nat; [|lia].
    rewrite <- (take_drop j values) at 2. rewrite concat_app, length_app. lia.
  - apply exclusive_prefix_sums_lookup. lia.
Qed.

(** The offset of slot [k] and the size the code computes for it, on
    the offsets buffer the conversion leaves and a var buffer of the
    total size. *)
Lemma var_slot_offset_size (values : list (list byte)) (k : nat) (v : list byte)
    (var : list byte) :
  values !! k = Some v ->
  length var = length (concat values) ->
  Z.of_nat (length (concat values)) < two64 ->
  Z.of_nat (length values) < two64 ->
  let buf := u64_buffer (exclusive_prefix_sums (value_sizes values)) in
  read_u64_at buf (Z.of_nat k) = Ok (Z.of_nat (length (concat (take k values)))) /\
  var_value_size (Z.of_nat (length values)) (Z.of_nat k) buf var
  = Ok (Z.of_nat (length v)).
Proof.
  intros Hk Hvar Htot Hn buf.
  pose proof (lookup_lt_Some _ _ _ Hk) as Hlt.
  assert (Hsz : length (value_sizes values) = length values)
    by (unfold value_sizes; by rewrite length_map).
  assert (Hoff : forall j, (j < length values)%nat ->
            read_u64_at buf (Z.of_nat j) = Ok (Z.of_nat (length (concat (take j values)))))
    by (intros j Hj; by apply read_value_offset).
  split; [by apply Hoff|].
  unfold var_value_size. rewrite (Hoff k Hlt). cbn [obind].
  assert (Hsplit : length (concat (take (S k) values))
                   = (length (concat (take k values)) + length v)%nat).
  { rewrite (take_S_r _ _ _ Hk), concat_app, length_app. cbn [concat].
    rewrite app_nil_r. reflexivity. }
  rewrite wrap64_small by (unfold is_u64; lia).
  destruct (Z.eqb_spec (Z.of_nat k) (Z.of_nat (length values) - 1)) as [Hlast|Hnot].
  - f_equal. rewrite Hvar.
    assert (take (S k) values = values) as Hall by (apply take_ge; lia).
    rewrite Hall in Hsplit. rewrite Hsplit.
    rewrite wrap64_small; [lia|]. unfold is_u64. lia.
  - replace (Z.of_nat k + 1) with (Z.of_nat (S k)) by lia.
    rewrite (Hoff (S k)) by lia. cbn [obind]. f_equal. rewrite Hsplit.
    rewrite wrap64_small; [lia|]. unfold is_u64. split; [lia|].
    assert (length v <= length (concat values))%nat; [|lia].
    apply list_elem_of_split_length in Hk as (l1 & l2 & -> & _).
    rewrite concat_app, length_app. cbn [concat]. rewrite length_app. lia.
Qed.

(** One slot of the var buffer after it is stored: the values of the
    slots before it are in place, and so is this one. *)
Lemma set_var_slot_spec (values : list (list byte)) (k : nat) (v var : list byte) :
  values !! k = Some v ->
  length var = length (concat values) ->
  take (length (concat (take k values))) var = concat (take k values) ->
  Z.of_nat (length (concat values)) < two64 ->
  8 * Z.of_nat (length values) < two64 ->
  exists var',
    set_var_slot 0 (Z.of_nat k) v
      (u64_buffer (exclusive_prefix_sums (value_sizes values))) var = Ok var' /\
    length var' = length var /\
    take (length (concat (take (S k) values))) var' = concat (take (S k) values).
Proof.
  intros Hk Hvar Hpre Htot Hn.
  pose proof (lookup_lt_Some _ _ _ Hk) as Hlt.
  set (buf := u64_buffer (exclusive_prefix_sums (value_sizes values))) in *.
  assert (Hoff : forall j, (j < length values)%nat ->
            read_u64_at buf (Z.of_nat j) = Ok (Z.of_nat (length (concat (take j values)))))
    by (intros j Hj; by apply read_value_offset).
  assert (Hlen : length buf = (8 * length values)%nat).
  { subst buf. rewrite length_u64_buffer, length_exclusive_prefix_sums.
    unfold value_sizes. by rewrite length_map. }
  assert (Hsplit : length (concat (take (S k) values))
                   = (length (concat (take k values)) + length v)%nat).
  { rewrite (take_S_r _ _ _ Hk), concat_app, length_app. cbn [concat].
    rewrite app_nil_r. reflexivity. }
  assert (Hin : (length (concat (take (S k) values)) <= length (concat values))%nat).
  { rewrite <- (take_drop (S k) values) at 2. rewrite concat_app, length_app. lia. }
  unfold set_var_slot. rewrite Z.add_0_r, Hlen.
  rewrite (wrap64_small (Z.of_nat k)) by (unfold is_u64; lia).
  replace (Z.of_nat k <? Z.of_nat (8 * length values) / 8) with true.
  2:{ symmetry. apply Z.ltb_lt.
      replace (Z.of_nat (8 * length values)) with (Z.of_nat (length values) * 8) by lia.
      rewrite Z.div_mul by lia. lia. }
  cbn [assert_then]. rewrite (Hoff k Hlt). cbn [obind].
  rewrite (wrap64_small (Z.of_nat k * 8)) by (unfold is_u64; lia).
  rewrite (wrap64_small (Z.of_nat (8 * length values) - 8)) by (unfold is_u64; lia).
  assert (Hsz : (if negb (Z.of_nat k * 8 =? Z.of_nat (8 * length values) - 8)
                 then let! offset1 := read_u64_at buf (Z.of_nat k + 1) in
                      Ok (wrap64 (offset1 - Z.of_nat (length (concat (take k values)))))
                 else Ok (wrap64 (Z.of_nat (length var)
                                  - Z.of_nat (length (concat (take k values))))))
                = Ok (Z.of_nat (length v))).
  { destruct (Z.eqb_spec (Z.of_nat k * 8) (Z.of_nat (8 * length values) - 8))
      as [Hlast|Hnot]; cbn [negb].
    - f_equal. rewrite Hvar.
      assert (take (S k) values = values) as Hall by (apply take_ge; lia).
      rewrite Hall in Hsplit. rewrite Hsplit.
      rewrite wrap64_small; [lia|]. unfold is_u64. lia.
    - replace (Z.of_nat k + 1) with (Z.of_nat (S k)) by lia.
      rewrite (Hoff (S k)) by lia. cbn [obind]. f_equal. rewrite Hsplit.
      rewrite wrap64_small; [lia|]. unfold is_u64. lia. }
  rewrite Hsz. cbn [obind].
  destruct (Z.eqb_spec (Z.of_nat (length v)) 0) as [Hz|Hnz]; cbn [negb].
  - exists var. split; [done|]. split; [done|].
    assert (v = []) as -> by (destruct v; [done|simpl in Hz; lia]).
    rewrite (take_S_r _ _ _ Hk), concat_app. cbn [concat]. rewrite !app_nil_r.
    exact Hpre.
  - replace (Z.of_nat (length v) <=? Z.of_nat (length v)) with true
      by (symmetry; apply Z.leb_le; lia).
    rewrite Nat2Z.id, firstn_all.
    destruct (memcpy_at_spec var (length (concat (take k values))) v)
      as (var' & E & L & Sl & F); [lia|].
    exists var'. split; [exact E|]. split; [exact L|].
    rewrite (take_S_r _ _ _ Hk), concat_app. cbn [concat]. rewrite app_nil_r.
    rewrite length_app.
    rewrite <- (take_drop (length (concat (take k values)))
                  (take (length (concat (take k values)) + length v) var')).
    rewrite take_take, Nat.min_l by lia.
    f_equal.
    + pose proof (F 0%nat (length (concat (take k values)))) as F0.
      unfold slice in F0. rewrite !drop_0 in F0. rewrite F0 by lia. exact Hpre.
    + unfold slice in Sl. rewrite take_drop_commute in Sl. exact Sl.
Qed.

(** The writer's loop from slot [k] on: it leaves the values one
    after another in the var buffer. *)
Lemma store_min_vars_run (name : string) (idx : nat) (values : list (list byte)) (n : nat) :
  forall (k : nat) (var : list byte) (f : FragmentMetadata),
  (length values - k = n)%nat -> (k <= length values)%nat ->
  idx_map_ f !! name = Some idx ->
  tile_index_base_ f = 0 ->
  tile_min_buffer_ f !! idx
    = Some (u64_buffer (exclusive_prefix_sums (value_sizes values))) ->
  tile_min_var_buffer_ f !! idx = Some var ->
  length var = length (concat values) ->
  take (length (concat (take k values))) var = concat (take k values) ->
  Z.of_nat (length (concat values)) < two64 ->
  8 * Z.of_nat (length values) < two64 ->
  store_min_vars name (Z.of_nat k) (drop k values) f
  = Ok (set_tile_min_var_buffer_
          (<[idx := concat values]> (tile_min_var_buffer_ f)) f).
Proof.
  induction n as [|n IH]; intros k var f Hn Hk Hidx Hbase Hbuf Hvar Hlen Hpre Htot Hbig.
  - rewrite drop_ge by lia. cbn [store_min_vars].
    rewrite (take_ge values k) in Hpre by lia.
    rewrite <- Hlen, firstn_all in Hpre. subst var.
    rewrite list_insert_id by done. by destruct f.
  - destruct (lookup_lt_is_Some_2 values k ltac:(lia)) as [v Hv].
    rewrite (drop_S _ _ _ Hv). cbn [store_min_vars].
    unfold set_tile_min_var. rewrite Hidx, Hbase.
    rewrite (at_index_Some _ _ _ Hbuf), (at_index_Some _ _ _ Hvar). cbn [obind].
    destruct (set_var_slot_spec values k v var Hv Hlen Hpre Htot Hbig)
      as (var' & E & L & P).
    rewrite E. cbn [obind].
    pose proof (lookup_lt_Some _ _ _ Hvar) as Hi.
    replace (Z.of_nat k + 1) with (Z.of_nat (S k)) by lia.
    rewrite (IH (S k) var'); try done; try lia.
    + unfold set_tile_min_var_buffer_. cbn. by rewrite list_insert_insert_eq.
    + fm_simpl. by apply list_lookup_insert_eq.
Qed.

(** The same loop on the maxima. *)
Lemma store_max_vars_run (name : string) (idx : nat) (values : list (list byte)) (n : nat) :
  forall (k : nat) (var : list byte) (f : FragmentMetadata),
  (length values - k = n)%nat -> (k <= length values)%nat ->
  idx_map_ f !! name = Some idx ->
  tile_index_base_ f = 0 ->
  tile_max_buffer_ f !! idx
    = Some (u64_buffer (exclusive_prefix_sums (value_sizes values))) ->
  tile_max_var_buffer_ f !! idx = Some var ->
  length var = length (concat values) ->
  take (length (concat (take k values))) var = concat (take k values) ->
  Z.of_nat (length (concat values)) < two64 ->
  8 * Z.of_nat (length values) < two64 ->
  store_max_vars name (Z.of_nat k) (drop k values) f
  = Ok (set_tile_max_var_buffer_
          (<[idx := concat values]> (tile_max_var_buffer_ f)) f).
Proof.
  induction n as [|n IH]; intros k var f Hn Hk Hidx Hbase Hbuf Hvar Hlen Hpre Htot Hbig.
  - rewrite drop_ge by lia. cbn [store_max_vars].
    rewrite (take_ge values k) in Hpre by lia.
    rewrite <- Hlen, firstn_all in Hpre. subst var.
    rewrite list_insert_id by done. by destruct f.
  - destruct (lookup_lt_is_Some_2 values k ltac:(lia)) as [v Hv].
    rewrite (drop_S _ _ _ Hv). cbn [store_max_vars].
    unfold set_tile_max_var. rewrite Hidx, Hbase.
    rewrite (at_index_Some _ _ _ Hbuf), (at_index_Some _ _ _ Hvar). cbn [obind].
    destruct (set_var_slot_spec values k v var Hv Hlen Hpre Htot Hbig)
      as (var' & E & L & P).
    rewrite E. cbn [obind].
    pose proof (lookup_lt_Some _ _ _ Hvar) as Hi.
    replace (Z.of_nat k + 1) with (Z.of_nat (S k)) by lia.
    rewrite (IH (S k) var'); try done; try lia.
    + unfold set_tile_max_var_buffer_. cbn. by rewrite list_insert_insert_eq.
    + fm_simpl. by apply list_lookup_insert_eq.
Qed.

(** The common end of the two [std::string_view] getters on the
    buffers the writer leaves: the value of the tile. *)
Lemma tile_string_view_value (X : Collaborators) (name : string)
    (values : list (list byte)) (k : nat) (v : list byte) (f : FragmentMetadata) :
  schema_var_size (array_schema_ f) name = true ->
  tile_num X f = Z.of_nat (length values) ->
  values !! k = Some v ->
  Z.of_nat (length (concat values)) < two64 ->
  Z.of_nat (length values) < two64 ->
  tile_string_view X name (Z.of_nat k)
    (u64_buffer (exclusive_prefix_sums (value_sizes values))) (concat values) f
  = Ok v.
Proof.
  intros Hvar Hnum Hk Htot Hn. unfold tile_string_view. rewrite Hvar, Hnum.
  destruct (var_slot_offset_size values k v (concat values) Hk eq_refl Htot Hn)
    as [-> ->]. cbn [obind].
  destruct (Z.eqb_spec (Z.of_nat (length v)) 0) as [Hz|Hnz].
  - f_equal. destruct v; [done|simpl in Hz; lia].
  - rewrite !Nat2Z.id. f_equal. by apply slice_concat.
Qed.

(** X15.  The var-sized minimum and maximum of a tile.  On the offsets the
    conversion of the sizes leaves and a var buffer of the total
    size, after the writer stored the values of every tile with
    [set_tile_min_var] (resp. [set_tile_max_var]),
    [get_tile_min_as<std::string_view>] (resp. [get_tile_max_as]) of
    tile [k] returns value [k]. *)
Theorem set_get_tile_min_max_var (X : Collaborators) (name : string) (idx : nat)
    (values : list (list byte)) (f : FragmentMetadata) :
  let s := array_schema_ f in
  let offsets := u64_buffer (exclusive_prefix_sums (value_sizes values)) in
  idx_map_ f !! name = Some idx ->
  tile_index_base_ f = 0 ->
  tile_num X f = Z.of_nat (length values) ->
  schema_var_size s name = true ->
  has_min_max_metadata X (schema_type s name) (schema_is_dim s name) true
    (schema_cell_val_num s name) = true ->
  Z.of_nat (length (concat values)) < two64 ->
  8 * Z.of_nat (length values) < two64 ->
  (forall var,
     tile_min_buffer_ f !! idx = Some offsets ->
     tile_min_var_buffer_ f !! idx = Some var ->
     length var = length (concat values) ->
     LoadedMetadata.tile_min_ (loaded_metadata_ f) !! idx = Some true ->
     exists f',
       store_min_vars name 0 values f = Ok f' /\
       forall k v, values !! k = Some v ->
         get_tile_min_as_string_view X name (Z.of_nat k) f' = Ok v) /\
  (forall var,
     tile_max_buffer_ f !! idx = Some offsets ->
     tile_max_var_buffer_ f !! idx = Some var ->
     length var = length (concat values) ->
     LoadedMetadata.tile_max_ (loaded_metadata_ f) !! idx = Some true ->
     exists f',
       store_max_vars name 0 values f = Ok f' /\
       forall k v, values !! k = Some v ->
         get_tile_max_as_string_view X name (Z.of_nat k) f' = Ok v).
Proof.
  intros s offsets Hidx Hbase Hnum Hvs Hhas Htot Hbig. split.
  - intros var Hbuf Hvar Hlen Hflag.
    pose proof (store_min_vars_run name idx values (length values) 0 var f
                  ltac:(lia) ltac:(lia) Hidx Hbase Hbuf Hvar Hlen eq_refl Htot Hbig) as Hrun.
    rewrite drop_0 in Hrun. eexists. split; [exact Hrun|].
    intros k v Hk. unfold get_tile_min_as_string_view. fm_simpl. fold s.
    rewrite Hvs, Hidx, (at_index_Some _ _ _ Hflag). cbn [negb andb obind].
    rewrite Hhas. cbn [negb]. rewrite (at_index_Some _ _ _ Hbuf). cbn [obind].
    rewrite (at_index_Some _ _ (concat values))
      by (apply list_lookup_insert_eq; by apply lookup_lt_Some in Hvar).
    cbn [obind]. apply tile_string_view_value; try done; lia.
  - intros var Hbuf Hvar Hlen Hflag.
    pose proof (store_max_vars_run name idx values (length values) 0 var f
                  ltac:(lia) ltac:(lia) Hidx Hbase Hbuf Hvar Hlen eq_refl Htot Hbig) as Hrun.
    rewrite drop_0 in Hrun. eexists. split; [exact Hrun|].
    intros k v Hk. unfold get_tile_max_as_string_view. fm_simpl. fold s.
    rewrite Hvs, Hidx, (at_index_Some _ _ _ Hflag). cbn [negb andb obind].
    rewrite Hhas. cbn [negb]. rewrite (at_index_Some _ _ _ Hbuf). cbn [obind].
    rewrite (at_index_Some _ _ (concat values))
      by (apply list_lookup_insert_eq; by apply lookup_lt_Some in Hvar).
    cbn [obind]. apply tile_string_view_value; try done; lia.
Qed.

Lemma set_get_tile_min_max_var_witness :
  let values := [bytes_of "kiwi"; []; bytes_of "fig"] in
  let f := example_tile_metadata_on (example_fragment 16 3) 2
             (u64_buffer [0; 4; 4]) (u64_buffer [0; 4; 4])
             (replicate 7 Byte.x00) (replicate 7 Byte.x00) [] [0; 0; 0] in
  (exists f', store_min_vars "s" 0 values f = Ok f' /\
     get_tile_min_as_string_view example_collaborators "s" 2 f' = Ok (bytes_of "fig")) /\
  (exists f', store_max_vars "s" 0 values f = Ok f' /\
     get_tile_max_as_string_view example_collaborators "s" 1 f' = Ok []).
Proof.
  intros values f.
  destruct (set_get_tile_min_max_var example_collaborators "s" 2 values f)
    as [Hmin Hmax]; [first [vm_compute; reflexivity | vm_compute; lia] .. |].
  split.
  - destruct (Hmin (replicate 7 Byte.x00)) as (f' & E & G);
      [vm_compute; reflexivity .. |].
    exists f'. split; [exact E|]. exact (G 2%nat (bytes_of "fig") eq_refl).
  - destruct (Hmax (replicate 7 Byte.x00)) as (f' & E & G);
      [vm_compute; reflexivity .. |].
    exists f'. split; [exact E|]. exact (G 1%nat [] eq_refl).
Defined.

(** ** FragmentMetadata: cells, loads and frees *)

Lemma sum_list_Z_const {A : Type} (l : list A) (x : Z) :
  sum_list_Z (map (fun _ => x) l) = Z.of_nat (length l) * x.
Proof. induction l as [|a l IH]; [done|]. cbn [map length sum_list_Z]. lia. Qed.

(** X16.  The number of cells of the fragment, [cell_num()], is the sum of
    the numbers of cells [cell_num(t)] of its tiles (in [uint64_t]);
    a fragment with no tile fails the assertion. *)
Theorem cell_num_is_sum_over_tiles (X : Collaborators) (f : FragmentMetadata) (n : nat) :
  tile_num X f = Z.of_nat n ->
  Z.of_nat n < two64 ->
  cell_num_total X f
  = if (n =? 0)%nat then AssertFail
    else Ok (wrap64 (sum_list_Z (map (fun t => cell_num X (Z.of_nat t) f) (seq 0 n)))).
Proof.
  intros Hnum Hn. unfold cell_num_total. rewrite Hnum.
  destruct n as [|n]; [done|].
  replace (Z.of_nat (S n) =? 0) with false by (symmetry; apply Z.eqb_neq; lia).
  cbn [negb assert_then Nat.eqb].
  assert (Hlast : wrap64 (Z.of_nat (S n) - 1) = Z.of_nat n).
  { rewrite wrap64_small; [lia|]. unfold is_u64. lia. }
  rewrite seq_S, map_app, sum_list_Z_app. cbn [map sum_list_Z Nat.add].
  unfold cell_num. rewrite Hnum, Hlast.
  destruct (dense_ f).
  - rewrite sum_list_Z_const, length_seq. do 2 f_equal. lia.
  - rewrite Z.eqb_refl. cbn [negb].
    rewrite (map_ext_in _ (fun _ => schema_capacity (array_schema_ f))).
    2:{ intros t Ht. apply in_seq in Ht.
        replace (Z.of_nat t =? Z.of_nat n) with false; [done|].
        symmetry. apply Z.eqb_neq. lia. }
    rewrite sum_list_Z_const, length_seq.
    rewrite wrap64_add_l, Z.add_0_r. reflexivity.
Qed.

Lemma cell_num_is_sum_over_tiles_witness :
  cell_num_total example_collaborators
    (set_last_tile_cell_num_ 7 (example_fragment 16 3)) = Ok 207.
Proof.
  apply (cell_num_is_sum_over_tiles example_collaborators
           (set_last_tile_cell_num_ 7 (example_fragment 16 3)) 3);
    vm_compute; reflexivity.
Defined.

(** X17.  A lazy load that succeeded is not done again: a second call of the
    same loader returns at once, with the state the first one left (no
    read, no charge to the memory tracker). *)
Theorem load_twice_is_load_once (X : Collaborators) (idx : nat) (f f1 : FragmentMetadata) :
  (load_tile_offsets X idx f = Ok f1 -> load_tile_offsets X idx f1 = Ok f1) /\
  (load_tile_var_offsets X idx f = Ok f1 -> load_tile_var_offsets X idx f1 = Ok f1) /\
  (load_tile_var_sizes X idx f = Ok f1 -> load_tile_var_sizes X idx f1 = Ok f1) /\
  (load_tile_validity_offsets X idx f = Ok f1 ->
   load_tile_validity_offsets X idx f1 = Ok f1) /\
  (load_rtree X f = Ok f1 -> load_rtree X f1 = Ok f1).
Proof.
  assert (Hflag : forall (flags : list bool) b,
            at_index flags idx = Ok b -> at_index (<[idx := true]> flags) idx = Ok true).
  { intros flags b. unfold at_index.
    destruct (flags !! idx) eqn:E; [|done]. intros _.
    rewrite list_lookup_insert_eq; [done|]. by apply lookup_lt_Some in E. }
  repeat split.
  - unfold load_tile_offsets at 1.
    destruct (version_ f <=? 2) eqn:Hv.
    { intros [= <-]. unfold load_tile_offsets. by rewrite Hv. }
    destruct (at_index _ idx) as [loaded| | |] eqn:Hl; try done. cbn [obind].
    destruct loaded.
    { intros [= <-]. unfold load_tile_offsets. by rewrite Hv, Hl. }
    apply Hflag in Hl. cbn [negb].
    destruct (at_index (GenericTileOffsets.tile_offsets_ (gt_offsets_ f)) idx)
      as [offset| | |]; try done. cbn [obind].
    destruct (read_generic X offset) as [tile| | |]; try done. cbn [obind].
    destruct (load_u64_section _ _ _ _ _) as [[values mt]| | |]; try done. cbn [obind].
    destruct (match values with Some _ => _ | None => _ end) as [rows| | |]; try done.
    cbn [obind]. intros [= <-]. unfold load_tile_offsets. fm_simpl.
    by rewrite Hv, Hl.
  - unfold load_tile_var_offsets at 1.
    destruct (version_ f <=? 2) eqn:Hv.
    { intros [= <-]. unfold load_tile_var_offsets. by rewrite Hv. }
    destruct (at_index _ idx) as [loaded| | |] eqn:Hl; try done. cbn [obind].
    destruct loaded.
    { intros [= <-]. unfold load_tile_var_offsets. by rewrite Hv, Hl. }
    apply Hflag in Hl. cbn [negb].
    destruct (at_index (GenericTileOffsets.tile_var_offsets_ (gt_offsets_ f)) idx)
      as [offset| | |]; try done. cbn [obind].
    destruct (read_generic X offset) as [tile| | |]; try done. cbn [obind].
    destruct (load_u64_section _ _ _ _ _) as [[values mt]| | |]; try done. cbn [obind].
    destruct (match values with Some _ => _ | None => _ end) as [rows| | |]; try done.
    cbn [obind]. intros [= <-]. unfold load_tile_var_offsets. fm_simpl.
    by rewrite Hv, Hl.
  - unfold load_tile_var_sizes at 1.
    destruct (version_ f <=? 2) eqn:Hv.
    { intros [= <-]. unfold load_tile_var_sizes. by rewrite Hv. }
    destruct (at_index _ idx) as [loaded| | |] eqn:Hl; try done. cbn [obind].
    destruct loaded.
    { intros [= <-]. unfold load_tile_var_sizes. by rewrite Hv, Hl. }
    apply Hflag in Hl. cbn [negb].
    destruct (at_index (GenericTileOffsets.tile_var_sizes_ (gt_offsets_ f)) idx)
      as [offset| | |]; try done. cbn [obind].
    destruct (read_generic X offset) as [tile| | |]; try done. cbn [obind].
    destruct (load_u64_section _ _ _ _ _) as [[values mt]| | |]; try done. cbn [obind].
    destruct (match values with Some _ => _ | None => _ end) as [rows| | |]; try done.
    cbn [obind]. intros [= <-]. unfold load_tile_var_sizes. fm_simpl.
    by rewrite Hv, Hl.
  - unfold load_tile_validity_offsets at 1.
    destruct (version_ f <=? 6) eqn:Hv.
    { intros [= <-]. unfold load_tile_validity_offsets. by rewrite Hv. }
    destruct (at_index _ idx) as [loaded| | |] eqn:Hl; try done. cbn [obind].
    destruct loaded.
    { intros [= <-]. unfold load_tile_validity_offsets. by rewrite Hv, Hl. }
    apply Hflag in Hl. cbn [negb].
    destruct (at_index (GenericTileOffsets.tile_validity_offsets_ (gt_offsets_ f)) idx)
      as [offset| | |]; try done. cbn [obind].
    destruct (read_generic X offset) as [tile| | |]; try done. cbn [obind].
    destruct (load_u64_section _ _ _ _ _) as [[values mt]| | |]; try done. cbn [obind].
    destruct (match values with Some _ => _ | None => _ end) as [rows| | |]; try done.
    cbn [obind]. intros [= <-]. unfold load_tile_validity_offsets. fm_simpl.
    by rewrite Hv, Hl.
  - unfold load_rtree at 1.
    destruct (version_ f <=? 2) eqn:Hv.
    { intros [= <-]. unfold load_rtree. by rewrite Hv. }
    destruct (LoadedMetadata.rtree_ (loaded_metadata_ f)) eqn:Hl.
    { intros [= <-]. unfold load_rtree. by rewrite Hv, Hl. }
    destruct (read_generic X _) as [tile| | |]; try done. cbn [obind].
    destruct (take_or_refuse _ _ _) as [[|] mt]; [done|].
    destruct (rtree_deserialize X _ _ _) as [rtree| | |]; try done. cbn [obind].
    intros [= <-]. unfold load_rtree. fm_simpl. by rewrite Hv.
Qed.

Lemma load_twice_is_load_once_witness :
  let X := example_collaborators in
  let f := example_fragment 16 2 in
  exists f1, load_tile_offsets X 0 f = Ok f1 /\ load_tile_offsets X 0 f1 = Ok f1 /\
             tile_offsets_ f1 !! 0%nat = Some [0; 10; 30].
Proof.
  intros X f.
  destruct (load_tile_offsets X 0 f) as [f1| | |] eqn:E; try (vm_compute in E; done).
  exists f1. split; [reflexivity|]. split.
  - by apply (load_twice_is_load_once X 0 f f1).
  - vm_compute in E. injection E as <-. reflexivity.
Defined.

(** X18.  After [free_tile_offsets] the accessors of the four freed sections
    throw for every field, until the section is loaded again. *)
Theorem freed_offsets_are_not_served (X : Collaborators) (name : string) (idx : nat)
    (tile_idx : Z) (f : FragmentMetadata) :
  flags_cover_offsets f ->
  idx_map_ f !! name = Some idx ->
  (idx < length (tile_offsets_ f))%nat ->
  (idx < length (tile_var_offsets_ f))%nat ->
  (idx < length (tile_validity_offsets_ f))%nat ->
  (idx < length (tile_var_sizes_ f))%nat ->
  exists f',
    free_tile_offsets f = Ok f' /\
    throws (file_offset name tile_idx f') = true /\
    throws (persisted_tile_size X name tile_idx f') = true /\
    throws (file_var_offset name tile_idx f') = true /\
    throws (persisted_tile_var_size X name tile_idx f') = true /\
    throws (file_validity_offset name tile_idx f') = true /\
    throws (persisted_tile_validity_size X name tile_idx f') = true /\
    throws (tile_var_size name tile_idx f') = true.
Proof.
  intros Hcov Hidx H1 H2 H3 H4.
  destruct (free_tile_offsets_spec f Hcov)
    as (fo & fvo & fvl & fvs & mt' & E & [_ R1] & [_ R2] & [_ R3] & [_ R4] & _).
  eexists. split; [exact E|].
  assert (F1 : at_index fo idx = Ok false).
  { apply at_index_Some. rewrite R1. by rewrite bool_decide_eq_true_2. }
  assert (F2 : at_index fvo idx = Ok false).
  { apply at_index_Some. rewrite R2. by rewrite bool_decide_eq_true_2. }
  assert (F3 : at_index fvl idx = Ok false).
  { apply at_index_Some. rewrite R3. by rewrite bool_decide_eq_true_2. }
  assert (F4 : at_index fvs idx = Ok false).
  { apply at_index_Some. rewrite R4. by rewrite bool_decide_eq_true_2. }
  unfold file_offset, persisted_tile_size, file_var_offset, persisted_tile_var_size,
    file_validity_offset, persisted_tile_validity_size, tile_var_size.
  fm_simpl. rewrite Hidx, F1, F2, F3, F4. cbn. done.
Qed.

Lemma freed_offsets_are_not_served_witness :
  exists f',
    free_tile_offsets (example_loaded_fragment 16) = Ok f' /\
    throws (file_offset "a" 0 f') = true /\
    throws (tile_var_size "a" 0 f') = true.
Proof.
  destruct (freed_offsets_are_not_served example_collaborators "a" 0 0
              (example_loaded_fragment 16))
    as (f' & E & T1 & _ & _ & _ & _ & _ & T7);
    [ repeat split; vm_compute; lia
    | vm_compute; reflexivity
    | vm_compute; lia ..
    | ].
  exists f'. split; [exact E|]. split; assumption.
Defined.

(** ** FragmentMetadata: sections written and read back *)

(** The loader's body on the bytes the writer's body produces. *)
Lemma load_u64_section_written (m1 m2 m3 : string) (row : list Z)
    (mt : option MemoryTracker.t) :
  Forall is_u64 row ->
  8 * Z.of_nat (length row) < two64 ->
  (forall m, mt = Some m -> 8 * Z.of_nat (length row) <= MemoryTracker.memory_available m) ->
  exists mt',
    load_u64_section m1 m2 m3 (write_u64_section row) mt
    = Ok (match row with [] => None | _ => Some row end, mt') /\
    available mt' = (fun a => a - 8 * Z.of_nat (length row)) <$> available mt.
Proof.
  intros Hrow Hlen Hbudget. unfold load_u64_section, write_u64_section. cbv zeta.
  rewrite length_app, length_u64_bytes.
  replace (Z.of_nat (8 + _) <? 8) with false by (symmetry; apply Z.ltb_ge; lia).
  set (n := Z.of_nat (length row)) in *.
  rewrite (take_app_length' (u64_bytes n) _ 8 (length_u64_bytes n)).
  rewrite (drop_app_length' (u64_bytes n) _ 8 (eq_sym (length_u64_bytes n))).
  subst n.
  rewrite le_combine_u64_bytes, wrap64_small by (unfold is_u64; lia).
  destruct row as [|x row'] eqn:Hr.
  { cbn. exists mt. split; [done|]. destruct mt; cbn; [f_equal; lia|done]. }
  rewrite <- Hr in *. assert (Hpos : 0 < Z.of_nat (length row)) by (subst; simpl; lia).
  replace (Z.of_nat (length row) =? 0) with false by (symmetry; apply Z.eqb_neq; lia).
  cbn [negb]. rewrite wrap64_small by (unfold is_u64; lia).
  assert (Htake : exists mt',
            take_or_refuse (Z.of_nat (length row) * 8) MemoryTracker.TILE_OFFSETS mt
            = (false, mt') /\
            available mt' = (fun a => a - 8 * Z.of_nat (length row)) <$> available mt).
  { unfold take_or_refuse. destruct mt as [m|]; [|by exists None].
    unfold MemoryTracker.take_memory.
    replace (Z.of_nat (length row) * 8 <=? MemoryTracker.memory_available m) with true
      by (symmetry; apply Z.leb_le; specialize (Hbudget m eq_refl); lia).
    eexists. split; [reflexivity|]. cbn. f_equal. lia. }
  destruct Htake as (mt' & -> & Hav). exists mt'. split; [|exact Hav].
  rewrite length_u64_buffer.
  replace (Z.of_nat (8 * length row) <? Z.of_nat (length row) * 8) with false
    by (symmetry; apply Z.ltb_ge; lia).
  do 3 f_equal. unfold resize_and_read. rewrite Nat2Z.id.
  apply list_eq. intros t. rewrite list_lookup_fmap.
  destruct (row !! t) as [v|] eqn:Ht.
  - pose proof (lookup_lt_Some _ _ _ Ht) as Hlt.
    rewrite lookup_seq_lt by done. cbn [fmap option_fmap option_map Nat.add].
    replace (Z.of_nat t <? Z.of_nat (length row) * 8 / 8) with true
      by (symmetry; apply Z.ltb_lt; rewrite Z.div_mul by lia; lia).
    rewrite (read_u64_buffer row t v Ht). f_equal. apply wrap64_small.
    by apply (Forall_lookup_1 _ _ _ _ Hrow Ht).
  - pose proof (lookup_ge_None_1 _ _ Ht). rewrite lookup_seq_ge by lia. done.
Qed.

(** The script shared by the four loaders of offsets, on a tile that
    holds what the matching writer produced from [row]. *)
Ltac load_written loader writer Hw Hflag Hempty Hoff Htile Hv Hrow Hlen Hbudget :=
  unfold writer in Htile; rewrite (at_index_Some _ _ _ Hw) in Htile; cbn [obind] in Htile;
  unfold loader;
  rewrite Hv, (at_index_Some _ _ _ Hflag); cbn [obind negb];
  rewrite (at_index_Some _ _ _ Hoff); cbn [obind]; rewrite Htile; cbn [obind];
  match goal with
  | |- context [load_u64_section ?m1 ?m2 ?m3 _ ?mt] =>
      destruct (load_u64_section_written m1 m2 m3 _ mt Hrow Hlen Hbudget)
        as (mt' & -> & Hav)
  end;
  cbn [obind];
  pose proof (lookup_lt_Some _ _ _ Hempty);
  pose proof (lookup_lt_Some _ _ _ Hflag);
  match goal with
  | |- context [match ?r with [] => None | _ => _ end] =>
      destruct r; cbn [obind]; rewrite ?(at_index_Some _ _ _ Hempty); cbn [obind];
      (eexists; split; [reflexivity|]; fm_simpl;
       rewrite ?list_lookup_insert_eq by done; by repeat split)
  end.

(** X19.  What a writer serializes a loader restores.  When the generic
    tile of a section of a field holds the bytes
    [write_tile_offsets] (resp. [write_tile_var_offsets],
    [write_tile_var_sizes], [write_tile_validity_offsets]) produced
    from a vector, loading the section into a fragment that does not
    have it in memory leaves that vector in memory, sets the loaded
    flag, and charges the memory tracker eight bytes per value. *)
Theorem offsets_written_then_loaded (X : Collaborators) (idx : nat) (row : list Z)
    (w f : FragmentMetadata) :
  let charged f1 :=
    available (memory_tracker_ f1)
    = (fun a => a - 8 * Z.of_nat (length row)) <$> available (memory_tracker_ f) in
  6 < version_ f ->
  Forall is_u64 row ->
  8 * Z.of_nat (length row) < two64 ->
  (forall m, memory_tracker_ f = Some m ->
     8 * Z.of_nat (length row) <= MemoryTracker.memory_available m) ->
  (forall offset,
     tile_offsets_ w !! idx = Some row ->
     LoadedMetadata.tile_offsets_ (loaded_metadata_ f) !! idx = Some false ->
     tile_offsets_ f !! idx = Some [] ->
     GenericTileOffsets.tile_offsets_ (gt_offsets_ f) !! idx = Some offset ->
     read_generic X offset = write_tile_offsets idx w ->
     exists f1,
       load_tile_offsets X idx f = Ok f1 /\
       tile_offsets_ f1 !! idx = Some row /\
       LoadedMetadata.tile_offsets_ (loaded_metadata_ f1) !! idx = Some true /\
       charged f1) /\
  (forall offset,
     tile_var_offsets_ w !! idx = Some row ->
     LoadedMetadata.tile_var_offsets_ (loaded_metadata_ f) !! idx = Some false ->
     tile_var_offsets_ f !! idx = Some [] ->
     GenericTileOffsets.tile_var_offsets_ (gt_offsets_ f) !! idx = Some offset ->
     read_generic X offset = write_tile_var_offsets idx w ->
     exists f1,
       load_tile_var_offsets X idx f = Ok f1 /\
       tile_var_offsets_ f1 !! idx = Some row /\
       LoadedMetadata.tile_var_offsets_ (loaded_metadata_ f1) !! idx = Some true /\
       charged f1) /\
  (forall offset,
     tile_var_sizes_ w !! idx = Some row ->
     LoadedMetadata.tile_var_sizes_ (loaded_metadata_ f) !! idx = Some false ->
     tile_var_sizes_ f !! idx = Some [] ->
     GenericTileOffsets.tile_var_sizes_ (gt_offsets_ f) !! idx = Some offset ->
     read_generic X offset = write_tile_var_sizes idx w ->
     exists f1,
       load_tile_var_sizes X idx f = Ok f1 /\
       tile_var_sizes_ f1 !! idx = Some row /\
       LoadedMetadata.tile_var_sizes_ (loaded_metadata_ f1) !! idx = Some true /\
       charged f1) /\
  (forall offset,
     tile_validity_offsets_ w !! idx = Some row ->
     LoadedMetadata.tile_validity_offsets_ (loaded_metadata_ f) !! idx = Some false ->
     tile_validity_offsets_ f !! idx = Some [] ->
     GenericTileOffsets.tile_validity_offsets_ (gt_offsets_ f) !! idx = Some offset ->
     read_generic X offset = write_tile_validity_offsets idx w ->
     exists f1,
       load_tile_validity_offsets X idx f = Ok f1 /\
       tile_validity_offsets_ f1 !! idx = Some row /\
       LoadedMetadata.tile_validity_offsets_ (loaded_metadata_ f1) !! idx = Some true /\
       charged f1).
Proof.
  intros charged Hver Hrow Hlen Hbudget. subst charged. cbv beta.
  assert (Hv2 : (version_ f <=? 2) = false) by (apply Z.leb_gt; lia).
  assert (Hv6 : (version_ f <=? 6) = false) by (apply Z.leb_gt; lia).
  split; [|split; [|split]]; intros offset Hw Hflag Hempty Hoff Htile.
  - load_written load_tile_offsets write_tile_offsets
      Hw Hflag Hempty Hoff Htile Hv2 Hrow Hlen Hbudget.
  - load_written load_tile_var_offsets write_tile_var_offsets
      Hw Hflag Hempty Hoff Htile Hv2 Hrow Hlen Hbudget.
  - load_written load_tile_var_sizes write_tile_var_sizes
      Hw Hflag Hempty Hoff Htile Hv2 Hrow Hlen Hbudget.
  - load_written load_tile_validity_offsets write_tile_validity_offsets
      Hw Hflag Hempty Hoff Htile Hv6 Hrow Hlen Hbudget.
Qed.

Lemma offsets_written_then_loaded_witness :
  let w := set_tile_offsets_ (<[0%nat := [0; 10; 30]]> (replicate 7 []))
             (example_fragment 16 3) in
  let f := example_fragment 16 2 in
  read_generic example_collaborators 100 = write_tile_offsets 0 w /\
  exists f1, load_tile_offsets example_collaborators 0 f = Ok f1 /\
             tile_offsets_ f1 !! 0%nat = Some [0; 10; 30].
Proof.
  intros w f. split; [vm_compute; reflexivity|].
  destruct (offsets_written_then_loaded example_collaborators 0 [0; 10; 30] w f)
    as [Hoffsets _];
    [ vm_compute; reflexivity
    | repeat constructor; unfold is_u64; vm_compute; done
    | vm_compute; reflexivity
    | intros m [= <-]; vm_compute; congruence
    | ].
  destruct (Hoffsets 100) as (f1 & E & Hrow & _); [vm_compute; reflexivity .. |].
  exists f1. split; assumption.
Defined.

Lemma de_read_u64_written (msg : string) (v : Z) (rest : list byte) :
  is_u64 v -> de_read_u64 msg (u64_bytes v ++ rest) = Ok (v, rest).
Proof.
  intros Hv. unfold de_read_u64. rewrite length_app, length_u64_bytes.
  replace (Z.of_nat (8 + length rest) <? 8) with false by (symmetry; apply Z.ltb_ge; lia).
  rewrite (take_app_length' (u64_bytes v) _ 8 (length_u64_bytes v)).
  rewrite (drop_app_length' (u64_bytes v) _ 8 (eq_sym (length_u64_bytes v))).
  by rewrite le_combine_u64_bytes, wrap64_small.
Qed.

Lemma de_read_written (msg : string) (data rest : list byte) :
  de_read msg (Z.of_nat (length data)) (data ++ rest) = Ok (data, rest).
Proof.
  unfold de_read. rewrite length_app.
  replace (Z.of_nat (length data + length rest) <? Z.of_nat (length data)) with false
    by (symmetry; apply Z.ltb_ge; lia).
  rewrite Nat2Z.id, take_app_length, drop_app_length. reflexivity.
Qed.

(** The body of the min and max loaders on the bytes the body of the
    writers produces, followed by any bytes [rest]. *)
Lemma load_min_max_section_written (msg : string) (mt : option MemoryTracker.t)
    (buffer var rest : list byte) :
  Z.of_nat (length buffer) + Z.of_nat (length var) < two64 ->
  (forall m, mt = Some m ->
     Z.of_nat (length buffer) + Z.of_nat (length var) <= MemoryTracker.memory_available m) ->
  match buffer with
  | [] =>
      load_min_max_section msg mt (write_min_max_section buffer var ++ rest)
      = Ok (None, mt, var ++ rest)
  | _ =>
      exists mt',
        load_min_max_section msg mt (write_min_max_section buffer var ++ rest)
        = Ok (Some (buffer, match var with [] => None | _ => Some var end), mt', rest) /\
        available mt'
        = (fun a => a - (Z.of_nat (length buffer) + Z.of_nat (length var)))
            <$> available mt
  end.
Proof.
  intros Hlen Hbudget. unfold load_min_max_section, write_min_max_section. cbv zeta.
  rewrite <- !app_assoc.
  rewrite de_read_u64_written by (unfold is_u64; lia). cbn [obind].
  rewrite de_read_u64_written by (unfold is_u64; lia). cbn [obind].
  destruct buffer as [|b buffer'] eqn:Hb.
  { cbn [length Z.of_nat Z.eqb negb app].
    by destruct (Z.of_nat (length var) =? 0) eqn:Hz;
      [apply Z.eqb_eq in Hz; destruct var; [|simpl in Hz; lia]|]. }
  rewrite <- Hb in *.
  assert (Hpos : 0 < Z.of_nat (length buffer)) by (subst; simpl; lia).
  replace (Z.of_nat (length buffer) =? 0) with false by (symmetry; apply Z.eqb_neq; lia).
  cbn [negb]. rewrite wrap64_small by (unfold is_u64; lia).
  assert (Htake : exists mt',
            take_or_refuse (Z.of_nat (length buffer) + Z.of_nat (length var))
              MemoryTracker.MIN_MAX_SUM_NULL_COUNT mt = (false, mt') /\
            available mt'
            = (fun a => a - (Z.of_nat (length buffer) + Z.of_nat (length var)))
                <$> available mt).
  { unfold take_or_refuse. destruct mt as [m|]; [|by exists None].
    unfold MemoryTracker.take_memory.
    replace (_ <=? MemoryTracker.memory_available m) with true
      by (symmetry; apply Z.leb_le; by apply Hbudget).
    eexists. split; reflexivity. }
  destruct Htake as (mt' & -> & Hav). exists mt'. split; [|exact Hav].
  rewrite de_read_written. cbn [obind].
  destruct var as [|c var'] eqn:Hvar; [done|].
  rewrite <- Hvar in *.
  replace (Z.of_nat (length var) =? 0) with false
    by (symmetry; apply Z.eqb_neq; subst; simpl; lia).
  cbn [negb]. rewrite de_read_written. reflexivity.
Qed.

(** X20.  The tile minima (and maxima) written by [write_tile_mins]
    ([write_tile_maxs]) are restored by [load_tile_min_values]
    ([load_tile_max_values]): the fixed buffer and, when it is not
    empty, the var buffer; the bytes read are exactly the bytes
    written and the memory tracker is charged the two sizes.  When
    the fixed buffer written is empty nothing is restored, and a var
    buffer that was written after it is left unread. *)
Theorem min_max_written_then_loaded (idx : nat) (buffer var prev_buffer prev_var rest : list byte)
    (w f : FragmentMetadata) :
  let restored (bufs vars : FragmentMetadata -> list (list byte))
               (f1 : FragmentMetadata) (rest1 : list byte) :=
    match buffer with
    | [] => f1 = f /\ rest1 = var ++ rest
    | _ =>
        bufs f1 !! idx = Some buffer /\
        vars f1 !! idx = Some (match var with [] => prev_var | _ => var end) /\
        rest1 = rest /\
        available (memory_tracker_ f1)
        = (fun a => a - (Z.of_nat (length buffer) + Z.of_nat (length var)))
            <$> available (memory_tracker_ f)
    end in
  Z.of_nat (length buffer) + Z.of_nat (length var) < two64 ->
  (forall m, memory_tracker_ f = Some m ->
     Z.of_nat (length buffer) + Z.of_nat (length var) <= MemoryTracker.memory_available m) ->
  (tile_min_buffer_ w !! idx = Some buffer ->
   tile_min_var_buffer_ w !! idx = Some var ->
   tile_min_buffer_ f !! idx = Some prev_buffer ->
   tile_min_var_buffer_ f !! idx = Some prev_var ->
   exists tile f1 rest1,
     write_tile_mins idx w = Ok tile /\
     load_tile_min_values idx (tile ++ rest) f = Ok (f1, rest1) /\
     restored tile_min_buffer_ tile_min_var_buffer_ f1 rest1) /\
  (tile_max_buffer_ w !! idx = Some buffer ->
   tile_max_var_buffer_ w !! idx = Some var ->
   tile_max_buffer_ f !! idx = Some prev_buffer ->
   tile_max_var_buffer_ f !! idx = Some prev_var ->
   exists tile f1 rest1,
     write_tile_maxs idx w = Ok tile /\
     load_tile_max_values idx (tile ++ rest) f = Ok (f1, rest1) /\
     restored tile_max_buffer_ tile_max_var_buffer_ f1 rest1).
Proof.
  intros restored Hlen Hbudget. subst restored. cbv beta. split.
  - intros Hwb Hwv Hfb Hfv.
    unfold write_tile_mins. rewrite (at_index_Some _ _ _ Hwb), (at_index_Some _ _ _ Hwv).
    cbn [obind]. eexists. unfold load_tile_min_values.
    pose proof (load_min_max_section_written
                  "Cannot load min values; Insufficient memory budget"
                  (memory_tracker_ f) buffer var rest Hlen Hbudget) as Hload.
    pose proof (lookup_lt_Some _ _ _ Hfb). pose proof (lookup_lt_Some _ _ _ Hfv).
    destruct buffer as [|b buffer'].
    + rewrite Hload. cbn [obind store_loaded_buffers].
      do 2 eexists. split; [reflexivity|]. split; [reflexivity|]. split; [|done].
      by destruct f.
    + destruct Hload as (mt' & -> & Hav). cbn [obind store_loaded_buffers].
      rewrite (at_index_Some _ _ _ Hfb). cbn [obind].
      destruct var as [|c var'].
      * cbn [obind]. do 2 eexists. split; [reflexivity|]. split; [reflexivity|].
        fm_simpl. rewrite list_lookup_insert_eq by done. done.
      * rewrite (at_index_Some _ _ _ Hfv). cbn [obind].
        do 2 eexists. split; [reflexivity|]. split; [reflexivity|].
        fm_simpl. rewrite !list_lookup_insert_eq by done. done.
  - intros Hwb Hwv Hfb Hfv.
    unfold write_tile_maxs. rewrite (at_index_Some _ _ _ Hwb), (at_index_Some _ _ _ Hwv).
    cbn [obind]. eexists. unfold load_tile_max_values.
    pose proof (load_min_max_section_written
                  "Cannot load max values; Insufficient memory budget"
                  (memory_tracker_ f) buffer var rest Hlen Hbudget) as Hload.
    pose proof (lookup_lt_Some _ _ _ Hfb). pose proof (lookup_lt_Some _ _ _ Hfv).
    destruct buffer as [|b buffer'].
    + rewrite Hload. cbn [obind store_loaded_buffers].
      do 2 eexists. split; [reflexivity|]. split; [reflexivity|]. split; [|done].
      by destruct f.
    + destruct Hload as (mt' & -> & Hav). cbn [obind store_loaded_buffers].
      rewrite (at_index_Some _ _ _ Hfb). cbn [obind].
      destruct var as [|c var'].
      * cbn [obind]. do 2 eexists. split; [reflexivity|]. split; [reflexivity|].
        fm_simpl. rewrite list_lookup_insert_eq by done. done.
      * rewrite (at_index_Some _ _ _ Hfv). cbn [obind].
        do 2 eexists. split; [reflexivity|]. split; [reflexivity|].
        fm_simpl. rewrite !list_lookup_insert_eq by done. done.
Qed.

Lemma min_max_written_then_loaded_witness :
  let w := example_tile_metadata_on (example_fragment 16 2) 2
             (u64_buffer [0; 4]) (u64_buffer [0; 4])
             (bytes_of "kiwifig") (bytes_of "kiwifig") [] [0; 0] in
  let f := example_fragment 16 2 in
  exists tile f1 rest1,
    write_tile_mins 2 w = Ok tile /\
    load_tile_min_values 2 (tile ++ []) f = Ok (f1, rest1) /\
    tile_min_buffer_ f1 !! 2%nat = Some (u64_buffer [0; 4]) /\
    tile_min_var_buffer_ f1 !! 2%nat = Some (bytes_of "kiwifig") /\
    rest1 = [].
Proof.
  intros w f.
  destruct (min_max_written_then_loaded 2 (u64_buffer [0; 4]) (bytes_of "kiwifig")
              [] [] [] w f) as [Hmin _];
    [ vm_compute; reflexivity
    | intros m [= <-]; vm_compute; congruence
    | ].
  destruct Hmin as (tile & f1 & rest1 & Hw & Hl & Hb & Hv & Hr & _);
    [vm_compute; reflexivity .. |].
  exists tile, f1, rest1. repeat split; assumption.
Defined.

(** ** FragmentMetadata: the size of the footer *)

Lemma write_u64_vector_length (v : list Z) (num : Z) :
  0 <= num <= Z.of_nat (length v) -> (0 < length v)%nat ->
  exists bytes, write_u64_vector v num = Ok bytes /\ Z.of_nat (length bytes) = num * 8.
Proof.
  intros Hnum Hpos. unfold write_u64_vector.
  replace (0 <? Z.of_nat (length v)) with true by (symmetry; apply Z.ltb_lt; lia).
  replace (0 <=? num) with true by (symmetry; apply Z.leb_le; lia).
  replace (num <=? Z.of_nat (length v)) with true by (symmetry; apply Z.leb_le; lia).
  cbn [andb]. eexists. split; [reflexivity|].
  rewrite length_u64_buffer, length_take. lia.
Qed.

(** The ranges written for a non-empty domain take the bytes
    [footer_size_v5_v6] and [footer_size_v7_v9] count for them. *)
Lemma write_ranges_length (start_size : Range -> Z) (dims : list DimensionInfo) :
  forall ned : NDRange,
  (length dims <= length ned)%nat ->
  exists bytes,
    write_ranges start_size dims ned = Ok bytes /\
    domain_size_of dims ned = Ok (Z.of_nat (length bytes)).
Proof.
  induction dims as [|dim dims IH]; intros ned Hlen.
  - exists []. done.
  - destruct ned as [|r ned]; [simpl in Hlen; lia|].
    destruct (IH ned) as (rest & Hw & Hs); [simpl in Hlen; lia|].
    cbn [write_ranges domain_size_of tl]. unfold at_index. cbn [lookup list_lookup].
    cbn [obind]. rewrite Hw, Hs. cbn [obind].
    destruct (dim_var_size dim); cbn [negb]; eexists; (split; [reflexivity|]); f_equal;
      rewrite ?length_app, ?length_u64_bytes; lia.
Qed.

(** The domain of dimensions of one coordinate size. *)
Lemma same_coord_sizes (dims : list DimensionInfo) (c : Z) :
  Forall (fun d => dim_coord_size d = c) dims ->
  sum_list_Z (map (fun d => 2 * dim_coord_size d) dims) = 2 * Z.of_nat (length dims) * c.
Proof.
  induction 1 as [|d dims Hd _ IH]; [done|].
  cbn [map sum_list_Z length]. rewrite IH, Hd. lia.
Qed.

(** The footer written for the format versions 5 to 9 has the size
    that [footer_size_v5_v6] (versions 5 and 6) and [footer_size_v7_v9]
    (versions 7 to 9) compute on the state of the writer. *)
Lemma write_footer_size (name : string) (same_type : bool)
    (start_size : Range -> Z) (f : FragmentMetadata) :
  let s := array_schema_ f in
  let num := num_dims_and_attrs f in
  let gt := gt_offsets_ f in
  5 <= version_ f <= 9 ->
  0 < num ->
  num <= Z.of_nat (length (file_sizes_ f)) ->
  num <= Z.of_nat (length (file_var_sizes_ f)) ->
  num <= Z.of_nat (length (file_validity_sizes_ f)) ->
  num <= Z.of_nat (length (GenericTileOffsets.tile_offsets_ gt)) ->
  num <= Z.of_nat (length (GenericTileOffsets.tile_var_offsets_ gt)) ->
  num <= Z.of_nat (length (GenericTileOffsets.tile_var_sizes_ gt)) ->
  num <= Z.of_nat (length (GenericTileOffsets.tile_validity_offsets_ gt)) ->
  match non_empty_domain_ f with
  | [] =>
      all_dims_fixed s = true /\ same_type = true /\
      exists dim0, schema_dimensions s !! 0%nat = Some dim0 /\
        0 < dim_coord_size dim0 /\
        2 * dim_num s * dim_coord_size dim0 < two64 /\
        Forall (fun d => dim_coord_size d = dim_coord_size dim0) (schema_dimensions s)
  | ned => (length (schema_dimensions s) <= length ned)%nat
  end ->
  exists footer,
    write_footer name same_type start_size f = Ok footer /\
    (Z.of_nat (length footer) < two64 ->
     (if version_ f <? 7 then footer_size_v5_v6 f else footer_size_v7_v9 f)
     = Ok (Z.of_nat (length footer))).
Proof.
  intros s num gt Hver Hnum H1 H2 H3 H4 H5 H6 H7 Hned.
  (* the non-empty domain *)
  assert (Hdom : exists dom,
            write_non_empty_domain same_type start_size f = Ok dom /\
            footer_domain_size f = Ok (Z.of_nat (length dom) - 1)).
  { unfold write_non_empty_domain, footer_domain_size. fold s.
    destruct (non_empty_domain_ f) as [|r ned] eqn:Hn.
    - destruct Hned as (-> & -> & dim0 & Hd0 & Hc0 & Hfit & Hall).
      cbn [assert_then]. rewrite (at_index_Some _ _ _ Hd0). cbn [obind].
      rewrite wrap64_small by (unfold is_u64, dim_num in *; lia).
      assert (0 < dim_num s).
      { unfold dim_num. apply lookup_lt_Some in Hd0. lia. }
      replace (0 <? 2 * dim_num s * dim_coord_size dim0) with true
        by (symmetry; apply Z.ltb_lt; nia).
      eexists. split; [reflexivity|]. f_equal.
      rewrite length_app, length_replicate. cbn [write_bool length].
      rewrite (same_coord_sizes _ _ Hall). unfold dim_num. lia.
    - destruct (write_ranges_length start_size (schema_dimensions s) (r :: ned) Hned)
        as (bytes & -> & ->).
      cbn [obind]. eexists. split; [reflexivity|]. f_equal.
      rewrite length_app. cbn [write_bool length]. lia. }
  destruct Hdom as (dom & Hw & Hs).
  (* the vectors *)
  destruct (write_u64_vector_length (file_sizes_ f) num) as (b1 & W1 & L1); [lia..|].
  destruct (write_u64_vector_length (file_var_sizes_ f) num) as (b2 & W2 & L2); [lia..|].
  destruct (write_u64_vector_length (file_validity_sizes_ f) num) as (b3 & W3 & L3); [lia..|].
  destruct (write_u64_vector_length (GenericTileOffsets.tile_offsets_ gt) num)
    as (g1 & G1 & M1); [lia..|].
  destruct (write_u64_vector_length (GenericTileOffsets.tile_var_offsets_ gt) num)
    as (g2 & G2 & M2); [lia..|].
  destruct (write_u64_vector_length (GenericTileOffsets.tile_var_sizes_ gt) num)
    as (g3 & G3 & M3); [lia..|].
  destruct (write_u64_vector_length (GenericTileOffsets.tile_validity_offsets_ gt) num)
    as (g4 & G4 & M4); [lia..|].
  unfold write_footer, write_file_sizes, write_file_var_sizes, write_file_validity_sizes,
    write_generic_tile_offsets.
  fold num gt.
  replace (10 <=? version_ f) with false by (symmetry; apply Z.leb_gt; lia).
  replace (14 <=? version_ f) with false by (symmetry; apply Z.leb_gt; lia).
  replace (15 <=? version_ f) with false by (symmetry; apply Z.leb_gt; lia).
  replace (11 <=? version_ f) with false by (symmetry; apply Z.leb_gt; lia).
  replace (16 <=? version_ f) with false by (symmetry; apply Z.leb_gt; lia).
  cbn [obind]. rewrite Hw, W1, W2, G1, G2, G3. cbn [obind].
  unfold footer_size_v5_v6, footer_size_v7_v9. fold num. rewrite Hs. cbn [obind].
  assert (Lv : length (write_version f) = 4%nat) by apply length_le_split.
  destruct (Z.ltb_spec (version_ f) 7) as [Hlt|Hge].
  - replace (version_ f <=? 6) with true by (symmetry; apply Z.leb_le; lia).
    replace (7 <=? version_ f) with false by (symmetry; apply Z.leb_gt; lia).
    cbn [obind]. eexists. split; [reflexivity|].
    unfold write_sparse_tile_num, write_last_tile_cell_num.
    rewrite !length_app, Lv, !length_u64_bytes. cbn [length write_dense write_bool].
    intros Hfit. f_equal. rewrite wrap64_small; [lia|]. unfold is_u64. lia.
  - replace (version_ f <=? 6) with false by (symmetry; apply Z.leb_gt; lia).
    replace (7 <=? version_ f) with true by (symmetry; apply Z.leb_le; lia).
    rewrite W3, G4. cbn [obind]. eexists. split; [reflexivity|].
    unfold write_sparse_tile_num, write_last_tile_cell_num.
    rewrite !length_app, Lv, !length_u64_bytes. cbn [length write_dense write_bool].
    intros Hfit. f_equal. rewrite wrap64_small; [lia|]. unfold is_u64. lia.
Qed.

(** The ranges of fixed-sized dimensions, each with the two
    coordinates of its dimension, take the bytes that are counted for
    an empty non-empty domain. *)
Lemma domain_size_of_fixed (dims : list DimensionInfo) :
  forall ned : NDRange,
  forallb (fun d => negb (dim_var_size d)) dims = true ->
  Forall2 (fun d r => Z.of_nat (length r) = 2 * dim_coord_size d) dims ned ->
  domain_size_of dims ned = Ok (sum_list_Z (map (fun d => 2 * dim_coord_size d) dims)).
Proof.
  induction dims as [|d dims IH]; intros ned Hfix Hall; [done|].
  inversion Hall as [|d' r dims' ned' Hr Hrest]; subst.
  cbn [forallb] in Hfix. apply andb_true_iff in Hfix as [Hd Hfix].
  apply negb_true_iff in Hd.
  cbn [domain_size_of tl map sum_list_Z]. unfold at_index. cbn [lookup list_lookup obind].
  rewrite (IH _ Hfix Hrest), Hd. cbn [obind]. f_equal. lia.
Qed.

(** X21.  The footer of a fragment of format version 5 to 9 whose
    dimensions are all fixed-sized is found again by a reader.  The
    writer [w] appends the footer to the metadata file, with no size
    after it; its non-empty domain is either not set or has, for each
    dimension, a range of two coordinates.  The reader [r] knows the
    schema, the version from the name of the fragment and the size of
    the file, and has no non-empty domain yet: the size
    [get_footer_offset_and_size] computes with [footer_size_v5_v6]
    (versions 5 and 6) or [footer_size_v7_v9] (versions 7 to 9) is the
    size of the footer written, the offset is where it was written,
    and reading that many bytes there gives the footer. *)
Theorem written_footer_has_footer_size (X : Collaborators) (name : string)
    (same_type : bool) (start_size : Range -> Z) (w r : FragmentMetadata)
    (file : list byte) :
  let s := array_schema_ w in
  let num := num_dims_and_attrs w in
  let gt := gt_offsets_ w in
  5 <= version_ w <= 9 ->
  all_dims_fixed s = true ->
  has_timestamps_ w = false -> has_delete_meta_ w = false ->
  0 < num ->
  num <= Z.of_nat (length (file_sizes_ w)) ->
  num <= Z.of_nat (length (file_var_sizes_ w)) ->
  num <= Z.of_nat (length (file_validity_sizes_ w)) ->
  num <= Z.of_nat (length (GenericTileOffsets.tile_offsets_ gt)) ->
  num <= Z.of_nat (length (GenericTileOffsets.tile_var_offsets_ gt)) ->
  num <= Z.of_nat (length (GenericTileOffsets.tile_var_sizes_ gt)) ->
  num <= Z.of_nat (length (GenericTileOffsets.tile_validity_offsets_ gt)) ->
  match non_empty_domain_ w with
  | [] =>
      same_type = true /\
      exists dim0, schema_dimensions s !! 0%nat = Some dim0 /\
        0 < dim_coord_size dim0 /\
        2 * dim_num s * dim_coord_size dim0 < two64 /\
        Forall (fun d => dim_coord_size d = dim_coord_size dim0) (schema_dimensions s)
  | ned =>
      Forall2 (fun d range => Z.of_nat (length range) = 2 * dim_coord_size d)
        (schema_dimensions s) ned
  end ->
  array_schema_ r = s ->
  non_empty_domain_ r = [] ->
  has_timestamps_ r = false -> has_delete_meta_ r = false ->
  get_fragment_version X (fragment_uri_ r) = version_ w ->
  exists footer,
    write_footer name same_type start_size w = Ok footer /\
    let file' := write_footer_to_file footer w file in
    (meta_file_size_ r = Z.of_nat (length file') ->
     Z.of_nat (length file') < two64 ->
     file' = file ++ footer /\
     get_footer_offset_and_size X r file'
     = Ok (Z.of_nat (length file), Z.of_nat (length footer)) /\
     vfs_read file' (Z.of_nat (length file)) (Z.of_nat (length footer)) = Ok footer).
Proof.
  intros s num gt Hver Hfix Hts Hdm Hnum H1 H2 H3 H4 H5 H6 H7 Hned Hs Hnr Htr Hdr Hname.
  destruct (write_footer_size name same_type start_size w) as (footer & Hw & Hsize);
    try done.
  { destruct (non_empty_domain_ w) as [|range ned]; [by destruct Hned|].
    apply Forall2_length in Hned. unfold s in *. by rewrite Hned. }
  exists footer. split; [exact Hw|]. intros file' Hfile Hfit.
  assert (Hfile' : file' = file ++ footer).
  { subst file'. unfold write_footer_to_file, vfs_write. fold s. rewrite Hfix.
    replace (10 <=? version_ w) with false by (symmetry; apply Z.leb_gt; lia).
    reflexivity. }
  split; [exact Hfile'|].
  rewrite Hfile' in *. rewrite length_app in Hfile, Hfit.
  specialize (Hsize ltac:(lia)).
  (* the reader computes the size the writer does *)
  assert (Hdom : footer_domain_size r = footer_domain_size w).
  { unfold footer_domain_size. rewrite Hnr, Hs. unfold s in *. rewrite Hfix.
    cbn [assert_then].
    destruct (non_empty_domain_ w) as [|range ned]; [done|].
    symmetry. by apply domain_size_of_fixed. }
  assert (Hn : num_dims_and_attrs r = num).
  { unfold num, num_dims_and_attrs. by rewrite Hs, Htr, Hdr, Hts, Hdm. }
  assert (Hreader :
    (if version_ w <? 7 then footer_size_v5_v6 r else footer_size_v7_v9 r)
    = Ok (Z.of_nat (length footer))).
  { rewrite <- Hsize. unfold footer_size_v5_v6, footer_size_v7_v9.
    by rewrite Hdom, Hn. }
  split.
  - unfold get_footer_offset_and_size. rewrite Hname, Hs. fold s. rewrite Hfix.
    cbn [andb].
    replace (version_ w <? 5) with false by (symmetry; apply Z.ltb_ge; lia).
    replace (version_ w <? 10) with true by (symmetry; apply Z.ltb_lt; lia).
    destruct (version_ w <? 7); rewrite Hreader; cbn [obind]; rewrite Hfile;
      (rewrite wrap64_small by (unfold is_u64; lia)); do 2 f_equal; lia.
  - unfold vfs_read. rewrite length_app.
    replace (0 <=? Z.of_nat (length file)) with true by (symmetry; apply Z.leb_le; lia).
    replace (_ <=? _) with true by (symmetry; apply Z.leb_le; lia).
    cbn [andb]. unfold slice. rewrite !Nat2Z.id, drop_app_length.
    by rewrite firstn_all.
Qed.

(** The version 7 fragment of the example array, written after a
    metadata file of three bytes, and its reader. *)
Lemma written_footer_has_footer_size_witness :
  let X := example_v7_collaborators in
  let w := example_v7_writer in
  let r := example_v7_reader in
  let file := bytes_of "abc" in
  exists footer,
    write_footer "schema" true (fun _ => 0) w = Ok footer /\
    length footer = 430%nat /\
    get_footer_offset_and_size X r (file ++ footer) = Ok (3, 430) /\
    vfs_read (file ++ footer) 3 430 = Ok footer.
Proof.
  intros X w r file.
  assert (Hfooter : exists footer,
            write_footer "schema" true (fun _ => 0) w = Ok footer /\
            length footer = 430%nat).
  { eexists. split; [vm_compute; reflexivity|reflexivity]. }
  destruct Hfooter as (footer & Hw & Hlen).
  exists footer. split; [exact Hw|]. split; [exact Hlen|].
  destruct (written_footer_has_footer_size X "schema" true (fun _ => 0) w r file)
    as (footer' & Hw' & Hread);
    [ vm_compute; intuition congruence
    | vm_compute; reflexivity
    | reflexivity
    | reflexivity
    | vm_compute; reflexivity
    | vm_compute; congruence ..
    | repeat constructor
    | reflexivity
    | reflexivity
    | reflexivity
    | reflexivity
    | reflexivity
    | ].
  rewrite Hw in Hw'. injection Hw' as <-.
  assert (Hfile : write_footer_to_file footer w file = file ++ footer) by reflexivity.
  cbv zeta in Hread. rewrite Hfile, length_app, Hlen in Hread.
  destruct Hread as (_ & Hget & Hvfs); [reflexivity|vm_compute; reflexivity|].
  split; [exact Hget|exact Hvfs].
Defined.

(** ** FragmentMetadata: the rollup of fixed-size minima and maxima *)

Lemma ctype_lt_value (T : CType) (a b : list byte) :
  is_float_ctype T = false ->
  ctype_lt T a b = (ctype_value T a <? ctype_value T b).
Proof. by destruct T. Qed.

Lemma is_null_tile_inv (X : Collaborators) (f : FragmentMetadata) (nullable : bool)
    (ncs : list Z) (t : nat) (b : bool) :
  is_null_tile X f nullable ncs (Z.of_nat t) = Ok b ->
  b = entirely_null X f nullable ncs t.
Proof.
  unfold is_null_tile, entirely_null. destruct nullable; cbn [andb].
  - rewrite Nat2Z.id. unfold at_index. destruct (ncs !! t); cbn; congruence.
  - congruence.
Qed.

Lemma fragment_min_max_loop_inv (X : Collaborators) (f : FragmentMetadata) (T : CType)
    (nullable : bool) (minb maxb : list byte) (ncs : list Z) :
  is_float_ctype T = false ->
  forall (n t : nat) (mn0 mx0 mn mx : list byte),
  fragment_min_max_loop X f T nullable minb maxb ncs n (Z.of_nat t) mn0 mx0 = Ok (mn, mx) ->
  (forall k, (t <= k < t + n)%nat -> entirely_null X f nullable ncs k = false ->
     ctype_value T mn <= ctype_value T (value_at T minb k) /\
     ctype_value T (value_at T maxb k) <= ctype_value T mx) /\
  ctype_value T mn <= ctype_value T mn0 /\
  ctype_value T mx0 <= ctype_value T mx /\
  (mn = mn0 \/ exists k, (t <= k < t + n)%nat /\
                entirely_null X f nullable ncs k = false /\ mn = value_at T minb k) /\
  (mx = mx0 \/ exists k, (t <= k < t + n)%nat /\
                entirely_null X f nullable ncs k = false /\ mx = value_at T maxb k).
Proof.
  intros HT. induction n as [|n IH]; intros t mn0 mx0 mn mx Hrun.
  - cbn in Hrun. injection Hrun as <- <-.
    split; [intros k Hk; lia|]. split; [lia|]. split; [lia|]. split; by left.
  - cbn [fragment_min_max_loop] in Hrun.
    destruct (is_null_tile X f nullable ncs (Z.of_nat t)) as [b| | |] eqn:Hb;
      cbn [obind] in Hrun; try discriminate.
    apply is_null_tile_inv in Hb. subst b.
    replace (Z.of_nat t + 1) with (Z.of_nat (S t)) in Hrun by lia.
    destruct (entirely_null X f nullable ncs t) eqn:Hnull; cbn [negb] in Hrun.
    + destruct (IH _ _ _ _ _ Hrun) as (Hall & Hmn & Hmx & Hin1 & Hin2).
      split.
      { intros k Hk Hnk. destruct (decide (k = t)) as [->|]; [congruence|].
        apply Hall; [lia|done]. }
      split; [done|]. split; [done|].
      split.
      * destruct Hin1 as [|(k & Hk & Hnk & ->)]; [by left|right].
        exists k. split; [lia|done].
      * destruct Hin2 as [|(k & Hk & Hnk & ->)]; [by left|right].
        exists k. split; [lia|done].
    + destruct (Z.of_nat (sizeof T) * Z.of_nat (S t) <=? Z.of_nat (length minb));
        cbn [obind] in Hrun; try discriminate.
      destruct (Z.of_nat (sizeof T) * Z.of_nat (S t) <=? Z.of_nat (length maxb));
        cbn [obind] in Hrun; try discriminate.
      rewrite Nat2Z.id in Hrun. fold (value_at T minb t) (value_at T maxb t) in Hrun.
      rewrite !(ctype_lt_value T) in Hrun by done.
      destruct (IH _ _ _ _ _ Hrun) as (Hall & Hmn & Hmx & Hin1 & Hin2).
      assert (Hmn' : ctype_value T mn <= ctype_value T mn0 /\
                     ctype_value T mn <= ctype_value T (value_at T minb t)).
      { destruct (ctype_value T mn0 <? ctype_value T (value_at T minb t)) eqn:E;
          [apply Z.ltb_lt in E|apply Z.ltb_ge in E]; lia. }
      assert (Hmx' : ctype_value T mx0 <= ctype_value T mx /\
                     ctype_value T (value_at T maxb t) <= ctype_value T mx).
      { destruct (ctype_value T (value_at T maxb t) <? ctype_value T mx0) eqn:E;
          [apply Z.ltb_lt in E|apply Z.ltb_ge in E]; lia. }
      split.
      { intros k Hk Hnk. destruct (decide (k = t)) as [->|]; [lia|].
        apply Hall; [lia|done]. }
      split; [lia|]. split; [lia|].
      split.
      * destruct Hin1 as [->|(k & Hk & Hnk & ->)].
        -- destruct (ctype_value T mn0 <? ctype_value T (value_at T minb t));
             [by left|right]. exists t. split; [lia|done].
        -- right. exists k. split; [lia|done].
      * destruct Hin2 as [->|(k & Hk & Hnk & ->)].
        -- destruct (ctype_value T (value_at T maxb t) <? ctype_value T mx0);
             [by left|right]. exists t. split; [lia|done].
        -- right. exists k. split; [lia|done].
Qed.

Lemma compute_fragment_sum_frame (X : Collaborators) (S : SumType) (idx : nat)
    (nullable : bool) (f f' : FragmentMetadata) :
  compute_fragment_sum X S idx nullable f = Ok f' ->
  fragment_mins_ f' = fragment_mins_ f /\ fragment_maxs_ f' = fragment_maxs_ f.
Proof.
  unfold compute_fragment_sum. intros H.
  destruct (at_index (tile_sums_ f) idx); cbn [obind] in H; try discriminate.
  destruct (at_index (tile_null_counts_ f) idx); cbn [obind] in H; try discriminate.
  match type of H with obind ?m _ = _ => destruct m end; cbn [obind] in H; try discriminate.
  destruct (at_index (fragment_sums_ f) idx); cbn [obind] in H; try discriminate.
  injection H as <-. done.
Qed.

(** X22.  for an integer type, the fragment minimum and maximum that
    the primary template of [compute_fragment_min_max_sum] stores
    bound the minimum and the maximum of every tile that is not
    entirely null, and each of them is the value of such a tile or the
    value the search starts from. *)
Theorem fragment_min_max_are_extrema (X : Collaborators) (T : CType) (name : string)
    (f f' : FragmentMetadata) :
  let idx := idx_of name f in
  let s := array_schema_ f in
  let nullable := schema_is_nullable s name in
  is_float_ctype T = false ->
  negb (schema_dense s) || negb (schema_is_dim s name) = true ->
  has_min_max_metadata X (schema_type s name) (schema_is_dim s name) false
    (schema_cell_val_num s name) = true ->
  compute_fragment_min_max_sum X T name f = Ok f' ->
  exists (minb maxb : list byte) (ncs : list Z) (mn mx : list byte),
    tile_min_buffer_ f !! idx = Some minb /\
    tile_max_buffer_ f !! idx = Some maxb /\
    tile_null_counts_ f !! idx = Some ncs /\
    fragment_mins_ f' !! idx = Some mn /\
    fragment_maxs_ f' !! idx = Some mx /\
    (forall k, (k < Z.to_nat (tile_num X f))%nat ->
       entirely_null X f nullable ncs k = false ->
       ctype_value T mn <= ctype_value T (value_at T minb k) /\
       ctype_value T (value_at T maxb k) <= ctype_value T mx) /\
    (mn = type_data_min X T \/
     exists k, (k < Z.to_nat (tile_num X f))%nat /\
       entirely_null X f nullable ncs k = false /\ mn = value_at T minb k) /\
    (mx = type_data_max X T \/
     exists k, (k < Z.to_nat (tile_num X f))%nat /\
       entirely_null X f nullable ncs k = false /\ mx = value_at T maxb k).
Proof.
  intros idx s nullable HT Hdense Hmm Hrun.
  unfold compute_fragment_min_max_sum in Hrun.
  fold idx s nullable in Hrun. cbv zeta in Hrun. rewrite Hdense, Hmm in Hrun.
  unfold at_index in Hrun.
  destruct (tile_min_buffer_ f !! idx) as [minb|] eqn:Hminb; cbn [obind] in Hrun;
    [|discriminate].
  destruct (tile_max_buffer_ f !! idx) as [maxb|] eqn:Hmaxb; cbn [obind] in Hrun;
    [|discriminate].
  destruct (tile_null_counts_ f !! idx) as [ncs|] eqn:Hncs; cbn [obind] in Hrun;
    [|discriminate].
  destruct (fragment_min_max_loop X f T nullable minb maxb ncs
              (Z.to_nat (tile_num X f)) 0 (type_data_min X T) (type_data_max X T))
    as [[mn mx]| | |] eqn:Hloop; cbn [obind] in Hrun; try discriminate.
  destruct (fragment_mins_ f !! idx) as [slot1|] eqn:Hs1; cbn [obind] in Hrun;
    [|discriminate].
  destruct (fragment_maxs_ f !! idx) as [slot2|] eqn:Hs2; cbn [obind] in Hrun;
    [|discriminate].
  set (f1 := set_fragment_maxs_ _ _) in Hrun.
  assert (Hf1 : fragment_mins_ f1 = <[idx := mn]> (fragment_mins_ f) /\
                fragment_maxs_ f1 = <[idx := mx]> (fragment_maxs_ f)) by done.
  assert (Hf' : fragment_mins_ f' = fragment_mins_ f1 /\
                fragment_maxs_ f' = fragment_maxs_ f1).
  { destruct (has_sum_metadata X _ false _).
    - by apply compute_fragment_sum_frame in Hrun.
    - by injection Hrun as <-. }
  destruct Hf1 as [E1 E2], Hf' as [E3 E4].
  change 0 with (Z.of_nat 0) in Hloop.
  destruct (fragment_min_max_loop_inv X f T nullable minb maxb ncs HT _ _ _ _ _ _ Hloop)
    as (Hall & _ & _ & Hin1 & Hin2).
  exists minb, maxb, ncs, mn, mx.
  split; [done|]. split; [done|]. split; [done|].
  split. { rewrite E3, E1. apply list_lookup_insert_eq. by eapply lookup_lt_Some. }
  split. { rewrite E4, E2. apply list_lookup_insert_eq. by eapply lookup_lt_Some. }
  split. { intros k Hk. apply Hall. lia. }
  split.
  - destruct Hin1 as [|(k & Hk & Hnk & ->)]; [by left|right]. exists k.
    split; [lia|done].
  - destruct Hin2 as [|(k & Hk & Hnk & ->)]; [by left|right]. exists k.
    split; [lia|done].
Qed.

Lemma fragment_min_max_are_extrema_witness :
  let f := example_with_tile_metadata 100 2 0
             (u64_buffer [wrap64 (-7); 3]) (u64_buffer [9; 8]) [] []
             (u64_buffer [0; 11]) [100; 0] in
  exists f' mn mx,
    compute_fragment_min_max_sum example_collaborators Int64 "a" f = Ok f' /\
    fragment_mins_ f' !! 0%nat = Some mn /\
    fragment_maxs_ f' !! 0%nat = Some mx /\
    ctype_value Int64 mn <= 3 /\ 8 <= ctype_value Int64 mx.
Proof.
  intros f.
  destruct (compute_fragment_min_max_sum example_collaborators Int64 "a" f)
    as [f'| | |] eqn:Hrun; [|vm_compute in Hrun; discriminate ..].
  destruct (fragment_min_max_are_extrema example_collaborators Int64 "a" f f')
    as (minb & maxb & ncs & mn & mx & Hminb & Hmaxb & Hncs & Hmn & Hmx & Hall & _);
    [ reflexivity | reflexivity | reflexivity | exact Hrun | ].
  exists f', mn, mx. split; [reflexivity|]. split; [exact Hmn|]. split; [exact Hmx|].
  vm_compute in Hminb, Hmaxb, Hncs.
  injection Hminb as <-. injection Hmaxb as <-. injection Hncs as <-.
  destruct (Hall 1%nat) as [H1 H2]; [vm_compute; lia | vm_compute; reflexivity |].
  split; [exact H1 | exact H2].
Defined.
(** ** FragmentMetadata: the offsets of the generic tiles, written and read back *)

Lemma map_read_u64_buffer (v : list Z) :
  Forall is_u64 v -> map (read_u64 (u64_buffer v)) (seq 0 (length v)) = v.
Proof.
  intros Hv. apply list_eq. intros t. rewrite list_lookup_fmap.
  destruct (v !! t) as [x|] eqn:Ht.
  - pose proof (lookup_lt_Some _ _ _ Ht) as Hlt.
    rewrite lookup_seq_lt by done. cbn [fmap option_fmap option_map Nat.add].
    rewrite (read_u64_buffer _ _ _ Ht). f_equal. apply wrap64_small.
    by eapply Forall_lookup_1 in Hv.
  - apply lookup_ge_None in Ht. rewrite lookup_seq_ge by lia. done.
Qed.

(** A vector of [num] values that was written is read back. *)
Lemma de_read_u64_vector_written (v : list Z) (num : Z) (rest : list byte) :
  0 < num -> num * 8 < two64 -> Z.of_nat (length v) = num -> Forall is_u64 v ->
  write_u64_vector v num = Ok (u64_buffer v) /\
  de_read_u64_vector num (u64_buffer v ++ rest) = Ok (v, rest).
Proof.
  intros Hpos Hsmall Hlen Hv. split.
  - unfold write_u64_vector.
    replace (0 <? Z.of_nat (length v)) with true by (symmetry; apply Z.ltb_lt; lia).
    replace (0 <=? num) with true by (symmetry; apply Z.leb_le; lia).
    replace (num <=? Z.of_nat (length v)) with true by (symmetry; apply Z.leb_le; lia).
    cbn [andb]. rewrite take_ge by lia. done.
  - unfold de_read_u64_vector.
    replace (num <=? 0) with false by (symmetry; apply Z.leb_gt; lia).
    rewrite wrap64_small by (unfold is_u64; lia).
    replace (num * 8) with (Z.of_nat (length (u64_buffer v)))
      by (rewrite length_u64_buffer; lia).
    rewrite de_read_written. cbn [obind].
    replace (Z.to_nat num) with (length v) by lia.
    by rewrite map_read_u64_buffer.
Qed.

(** X23.  the offsets of the generic tiles that
    [write_generic_tile_offsets] writes for a format version from 5 on
    are the ones [load_generic_tile_offsets] reads back for that
    version: the members the version does not store keep the value
    they have in the reader.  In version 11 the writer stores the
    offset of the fragment minimum, maximum, sum and null count and
    the loader does not read it: the member keeps the reader's value
    and its eight bytes are left in the deserializer. *)
Theorem generic_tile_offsets_written_then_loaded (w f : FragmentMetadata)
    (rest : list byte) :
  let num := num_dims_and_attrs w in
  let gt := gt_offsets_ w in
  let old := gt_offsets_ f in
  let v := version_ w in
  5 <= v ->
  version_ f = v ->
  num_dims_and_attrs f = num ->
  0 < num -> num * 8 < two64 ->
  gt_offsets_sized num gt ->
  exists bytes,
    write_generic_tile_offsets w = Ok bytes /\
    load_generic_tile_offsets f (bytes ++ rest)
    = Ok ({| GenericTileOffsets.rtree_ := GenericTileOffsets.rtree_ gt;
             GenericTileOffsets.tile_offsets_ := GenericTileOffsets.tile_offsets_ gt;
             GenericTileOffsets.tile_var_offsets_ := GenericTileOffsets.tile_var_offsets_ gt;
             GenericTileOffsets.tile_var_sizes_ := GenericTileOffsets.tile_var_sizes_ gt;
             GenericTileOffsets.tile_validity_offsets_ :=
               GenericTileOffsets.tile_validity_offsets_ (if 7 <=? v then gt else old);
             GenericTileOffsets.tile_min_offsets_ :=
               GenericTileOffsets.tile_min_offsets_ (if 11 <=? v then gt else old);
             GenericTileOffsets.tile_max_offsets_ :=
               GenericTileOffsets.tile_max_offsets_ (if 11 <=? v then gt else old);
             GenericTileOffsets.tile_sum_offsets_ :=
               GenericTileOffsets.tile_sum_offsets_ (if 11 <=? v then gt else old);
             GenericTileOffsets.tile_null_count_offsets_ :=
               GenericTileOffsets.tile_null_count_offsets_ (if 11 <=? v then gt else old);
             GenericTileOffsets.fragment_min_max_sum_null_count_offset_ :=
               GenericTileOffsets.fragment_min_max_sum_null_count_offset_
                 (if 12 <=? v then gt else old);
             GenericTileOffsets.processed_conditions_offsets_ :=
               GenericTileOffsets.processed_conditions_offsets_
                 (if 16 <=? v then gt else old) |},
          if v =? 11
          then u64_bytes (GenericTileOffsets.fragment_min_max_sum_null_count_offset_ gt)
               ++ rest
          else rest).
Proof.
  intros num gt old v Hv Hvf Hnum Hpos Hsmall
    (Hr & [L1 U1] & [L2 U2] & [L3 U3] & [L4 U4] & [L5 U5] & [L6 U6] & [L7 U7]
     & [L8 U8] & Hfo & Hpc).
  pose proof (fun rest => de_read_u64_vector_written _ num rest Hpos Hsmall L1 U1) as R1.
  pose proof (fun rest => de_read_u64_vector_written _ num rest Hpos Hsmall L2 U2) as R2.
  pose proof (fun rest => de_read_u64_vector_written _ num rest Hpos Hsmall L3 U3) as R3.
  pose proof (fun rest => de_read_u64_vector_written _ num rest Hpos Hsmall L4 U4) as R4.
  pose proof (fun rest => de_read_u64_vector_written _ num rest Hpos Hsmall L5 U5) as R5.
  pose proof (fun rest => de_read_u64_vector_written _ num rest Hpos Hsmall L6 U6) as R6.
  pose proof (fun rest => de_read_u64_vector_written _ num rest Hpos Hsmall L7 U7) as R7.
  pose proof (fun rest => de_read_u64_vector_written _ num rest Hpos Hsmall L8 U8) as R8.
  unfold write_generic_tile_offsets, load_generic_tile_offsets.
  unfold load_generic_tile_offsets_v3_v4, load_generic_tile_offsets_v5_v6,
    load_generic_tile_offsets_v7_v10, load_generic_tile_offsets_v11,
    load_generic_tile_offsets_v12_v15, load_generic_tile_offsets_v16_or_higher.
  rewrite Hvf, Hnum. fold num gt old v. cbv zeta.
  rewrite (proj1 (R1 [])), (proj1 (R2 [])), (proj1 (R3 [])). cbn [obind].
  assert (Hcases : 5 <= v < 7 \/ 7 <= v < 11 \/ v = 11 \/ 12 <= v < 16 \/ 16 <= v) by lia.
  replace (v =? 3) with false by (symmetry; apply Z.eqb_neq; lia).
  replace (v =? 4) with false by (symmetry; apply Z.eqb_neq; lia).
  replace (5 <=? v) with true by (symmetry; apply Z.leb_le; lia).
  cbn [orb andb].
  destruct Hcases as [H|[H|[H|[H|H]]]].
  - replace (v <? 7) with true by (symmetry; apply Z.ltb_lt; lia).
    replace (7 <=? v) with false by (symmetry; apply Z.leb_gt; lia).
    replace (11 <=? v) with false by (symmetry; apply Z.leb_gt; lia).
    replace (12 <=? v) with false by (symmetry; apply Z.leb_gt; lia).
    replace (16 <=? v) with false by (symmetry; apply Z.leb_gt; lia).
    replace (v =? 11) with false by (symmetry; apply Z.eqb_neq; lia).
    cbn [obind]. eexists. split; [reflexivity|].
    rewrite <- ?app_assoc, ?app_nil_l.
    rewrite de_read_u64_written by done. cbn [obind].
    rewrite (proj2 (R1 _)). cbn [obind]. rewrite (proj2 (R2 _)). cbn [obind].
    rewrite (proj2 (R3 _)). cbn [obind]. reflexivity.
  - replace (v <? 7) with false by (symmetry; apply Z.ltb_ge; lia).
    replace (7 <=? v) with true by (symmetry; apply Z.leb_le; lia).
    replace (v <? 11) with true by (symmetry; apply Z.ltb_lt; lia).
    replace (11 <=? v) with false by (symmetry; apply Z.leb_gt; lia).
    replace (12 <=? v) with false by (symmetry; apply Z.leb_gt; lia).
    replace (16 <=? v) with false by (symmetry; apply Z.leb_gt; lia).
    replace (v =? 11) with false by (symmetry; apply Z.eqb_neq; lia).
    cbn [andb]. rewrite (proj1 (R4 [])). cbn [obind].
    eexists. split; [reflexivity|].
    rewrite <- ?app_assoc, ?app_nil_l.
    rewrite de_read_u64_written by done. cbn [obind].
    rewrite (proj2 (R1 _)). cbn [obind]. rewrite (proj2 (R2 _)). cbn [obind].
    rewrite (proj2 (R3 _)). cbn [obind]. rewrite (proj2 (R4 _)). cbn [obind].
    reflexivity.
  - replace (v <? 7) with false by (symmetry; apply Z.ltb_ge; lia).
    replace (7 <=? v) with true by (symmetry; apply Z.leb_le; lia).
    replace (v <? 11) with false by (symmetry; apply Z.ltb_ge; lia).
    replace (11 <=? v) with true by (symmetry; apply Z.leb_le; lia).
    replace (12 <=? v) with false by (symmetry; apply Z.leb_gt; lia).
    replace (16 <=? v) with false by (symmetry; apply Z.leb_gt; lia).
    replace (v =? 11) with true by (symmetry; apply Z.eqb_eq; lia).
    cbn [andb].
    rewrite (proj1 (R4 [])), (proj1 (R5 [])), (proj1 (R6 [])), (proj1 (R7 [])),
      (proj1 (R8 [])). cbn [obind].
    eexists. split; [reflexivity|].
    rewrite <- ?app_assoc, ?app_nil_l.
    rewrite de_read_u64_written by done. cbn [obind].
    rewrite (proj2 (R1 _)). cbn [obind]. rewrite (proj2 (R2 _)). cbn [obind].
    rewrite (proj2 (R3 _)). cbn [obind]. rewrite (proj2 (R4 _)). cbn [obind].
    rewrite (proj2 (R5 _)). cbn [obind]. rewrite (proj2 (R6 _)). cbn [obind].
    rewrite (proj2 (R7 _)). cbn [obind]. rewrite (proj2 (R8 _)). cbn [obind].
    reflexivity.
  - replace (v <? 7) with false by (symmetry; apply Z.ltb_ge; lia).
    replace (7 <=? v) with true by (symmetry; apply Z.leb_le; lia).
    replace (v <? 11) with false by (symmetry; apply Z.ltb_ge; lia).
    replace (11 <=? v) with true by (symmetry; apply Z.leb_le; lia).
    replace (12 <=? v) with true by (symmetry; apply Z.leb_le; lia).
    replace (v <? 16) with true by (symmetry; apply Z.ltb_lt; lia).
    replace (16 <=? v) with false by (symmetry; apply Z.leb_gt; lia).
    replace (v =? 11) with false by (symmetry; apply Z.eqb_neq; lia).
    cbn [andb].
    rewrite (proj1 (R4 [])), (proj1 (R5 [])), (proj1 (R6 [])), (proj1 (R7 [])),
      (proj1 (R8 [])). cbn [obind].
    eexists. split; [reflexivity|].
    rewrite <- ?app_assoc, ?app_nil_l.
    rewrite de_read_u64_written by done. cbn [obind].
    rewrite (proj2 (R1 _)). cbn [obind]. rewrite (proj2 (R2 _)). cbn [obind].
    rewrite (proj2 (R3 _)). cbn [obind]. rewrite (proj2 (R4 _)). cbn [obind].
    rewrite (proj2 (R5 _)). cbn [obind]. rewrite (proj2 (R6 _)). cbn [obind].
    rewrite (proj2 (R7 _)). cbn [obind]. rewrite (proj2 (R8 _)). cbn [obind].
    rewrite de_read_u64_written by done. cbn [obind]. reflexivity.
  - replace (v <? 7) with false by (symmetry; apply Z.ltb_ge; lia).
    replace (7 <=? v) with true by (symmetry; apply Z.leb_le; lia).
    replace (v <? 11) with false by (symmetry; apply Z.ltb_ge; lia).
    replace (11 <=? v) with true by (symmetry; apply Z.leb_le; lia).
    replace (12 <=? v) with true by (symmetry; apply Z.leb_le; lia).
    replace (v <? 16) with false by (symmetry; apply Z.ltb_ge; lia).
    replace (16 <=? v) with true by (symmetry; apply Z.leb_le; lia).
    replace (v =? 11) with false by (symmetry; apply Z.eqb_neq; lia).
    cbn [andb].
    rewrite (proj1 (R4 [])), (proj1 (R5 [])), (proj1 (R6 [])), (proj1 (R7 [])),
      (proj1 (R8 [])). cbn [obind].
    eexists. split; [reflexivity|].
    rewrite <- ?app_assoc, ?app_nil_l.
    rewrite de_read_u64_written by done. cbn [obind].
    rewrite (proj2 (R1 _)). cbn [obind]. rewrite (proj2 (R2 _)). cbn [obind].
    rewrite (proj2 (R3 _)). cbn [obind]. rewrite (proj2 (R4 _)). cbn [obind].
    rewrite (proj2 (R5 _)). cbn [obind]. rewrite (proj2 (R6 _)). cbn [obind].
    rewrite (proj2 (R7 _)). cbn [obind]. rewrite (proj2 (R8 _)). cbn [obind].
    rewrite de_read_u64_written by done. cbn [obind].
    rewrite de_read_u64_written by done. cbn [obind]. reflexivity.
Qed.

Lemma generic_tile_offsets_written_then_loaded_witness :
  let gt := {| GenericTileOffsets.rtree_ := 8;
               GenericTileOffsets.tile_offsets_ := [100; 101; 102; 103; 104; 105; 106];
               GenericTileOffsets.tile_var_offsets_ := [200; 201; 202; 203; 204; 205; 206];
               GenericTileOffsets.tile_var_sizes_ := [300; 301; 302; 303; 304; 305; 306];
               GenericTileOffsets.tile_validity_offsets_ :=
                 [400; 401; 402; 403; 404; 405; 406];
               GenericTileOffsets.tile_min_offsets_ := [500; 501; 502; 503; 504; 505; 506];
               GenericTileOffsets.tile_max_offsets_ := [600; 601; 602; 603; 604; 605; 606];
               GenericTileOffsets.tile_sum_offsets_ := [700; 701; 702; 703; 704; 705; 706];
               GenericTileOffsets.tile_null_count_offsets_ :=
                 [800; 801; 802; 803; 804; 805; 806];
               GenericTileOffsets.fragment_min_max_sum_null_count_offset_ := 900;
               GenericTileOffsets.processed_conditions_offsets_ := 1000 |} in
  (exists bytes,
     write_generic_tile_offsets (set_gt_offsets_ gt (example_fragment 16 2)) = Ok bytes /\
     load_generic_tile_offsets (example_fragment 16 2) bytes = Ok (gt, [])) /\
  (exists bytes gt',
     write_generic_tile_offsets (set_gt_offsets_ gt (example_fragment 11 2)) = Ok bytes /\
     load_generic_tile_offsets (example_fragment 11 2) bytes = Ok (gt', u64_bytes 900) /\
     GenericTileOffsets.fragment_min_max_sum_null_count_offset_ gt' = 0).
Proof.
  intros gt. split.
  - destruct (generic_tile_offsets_written_then_loaded
                (set_gt_offsets_ gt (example_fragment 16 2)) (example_fragment 16 2) [])
      as (bytes & Hw & Hl);
      [ vm_compute; congruence | reflexivity | reflexivity | reflexivity
      | vm_compute; reflexivity
      | unfold gt_offsets_sized; cbv zeta; repeat split; try reflexivity;
        repeat constructor; unfold is_u64; vm_compute; done
      | ].
    exists bytes. split; [exact Hw|]. rewrite app_nil_r in Hl. exact Hl.
  - destruct (generic_tile_offsets_written_then_loaded
                (set_gt_offsets_ gt (example_fragment 11 2)) (example_fragment 11 2) [])
      as (bytes & Hw & Hl);
      [ vm_compute; congruence | reflexivity | reflexivity | reflexivity
      | vm_compute; reflexivity
      | unfold gt_offsets_sized; cbv zeta; repeat split; try reflexivity;
        repeat constructor; unfold is_u64; vm_compute; done
      | ].
    exists bytes. eexists. split; [exact Hw|]. rewrite app_nil_r in Hl.
    split; [exact Hl|reflexivity].
Defined.
(** ** FragmentMetadata: sizing the per-tile vectors *)

Lemma length_resize_u64 (v : list Z) (n : Z) :
  length (resize_u64 v n) = Z.to_nat n.
Proof. unfold resize_u64. rewrite length_app, length_take, length_replicate. lia. Qed.

Lemma resize_u64_idem (v : list Z) (n : Z) :
  resize_u64 (resize_u64 v n) n = resize_u64 v n.
Proof.
  unfold resize_u64 at 1. rewrite length_resize_u64, Nat.sub_diag, app_nil_r.
  apply take_ge. rewrite length_resize_u64. lia.
Qed.

Lemma resize_u64_grow (v : list Z) (n : Z) :
  Z.of_nat (length v) <= n ->
  resize_u64 v n = v ++ replicate (Z.to_nat n - length v) 0.
Proof. intros H. unfold resize_u64. rewrite take_ge by lia. done. Qed.

Lemma insert_is_alter {A : Type} (g : A -> A) (l : list A) (i : nat) (x : A) :
  l !! i = Some x -> <[i := g x]> l = alter g i l.
Proof.
  intros H. apply list_eq. intros j. destruct (decide (j = i)) as [->|].
  - rewrite list_lookup_insert_eq by (by eapply lookup_lt_Some).
    rewrite list_lookup_alter, decide_True by done. by rewrite H.
  - by rewrite list_lookup_insert_ne, list_lookup_alter_ne.
Qed.

(** One turn of the loop of [set_num_tiles]. *)
Lemma set_num_tiles_field_spec (X : Collaborators) (c n : Z) (name : string) (i : nat)
    (f : FragmentMetadata) :
  has_field i f ->
  (forall row, tile_offsets_ f !! i = Some row -> Z.of_nat (length row) <= n) ->
  exists f',
    set_num_tiles_field X c n name i f = Ok f' /\
    tile_offsets_ f' = alter (fun row => resize_u64 row n) i (tile_offsets_ f) /\
    tile_var_offsets_ f' = alter (fun row => resize_u64 row n) i (tile_var_offsets_ f) /\
    tile_var_sizes_ f' = alter (fun row => resize_u64 row n) i (tile_var_sizes_ f) /\
    tile_validity_offsets_ f'
    = alter (fun row => resize_u64 row n) i (tile_validity_offsets_ f) /\
    length (tile_min_buffer_ f') = length (tile_min_buffer_ f) /\
    length (tile_max_buffer_ f') = length (tile_max_buffer_ f) /\
    length (tile_sums_ f') = length (tile_sums_ f) /\
    length (tile_null_counts_ f') = length (tile_null_counts_ f) /\
    dense_ f' = dense_ f /\ rtree_ f' = rtree_ f /\ idx_map_ f' = idx_map_ f /\
    array_schema_ f' = array_schema_ f.
Proof.
  intros (H1 & H2 & H3 & H4 & H5 & H6 & H7 & H8) Hrow.
  apply lookup_lt_is_Some_2 in H1 as [r1 E1], H2 as [r2 E2], H3 as [r3 E3], H4 as [r4 E4],
    H5 as [r5 E5], H6 as [r6 E6], H7 as [r7 E7], H8 as [r8 E8].
  unfold set_num_tiles_field. cbv zeta.
  rewrite (at_index_Some _ _ _ E1). cbn [obind]. unfold assert_then.
  replace (Z.of_nat (length r1) <=? n) with true
    by (symmetry; apply Z.leb_le; by apply Hrow).
  fm_simpl.
  rewrite (at_index_Some _ _ _ E2). cbn [obind]. fm_simpl.
  rewrite (at_index_Some _ _ _ E3). cbn [obind]. fm_simpl.
  rewrite (at_index_Some _ _ _ E4). cbn [obind]. fm_simpl.
  rewrite (insert_is_alter (fun row => resize_u64 row n) _ _ _ E1).
  rewrite (insert_is_alter (fun row => resize_u64 row n) _ _ _ E2).
  rewrite (insert_is_alter (fun row => resize_u64 row n) _ _ _ E3).
  rewrite (insert_is_alter (fun row => resize_u64 row n) _ _ _ E4).
  destruct (negb (schema_dense (array_schema_ f)) ||
            negb (schema_is_dim (array_schema_ f) name));
    [|eexists; split; [reflexivity|]; fm_simpl; by repeat split].
  destruct (has_min_max_metadata X _ _ _ _); fm_simpl;
    rewrite ?(at_index_Some _ _ _ E5); cbn [obind]; fm_simpl;
    rewrite ?(at_index_Some _ _ _ E6); cbn [obind]; fm_simpl;
    (destruct (has_sum_metadata X _ _ _);
     [destruct (negb (schema_var_size (array_schema_ f) name))|]); fm_simpl;
    rewrite ?(at_index_Some _ _ _ E7); cbn [obind]; fm_simpl;
    destruct (schema_is_nullable (array_schema_ f) name); fm_simpl;
    rewrite ?(at_index_Some _ _ _ E8); cbn [obind]; fm_simpl;
    (eexists; split; [reflexivity|]; fm_simpl; rewrite ?length_insert; by repeat split).
Qed.

(** A row after the loop, from the row after the first turn. *)
Lemma lookup_after_alter {A : Type} (g : A -> A) (l l' : list A) (i j : nat)
    (rest : list nat) :
  (forall x, g (g x) = g x) ->
  l' !! j = (if decide (j ∈ rest) then g <$> alter g i l !! j else alter g i l !! j) ->
  l' !! j = (if decide (j ∈ i :: rest) then g <$> l !! j else l !! j).
Proof.
  intros Hidem ->. rewrite list_lookup_alter.
  destruct (decide (i = j)) as [->|Hne].
  - rewrite (decide_True (P := j ∈ j :: rest)) by apply list_elem_of_here.
    destruct (decide (j ∈ rest)); [|done].
    destruct (l !! j); cbn; [by rewrite Hidem|done].
  - destruct (decide (j ∈ rest)) as [Hin|Hnin].
    + rewrite decide_True by (by apply list_elem_of_further). done.
    + rewrite decide_False; [done|]. intros Hin. apply elem_of_cons in Hin as [->|Hin]; done.
Qed.

(** The loop of [set_num_tiles]: the rows of the fields the entries
    name are resized, whatever the order of the entries, and the
    other rows are left as they are. *)
Lemma set_num_tiles_fields_spec (X : Collaborators) (c n : Z) :
  0 <= n ->
  forall (entries : list (string * nat)) (f : FragmentMetadata),
  (forall name i, (name, i) ∈ entries -> has_field i f) ->
  (forall name i row, (name, i) ∈ entries ->
     tile_offsets_ f !! i = Some row -> Z.of_nat (length row) <= n) ->
  let resized (l l' : list (list Z)) :=
    forall j, l' !! j = (if decide (j ∈ entries.*2)
                         then (fun row => resize_u64 row n) <$> l !! j else l !! j) in
  exists f',
    set_num_tiles_fields X c n entries f = Ok f' /\
    resized (tile_offsets_ f) (tile_offsets_ f') /\
    resized (tile_var_offsets_ f) (tile_var_offsets_ f') /\
    resized (tile_var_sizes_ f) (tile_var_sizes_ f') /\
    resized (tile_validity_offsets_ f) (tile_validity_offsets_ f') /\
    dense_ f' = dense_ f /\ rtree_ f' = rtree_ f.
Proof.
  intros Hn entries. induction entries as [|[name i] rest IH]; intros f Hfield Hrows resized.
  - exists f. subst resized. cbn. by repeat split.
  - destruct (set_num_tiles_field_spec X c n name i f) as
      (f1 & Hstep & T1 & T2 & T3 & T4 & M1 & M2 & M3 & M4 & Hd & Hr & _ & _).
    { apply (Hfield name). apply list_elem_of_here. }
    { intros row. apply (Hrows name). apply list_elem_of_here. }
    destruct (IH f1) as (f' & Hrun & R1 & R2 & R3 & R4 & Hd' & Hr').
    { intros name' i' Hin.
      destruct (Hfield name' i') as (F1 & F2 & F3 & F4 & F5 & F6 & F7 & F8);
        [by apply list_elem_of_further|].
      unfold has_field. rewrite T1, T2, T3, T4, M1, M2, M3, M4, !length_alter. done. }
    { intros name' i' row Hin. rewrite T1, list_lookup_alter.
      destruct (decide (i = i')) as [->|Hne].
      - destruct (tile_offsets_ f !! i'); cbn; [|done].
        intros [= <-]. rewrite length_resize_u64. lia.
      - apply (Hrows name'). by apply list_elem_of_further. }
    exists f'. cbn [set_num_tiles_fields]. rewrite Hstep. cbn [obind].
    split; [exact Hrun|]. subst resized. cbn beta. cbn [fmap list_fmap snd].
    rewrite T1 in R1. rewrite T2 in R2. rewrite T3 in R3. rewrite T4 in R4.
    split; [|split; [|split; [|split; [|split; congruence]]]]; intros j;
      apply lookup_after_alter; auto using resize_u64_idem.
Qed.

(** X24.  [set_num_tiles(n)] gives every field of [idx_map_] rows of
    [n] entries in the four vectors of offsets and sizes, in whatever
    order the map is iterated: the tile offsets that were there are
    kept and the new entries are zero; the rows that belong to no
    field are left as they are; and on a sparse fragment [tile_num()]
    is [n] afterwards. *)
Theorem set_num_tiles_sizes (X : Collaborators) (c : Z)
    (rtree_set_leaf_num : RTree -> Z -> outcome RTree)
    (entries : list (string * nat)) (n : Z) (f : FragmentMetadata) :
  0 <= n ->
  lists_idx_map entries f ->
  (forall name i, idx_map_ f !! name = Some i -> has_field i f) ->
  (forall name i row, idx_map_ f !! name = Some i ->
     tile_offsets_ f !! i = Some row -> Z.of_nat (length row) <= n) ->
  (dense_ f = false -> exists rtree, rtree_set_leaf_num (rtree_ f) n = Ok rtree) ->
  exists f',
    set_num_tiles X c rtree_set_leaf_num entries n f = Ok f' /\
    (forall name i, idx_map_ f !! name = Some i ->
       exists r1 r2 r3 r4,
         tile_offsets_ f !! i = Some r1 /\
         tile_var_offsets_ f !! i = Some r2 /\
         tile_var_sizes_ f !! i = Some r3 /\
         tile_validity_offsets_ f !! i = Some r4 /\
         tile_offsets_ f' !! i = Some (r1 ++ replicate (Z.to_nat n - length r1) 0) /\
         tile_var_offsets_ f' !! i = Some (resize_u64 r2 n) /\
         tile_var_sizes_ f' !! i = Some (resize_u64 r3 n) /\
         tile_validity_offsets_ f' !! i = Some (resize_u64 r4 n)) /\
    (forall j, (forall name, idx_map_ f !! name <> Some j) ->
       tile_offsets_ f' !! j = tile_offsets_ f !! j /\
       tile_var_offsets_ f' !! j = tile_var_offsets_ f !! j /\
       tile_var_sizes_ f' !! j = tile_var_sizes_ f !! j /\
       tile_validity_offsets_ f' !! j = tile_validity_offsets_ f !! j) /\
    (dense_ f = false -> tile_num X f' = n).
Proof.
  intros Hn Hent Hfield Hrows Hleaf.
  destruct (set_num_tiles_fields_spec X c n Hn entries f)
    as (f1 & Hrun & R1 & R2 & R3 & R4 & Hd & Hr).
  { intros name i Hin. apply (Hfield name). by apply Hent. }
  { intros name i row Hin. apply (Hrows name). by apply Hent. }
  assert (Hin : forall name i, idx_map_ f !! name = Some i -> i ∈ entries.*2).
  { intros name i Hi. apply Hent in Hi. apply list_elem_of_fmap. by exists (name, i). }
  assert (Hout : forall j, (forall name, idx_map_ f !! name <> Some j) -> j ∉ entries.*2).
  { intros j Hj Hjin. apply list_elem_of_fmap in Hjin as ([name i] & -> & Hjin).
    apply Hent in Hjin. by apply (Hj name). }
  assert (Hrows1 : forall f',
            tile_offsets_ f' = tile_offsets_ f1 ->
            tile_var_offsets_ f' = tile_var_offsets_ f1 ->
            tile_var_sizes_ f' = tile_var_sizes_ f1 ->
            tile_validity_offsets_ f' = tile_validity_offsets_ f1 ->
            (forall name i, idx_map_ f !! name = Some i ->
               exists r1 r2 r3 r4,
                 tile_offsets_ f !! i = Some r1 /\
                 tile_var_offsets_ f !! i = Some r2 /\
                 tile_var_sizes_ f !! i = Some r3 /\
                 tile_validity_offsets_ f !! i = Some r4 /\
                 tile_offsets_ f' !! i = Some (r1 ++ replicate (Z.to_nat n - length r1) 0) /\
                 tile_var_offsets_ f' !! i = Some (resize_u64 r2 n) /\
                 tile_var_sizes_ f' !! i = Some (resize_u64 r3 n) /\
                 tile_validity_offsets_ f' !! i = Some (resize_u64 r4 n)) /\
            (forall j, (forall name, idx_map_ f !! name <> Some j) ->
               tile_offsets_ f' !! j = tile_offsets_ f !! j /\
               tile_var_offsets_ f' !! j = tile_var_offsets_ f !! j /\
               tile_var_sizes_ f' !! j = tile_var_sizes_ f !! j /\
               tile_validity_offsets_ f' !! j = tile_validity_offsets_ f !! j)).
  { intros f' -> -> -> ->. split.
    - intros name i Hi.
      destruct (Hfield name i Hi) as (F1 & F2 & F3 & F4 & _).
      apply lookup_lt_is_Some_2 in F1 as [r1 E1], F2 as [r2 E2], F3 as [r3 E3],
        F4 as [r4 E4].
      exists r1, r2, r3, r4.
      rewrite R1, R2, R3, R4, !decide_True by (by eapply Hin).
      rewrite E1, E2, E3, E4. cbn.
      rewrite (resize_u64_grow r1) by (by eapply Hrows). done.
    - intros j Hj. rewrite R1, R2, R3, R4, !decide_False by (by apply Hout). done. }
  unfold set_num_tiles. rewrite Hrun. cbn [obind]. rewrite Hd.
  destruct (dense_ f) eqn:Hdense; cbn [negb].
  - exists f1. split; [done|]. destruct (Hrows1 f1) as [A B]; try done.
  - destruct (Hleaf eq_refl) as [rtree Hrt]. rewrite Hr, Hrt. cbn [obind].
    exists (set_sparse_tile_num_ n (set_rtree_ rtree f1)). split; [reflexivity|].
    destruct (Hrows1 (set_sparse_tile_num_ n (set_rtree_ rtree f1))) as [A B]; try done.
    split; [exact A|]. split; [exact B|]. intros _. unfold tile_num. cbn. by rewrite Hd.
Qed.

Lemma set_num_tiles_sizes_witness :
  let f := example_fragment 16 0 in
  let entries := reverse [("a", 0%nat); ("c", 1%nat); ("s", 2%nat); ("u", 3%nat);
                          ("x", 4%nat); ("__coords", 5%nat); ("d", 6%nat)] in
  exists f',
    set_num_tiles example_collaborators 8 (fun rtree _ => Ok rtree) entries 3 f = Ok f' /\
    tile_offsets_ f' !! 0%nat = Some [0; 0; 0] /\
    tile_num example_collaborators f' = 3.
Proof.
  intros f entries.
  assert (Hmap : forall name i, (name, i) ∈ entries <-> idx_map_ f !! name = Some i).
  { intros name i. unfold entries. rewrite elem_of_reverse.
    change (idx_map_ f) with example_idx_map. unfold example_idx_map.
    rewrite <- elem_of_list_to_map; [done|]. vm_compute. repeat constructor;
      rewrite ?elem_of_cons, ?elem_of_nil; intuition discriminate. }
  assert (Hidx : forall name i, idx_map_ f !! name = Some i -> (i < 7)%nat).
  { intros name i Hi. apply Hmap in Hi. unfold entries in Hi. cbn in Hi.
    repeat (apply elem_of_cons in Hi as [[= _ ->]|Hi]; [lia|]).
    by apply elem_of_nil in Hi. }
  destruct (set_num_tiles_sizes example_collaborators 8 (fun rtree _ => Ok rtree)
              entries 3 f) as (f' & Hrun & Hfields & _ & Htn);
    [ lia
    | exact Hmap
    | intros name i Hi; apply Hidx in Hi; unfold has_field; cbn; lia
    | intros name i row Hi; apply Hidx in Hi;
      change (tile_offsets_ f) with (replicate 7 (@nil Z));
      rewrite lookup_replicate; intros [-> _]; cbn; lia
    | intros _; by eexists
    | ].
  exists f'. split; [exact Hrun|].
  destruct (Hfields "a" 0%nat eq_refl) as (r1 & _ & _ & _ & E1 & _ & _ & _ & T1 & _).
  split; [|by apply Htn].
  vm_compute in E1. injection E1 as <-. exact T1.
Defined.
(** ** FragmentMetadata: the fragment minimum, maximum, sum and null count, stored and loaded *)

Lemma lookup_after_insert {A : Type} (lw l l' : list A) (i n j : nat) (x : A) :
  lw !! i = Some x -> (i < length l)%nat ->
  l' !! j = (if decide (S i <= j < S i + n)%nat then lw !! j else <[i := x]> l !! j) ->
  l' !! j = (if decide (i <= j < i + S n)%nat then lw !! j else l !! j).
Proof.
  intros Hx Hi ->. destruct (decide (j = i)) as [->|Hne].
  - rewrite decide_False by lia. rewrite decide_True by lia.
    by rewrite list_lookup_insert_eq.
  - rewrite list_lookup_insert_ne by done.
    destruct (decide (S i <= j < S i + n)%nat).
    + by rewrite decide_True by lia.
    + by rewrite decide_False by lia.
Qed.

(** The fields the loop of the writer serializes are the ones the
    loop of the loader reads back. *)
Lemma fragment_fields_written_then_loaded (w : FragmentMetadata) :
  Forall (fun b => Z.of_nat (length b) < two64) (fragment_mins_ w) ->
  Forall (fun b => Z.of_nat (length b) < two64) (fragment_maxs_ w) ->
  Forall is_u64 (fragment_sums_ w) ->
  Forall is_u64 (fragment_null_counts_ w) ->
  forall (n i : nat) (f : FragmentMetadata),
  (i + n <= length (fragment_mins_ w))%nat ->
  (i + n <= length (fragment_maxs_ w))%nat ->
  (i + n <= length (fragment_sums_ w))%nat ->
  (i + n <= length (fragment_null_counts_ w))%nat ->
  (i + n <= length (fragment_mins_ f))%nat ->
  (i + n <= length (fragment_maxs_ f))%nat ->
  (i + n <= length (fragment_sums_ f))%nat ->
  (i + n <= length (fragment_null_counts_ f))%nat ->
  exists bytes,
    serialize_fragment_fields n i w = Ok bytes /\
    forall rest, exists f',
      load_fragment_fields n i (bytes ++ rest) f = Ok (f', rest) /\
      (forall j, fragment_mins_ f' !! j
                 = if decide (i <= j < i + n)%nat then fragment_mins_ w !! j
                   else fragment_mins_ f !! j) /\
      (forall j, fragment_maxs_ f' !! j
                 = if decide (i <= j < i + n)%nat then fragment_maxs_ w !! j
                   else fragment_maxs_ f !! j) /\
      (forall j, fragment_sums_ f' !! j
                 = if decide (i <= j < i + n)%nat then fragment_sums_ w !! j
                   else fragment_sums_ f !! j) /\
      (forall j, fragment_null_counts_ f' !! j
                 = if decide (i <= j < i + n)%nat then fragment_null_counts_ w !! j
                   else fragment_null_counts_ f !! j) /\
      loaded_metadata_ f' = loaded_metadata_ f /\
      idx_map_ f' = idx_map_ f /\
      array_schema_ f' = array_schema_ f.
Proof.
  intros Umin Umax Usum Unc. induction n as [|n IH];
    intros i f W1 W2 W3 W4 F1 F2 F3 F4.
  - exists []. split; [done|]. intros rest. exists f. cbn.
    split; [done|]. 
    repeat split; try done; intros j; by rewrite decide_False by lia.
  - destruct (lookup_lt_is_Some_2 (fragment_mins_ w) i) as [mn Emn]; [lia|].
    destruct (lookup_lt_is_Some_2 (fragment_maxs_ w) i) as [mx Emx]; [lia|].
    destruct (lookup_lt_is_Some_2 (fragment_sums_ w) i) as [sm Esm]; [lia|].
    destruct (lookup_lt_is_Some_2 (fragment_null_counts_ w) i) as [nc Enc]; [lia|].
    destruct (lookup_lt_is_Some_2 (fragment_mins_ f) i) as [s1 S1]; [lia|].
    destruct (lookup_lt_is_Some_2 (fragment_maxs_ f) i) as [s2 S2]; [lia|].
    destruct (lookup_lt_is_Some_2 (fragment_sums_ f) i) as [s3 S3]; [lia|].
    destruct (lookup_lt_is_Some_2 (fragment_null_counts_ f) i) as [s4 S4]; [lia|].
    pose proof (Forall_lookup_1 _ _ _ _ Umin Emn) as Bmn.
    pose proof (Forall_lookup_1 _ _ _ _ Umax Emx) as Bmx.
    pose proof (Forall_lookup_1 _ _ _ _ Usum Esm) as Bsm.
    pose proof (Forall_lookup_1 _ _ _ _ Unc Enc) as Bnc.
    cbv beta in Bmn, Bmx.
    set (f1 := set_fragment_null_counts_ (<[i := nc]> (fragment_null_counts_ f))
                 (set_fragment_sums_ (<[i := sm]> (fragment_sums_ f))
                    (set_fragment_maxs_ (<[i := mx]> (fragment_maxs_ f))
                       (set_fragment_mins_ (<[i := mn]> (fragment_mins_ f)) f)))).
    destruct (IH (S i) f1) as (bytes & Hser & Hload);
      try (subst f1; fm_simpl; rewrite ?length_insert; lia).
    eexists. split.
    { cbn [serialize_fragment_fields].
      rewrite (at_index_Some _ _ _ Emn), (at_index_Some _ _ _ Emx),
        (at_index_Some _ _ _ Esm), (at_index_Some _ _ _ Enc). cbn [obind].
      rewrite Hser. cbn [obind]. reflexivity. }
    intros rest. destruct (Hload rest) as (f' & Hrun & P1 & P2 & P3 & P4 & L & M & A).
    exists f'. split.
    { cbn [load_fragment_fields]. rewrite <- !app_assoc.
      rewrite de_read_u64_written by (unfold is_u64; lia). cbn [obind].
      rewrite (at_index_Some _ _ _ S1). cbn [obind].
      rewrite de_read_written. cbn [obind]. fm_simpl.
      rewrite de_read_u64_written by (unfold is_u64; lia). cbn [obind].
      rewrite (at_index_Some _ _ _ S2). cbn [obind].
      rewrite de_read_written. cbn [obind]. fm_simpl.
      rewrite de_read_u64_written by done. cbn [obind].
      rewrite (at_index_Some _ _ _ S3). cbn [obind]. fm_simpl.
      rewrite de_read_u64_written by done. cbn [obind].
      rewrite (at_index_Some _ _ _ S4). cbn [obind]. fm_simpl.
      exact Hrun. }
    subst f1. fm_simpl in P1. fm_simpl in P2. fm_simpl in P3. fm_simpl in P4.
    split. { intros j. eapply lookup_after_insert; [exact Emn|lia|apply P1]. }
    split. { intros j. eapply lookup_after_insert; [exact Emx|lia|apply P2]. }
    split. { intros j. eapply lookup_after_insert; [exact Esm|lia|apply P3]. }
    split. { intros j. eapply lookup_after_insert; [exact Enc|lia|apply P4]. }
    done.
Qed.

(** X25.  the fragment minima, maxima, sums and null counts that
    [store_fragment_min_max_sum_null_count] serializes for all the
    fields are the ones a fragment of version 12 or later has in
    memory after [load_fragment_min_max_sum_null_count] has read that
    tile, with the section marked as loaded. *)
Theorem fragment_min_max_sum_null_count_stored_then_loaded (X : Collaborators)
    (w f : FragmentMetadata) :
  let num := num_dims_and_attrs f in
  11 < version_ f ->
  LoadedMetadata.fragment_min_max_sum_null_count_ (loaded_metadata_ f) = false ->
  fragment_fields_sized num w ->
  fragment_fields_sized num f ->
  fragment_fields_in_range w ->
  exists tile,
    store_fragment_min_max_sum_null_count num w = Ok tile /\
    (read_generic X
       (GenericTileOffsets.fragment_min_max_sum_null_count_offset_ (gt_offsets_ f))
     = Ok tile ->
     exists f',
       load_fragment_min_max_sum_null_count X f = Ok f' /\
       fragment_mins_ f' = fragment_mins_ w /\
       fragment_maxs_ f' = fragment_maxs_ w /\
       fragment_sums_ f' = fragment_sums_ w /\
       fragment_null_counts_ f' = fragment_null_counts_ w /\
       LoadedMetadata.fragment_min_max_sum_null_count_ (loaded_metadata_ f') = true /\
       idx_map_ f' = idx_map_ f /\ array_schema_ f' = array_schema_ f).
Proof.
  intros num Hv Hflag (W1 & W2 & W3 & W4) (F1 & F2 & F3 & F4) (U1 & U2 & U3 & U4).
  destruct (fragment_fields_written_then_loaded w U1 U2 U3 U4 (Z.to_nat num) 0 f)
    as (tile & Hser & Hload); try lia.
  exists tile. split; [exact Hser|]. intros Hread.
  destruct (Hload []) as (f' & Hrun & P1 & P2 & P3 & P4 & L & M & A).
  rewrite app_nil_r in Hrun.
  unfold load_fragment_min_max_sum_null_count, load_fragment_min_max_sum_null_count_from.
  rewrite Hflag. replace (version_ f <=? 11) with false by (symmetry; apply Z.leb_gt; lia).
  rewrite Hread. cbn [obind]. fold num. rewrite Hrun. cbn [obind].
  eexists. split; [reflexivity|]. fm_simpl.
  assert (Hall : forall (A : Type) (l lw lf : list A),
            Z.of_nat (length lw) = num -> Z.of_nat (length lf) = num ->
            (forall j, l !! j = if decide (0 <= j < 0 + Z.to_nat num)%nat then lw !! j
                                else lf !! j) ->
            l = lw).
  { intros B l lw lf Hlw Hlf Hl. apply list_eq. intros j. rewrite Hl.
    destruct (decide (0 <= j < 0 + Z.to_nat num)%nat); [done|].
    rewrite !lookup_ge_None_2 by lia. done. }
  split; [exact (Hall _ _ _ _ W1 F1 P1)|]. split; [exact (Hall _ _ _ _ W2 F2 P2)|].
  split; [exact (Hall _ _ _ _ W3 F3 P3)|]. split; [exact (Hall _ _ _ _ W4 F4 P4)|].
  done.
Qed.

Lemma fragment_min_max_sum_null_count_stored_then_loaded_witness :
  let w := example_fragment_with_rollup in
  let f := example_fragment 16 2 in
  exists tile f',
    store_fragment_min_max_sum_null_count 7 w = Ok tile /\
    load_fragment_min_max_sum_null_count
      (with_read_generic (fun _ => Ok tile) example_collaborators) f = Ok f' /\
    fragment_mins_ f' = fragment_mins_ w /\
    fragment_null_counts_ f' = [2; 0; 1; 0; 0; 0; 0] /\
    get_null_count "a" f' = Ok 2.
Proof.
  intros w f.
  destruct (store_fragment_min_max_sum_null_count 7 w) as [tile| | |] eqn:Hstore;
    [|vm_compute in Hstore; discriminate ..].
  destruct (fragment_min_max_sum_null_count_stored_then_loaded
              (with_read_generic (fun _ => Ok tile) example_collaborators) w f)
    as (tile' & Hser & Hload);
    [ vm_compute; reflexivity
    | reflexivity
    | repeat split
    | repeat split
    | unfold fragment_fields_in_range; repeat split; repeat constructor;
      unfold is_u64; vm_compute; done
    | ].
  change (num_dims_and_attrs f) with 7 in Hser.
  rewrite Hstore in Hser. injection Hser as <-.
  destruct (Hload eq_refl) as (f' & Hrun & E1 & _ & _ & E4 & Hflag & Hmap & Hschema).
  exists tile, f'. split; [reflexivity|]. split; [exact Hrun|]. split; [exact E1|].
  split; [exact E4|].
  unfold get_null_count. rewrite Hmap, Hflag, Hschema, E4. reflexivity.
Defined.
(** ** FragmentMetadata: the processed conditions, stored and loaded *)

Lemma load_conditions_written (conditions : list string) :
  Forall (fun c => Z.of_nat (length (list_byte_of_string c)) < two64) conditions ->
  forall (old : list string) (rest : list byte),
  load_conditions (length conditions) (serialize_conditions conditions ++ rest) old
  = Ok (old ++ conditions, rest).
Proof.
  induction 1 as [|c conditions Hc _ IH]; intros old rest.
  - cbn. by rewrite app_nil_r.
  - cbn [length load_conditions serialize_conditions]. cbv zeta.
    rewrite <- !app_assoc.
    rewrite de_read_u64_written by (unfold is_u64; lia). cbn [obind].
    rewrite de_read_written. cbn [obind].
    rewrite string_of_list_byte_of_string, IH, <- app_assoc. done.
Qed.

(** X26.  the conditions [store_processed_conditions] serializes are
    the ones [load_processed_conditions] reads back, in the same
    order, put after the conditions the fragment already holds; the
    set of conditions is the set of all of them. *)
Theorem processed_conditions_stored_then_loaded (conditions old : list string)
    (rest : list byte) :
  Z.of_nat (length conditions) < two64 ->
  Forall (fun c => Z.of_nat (length (list_byte_of_string c)) < two64) conditions ->
  load_processed_conditions (store_processed_conditions conditions ++ rest) old
  = Ok (old ++ conditions, list_to_set (old ++ conditions), rest).
Proof.
  intros Hnum Hsizes. unfold load_processed_conditions, store_processed_conditions.
  rewrite <- app_assoc.
  rewrite de_read_u64_written by (unfold is_u64; lia). cbn [obind].
  rewrite Nat2Z.id, load_conditions_written by done. done.
Qed.

Lemma processed_conditions_stored_then_loaded_witness :
  load_processed_conditions (store_processed_conditions ["a > 3"; "b = 1"]) ["c < 2"]
  = Ok (["c < 2"; "a > 3"; "b = 1"], {["c < 2"; "a > 3"; "b = 1"]}, []).
Proof.
  pose proof (processed_conditions_stored_then_loaded ["a > 3"; "b = 1"] ["c < 2"] []) as H.
  rewrite app_nil_r in H. rewrite H.
  - reflexivity.
  - vm_compute. reflexivity.
  - repeat constructor; vm_compute; reflexivity.
Defined.
(** ** FragmentMetadata: the fragment null count *)

(** One step of taking apart a run that returned. *)
Ltac run_step :=
  match goal with
  | H : Ok _ = Ok _ |- _ => injection H as <-
  | H : obind ?m _ = Ok _ |- _ =>
      let E := fresh "E" in
      destruct m eqn:E; cbn [obind] in H; [|discriminate ..]
  | H : (if ?c then _ else _) = Ok _ |- _ => destruct c
  | H : (let '(_, _) := ?p in _) = Ok _ |- _ => destruct p
  | H : match ?o with Some _ => _ | None => _ end = Ok _ |- _ => destruct o
  end.

Lemma compute_fragment_sum_null_counts (X : Collaborators) (S : SumType) (idx : nat)
    (nullable : bool) (f f' : FragmentMetadata) :
  compute_fragment_sum X S idx nullable f = Ok f' ->
  fragment_null_counts_ f' = fragment_null_counts_ f.
Proof.
  unfold compute_fragment_sum. intros H.
  destruct (at_index (tile_sums_ f) idx); cbn [obind] in H; try discriminate.
  destruct (at_index (tile_null_counts_ f) idx); cbn [obind] in H; try discriminate.
  match type of H with obind ?m _ = _ => destruct m end; cbn [obind] in H; try discriminate.
  destruct (at_index (fragment_sums_ f) idx); cbn [obind] in H; try discriminate.
  injection H as <-. done.
Qed.

Lemma compute_fragment_min_max_sum_null_counts (X : Collaborators) (T : CType)
    (name : string) (f f' : FragmentMetadata) :
  compute_fragment_min_max_sum X T name f = Ok f' ->
  fragment_null_counts_ f' = fragment_null_counts_ f.
Proof.
  unfold compute_fragment_min_max_sum. cbv zeta. intros H.
  destruct (_ || _); [|by injection H as <-].
  destruct (has_min_max_metadata X _ _ _ _).
  - repeat run_step;
      first [ apply compute_fragment_sum_null_counts in H; by rewrite H | done ].
  - cbn [obind] in H. destruct (has_sum_metadata X _ _ _).
    + by apply compute_fragment_sum_null_counts in H.
    + by injection H as <-.
Qed.

Lemma compute_fragment_min_max_sum_char_null_counts (X : Collaborators)
    (name : string) (f f' : FragmentMetadata) :
  compute_fragment_min_max_sum_char X name f = Ok f' ->
  fragment_null_counts_ f' = fragment_null_counts_ f.
Proof.
  unfold compute_fragment_min_max_sum_char. cbv zeta. intros H.
  repeat run_step; done.
Qed.

Lemma min_max_var_null_counts (X : Collaborators) (name : string)
    (f f' : FragmentMetadata) :
  min_max_var X name f = Ok f' ->
  fragment_null_counts_ f' = fragment_null_counts_ f.
Proof.
  unfold min_max_var. cbv zeta. intros H.
  repeat run_step; done.
Qed.

(** X27.  the fragment null count that the rollup gives a field is
    the sum of the field's tile null counts, cut to its low 32 bits,
    read as a signed [int] and converted to [uint64_t].  It is the sum
    itself as long as the sum is below [2^31]. *)
Theorem fragment_null_count_is_int_sum (X : Collaborators) (name : string)
    (null_counts : list Z) (f f' : FragmentMetadata) :
  let idx := idx_of name f in
  let sum := sum_list_Z null_counts in
  tile_null_counts_ f !! idx = Some null_counts ->
  compute_fragment_field X name f = Ok f' ->
  fragment_null_counts_ f' !! idx = Some (wrap64 (to_i32 sum)) /\
  (0 <= sum < 2 ^ 31 -> fragment_null_counts_ f' !! idx = Some sum).
Proof.
  intros idx sum Hnc Hrun.
  assert (Hslot : fragment_null_counts_ f' !! idx = Some (wrap64 (accumulate_int null_counts))).
  { unfold compute_fragment_field in Hrun. cbv zeta in Hrun. fold idx in Hrun.
    rewrite (at_index_Some _ _ _ Hnc) in Hrun. cbn [obind] in Hrun.
    unfold at_index in Hrun.
    destruct (fragment_null_counts_ f !! idx) as [slot|] eqn:Hslot; cbn [obind] in Hrun;
      [|discriminate].
    apply lookup_lt_Some in Hslot.
    set (f1 := set_fragment_null_counts_ _ f) in Hrun.
    assert (H1 : fragment_null_counts_ f1 !! idx
                 = Some (wrap64 (accumulate_int null_counts))).
    { subst f1. fm_simpl. by apply list_lookup_insert_eq. }
    assert (Hframe : fragment_null_counts_ f' = fragment_null_counts_ f1).
    { destruct (schema_var_size (array_schema_ f) name).
      - by apply min_max_var_null_counts in Hrun.
      - destruct (schema_type (array_schema_ f) name);
          first [ by apply compute_fragment_min_max_sum_null_counts in Hrun
                | by apply compute_fragment_min_max_sum_char_null_counts in Hrun
                | by injection Hrun as <- ]. }
    by rewrite Hframe. }
  split.
  - by rewrite Hslot, accumulate_int_spec.
  - intros Hsmall. by rewrite Hslot, accumulate_int_small.
Qed.

Lemma fragment_null_count_is_int_sum_witness :
  let f := example_with_tile_metadata 100 2 0
             (u64_buffer [5; 7]) (u64_buffer [9; 11]) [] []
             (u64_buffer [14; 18]) [30; 12] in
  exists f',
    compute_fragment_field example_collaborators "a" f = Ok f' /\
    fragment_null_counts_ f' !! 0%nat = Some 42.
Proof.
  intros f.
  destruct (compute_fragment_field example_collaborators "a" f) as [f'| | |] eqn:Hrun;
    [|vm_compute in Hrun; discriminate ..].
  exists f'. split; [reflexivity|].
  apply (fragment_null_count_is_int_sum example_collaborators "a" [30; 12] f f');
    [ reflexivity | exact Hrun | vm_compute; split; congruence ].
Defined.
(** ** FragmentMetadata: file names of version 8 *)

Module FileNamesFacts.

Import Stdlib.Strings.Ascii.
Import FileNames.

(** Decoding undoes the encoding of one more character. *)
Lemma decode_encode_step (c : ascii) (rest : string) :
  decode_name_v8 (encode_name_v8 (String c rest))
  = String c (decode_name_v8 (encode_name_v8 rest)).
Proof. destruct c as [[] [] [] [] [] [] [] []]; reflexivity. Qed.

Lemma decode_encode_name_v8 (name : string) :
  decode_name_v8 (encode_name_v8 name) = name.
Proof.
  induction name as [|c rest IH]; [reflexivity|].
  rewrite decode_encode_step. by rewrite IH.
Qed.

(** X28.  in a fragment of format version 8 two different field names
    have different encoded names. *)
Theorem encode_name_v8_injective (name1 name2 : string) :
  name1 <> name2 -> encode_name_v8 name1 <> encode_name_v8 name2.
Proof.
  intros Hne H. apply Hne.
  rewrite <- (decode_encode_name_v8 name1), <- (decode_encode_name_v8 name2).
  by rewrite H.
Qed.

Lemma encode_name_v8_injective_witness :
  encode_name_v8 "a<b" = "a%20b"%string /\ encode_name_v8 "a b" = "a b"%string /\
  encode_name_v8 "a<b" <> encode_name_v8 "a b".
Proof.
  split; [reflexivity|]. split; [reflexivity|].
  apply (encode_name_v8_injective "a<b" "a b"). discriminate.
Defined.

(** X29.  an encoded name of format version 8 holds none of the
    characters the table replaces, but for the ['%'] that starts
    an encoding. *)
Theorem encode_name_v8_replaces_all (name : string) (c : ascii) :
  In c (list_ascii_of_string (encode_name_v8 name)) ->
  c = "%"%char \/ percent_encoding_at percent_encoding c = None.
Proof.
  induction name as [|a rest IH]; [intros []|].
  destruct a as [[] [] [] [] [] [] [] []]; cbn; intros H;
    repeat (destruct H as [<-|H]; [first [by left | by right]|]);
    exact (IH H).
Qed.

Lemma encode_name_v8_replaces_all_witness :
  encode_name_v8 "a/b:c" = "a%2Fb%3Ac"%string /\
  In "F"%char (list_ascii_of_string (encode_name_v8 "a/b:c")) /\
  percent_encoding_at percent_encoding "F" = None.
Proof.
  split; [reflexivity|].
  assert (H : In "F"%char (list_ascii_of_string (encode_name_v8 "a/b:c"))).
  { vm_compute. do 3 right. left. reflexivity. }
  split; [exact H|].
  destruct (encode_name_v8_replaces_all "a/b:c" "F" H) as [Habs|Hnone];
    [discriminate Habs | exact Hnone].
Defined.

End FileNamesFacts.
(** ** FragmentMetadata: the tile sums and the tile null counts, written and read back *)

Lemma take_or_refuse_within (size : Z) (ty : MemoryTracker.MemoryType)
    (mt : option MemoryTracker.t) :
  (forall m, mt = Some m -> size <= MemoryTracker.memory_available m) ->
  exists mt',
    take_or_refuse size ty mt = (false, mt') /\
    available mt' = (fun a => a - size) <$> available mt.
Proof.
  intros Hbudget. unfold take_or_refuse. destruct mt as [m|]; [|by exists None].
  unfold MemoryTracker.take_memory.
  replace (size <=? MemoryTracker.memory_available m) with true
    by (symmetry; apply Z.leb_le; by apply Hbudget).
  eexists. split; reflexivity.
Qed.

(** X30.  the tile sums and the tile null counts of a field that
    [write_tile_sums] and [write_tile_null_counts] serialize are the
    ones [load_tile_sum_values] and [load_tile_null_count_values] put
    in memory, with the memory tracker charged their size.  The sums
    are written in whole [uint64_t] values: bytes of the buffer past
    the last whole value are not stored.  When there is no value the
    loader leaves the field as it is. *)
Theorem sums_null_counts_written_then_loaded (idx : nat) (w f : FragmentMetadata)
    (rest : list byte) :
  (forall (buffer prev : list byte),
     let whole := (8 * (length buffer / 8))%nat in
     tile_sums_ w !! idx = Some buffer ->
     tile_sums_ f !! idx = Some prev ->
     Z.of_nat (length buffer) < two64 ->
     (forall m, memory_tracker_ f = Some m ->
        Z.of_nat whole <= MemoryTracker.memory_available m) ->
     exists tile f1,
       write_tile_sums idx w = Ok tile /\
       load_tile_sum_values idx (tile ++ rest) f = Ok (f1, rest) /\
       tile_sums_ f1 !! idx = Some (if (whole =? 0)%nat then prev else take whole buffer) /\
       available (memory_tracker_ f1)
       = (fun a => a - Z.of_nat whole) <$> available (memory_tracker_ f)) /\
  (forall (row prev : list Z),
     tile_null_counts_ w !! idx = Some row ->
     tile_null_counts_ f !! idx = Some prev ->
     Forall is_u64 row ->
     8 * Z.of_nat (length row) < two64 ->
     (forall m, memory_tracker_ f = Some m ->
        8 * Z.of_nat (length row) <= MemoryTracker.memory_available m) ->
     exists tile f1,
       write_tile_null_counts idx w = Ok tile /\
       load_tile_null_count_values idx (tile ++ rest) f = Ok (f1, rest) /\
       tile_null_counts_ f1 !! idx = Some (match row with [] => prev | _ => row end) /\
       available (memory_tracker_ f1)
       = (fun a => a - 8 * Z.of_nat (length row)) <$> available (memory_tracker_ f)).
Proof.
  split.
  - intros buffer prev whole Hw Hf Hlen Hbudget.
    unfold write_tile_sums. rewrite (at_index_Some _ _ _ Hw). cbn [obind]. cbv zeta.
    set (n := Z.of_nat (length buffer) / 8).
    assert (Hn : Z.of_nat whole = n * 8).
    { subst whole n. rewrite Nat2Z.inj_mul, Nat2Z.inj_div. simpl Z.of_nat. lia. }
    assert (Hn0 : 0 <= n) by (subst n; apply Z.div_pos; lia).
    assert (Hnle : n * 8 <= Z.of_nat (length buffer)).
    { subst n. pose proof (Z.mul_div_le (Z.of_nat (length buffer)) 8). lia. }
    unfold load_tile_sum_values.
    destruct (n =? 0) eqn:En; cbn [negb].
    + apply Z.eqb_eq in En. replace (whole =? 0)%nat with true
        by (symmetry; apply Nat.eqb_eq; lia).
      exists (u64_bytes n ++ []), f. split; [reflexivity|].
      rewrite <- app_assoc.
      rewrite de_read_u64_written by (unfold is_u64; lia). cbn [obind].
      rewrite En. cbn [Z.eqb negb app].
      split; [reflexivity|]. split; [exact Hf|].
      replace (Z.of_nat whole) with 0 by lia.
      destruct (memory_tracker_ f); cbn; [f_equal; lia|done].
    + apply Z.eqb_neq in En. replace (whole =? 0)%nat with false
        by (symmetry; apply Nat.eqb_neq; lia).
      rewrite wrap64_small by (unfold is_u64; lia).
      destruct (take_or_refuse_within (n * 8) MemoryTracker.MIN_MAX_SUM_NULL_COUNT
                  (memory_tracker_ f)) as (mt' & Htake & Hav).
      { intros m Hm. rewrite <- Hn. by apply Hbudget. }
      replace (Z.to_nat (n * 8)) with whole by lia.
      exists (u64_bytes n ++ take whole buffer),
        (set_memory_tracker_ mt'
           (set_tile_sums_ (<[idx := take whole buffer]> (tile_sums_ f)) f)).
      split; [reflexivity|].
      rewrite <- app_assoc.
      rewrite de_read_u64_written by (unfold is_u64; lia). cbn [obind].
      replace (n =? 0) with false by (symmetry; by apply Z.eqb_neq).
      cbn [negb]. rewrite wrap64_small by (unfold is_u64; lia).
      rewrite Htake. rewrite (at_index_Some _ _ _ Hf). cbn [obind].
      assert (Hlt : Z.of_nat (length (take whole buffer)) = n * 8)
        by (rewrite length_take; lia).
      rewrite <- Hlt at 1. rewrite de_read_written. cbn [obind].
      split; [reflexivity|]. fm_simpl.
      rewrite list_lookup_insert_eq by (by eapply lookup_lt_Some).
      split; [done|]. by rewrite Hav, Hn.
  - intros row prev Hw Hf Hrow Hlen Hbudget.
    unfold write_tile_null_counts. rewrite (at_index_Some _ _ _ Hw). cbn [obind].
    unfold load_tile_null_count_values, write_u64_section. cbv zeta.
    destruct row as [|x row'] eqn:Hr.
    + exists (u64_bytes 0 ++ []), f. split; [reflexivity|].
      cbn [length Z.of_nat Z.eqb negb]. rewrite <- app_assoc.
      rewrite de_read_u64_written by (by vm_compute). cbn [obind Z.eqb negb app].
      split; [reflexivity|]. split; [exact Hf|].
      destruct (memory_tracker_ f); cbn; [f_equal; lia|done].
    + rewrite <- Hr in *. assert (Hpos : 0 < Z.of_nat (length row)) by (subst; simpl; lia).
      replace (Z.of_nat (length row) =? 0) with false by (symmetry; apply Z.eqb_neq; lia).
      cbn [negb].
      destruct (take_or_refuse_within (Z.of_nat (length row) * 8)
                  MemoryTracker.MIN_MAX_SUM_NULL_COUNT (memory_tracker_ f))
        as (mt' & Htake & Hav).
      { intros m Hm. specialize (Hbudget m Hm). lia. }
      exists (u64_bytes (Z.of_nat (length row)) ++ u64_buffer row),
        (set_memory_tracker_ mt'
           (set_tile_null_counts_ (<[idx := row]> (tile_null_counts_ f)) f)).
      split; [reflexivity|].
      rewrite <- app_assoc.
      rewrite de_read_u64_written by (unfold is_u64; lia). cbn [obind].
      replace (Z.of_nat (length row) =? 0) with false by (symmetry; apply Z.eqb_neq; lia).
      cbn [negb]. rewrite wrap64_small by (unfold is_u64; lia).
      rewrite Htake. rewrite (at_index_Some _ _ _ Hf). cbn [obind].
      replace (Z.of_nat (length row) * 8) with (Z.of_nat (length (u64_buffer row)))
        by (rewrite length_u64_buffer; lia).
      rewrite de_read_written. cbn [obind]. rewrite Nat2Z.id.
      rewrite map_read_u64_buffer by done.
      split; [reflexivity|]. fm_simpl.
      rewrite list_lookup_insert_eq by (by eapply lookup_lt_Some).
      split; [by rewrite Hr|]. rewrite Hav. destruct (available (memory_tracker_ f)); cbn;
        [f_equal; lia|done].
Qed.

Lemma sums_null_counts_written_then_loaded_witness :
  let w := example_tile_metadata_on (example_fragment 16 2) 0
             (u64_buffer [5; 7]) (u64_buffer [9; 11]) [] []
             (u64_buffer [14; 18] ++ [Byte.x01]) [30; 12] in
  let f := example_fragment 16 2 in
  (exists tile f1,
     write_tile_sums 0 w = Ok tile /\
     load_tile_sum_values 0 (tile ++ []) f = Ok (f1, []) /\
     tile_sums_ f1 !! 0%nat = Some (u64_buffer [14; 18]) /\
     available (memory_tracker_ f1) = Some 984) /\
  (exists tile f1,
     write_tile_null_counts 0 w = Ok tile /\
     load_tile_null_count_values 0 (tile ++ []) f = Ok (f1, []) /\
     tile_null_counts_ f1 !! 0%nat = Some [30; 12]).
Proof.
  intros w f.
  destruct (sums_null_counts_written_then_loaded 0 w f []) as [Hsums Hncs].
  split.
  - destruct (Hsums (u64_buffer [14; 18] ++ [Byte.x01]) [])
      as (tile & f1 & Hw & Hl & Hs & Hav);
      [ reflexivity | reflexivity | vm_compute; reflexivity
      | intros m [= <-]; vm_compute; congruence | ].
    exists tile, f1. split; [exact Hw|]. split; [exact Hl|]. split; [exact Hs|exact Hav].
  - destruct (Hncs [30; 12] []) as (tile & f1 & Hw & Hl & Hs & _);
      [ reflexivity | reflexivity | repeat constructor; unfold is_u64; vm_compute; done
      | vm_compute; reflexivity | intros m [= <-]; vm_compute; congruence | ].
    exists tile, f1. split; [exact Hw|]. split; [exact Hl|exact Hs].
Defined.
